(** * News scraper normalisation core (main.py): a shallow embedding

    The development follows main.py function by function.  Python [str]
    values are sequences of Unicode code points, so a string is a list of
    code points here; regular expressions are given as syntax trees run by
    a backtracking matcher (leftmost, greedy, ordered alternation) that
    mirrors the [re] module; [datetime] values are records of calendar
    fields with the proleptic Gregorian ordinal arithmetic of the
    [datetime] module; the spreadsheet client and the interpreter's
    Unicode database are interfaces. *)

From Stdlib Require Import ZArith NArith List Bool Lia String Ascii.
From Stdlib Require Strings.Byte.
From stdpp Require Import base gmap.
Import ListNotations.

Local Open Scope N_scope.

(** ** Strings as code-point sequences *)

Abbreviation codepoint := N (only parsing).
Abbreviation pystr := (list N) (only parsing).

(** Decoding of the UTF-8 bytes of a literal of this file into code points. *)
Fixpoint utf8_decode (bs : list N) : pystr :=
  match bs with
  | [] => []
  | b :: r =>
    if b <? 0x80 then b :: utf8_decode r
    else if b <? 0xE0 then
      match r with
      | b1 :: r' => ((b - 0xC0) * 64 + (b1 - 0x80)) :: utf8_decode r'
      | _ => []
      end
    else if b <? 0xF0 then
      match r with
      | b1 :: b2 :: r' =>
        ((b - 0xE0) * 4096 + (b1 - 0x80) * 64 + (b2 - 0x80)) :: utf8_decode r'
      | _ => []
      end
    else
      match r with
      | b1 :: b2 :: b3 :: r' =>
        ((b - 0xF0) * 262144 + (b1 - 0x80) * 4096 + (b2 - 0x80) * 64 + (b3 - 0x80))
          :: utf8_decode r'
      | _ => []
      end
  end.

Definition lit (s : string) : pystr :=
  utf8_decode (List.map Strings.Byte.to_N (list_byte_of_string s)).

Definition eqcp (a b : codepoint) : bool := N.eqb a b.

Fixpoint str_eqb (a b : pystr) : bool :=
  match a, b with
  | [], [] => true
  | x :: a', y :: b' => eqcp x y && str_eqb a' b'
  | _, _ => false
  end.

(** [c in chars] for a string used as a set of characters. *)
Definition mem_cp (c : codepoint) (chars : pystr) : bool :=
  List.existsb (eqcp c) chars.

(** *** Character classes fixed by the Unicode standard *)

(** [str.isspace] and the class [\s] of [re] on [str] patterns. *)
Definition is_space (c : codepoint) : bool :=
  ((0x9 <=? c) && (c <=? 0xD)) || ((0x1C <=? c) && (c <=? 0x20))
  || (c =? 0x85) || (c =? 0xA0) || (c =? 0x1680)
  || ((0x2000 <=? c) && (c <=? 0x200A))
  || (c =? 0x2028) || (c =? 0x2029) || (c =? 0x202F) || (c =? 0x205F)
  || (c =? 0x3000).

(** First code points of the runs of decimal digits (general category Nd,
    Unicode 14.0): each run holds the digits 0 to 9 in order; the
    mathematical digits starting at U+1D7CE are five such runs in a row. *)
Definition decimal_runs : list N :=
  [0x30; 0x660; 0x6F0; 0x7C0; 0x966; 0x9E6; 0xA66; 0xAE6; 0xB66; 0xBE6;
   0xC66; 0xCE6; 0xD66; 0xDE6; 0xE50; 0xED0; 0xF20; 0x1040; 0x1090; 0x17E0;
   0x1810; 0x1946; 0x19D0; 0x1A80; 0x1A90; 0x1B50; 0x1BB0; 0x1C40; 0x1C50;
   0xA620; 0xA8D0; 0xA900; 0xA9D0; 0xA9F0; 0xAA50; 0xABF0; 0xFF10; 0x104A0;
   0x10D30; 0x11066; 0x110F0; 0x11136; 0x111D0; 0x112F0; 0x11450; 0x114D0;
   0x11650; 0x116C0; 0x11730; 0x118E0; 0x11950; 0x11C50; 0x11D50; 0x11DA0;
   0x16A60; 0x16AC0; 0x16B50; 0x1D7CE; 0x1D7D8; 0x1D7E2; 0x1D7EC; 0x1D7F6;
   0x1E140; 0x1E2F0; 0x1E950; 0x1FBF0].

(** The decimal value of a digit character ([unicodedata.decimal]). *)
Fixpoint decimal_in (runs : list N) (c : codepoint) : option N :=
  match runs with
  | [] => None
  | a :: runs' =>
    if (a <=? c) && (c <? a + 10) then Some (c - a) else decimal_in runs' c
  end.

Definition decimal (c : codepoint) : option N := decimal_in decimal_runs c.

(** The class [\d] of [re] on [str] patterns, and [str.isdecimal] of one
    character. *)
Definition is_digit (c : codepoint) : bool :=
  match decimal c with Some _ => true | None => false end.

(** The ASCII range [a-b] of a bracket expression. *)
Definition in_range (a b : N) (c : codepoint) : bool := (a <=? c) && (c <=? b).

Definition is_ascii (c : codepoint) : bool := c <? 0x80.

(** *** The interpreter's Unicode database and URL validation

    The tables behind [str.lower], [str.capitalize], [\w], [str.isalpha]
    and [str.isdigit], and the two netloc validations of [urlsplit] that
    need the database (NFKC normalisation) or the [ipaddress] module, are
    not part of the program: they are an interface. *)
Class PyRuntime := {
  str_lower : pystr -> pystr;
  str_capitalize : pystr -> pystr;
  word_char : codepoint -> bool;
  char_isalpha : codepoint -> bool;
  str_isdigit : pystr -> bool;
  bracketed_netloc_ok : pystr -> bool;
  nfkc_netloc_ok : pystr -> bool
}.

(** A small instance, to evaluate the program on examples: case mappings
    of the ASCII letters only; as letters, the ASCII ones, kana
    (U+3041-3096, U+30A1-30FA, U+30FC-30FF) and CJK ideographs
    (U+4E00-9FFF); as word characters, these, the decimal digits and the
    underscore; URL validation accepting everything.  It agrees with the
    interpreter on strings made of these characters and of characters
    that are neither alphanumeric nor cased, and on URLs whose network
    location is ASCII without brackets. *)
Definition ascii_lower_cp (c : codepoint) : codepoint :=
  if in_range 0x41 0x5A c then c + 32 else c.
Definition ascii_upper_cp (c : codepoint) : codepoint :=
  if in_range 0x61 0x7A c then c - 32 else c.
Definition ascii_alpha (c : codepoint) : bool :=
  in_range 0x41 0x5A c || in_range 0x61 0x7A c.
Definition kana_or_ideograph (c : codepoint) : bool :=
  in_range 0x3041 0x3096 c || in_range 0x30A1 0x30FA c
  || in_range 0x30FC 0x30FF c || in_range 0x4E00 0x9FFF c.

Definition ascii_runtime : PyRuntime := {|
  str_lower := List.map ascii_lower_cp;
  str_capitalize := fun s =>
    match s with
    | [] => []
    | c :: r => ascii_upper_cp c :: List.map ascii_lower_cp r
    end;
  word_char := fun c =>
    ascii_alpha c || kana_or_ideograph c || is_digit c || (c =? 0x5F);
  char_isalpha := fun c => ascii_alpha c || kana_or_ideograph c;
  str_isdigit := fun s => negb (str_eqb s []) && List.forallb (in_range 0x30 0x39) s;
  bracketed_netloc_ok := fun _ => true;
  nfkc_netloc_ok := fun _ => true
|}.

(** ** String methods *)

Fixpoint lstrip_by (p : codepoint -> bool) (s : pystr) : pystr :=
  match s with
  | c :: s' => if p c then lstrip_by p s' else s
  | [] => []
  end.

Definition rstrip_by (p : codepoint -> bool) (s : pystr) : pystr :=
  List.rev (lstrip_by p (List.rev s)).

Definition strip_by (p : codepoint -> bool) (s : pystr) : pystr :=
  rstrip_by p (lstrip_by p s).

(** [s.strip()] *)
Definition strip (s : pystr) : pystr := strip_by is_space s.

(** [s.strip(chars)] *)
Definition strip_chars (chars : pystr) (s : pystr) : pystr :=
  strip_by (fun c => mem_cp c chars) s.

Fixpoint startswith (s pre : pystr) : bool :=
  match pre, s with
  | [], _ => true
  | p :: pre', c :: s' => eqcp c p && startswith s' pre'
  | _ :: _, [] => false
  end.

Definition endswith (s suf : pystr) : bool :=
  startswith (List.rev s) (List.rev suf).

(** [sub in s] *)
Fixpoint contains (s sub : pystr) : bool :=
  startswith s sub ||
  match s with
  | [] => false
  | _ :: s' => contains s' sub
  end.

(** [s.replace(a, b)] for one-character [a] and [b]. *)
Definition replace_cp (a b : codepoint) (s : pystr) : pystr :=
  List.map (fun c => if eqcp c a then b else c) s.

(** [s.replace(a, "")] for a one-character [a]. *)
Definition remove_cp (a : codepoint) (s : pystr) : pystr :=
  List.filter (fun c => negb (eqcp c a)) s.

(** [s.split(sep)] for a one-character separator. *)
Fixpoint split_cp (sep : codepoint) (s : pystr) : list pystr :=
  match s with
  | [] => [[]]
  | c :: s' =>
    if eqcp c sep then [] :: split_cp sep s'
    else match split_cp sep s' with
         | w :: ws => (c :: w) :: ws
         | [] => [[c]]
         end
  end.


(** [s.partition(sep)[0]] and the netloc cut of [urlsplit]: the prefix
    before the first character satisfying [p]. *)
Fixpoint take_until (p : codepoint -> bool) (s : pystr) : pystr :=
  match s with
  | [] => []
  | c :: s' => if p c then [] else c :: take_until p s'
  end.

(** ** Regular expressions

    The fragment of [re] syntax used by main.py and by [strptime].
    Repetition is only ever applied to a character class there, so [Star]
    takes a class.  [Bos] is [^], [Eos] is [$] (end of string, or just
    before a final newline), [WordB] is [\b] for a given [\w] table. *)
Inductive regex : Type :=
| Eps
| Chr (p : codepoint -> bool)
| Seq (r1 r2 : regex)
| Alt (r1 r2 : regex)
| Star (p : codepoint -> bool)
| Bos
| Eos
| WordB (w : codepoint -> bool).

(** A literal string. *)
Fixpoint Lit (s : pystr) : regex :=
  match s with
  | [] => Eps
  | c :: s' => Seq (Chr (eqcp c)) (Lit s')
  end.

(** [p+], [r?], [p{2,}] and a bracket expression listing its characters. *)
Definition Plus (p : codepoint -> bool) : regex := Seq (Chr p) (Star p).
Definition Opt (r : regex) : regex := Alt r Eps.
Definition Two_or_more (p : codepoint -> bool) : regex := Seq (Chr p) (Plus p).
Definition One_of (chars : pystr) : regex := Chr (fun c => mem_cp c chars).

Definition is_word (w : codepoint -> bool) (o : option codepoint) : bool :=
  match o with
  | Some c => w c
  | None => false
  end.

Definition is_newline (c : codepoint) : bool := c =? 10.

(** Greedy repetition of a class: as many characters as possible first,
    giving them back one at a time while the rest of the pattern fails. *)
Fixpoint star_exec {A : Type} (p : codepoint -> bool)
         (k : option codepoint -> pystr -> option A)
         (prev : option codepoint) (s : pystr) : option A :=
  match s with
  | c :: s' =>
    if p c then
      match star_exec p k (Some c) s' with
      | Some x => Some x
      | None => k prev s
      end
    else k prev s
  | [] => k prev s
  end.

(** The backtracking matcher: [exec r prev s k] matches [r] at the front
    of [s], where [prev] is the character before [s] (none at the start
    of the string), and hands the last character consumed and the rest
    of the string to the continuation [k]; the first success in priority
    order is the result. *)
Fixpoint exec {A : Type} (r : regex) (prev : option codepoint) (s : pystr)
         (k : option codepoint -> pystr -> option A) : option A :=
  match r with
  | Eps => k prev s
  | Chr p =>
    match s with
    | c :: s' => if p c then k (Some c) s' else None
    | [] => None
    end
  | Seq r1 r2 => exec r1 prev s (fun prev' s' => exec r2 prev' s' k)
  | Alt r1 r2 =>
    match exec r1 prev s k with
    | Some x => Some x
    | None => exec r2 prev s k
    end
  | Star p => star_exec p k prev s
  | Bos => match prev with None => k prev s | Some _ => None end
  | Eos =>
    match s with
    | [] => k prev s
    | [c] => if is_newline c then k prev s else None
    | _ => None
    end
  | WordB w =>
    if xorb (is_word w prev) (is_word w (List.head s)) then k prev s else None
  end.

(** The length of the match of [r] at the front of [s]. *)
Definition match_at (r : regex) (prev : option codepoint) (s : pystr) : option nat :=
  exec r prev s (fun _ rest => Some (length s - length rest)%nat).

(** [re.match(r, s)]: the end offset of the match, if any. *)
Definition re_match (r : regex) (s : pystr) : option nat := match_at r None s.

Definition matches (r : regex) (s : pystr) : bool :=
  match re_match r s with Some _ => true | None => false end.

(** [re.search(r, s)]: start offset and length of the leftmost match. *)
Fixpoint search_from (r : regex) (prev : option codepoint) (s : pystr)
         (i : nat) : option (nat * nat) :=
  match match_at r prev s with
  | Some n => Some (i, n)
  | None =>
    match s with
    | [] => None
    | c :: s' => search_from r (Some c) s' (S i)
    end
  end.

Definition re_search (r : regex) (s : pystr) : option (nat * nat) :=
  search_from r None s 0.

Definition found (r : regex) (s : pystr) : bool :=
  match re_search r s with Some _ => true | None => false end.

(** The text of the leftmost match ([m.group(0)]). *)
Definition search_group0 (r : regex) (s : pystr) : option pystr :=
  match re_search r s with
  | Some (i, n) => Some (List.firstn n (List.skipn i s))
  | None => None
  end.

(** [re.sub(r, repl, s)] for a pattern that matches no empty string (all
    patterns substituted in main.py are of that kind): the leftmost
    matches, left to right and not overlapping, are replaced.  [skip]
    counts the characters of the current match still to be dropped. *)
Fixpoint sub_from (r : regex) (repl : pystr) (prev : option codepoint)
         (skip : nat) (s : pystr) : pystr :=
  match s with
  | [] => []
  | c :: s' =>
    match skip with
    | S n => sub_from r repl (Some c) n s'
    | O =>
      match match_at r prev s with
      | Some (S n) => repl ++ sub_from r repl (Some c) n s'
      | _ => c :: sub_from r repl (Some c) 0 s'
      end
    end
  end.

Definition re_sub (r : regex) (repl : pystr) (s : pystr) : pystr :=
  sub_from r repl None 0 s.

(** ** The [datetime] module *)

Local Open Scope Z_scope.

(** A naive [datetime] object.  The constructor [datetime_new] below
    checks the field ranges as the library does, so every value the
    program builds satisfies [valid_datetime]. *)
Record datetime : Type := mk_datetime {
  year : Z; month : Z; day : Z;
  hour : Z; minute : Z; second : Z; microsecond : Z
}.

Definition MINYEAR : Z := 1.
Definition MAXYEAR : Z := 9999.
Definition MAXORDINAL : Z := 3652059.

Definition is_leap (y : Z) : bool :=
  (y mod 4 =? 0) && (negb (y mod 100 =? 0) || (y mod 400 =? 0)).

Definition days_before_year (y : Z) : Z :=
  let y := y - 1 in y * 365 + y / 4 - y / 100 + y / 400.

Definition DAYS_IN_MONTH : list Z :=
  [-1; 31; 28; 31; 30; 31; 30; 31; 31; 30; 31; 30; 31].

Definition DAYS_BEFORE_MONTH : list Z :=
  [-1; 0; 31; 59; 90; 120; 151; 181; 212; 243; 273; 304; 334].

Definition days_in_month (y m : Z) : Z :=
  if (m =? 2) && is_leap y then 29
  else List.nth (Z.to_nat m) DAYS_IN_MONTH 0.

Definition days_before_month (y m : Z) : Z :=
  List.nth (Z.to_nat m) DAYS_BEFORE_MONTH 0
  + (if (2 <? m) && is_leap y then 1 else 0).

Definition ymd2ord (y m d : Z) : Z :=
  days_before_year y + days_before_month y m + d.

Definition DI400Y : Z := 146097.
Definition DI100Y : Z := 36524.
Definition DI4Y : Z := 1461.

(** Month and day of the [n]-th day (from 0) of a year: the library's
    estimate of the month, corrected when it is one too far. *)
Definition month_of_yday (leapyear : bool) (n : Z) : Z * Z :=
  let m := Z.shiftr (n + 50) 5 in
  let preceding :=
    List.nth (Z.to_nat m) DAYS_BEFORE_MONTH 0
    + (if (2 <? m) && leapyear then 1 else 0) in
  if n <? preceding then
    let m := m - 1 in
    let preceding :=
      preceding - (List.nth (Z.to_nat m) DAYS_IN_MONTH 0
                   + (if (m =? 2) && leapyear then 1 else 0)) in
    (m, n - preceding + 1)
  else (m, n - preceding + 1).

(** The inverse of [ymd2ord], with the library's case analysis on the
    400-, 100-, 4- and 1-year cycles. *)
Definition ord2ymd (n : Z) : Z * Z * Z :=
  let n := n - 1 in
  let n400 := n / DI400Y in let n := n mod DI400Y in
  let y := n400 * 400 + 1 in
  let n100 := n / DI100Y in let n := n mod DI100Y in
  let n4 := n / DI4Y in let n := n mod DI4Y in
  let n1 := n / 365 in let n := n mod 365 in
  let y := y + n100 * 100 + n4 * 4 + n1 in
  if (n1 =? 4) || (n100 =? 4) then (y - 1, 12, 31)
  else
    let leapyear := (n1 =? 3) && (negb (n4 =? 24) || (n100 =? 3)) in
    let '(m, d) := month_of_yday leapyear n in
    (y, m, d).

Definition valid_date (y m d : Z) : bool :=
  (MINYEAR <=? y) && (y <=? MAXYEAR) && (1 <=? m) && (m <=? 12)
  && (1 <=? d) && (d <=? days_in_month y m).

Definition valid_time (h mi s us : Z) : bool :=
  (0 <=? h) && (h <=? 23) && (0 <=? mi) && (mi <=? 59)
  && (0 <=? s) && (s <=? 59) && (0 <=? us) && (us <=? 999999).

Definition valid_datetime (dt : datetime) : bool :=
  valid_date (year dt) (month dt) (day dt)
  && valid_time (hour dt) (minute dt) (second dt) (microsecond dt).

(** [datetime(y, m, d, h, mi, s, us)]: [ValueError] is [None]. *)
Definition datetime_new (y m d h mi s us : Z) : option datetime :=
  if valid_date y m d && valid_time h mi s us
  then Some (mk_datetime y m d h mi s us) else None.

(** [dt.toordinal()] *)
Definition toordinal (dt : datetime) : Z := ymd2ord (year dt) (month dt) (day dt).

(** [dt.replace(year=y)] *)
Definition replace_year (dt : datetime) (y : Z) : option datetime :=
  datetime_new y (month dt) (day dt) (hour dt) (minute dt) (second dt)
               (microsecond dt).

(** [datetime.combine(now.date(), time(h, mi))] *)
Definition combine_date_time (now : datetime) (h mi : Z) : datetime :=
  mk_datetime (year now) (month now) (day now) h mi 0 0.

(** The order of [datetime] objects: the field tuples, compared
    lexicographically. *)
Fixpoint lex_lt (a b : list Z) : bool :=
  match a, b with
  | x :: a', y :: b' => (x <? y) || ((x =? y) && lex_lt a' b')
  | _, _ => false
  end.

Definition fields (dt : datetime) : list Z :=
  [year dt; month dt; day dt; hour dt; minute dt; second dt; microsecond dt].

(** [a > b] *)
Definition datetime_gt (a b : datetime) : bool := lex_lt (fields b) (fields a).

(** A [timedelta]: normalised days, seconds and microseconds. *)
Record timedelta : Type := mk_timedelta {
  td_days : Z; td_seconds : Z; td_microseconds : Z
}.

Definition US_PER_SECOND : Z := 1000000.
Definition US_PER_DAY : Z := 86400 * US_PER_SECOND.

(** [timedelta(days=d, hours=h, minutes=mi, seconds=s, microseconds=us)]
    for integer arguments: the normal form, or [None] for the
    [OverflowError] of a day count beyond 999999999 in magnitude. *)
Definition timedelta_new (d h mi s us : Z) : option timedelta :=
  let total := (((d * 24 + h) * 60 + mi) * 60 + s) * US_PER_SECOND + us in
  let dd := total / US_PER_DAY in
  let r := total mod US_PER_DAY in
  if Z.abs dd <=? 999999999
  then Some (mk_timedelta dd (r / US_PER_SECOND) (r mod US_PER_SECOND))
  else None.

(** [-t] and [a + b] *)
Definition timedelta_neg (t : timedelta) : option timedelta :=
  timedelta_new (- td_days t) 0 0 (- td_seconds t) (- td_microseconds t).

Definition timedelta_add (a b : timedelta) : option timedelta :=
  timedelta_new (td_days a + td_days b) 0 0 (td_seconds a + td_seconds b)
                (td_microseconds a + td_microseconds b).

(** [dt + t]: [None] is the [OverflowError] of a result outside
    0001-01-01 .. 9999-12-31. *)
Definition datetime_add (dt : datetime) (t : timedelta) : option datetime :=
  delta0 ← timedelta_new (toordinal dt) (hour dt) (minute dt) (second dt)
                         (microsecond dt);
  delta ← timedelta_add delta0 t;
  let h := td_seconds delta / 3600 in
  let rem := td_seconds delta mod 3600 in
  if (0 <? td_days delta) && (td_days delta <=? MAXORDINAL) then
    let '(y, m, d) := ord2ymd (td_days delta) in
    Some (mk_datetime y m d h (rem / 60) (rem mod 60) (td_microseconds delta))
  else None.

(** [dt - t] *)
Definition datetime_sub (dt : datetime) (t : timedelta) : option datetime :=
  t' ← timedelta_neg t; datetime_add dt t'.

(** The digits of [n], zero-padded to [width] ([%02d], [%04d]). *)
Fixpoint digits_of (width : nat) (n : Z) : pystr :=
  match width with
  | O => []
  | S w => digits_of w (n / 10) ++ [Z.to_N (0x30 + n mod 10)]
  end.

(** [%Y] of [strftime]: the year in decimal as the C library prints it,
    without padding, so with fewer than four digits before the year 1000
    (the years of a [datetime] are 1 .. 9999). *)
Definition strftime_Y (y : Z) : pystr :=
  if y <? 10 then digits_of 1 y
  else if y <? 100 then digits_of 2 y
  else if y <? 1000 then digits_of 3 y
  else digits_of 4 y.

(** [dt.strftime("%Y/%m/%d %H:%M")] *)
Definition format_datetime (dt_obj : datetime) : pystr :=
  strftime_Y (year dt_obj) ++ [0x2F%N] ++ digits_of 2 (month dt_obj)
  ++ [0x2F%N] ++ digits_of 2 (day dt_obj) ++ [0x20%N]
  ++ digits_of 2 (hour dt_obj) ++ [0x3A%N] ++ digits_of 2 (minute dt_obj).

(** [int(s)] for the strings the program converts: decimal digits, with
    surrounding whitespace ignored.  [None] is the [ValueError] of a
    string that is no numeral, or of one with more digits than the
    interpreter converts (4300 by default). *)
Definition INT_MAX_STR_DIGITS : nat := 4300.

Fixpoint int_digits (acc : Z) (s : pystr) : option Z :=
  match s with
  | [] => Some acc
  | c :: s' =>
    match decimal c with
    | Some d => int_digits (acc * 10 + Z.of_N d) s'
    | None => None
    end
  end.

Definition py_int (s : pystr) : option Z :=
  match strip s with
  | [] => None
  | ds => if (INT_MAX_STR_DIGITS <? length ds)%nat then None else int_digits 0 ds
  end.

(** ** Literals of main.py *)

Definition UNAVAILABLE : pystr := Eval vm_compute in lit "取得不可".
Definition s_fun_mae : pystr := Eval vm_compute in lit "分前".
Definition s_jikan_mae : pystr := Eval vm_compute in lit "時間前".
Definition s_nichi_mae : pystr := Eval vm_compute in lit "日前".
Definition s_minute : pystr := Eval vm_compute in lit "minute".
Definition s_hour : pystr := Eval vm_compute in lit "hour".
Definition s_day : pystr := Eval vm_compute in lit "day".
Definition s_fun : pystr := Eval vm_compute in lit "分".
Definition s_jikan : pystr := Eval vm_compute in lit "時間".
Definition s_nichi : pystr := Eval vm_compute in lit "日".
Definition s_mae : pystr := Eval vm_compute in lit "前".
Definition s_gatsu : pystr := Eval vm_compute in lit "月".
Definition s_niyoru_haishin : pystr := Eval vm_compute in lit "による配信".
Definition s_teikyo : pystr := Eval vm_compute in lit "提供".
Definition s_haishin : pystr := Eval vm_compute in lit "配信".
Definition s_colons : pystr := Eval vm_compute in lit ":：".
Definition s_weekdays : pystr := Eval vm_compute in lit "月火水木金土日".
Definition s_strip_set : pystr := Eval vm_compute in lit "・|•|·|-–—:：".
Definition c_nakaguro : N := Eval vm_compute in List.hd 0%N (lit "・").
Definition c_bullet : N := Eval vm_compute in List.hd 0%N (lit "•").
Definition c_middot : N := Eval vm_compute in List.hd 0%N (lit "·").
Definition c_space : N := 0x20%N.
Definition c_colon : N := 0x3A%N.
Definition c_slash : N := 0x2F%N.
Definition c_dot : N := 0x2E%N.
Definition c_hyphen : N := 0x2D%N.
Definition c_underscore : N := 0x5F%N.
Definition c_lparen : N := 0x28%N.
Definition c_rparen : N := 0x29%N.
Definition s_MSN : pystr := Eval vm_compute in lit "MSN".
Definition s_Yahoo : pystr := Eval vm_compute in lit "Yahoo".
Definition s_Google : pystr := Eval vm_compute in lit "Google".
Definition s_msn_com : pystr := Eval vm_compute in lit "msn.com".
Definition s_news_yahoo : pystr := Eval vm_compute in lit "news.yahoo.co.jp".
Definition s_news_google : pystr := Eval vm_compute in lit "news.google.com".
Definition s_www : pystr := Eval vm_compute in lit "www.".

(** ** Patterns of main.py *)

Definition digit : regex := Chr is_digit.

(** [(分|時間|日)] *)
Definition unit_re : regex := Alt (Lit s_fun) (Alt (Lit s_jikan) (Lit s_nichi)).

(** [(前|)?] *)
Definition mae_opt : regex := Opt (Alt (Lit s_mae) Eps).

(** TIME_RE = [(\d+)\s*(分|時間|日)\s*前] *)
Definition TIME_RE : regex :=
  Seq (Plus is_digit) (Seq (Star is_space) (Seq unit_re (Seq (Star is_space) (Lit s_mae)))).

(** TIME_ONLY_RE = [^\s*(\d+)\s*(分|時間|日)\s*(前|)?\s*$] *)
Definition TIME_ONLY_RE : regex :=
  Seq Bos (Seq (Star is_space) (Seq (Plus is_digit) (Seq (Star is_space)
    (Seq unit_re (Seq (Star is_space) (Seq mae_opt (Seq (Star is_space) Eos))))))).

(** [(\d+)] *)
Definition DIGITS_RE : regex := Plus is_digit.

(** [\d+月\d+日] *)
Definition MONTH_DAY_RE : regex :=
  Seq (Plus is_digit) (Seq (Lit s_gatsu) (Seq (Plus is_digit) (Lit s_nichi))).

(** [\d{1,2}] *)
Definition digit_1_2 : regex := Seq digit (Opt digit).

(** [\d{4}/\d{1,2}/\d{1,2}] *)
Definition YMD_RE : regex :=
  Seq digit (Seq digit (Seq digit (Seq digit (Seq (Chr (eqcp c_slash))
    (Seq digit_1_2 (Seq (Chr (eqcp c_slash)) digit_1_2)))))).

(** [\d{1,2}:\d{2}] *)
Definition HM_RE : regex :=
  Seq digit_1_2 (Seq (Chr (eqcp c_colon)) (Seq digit digit)).

(** A letter under [re.IGNORECASE]: [o], [n] and [m] match their two
    ASCII forms; [s] also matches U+017F (long s). *)
Definition ci (lower upper : N) : regex := Chr (fun c => eqcp c lower || eqcp c upper).
Definition ci_s : regex := Chr (fun c => eqcp c 0x73 || eqcp c 0x53 || eqcp c 0x17F)%N.

(** [\bon\s+MSN\b] with [re.IGNORECASE] *)
Definition ON_MSN_RE {R : PyRuntime} : regex :=
  Seq (WordB word_char) (Seq (ci 0x6F 0x4F) (Seq (ci 0x6E 0x4E) (Seq (Plus is_space)
    (Seq (ci 0x6D 0x4D) (Seq ci_s (Seq (ci 0x6E 0x4E) (WordB word_char)))))))%N.

(** [MSN\s*による配信] *)
Definition MSN_HAISHIN_RE : regex :=
  Seq (Lit s_MSN) (Seq (Star is_space) (Lit s_niyoru_haishin)).

(** [(提供|配信)\s*[:：]?] *)
Definition TEIKYO_RE : regex :=
  Seq (Alt (Lit s_teikyo) (Lit s_haishin)) (Seq (Star is_space) (Opt (One_of s_colons))).

(** [\s*\d+\s*(分|時間|日)\s*(前|)?\s*$] *)
Definition TRAILING_TIME_RE : regex :=
  Seq (Star is_space) (Seq (Plus is_digit) (Seq (Star is_space)
    (Seq unit_re (Seq (Star is_space) (Seq mae_opt (Seq (Star is_space) Eos)))))).

(** [\s*\(\s*\)\s*$] *)
Definition EMPTY_PARENS_RE : regex :=
  Seq (Star is_space) (Seq (Chr (eqcp c_lparen)) (Seq (Star is_space)
    (Seq (Chr (eqcp c_rparen)) (Seq (Star is_space) Eos)))).

(** [\s{2,}] *)
Definition SPACES_RE : regex := Two_or_more is_space.

(** [\([月火水木金土日]\)] *)
Definition WEEKDAY_RE : regex :=
  Seq (Chr (eqcp c_lparen)) (Seq (One_of s_weekdays) (Chr (eqcp c_rparen))).

(** [\d{4}/\d{1,2}/\d{1,2} \d{2}:\d{2}] *)
Definition YMD_HM_RE : regex :=
  Seq YMD_RE (Seq (Chr (eqcp c_space)) (Seq digit (Seq digit
    (Seq (Chr (eqcp c_colon)) (Seq digit digit))))).

(** [\([^)]+\)] *)
Definition PARENS_RE : regex :=
  Seq (Chr (eqcp c_lparen)) (Seq (Plus (fun c => negb (eqcp c c_rparen)))
    (Chr (eqcp c_rparen))).

(** ** [datetime.strptime]

    [strptime] turns the format into a pattern (one group per directive,
    literal characters as themselves under [re.IGNORECASE], whitespace as
    [\s+]), matches it at the start of the string and rejects a string
    with text left over; the groups are converted with [int] and handed
    to the [datetime] constructor. *)

Definition rng (a b : N) : regex := Chr (in_range a b).
Definition ch (c : N) : regex := Chr (eqcp c).

(** [%Y], [%m], [%d], [%H], [%M], [%S] *)
Definition re_Y : regex := Seq digit (Seq digit (Seq digit digit)).
Definition re_m : regex :=
  Alt (Seq (ch 0x31) (rng 0x30 0x32)) (Alt (Seq (ch 0x30) (rng 0x31 0x39)) (rng 0x31 0x39))%N.
Definition re_d : regex :=
  Alt (Seq (ch 0x33) (rng 0x30 0x31)) (Alt (Seq (rng 0x31 0x32) digit)
    (Alt (Seq (ch 0x30) (rng 0x31 0x39)) (Alt (rng 0x31 0x39)
      (Seq (ch 0x20) (rng 0x31 0x39)))))%N.
Definition re_H : regex :=
  Alt (Seq (ch 0x32) (rng 0x30 0x33)) (Alt (Seq (rng 0x30 0x31) digit) digit)%N.
Definition re_M : regex := Alt (Seq (rng 0x30 0x35) digit) digit%N.
Definition re_S : regex :=
  Alt (Seq (ch 0x36) (rng 0x30 0x31)) (Alt (Seq (rng 0x30 0x35) digit) digit)%N.

(** The text a group consumed, given the input before and after it. *)
Definition consumed (s rest : pystr) : pystr :=
  List.firstn (length s - length rest) s.

(** A capturing group: the continuation also receives the group's text. *)
Definition group {A : Type} (r : regex) (prev : option codepoint) (s : pystr)
           (k : pystr -> option codepoint -> pystr -> option A) : option A :=
  exec r prev s (fun prev' s' => k (consumed s s') prev' s').

(** The end-of-input check after the match. *)
Definition all_converted {A : Type} (found : option (A * pystr)) : option A :=
  match found with
  | Some (x, []) => Some x
  | _ => None
  end.

(** [datetime.strptime(s, "%H:%M").time()]: hour and minute. *)
Definition strptime_HM (s : pystr) : option (Z * Z) :=
  '(tH, tM) ← all_converted
    (group re_H None s (fun tH p1 s1 =>
     exec (ch c_colon) p1 s1 (fun p2 s2 =>
     group re_M p2 s2 (fun tM _ s3 => Some ((tH, tM), s3)))));
  h ← py_int tH; mi ← py_int tM;
  dt ← datetime_new 1900 1 1 h mi 0 0;
  Some (hour dt, minute dt).

(** [datetime.strptime(s, "%m月%d日")]: the year defaults to 1900. *)
Definition strptime_md (s : pystr) : option datetime :=
  '(tm, td) ← all_converted
    (group re_m None s (fun tm p1 s1 =>
     exec (Lit s_gatsu) p1 s1 (fun p2 s2 =>
     group re_d p2 s2 (fun td p3 s3 =>
     exec (Lit s_nichi) p3 s3 (fun _ s4 => Some ((tm, td), s4))))));
  m ← py_int tm; d ← py_int td;
  datetime_new 1900 m d 0 0 0 0.

(** [datetime.strptime(s, "%Y/%m/%d")] *)
Definition strptime_Ymd (s : pystr) : option datetime :=
  '(tY, tm, td) ← all_converted
    (group re_Y None s (fun tY p1 s1 =>
     exec (ch c_slash) p1 s1 (fun p2 s2 =>
     group re_m p2 s2 (fun tm p3 s3 =>
     exec (ch c_slash) p3 s3 (fun p4 s4 =>
     group re_d p4 s4 (fun td _ s5 => Some ((tY, tm, td), s5)))))));
  y ← py_int tY; m ← py_int tm; d ← py_int td;
  datetime_new y m d 0 0 0 0.

(** [datetime.strptime(s, "%Y/%m/%d %H:%M")] *)
Definition strptime_Ymd_HM (s : pystr) : option datetime :=
  '(tY, tm, td, tH, tM) ← all_converted
    (group re_Y None s (fun tY p1 s1 =>
     exec (ch c_slash) p1 s1 (fun p2 s2 =>
     group re_m p2 s2 (fun tm p3 s3 =>
     exec (ch c_slash) p3 s3 (fun p4 s4 =>
     group re_d p4 s4 (fun td p5 s5 =>
     exec (Plus is_space) p5 s5 (fun p6 s6 =>
     group re_H p6 s6 (fun tH p7 s7 =>
     exec (ch c_colon) p7 s7 (fun p8 s8 =>
     group re_M p8 s8 (fun tM _ s9 =>
       Some ((tY, tm, td, tH, tM), s9)))))))))));
  y ← py_int tY; m ← py_int tm; d ← py_int td;
  h ← py_int tH; mi ← py_int tM;
  datetime_new y m d h mi 0 0.

(** [datetime.strptime(s, "%Y-%m-%dT%H:%M:%SZ")] *)
Definition strptime_iso (s : pystr) : option datetime :=
  '(tY, tm, td, tH, tM, tS) ← all_converted
    (group re_Y None s (fun tY p1 s1 =>
     exec (ch c_hyphen) p1 s1 (fun p2 s2 =>
     group re_m p2 s2 (fun tm p3 s3 =>
     exec (ch c_hyphen) p3 s3 (fun p4 s4 =>
     group re_d p4 s4 (fun td p5 s5 =>
     exec (ci 0x74 0x54) p5 s5 (fun p6 s6 =>
     group re_H p6 s6 (fun tH p7 s7 =>
     exec (ch c_colon) p7 s7 (fun p8 s8 =>
     group re_M p8 s8 (fun tM p9 s9 =>
     exec (ch c_colon) p9 s9 (fun p10 s10 =>
     group re_S p10 s10 (fun tS p11 s11 =>
     exec (ci 0x7A 0x5A) p11 s11 (fun _ s12 =>
       Some ((tY, tm, td, tH, tM, tS), s12))))))))))))));
  y ← py_int tY; m ← py_int tm; d ← py_int td;
  h ← py_int tH; mi ← py_int tM; sec ← py_int tS;
  datetime_new y m d h mi sec 0.

(** ** Common utilities of main.py *)

(** The body of the [try] block of [parse_relative_time]: [None] when the
    block is left by an exception or without reaching a [return]. *)
Definition parse_relative_time_try (pub_label : pystr) (base_time : datetime)
  : option pystr :=
  if contains pub_label s_fun_mae || contains pub_label s_minute then
    match search_group0 DIGITS_RE pub_label with
    | Some m =>
      n ← py_int m; delta ← timedelta_new 0 0 n 0 0;
      dt ← datetime_sub base_time delta;
      Some (format_datetime dt)
    | None => None
    end
  else if contains pub_label s_jikan_mae || contains pub_label s_hour then
    match search_group0 DIGITS_RE pub_label with
    | Some h =>
      n ← py_int h; delta ← timedelta_new 0 n 0 0 0;
      dt ← datetime_sub base_time delta;
      Some (format_datetime dt)
    | None => None
    end
  else if contains pub_label s_nichi_mae || contains pub_label s_day then
    match search_group0 DIGITS_RE pub_label with
    | Some d =>
      n ← py_int d; delta ← timedelta_new n 0 0 0 0;
      dt ← datetime_sub base_time delta;
      Some (format_datetime dt)
    | None => None
    end
  else if matches MONTH_DAY_RE pub_label then
    dt0 ← strptime_md pub_label;
    dt ← replace_year dt0 (year base_time);
    Some (format_datetime dt)
  else if matches YMD_RE pub_label then
    dt ← strptime_Ymd pub_label;
    Some (format_datetime dt)
  else if matches HM_RE pub_label then
    '(h, mi) ← strptime_HM pub_label;
    let dt := combine_date_time base_time h mi in
    if datetime_gt dt base_time then
      delta ← timedelta_new 1 0 0 0 0;
      dt' ← datetime_sub dt delta;
      Some (format_datetime dt')
    else Some (format_datetime dt)
  else None.

Definition parse_relative_time {R : PyRuntime} (pub_label : pystr)
           (base_time : datetime) : pystr :=
  match pub_label with
  | [] => UNAVAILABLE
  | _ =>
    let pub_label := str_lower (strip pub_label) in
    match parse_relative_time_try pub_label base_time with
    | Some r => r
    | None => UNAVAILABLE
    end
  end.

(** What the transport answers.  [head_last_modified url] is the
    [Last-Modified] header of the answer to a HEAD request, as the date
    fields [parsedate_to_datetime] reads from it; [None] stands for every
    failure (no answer, no header, no date).  [get_final_url url] is the
    address a GET request ends at when the answer is [ok]. *)
Class Transport := {
  head_last_modified : pystr -> option (Z * Z * Z * Z * Z * Z);
  get_final_url : pystr -> option pystr
}.

(** A transport on which every request fails. *)
Definition offline : Transport := {|
  head_last_modified := fun _ => None;
  get_final_url := fun _ => None
|}.

Definition get_last_modified_datetime {T : Transport} (url : pystr) : pystr :=
  match
    '(y, m, d, h, mi, s) ← head_last_modified url;
    dt ← datetime_new y m d h mi s 0;
    delta ← timedelta_new 0 9 0 0 0;
    jst ← datetime_add dt delta;
    Some (format_datetime jst)
  with
  | Some r => r
  | None => UNAVAILABLE
  end.

(** *** [urlparse(url).netloc] *)

Definition scheme_char (c : codepoint) : bool :=
  (in_range 0x61 0x7A c || in_range 0x41 0x5A c || in_range 0x30 0x39 c
   || eqcp c 0x2B || eqcp c 0x2D || eqcp c 0x2E)%N.

(** The text after the scheme and its colon, when the URL starts with one. *)
Definition drop_scheme (url : pystr) : pystr :=
  match url with
  | c :: _ =>
    if ascii_alpha c && contains url [c_colon]
       && List.forallb scheme_char (take_until (eqcp c_colon) url)
    then List.skipn (S (length (take_until (eqcp c_colon) url))) url
    else url
  | [] => url
  end.

Definition netloc_delim (c : codepoint) : bool :=
  (eqcp c 0x2F || eqcp c 0x3F || eqcp c 0x23)%N.

(** The netloc component; [None] is the [ValueError] of [urlsplit]. *)
Definition urlparse_netloc {R : PyRuntime} (url : pystr) : option pystr :=
  let url := lstrip_by (fun c => c <=? 0x20)%N url in
  let url := remove_cp 0x0A (remove_cp 0x0D (remove_cp 0x09 url))%N in
  let url := drop_scheme url in
  let netloc :=
    if startswith url [c_slash; c_slash]
    then take_until netloc_delim (List.skipn 2 url) else [] in
  let lb := mem_cp 0x5B%N netloc in
  let rb := mem_cp 0x5D%N netloc in
  if xorb lb rb then None
  else if lb && rb && negb (bracketed_netloc_ok netloc) then None
  else if negb (List.forallb is_ascii netloc) && negb (nfkc_netloc_ok netloc)
  then None
  else Some netloc.

(** [resolve_final_url]: the address is replaced only when the request
    succeeds. *)
Definition resolve_final_url {R : PyRuntime} {T : Transport} (url : pystr) : pystr :=
  match urlparse_netloc url with
  | Some netloc =>
    if contains netloc s_news_google then
      match get_final_url url with
      | Some final => final
      | None => url
      end
    else url
  | None => url
  end.

Definition NAME_MAP : gmap (list N) (list N) :=
  list_to_map
    [ (lit "response.jp", lit "レスポンス（Response.jp）");
      (lit "newsweekjapan.jp", lit "ニューズウィーク日本版");
      (lit "bloomberg.co.jp", lit "ブルームバーグ");
      (lit "motor-fan.jp", lit "Motor-Fan");
      (lit "young-machine.com", lit "ヤングマシン");
      (lit "as-web.jp", lit "autosport web");
      (lit "webcg.net", lit "WebCG");
      (lit "bestcarweb.jp", lit "ベストカーWeb") ].

(** The part of [publisher_from_url] after the two aggregator tests:
    port and [www.] removed, the table, then the guess from the label
    before the last one. *)
Definition publisher_of_netloc {R : PyRuntime} (netloc : pystr) : pystr :=
  let host := List.hd [] (split_cp c_colon netloc) in
  let host := if startswith host s_www then List.skipn 4 host else host in
  match NAME_MAP !! host with
  | Some name => name
  | None =>
    let parts := split_cp c_dot host in
    let base :=
      if (2 <=? length parts)%nat
      then List.nth (length parts - 2) parts [] else host in
    let base := replace_cp c_underscore c_space (replace_cp c_hyphen c_space base) in
    str_capitalize base
  end.

Definition publisher_from_url {R : PyRuntime} (url : pystr) : pystr :=
  match urlparse_netloc url with
  | None => []
  | Some netloc =>
    let netloc := str_lower netloc in
    match netloc with
    | [] => []
    | _ =>
      if endswith netloc s_msn_com then s_MSN
      else if contains netloc s_news_yahoo then s_Yahoo
      else publisher_of_netloc netloc
    end
  end.

Definition clean_source_text {R : PyRuntime} (raw : pystr) : pystr :=
  match raw with
  | [] => []
  | _ =>
    let t := strip raw in
    let t := re_sub ON_MSN_RE [] t in
    let t := re_sub MSN_HAISHIN_RE [] t in
    let t := re_sub TEIKYO_RE [] t in
    let t := replace_cp c_middot c_space
               (replace_cp c_bullet c_space (replace_cp c_nakaguro c_space t)) in
    let t := strip (re_sub TRAILING_TIME_RE [] t) in
    let t := strip (re_sub TIME_RE [] t) in
    let t := strip (re_sub EMPTY_PARENS_RE [] t) in
    let t := strip (re_sub SPACES_RE [c_space] t) in
    let t := strip (strip_chars s_strip_set t) in
    if matches TIME_ONLY_RE t then [] else t
  end.

Definition is_timeish (text : pystr) : bool :=
  match text with
  | [] => false
  | _ =>
    if matches TIME_ONLY_RE (strip text) then true
    else if found TIME_RE text then true
    else false
  end.

(** ** The site scrapers

    The page fetch and the selection of elements are the browser's and
    the HTML parser's work; what they hand to the code of main.py is
    modelled by records of the selected texts and attributes, one per
    article element.  A loop body that ends in [continue] yields no
    record. *)

(** An output record: keys タイトル, URL, 投稿日, 引用元. *)
Record article : Type := mk_article {
  title : pystr; url : pystr; pub_date : pystr; source : pystr
}.

Definition nonempty (s : pystr) : bool :=
  match s with [] => false | _ => true end.

(** [a or b] on strings *)
Definition str_or (a b : pystr) : pystr := if nonempty a then a else b.

(** The first element a list of selectors finds, by its text. *)
Fixpoint first_present (els : list (option pystr)) : option pystr :=
  match els with
  | [] => None
  | Some t :: _ => Some t
  | None :: els' => first_present els'
  end.

(** An [article] element of the Google News page: the [a.JtKRv] element
    (text, [href]), the [time.hvbAAd] element ([datetime] attribute), and
    the text of the element found by each of the three source selectors. *)
Record google_element : Type := mk_google_element {
  g_a_tag : option (pystr * option pystr);
  g_time_tag : option (option pystr);
  g_source_els : list (option pystr)
}.

Definition google_prefix : pystr := Eval vm_compute in lit "https://news.google.com".

Definition google_article {R : PyRuntime} {T : Transport} (el : google_element)
  : option article :=
  match g_a_tag el, g_time_tag el with
  | Some (text, href), Some datetime_attr =>
    let title := text in
    let href := match href with Some h => h | None => [] end in
    let url :=
      if startswith href [c_dot; c_slash]
      then google_prefix ++ List.skipn 1 href else href in
    let final_url := resolve_final_url url in
    let guessed_source := publisher_from_url final_url in
    let source :=
      match first_present (g_source_els el) with
      | Some t => t
      | None => []
      end in
    let source :=
      if nonempty source then source else str_or guessed_source s_Google in
    attr ← datetime_attr;
    dt0 ← strptime_iso attr;
    delta ← timedelta_new 0 9 0 0 0;
    dt ← datetime_add dt0 delta;
    Some (mk_article title final_url (format_datetime dt) source)
  | _, _ => None
  end.

Definition get_google_news_with_selenium {R : PyRuntime} {T : Transport}
           (page : list google_element) : list article :=
  omap google_article page.

(** A result item of the Yahoo! News page: title text, [href] of the
    first link, text of the [time] element, and the text of the element
    found by each of the four source selectors. *)
Record yahoo_element : Type := mk_yahoo_element {
  y_title_tag : option pystr;
  y_link_tag : option pystr;
  y_time_tag : option pystr;
  y_source_els : list (option pystr)
}.

(** The test that a candidate text can be a publisher name. *)
Definition yahoo_usable {R : PyRuntime} (txt : pystr) : bool :=
  nonempty txt && negb (str_isdigit txt)
  && List.existsb (fun c => char_isalpha c || (0x3040 <=? c) && (c <=? 0x9FFF))%N txt.

Fixpoint yahoo_source {R : PyRuntime} (els : list (option pystr)) : pystr :=
  match els with
  | [] => []
  | None :: els' => yahoo_source els'
  | Some txt :: els' =>
    let txt := re_sub YMD_HM_RE [] txt in
    let txt := re_sub PARENS_RE [] txt in
    let txt := strip txt in
    if yahoo_usable txt then txt else yahoo_source els'
  end.

Definition yahoo_pub_date (date_str : pystr) : pystr :=
  if nonempty date_str then
    let ds := strip (re_sub WEEKDAY_RE [] date_str) in
    match strptime_Ymd_HM ds with
    | Some dt => format_datetime dt
    | None => ds
    end
  else UNAVAILABLE.

Definition yahoo_article {R : PyRuntime} (li : yahoo_element) : option article :=
  let title := match y_title_tag li with Some t => t | None => [] end in
  let url := match y_link_tag li with Some h => h | None => [] end in
  let date_str := match y_time_tag li with Some t => t | None => [] end in
  let pub_date := yahoo_pub_date date_str in
  let source := yahoo_source (y_source_els li) in
  let source :=
    if nonempty source then source else str_or (publisher_from_url url) s_Yahoo in
  Some (mk_article title url pub_date source).

Definition get_yahoo_news_with_selenium {R : PyRuntime}
           (page : list yahoo_element) : list article :=
  omap yahoo_article page.

(** The surroundings of a result link of the Bing news page: the text of
    the [source] block, the [aria-label] values, the [time] elements (text
    and [datetime] attribute), and the text of the element found by each
    of the five provider selectors. *)
Record msn_parent : Type := mk_msn_parent {
  p_source : option pystr;
  p_aria_labels : list pystr;
  p_times : list (pystr * option pystr);
  p_provider_els : list (option pystr)
}.

Record msn_element : Type := mk_msn_element {
  m_data_title : option pystr;
  m_text : pystr;
  m_href : option pystr;
  m_parent : option msn_parent
}.

Fixpoint label_from_aria (labels : list pystr) : pystr :=
  match labels with
  | [] => []
  | lab :: labels' =>
    let lab := strip lab in
    if found TIME_RE lab then lab else label_from_aria labels'
  end.

Fixpoint label_from_times (times : list (pystr * option pystr)) : pystr :=
  match times with
  | [] => []
  | (text, attr) :: times' =>
    let t := strip text in
    if found TIME_RE t then t
    else match attr with
         | Some (c :: a) => c :: a
         | _ => label_from_times times'
         end
  end.

Definition msn_label (parent : option msn_parent) : pystr :=
  match parent with
  | None => []
  | Some p =>
    let label := label_from_aria (p_aria_labels p) in
    if nonempty label then label else label_from_times (p_times p)
  end.

Definition msn_pub_date {R : PyRuntime} {T : Transport}
           (label href : pystr) (now : datetime) : pystr :=
  let pub_date :=
    if nonempty label then
      if mem_cp 0x54%N label && mem_cp c_colon label && endswith label [0x5A%N]
      then
        match
          dt0 ← strptime_iso label;
          delta ← timedelta_new 0 9 0 0 0;
          dt ← datetime_add dt0 delta;
          Some (format_datetime dt)
        with
        | Some r => r
        | None => UNAVAILABLE
        end
      else parse_relative_time label now
    else UNAVAILABLE in
  if str_eqb pub_date UNAVAILABLE then get_last_modified_datetime href
  else pub_date.

Fixpoint msn_candidate {R : PyRuntime} (els : list (option pystr)) : pystr :=
  match els with
  | [] => []
  | None :: els' => msn_candidate els'
  | Some txt :: els' =>
    let cand := clean_source_text txt in
    if nonempty cand && negb (is_timeish cand) then cand
    else msn_candidate els'
  end.

(** The publisher text found on the page: the cleaned [source] block,
    else the first usable provider candidate. *)
Definition msn_scanned_source {R : PyRuntime} (parent : option msn_parent) : pystr :=
  let raw_source :=
    match parent with
    | Some p => match p_source p with Some t => t | None => [] end
    | None => []
    end in
  let source := clean_source_text raw_source in
  match parent with
  | Some p =>
    if nonempty source then source else msn_candidate (p_provider_els p)
  | None => source
  end.

Definition msn_source {R : PyRuntime} (parent : option msn_parent)
           (href : pystr) : pystr :=
  let source := msn_scanned_source parent in
  if negb (nonempty source) || is_timeish source
  then str_or (publisher_from_url href) s_MSN
  else source.

Definition msn_article {R : PyRuntime} {T : Transport} (now : datetime)
           (a : msn_element) : option article :=
  let title :=
    strip (str_or (match m_data_title a with Some t => t | None => [] end)
                  (m_text a)) in
  let href := match m_href a with Some h => h | None => [] end in
  if nonempty title && nonempty href then
    let label := msn_label (m_parent a) in
    let pub_date := msn_pub_date label href now in
    let source := msn_source (m_parent a) href in
    Some (mk_article title href pub_date source)
  else None.

Definition get_msn_news_with_selenium {R : PyRuntime} {T : Transport}
           (now : datetime) (page : list msn_element) : list article :=
  omap (msn_article now) page.

(** ** Writing to the spreadsheet

    The spreadsheet service is a store of worksheets, each a list of rows,
    addressed by spreadsheet key and worksheet title.  Every call of the
    client is one request, and a request can be refused with an
    [APIError]: [failures] lists, request by request, which ones are
    (requests beyond the list succeed).  A refused request changes
    nothing. *)

Abbreviation row := (list (list N)) (only parsing).

Inductive exn : Type := APIError | WorksheetNotFound | RuntimeError.

Record world : Type := mk_world {
  sheets : gmap (list N * list N) (list (list (list N)));
  failures : list bool
}.

(** Computations on the store that can raise. *)
Definition M (A : Type) : Type := world -> (exn + A) * world.

Definition ret {A : Type} (x : A) : M A := fun w => (inr x, w).

Definition raise {A : Type} (e : exn) : M A := fun w => (inl e, w).

Definition bind {A B : Type} (m : M A) (k : A -> M B) : M B :=
  fun w =>
    match m w with
    | (inr x, w') => k x w'
    | (inl e, w') => (inl e, w')
    end.

#[global] Instance M_ret : MRet M := @ret.
#[global] Instance M_bind : MBind M := fun A B k m => bind m k.

(** [try: m except e: h] *)
Definition catch {A : Type} (e : exn) (m : M A) (h : M A) : M A :=
  fun w =>
    match m w with
    | (inl e', w') =>
      match e, e' with
      | APIError, APIError | WorksheetNotFound, WorksheetNotFound
      | RuntimeError, RuntimeError => h w'
      | _, _ => (inl e', w')
      end
    | r => r
    end.

Definition request : M unit :=
  fun w =>
    match failures w with
    | true :: fs => (inl APIError, mk_world (sheets w) fs)
    | false :: fs => (inr tt, mk_world (sheets w) fs)
    | [] => (inr tt, w)
    end.

Definition update_sheets
           (f : gmap (list N * list N) (list (list (list N)))
                -> gmap (list N * list N) (list (list (list N)))) : M unit :=
  fun w => (inr tt, mk_world (f (sheets w)) (failures w)).

(** [gc.open_by_key(key)] *)
Definition open_by_key (key : pystr) : M unit := request.

(** [sh.worksheet(name)] *)
Definition lookup_sheet (key name : pystr) : M (option (list row)) :=
  fun w => (inr (sheets w !! (key, name)), w).

Definition worksheet (key name : pystr) : M unit :=
  request;;
  found ← lookup_sheet key name;
  match found with
  | Some _ => ret tt
  | None => raise WorksheetNotFound
  end.

(** [sh.add_worksheet(title=name, rows="1", cols="4")] *)
Definition add_worksheet (key name : pystr) : M unit :=
  request;; update_sheets (fun s => <[(key, name) := []]> s).

(** [ws.append_rows(rows)] and [ws.append_row(r)] *)
Definition append_rows (key name : pystr) (rows : list row) : M unit :=
  request;;
  update_sheets (fun s => <[(key, name) := default [] (s !! (key, name)) ++ rows]> s).

Definition append_row (key name : pystr) (r : row) : M unit :=
  append_rows key name [r].

(** [ws.get_all_values()] *)
Definition get_all_values (key name : pystr) : M (list row) :=
  request;;
  found ← lookup_sheet key name;
  ret (default [] found).

Definition HEADER : list (list N) :=
  Eval vm_compute in [lit "タイトル"; lit "URL"; lit "投稿日"; lit "引用元"].

(** [set(row[1] for row in existing[1:] if len(row) > 1)] *)
Definition existing_urls_of (existing : list row) : gset (list N) :=
  list_to_set (omap (fun r : list (list N) => r !! 1%nat) (List.tl existing)).

Definition row_of (a : article) : list (list N) :=
  [title a; url a; pub_date a; source a].

(** One step of the comprehension that builds [new_rows]; the set is
    threaded through to show what happens to it. *)
Definition select_step (st : gset (list N) * list row) (a : article)
  : gset (list N) * list row :=
  let '(existing_urls, new_rows) := st in
  if decide (url a ∈ existing_urls) then (existing_urls, new_rows)
  else (existing_urls, new_rows ++ [row_of a]).

(** [[row(a) for a in articles if a['URL'] not in existing_urls]] *)
Definition select_new (articles : list article) (existing_urls : gset (list N))
  : gset (list N) * list row :=
  List.fold_left select_step articles (existing_urls, []).

(** The body of the retry loop. *)
Definition attempt (articles : list article) (spreadsheet_id worksheet_name : pystr)
  : M unit :=
  open_by_key spreadsheet_id;;
  catch WorksheetNotFound
    (worksheet spreadsheet_id worksheet_name)
    (add_worksheet spreadsheet_id worksheet_name;;
     append_row spreadsheet_id worksheet_name HEADER);;
  existing ← get_all_values spreadsheet_id worksheet_name;
  let existing_urls := existing_urls_of existing in
  let new_rows := snd (select_new articles existing_urls) in
  match new_rows with
  | _ :: _ => append_rows spreadsheet_id worksheet_name new_rows
  | [] => ret tt
  end.

(** [for attempt in range(n)] with the [except APIError] handler, then the
    [raise RuntimeError] after the loop. *)
Fixpoint retry (n : nat) (articles : list article)
         (spreadsheet_id worksheet_name : pystr) : M unit :=
  match n with
  | O => raise RuntimeError
  | S n' =>
    catch APIError (attempt articles spreadsheet_id worksheet_name)
          (retry n' articles spreadsheet_id worksheet_name)
  end.

(** [write_to_spreadsheet] from its loop on, with the client [gc] at hand.
    Reading the credentials and making the client, the three statements
    before the loop, touch no worksheet; their failures (a missing file, a
    key that is no JSON) are not among the outcomes of this computation. *)
Definition write_to_spreadsheet (articles : list article)
           (spreadsheet_id worksheet_name : pystr) : M unit :=
  retry 5 articles spreadsheet_id worksheet_name.

(** ** Configuration and entry point *)

Definition DEFAULT_KEYWORD : pystr := Eval vm_compute in lit "ホンダ".
Definition DEFAULT_SPREADSHEET_ID : pystr :=
  Eval vm_compute in lit "1AwwMGKMHfduwPkrtsik40lkO1z1T8IU_yd41ku-yPi8".
Definition NEWS_KEYWORD : pystr := Eval vm_compute in lit "NEWS_KEYWORD".
Definition SPREADSHEET_ID : pystr := Eval vm_compute in lit "SPREADSHEET_ID".

(** The namespace [parse_args] returns: both options default to [None]. *)
Record namespace : Type := mk_namespace {
  ns_keyword : option pystr;
  ns_sheet : option pystr
}.

(** [a or b] for values that are a string or [None]: [a] when it is a
    non-empty string. *)
Definition opt_or (a b : option pystr) : option pystr :=
  match a with
  | Some (_ :: _) => a
  | _ => b
  end.

(** [a or b] with a string for [b]. *)
Definition opt_or_str (a : option pystr) (b : pystr) : pystr :=
  match a with
  | Some (c :: s) => c :: s
  | _ => b
  end.

(** [resolve_config]: [environ] is the process environment [os.getenv]
    reads. *)
Definition resolve_config (args : namespace) (environ : gmap (list N) (list N))
  : pystr * pystr :=
  let keyword :=
    opt_or_str (opt_or (ns_keyword args) (environ !! NEWS_KEYWORD)) DEFAULT_KEYWORD in
  let spreadsheet_id :=
    opt_or_str (opt_or (ns_sheet args) (environ !! SPREADSHEET_ID))
               DEFAULT_SPREADSHEET_ID in
  (keyword, spreadsheet_id).

(** [if articles: write_to_spreadsheet(articles, spreadsheet_id, name)] *)
Definition write_if_any (articles : list article)
           (spreadsheet_id worksheet_name : pystr) : M unit :=
  match articles with
  | _ :: _ => write_to_spreadsheet articles spreadsheet_id worksheet_name
  | [] => ret tt
  end.

(** The entry point.  What each site shows for a keyword is a function of
    the keyword; [now] is the clock read by the MSN scraper.  The run is
    followed from the parsed options on and through its three writes: an
    exit of the option parser, and a browser that does not start or a page
    that does not load, end the program before the store is reached and are
    not among the outcomes of this computation. *)
Definition main {R : PyRuntime} {T : Transport}
           (args : namespace) (environ : gmap (list N) (list N))
           (google_site : pystr -> list google_element)
           (yahoo_site : pystr -> list yahoo_element)
           (msn_site : pystr -> list msn_element)
           (now : datetime) : M unit :=
  let '(keyword, spreadsheet_id) := resolve_config args environ in
  let google_news_articles := get_google_news_with_selenium (google_site keyword) in
  write_if_any google_news_articles spreadsheet_id s_Google;;
  let yahoo_news_articles := get_yahoo_news_with_selenium (yahoo_site keyword) in
  write_if_any yahoo_news_articles spreadsheet_id s_Yahoo;;
  let msn_news_articles := get_msn_news_with_selenium now (msn_site keyword) in
  write_if_any msn_news_articles spreadsheet_id s_MSN.

(** ** Vocabulary of the statements *)

(** *** What a pattern matches

    [Matches r prev m fol]: the pattern [r] matches the text [m] when the
    character before it is [prev] and the text after it is [fol].  The
    context only matters for the anchors. *)

Fixpoint last_cp (prev : option codepoint) (m : pystr) : option codepoint :=
  match m with
  | [] => prev
  | c :: m' => last_cp (Some c) m'
  end.

Inductive Matches : regex -> option codepoint -> pystr -> pystr -> Prop :=
| M_Eps prev fol : Matches Eps prev [] fol
| M_Chr p c prev fol : p c = true -> Matches (Chr p) prev [c] fol
| M_Seq r1 r2 prev m1 m2 fol :
    Matches r1 prev m1 (m2 ++ fol) ->
    Matches r2 (last_cp prev m1) m2 fol ->
    Matches (Seq r1 r2) prev (m1 ++ m2) fol
| M_Alt_l r1 r2 prev m fol : Matches r1 prev m fol -> Matches (Alt r1 r2) prev m fol
| M_Alt_r r1 r2 prev m fol : Matches r2 prev m fol -> Matches (Alt r1 r2) prev m fol
| M_Star p prev m fol : List.forallb p m = true -> Matches (Star p) prev m fol
| M_Bos fol : Matches Bos None [] fol
| M_Eos prev fol : fol = [] \/ fol = [10%N] -> Matches Eos prev [] fol
| M_WordB w prev fol :
    xorb (is_word w prev) (is_word w (List.head fol)) = true ->
    Matches (WordB w) prev [] fol.

(** The pattern has a match somewhere in [s]. *)
Definition occurs (r : regex) (s : pystr) : Prop :=
  exists pre m post, s = pre ++ m ++ post /\ Matches r (last_cp None pre) m post.

(** *** Timestamps *)

Definition ascii_digit (c : codepoint) : bool := in_range 0x30 0x39 c.

(** The exact shape [YYYY/MM/DD HH:MM]. *)
Definition is_formatted (s : pystr) : bool :=
  match s with
  | [y1; y2; y3; y4; s1; m1; m2; s2; d1; d2; sp; h1; h2; co; n1; n2] =>
    ascii_digit y1 && ascii_digit y2 && ascii_digit y3 && ascii_digit y4
    && eqcp s1 c_slash && ascii_digit m1 && ascii_digit m2
    && eqcp s2 c_slash && ascii_digit d1 && ascii_digit d2
    && eqcp sp c_space && ascii_digit h1 && ascii_digit h2
    && eqcp co c_colon && ascii_digit n1 && ascii_digit n2
  | _ => false
  end.

(** The rendering of a [datetime]: year, [/MM/DD HH:MM].  It has the
    exact shape when the year has its four digits, that is from the year
    1000 on, and only then. *)
Definition timestamp (s : pystr) : Prop :=
  exists dt,
    valid_datetime dt = true /\ s = format_datetime dt
    /\ (is_formatted s = true <-> 1000 <= year dt).

(** Minutes since the start of day 0 of the proleptic calendar. *)
Definition minutes_of (dt : datetime) : Z :=
  (toordinal dt * 24 + hour dt) * 60 + minute dt.

(** *** Relative-time expressions *)

Definition all_space (w : pystr) : Prop := List.forallb is_space w = true.

(** A number: one or more decimal digits. *)
Definition number (ds : pystr) : Prop :=
  ds <> [] /\ List.forallb is_digit ds = true.

(** A unit: 分, 時間 or 日. *)
Definition time_unit (u : pystr) : Prop :=
  u = s_fun \/ u = s_jikan \/ u = s_nichi.

(** Number, unit and the marker 前, with optional whitespace between. *)
Definition time_ago (m : pystr) : Prop :=
  exists ds w1 u w2,
    m = ds ++ w1 ++ u ++ w2 ++ s_mae /\
    number ds /\ all_space w1 /\ time_unit u /\ all_space w2.

(** Number and unit, the marker 前 optional. *)
Definition time_maybe_ago (m : pystr) : Prop :=
  exists ds w1 u w2 ago,
    m = ds ++ w1 ++ u ++ w2 ++ ago /\
    number ds /\ all_space w1 /\ time_unit u /\ all_space w2 /\
    (ago = [] \/ ago = s_mae).

(** The whole string is a number and a unit, the marker 前 optional,
    with optional whitespace around each part. *)
Definition time_only (s : pystr) : Prop :=
  exists w0 ds w1 u w2 ago w3,
    s = w0 ++ ds ++ w1 ++ u ++ w2 ++ ago ++ w3 /\
    all_space w0 /\ number ds /\ all_space w1 /\ time_unit u /\
    all_space w2 /\ (ago = [] \/ ago = s_mae) /\ all_space w3.

(** [m] appears in [s]. *)
Definition substring (m s : pystr) : Prop :=
  exists pre post, s = pre ++ m ++ post.

(** *** Refused attempts *)

(** The first [n] runs of the loop body are all refused with an
    [APIError]; the result is the state of the service after them. *)
Fixpoint rate_limited (n : nat) (articles : list article)
         (spreadsheet_id worksheet_name : pystr) (w : world) : option world :=
  match n with
  | O => Some w
  | S n' =>
    match attempt articles spreadsheet_id worksheet_name w with
    | (inl APIError, w') => rate_limited n' articles spreadsheet_id worksheet_name w'
    | _ => None
    end
  end.

(** The rows the body appends to: those of the worksheet, or the header
    row it writes when it has to create the worksheet. *)
Definition rows_before (spreadsheet_id worksheet_name : pystr) (w : world)
  : list (list (list N)) :=
  match sheets w !! (spreadsheet_id, worksheet_name) with
  | Some rows => rows
  | None => [HEADER]
  end.

(** The worksheet as a refused run of the body can leave it: untouched, or
    newly created with no row or with the header row only. *)
Definition left_by_refusals (before after : option (list (list (list N)))) : Prop :=
  match before with
  | Some rows => after = Some rows
  | None => after = None \/ after = Some [] \/ after = Some [HEADER]
  end.

(** *** The calendar *)

(** The month and day computed for the [n]-th day of a year are a date of
    that year, [n] days after its first. *)
Definition month_of_yday_ok (leapyear : bool) (n : Z) : bool :=
  let '(m, d) := month_of_yday leapyear n in
  (1 <=? m) && (m <=? 12) && (1 <=? d)
  && (d <=? (if (m =? 2) && leapyear then 29
             else List.nth (Z.to_nat m) DAYS_IN_MONTH 0))
  && (List.nth (Z.to_nat m) DAYS_BEFORE_MONTH 0
      + (if (2 <? m) && leapyear then 1 else 0) + d =? n + 1).

(** Microseconds since the start of day 0, and the length of a
    [timedelta] in microseconds. *)
Definition us_of (dt : datetime) : Z :=
  (((toordinal dt * 24 + hour dt) * 60 + minute dt) * 60 + second dt)
  * US_PER_SECOND + microsecond dt.

Definition td_us (t : timedelta) : Z :=
  (td_days t * 86400 + td_seconds t) * US_PER_SECOND + td_microseconds t.

Definition td_normal (t : timedelta) : Prop :=
  0 <= td_seconds t < 86400 /\ 0 <= td_microseconds t < US_PER_SECOND
  /\ Z.abs (td_days t) <= 999999999.

(** *** Time labels *)

(** The label names a relative unit. *)
Definition has_relative_keyword (l : pystr) : bool :=
  contains l s_fun_mae || contains l s_minute
  || contains l s_jikan_mae || contains l s_hour
  || contains l s_nichi_mae || contains l s_day.

(** A label, trimmed and lower-cased, has one of the six recognised forms
    when it names a relative unit and holds a number, or starts with a
    month-day date, a year/month/day date or an hour:minute time. *)
Definition recognised (l : pystr) : bool :=
  (has_relative_keyword l && List.existsb is_digit l)
  || matches MONTH_DAY_RE l || matches YMD_RE l || matches HM_RE l.

(** The same, read off the text.  The label names a relative unit: 分前,
    minute, 時間前, hour, 日前 or day appears in it. *)
Definition names_relative_unit (l : pystr) : Prop :=
  substring s_fun_mae l \/ substring s_minute l \/ substring s_jikan_mae l
  \/ substring s_hour l \/ substring s_nichi_mae l \/ substring s_day l.

(** One or two decimal digits. *)
Definition one_or_two_digits (ds : pystr) : Prop :=
  number ds /\ (length ds <= 2)%nat.

(** The label starts with a date N月N日. *)
Definition starts_with_month_day (l : pystr) : Prop :=
  exists m d rest, l = m ++ s_gatsu ++ d ++ s_nichi ++ rest /\ number m /\ number d.

(** The label starts with a date NNNN/N/N, month and day of one or two
    digits. *)
Definition starts_with_date (l : pystr) : Prop :=
  exists y m d rest,
    l = y ++ [c_slash] ++ m ++ [c_slash] ++ d ++ rest
    /\ number y /\ length y = 4%nat /\ one_or_two_digits m /\ one_or_two_digits d.

(** The label starts with a clock time N:NN, the hour of one or two
    digits. *)
Definition starts_with_clock (l : pystr) : Prop :=
  exists h mi rest,
    l = h ++ [c_colon] ++ mi ++ rest
    /\ one_or_two_digits h /\ number mi /\ length mi = 2%nat.

(** A label, trimmed and lower-cased, is malformed when it has none of
    the six forms: it names no relative unit or holds no decimal digit,
    and it starts with none of the two dates and not with a clock time. *)
Definition malformed (l : pystr) : Prop :=
  (~ names_relative_unit l \/ List.existsb is_digit l = false)
  /\ ~ starts_with_month_day l /\ ~ starts_with_date l /\ ~ starts_with_clock l.

(** A label of the form "N minutes ago": trimmed and lower-cased it
    contains 分前 or the word minute, and [ds] is the first number in it. *)
Definition first_number (l ds : pystr) : Prop :=
  exists pre post,
    l = pre ++ ds ++ post /\ List.existsb is_digit pre = false /\ number ds
    /\ match post with [] => True | c :: _ => is_digit c = false end.

Definition minutes_ago_label (l ds : pystr) : Prop :=
  (contains l s_fun_mae = true \/ contains l s_minute = true)
  /\ first_number l ds.

(** The text of an hour as [%H] reads it before a colon, with its value:
    2 and a digit 0 to 3; 0 or 1 and any decimal digit; or a single
    decimal digit. *)
Definition hour_text (hh : pystr) (h : Z) : Prop :=
  (exists b, hh = [0x32%N; b] /\ in_range 0x30 0x33 b = true
             /\ h = 20 + Z.of_N (b - 48))
  \/ (exists a b v, hh = [a; b] /\ in_range 0x30 0x31 a = true
                    /\ decimal b = Some v /\ h = 10 * Z.of_N (a - 48) + Z.of_N v)
  \/ (exists b v, hh = [b] /\ decimal b = Some v /\ h = Z.of_N v).

(** The text of a minute: a digit 0 to 5 and any decimal digit. *)
Definition minute_text (mm : pystr) (mi : Z) : Prop :=
  exists a b v, mm = [a; b] /\ in_range 0x30 0x35 a = true
                /\ decimal b = Some v /\ mi = 10 * Z.of_N (a - 48) + Z.of_N v.

(** A bare H:MM label. *)
Definition bare_time (l : pystr) (h mi : Z) : Prop :=
  exists hh mm, l = hh ++ [c_colon] ++ mm /\ hour_text hh h /\ minute_text mm mi.

(** Microseconds since midnight. *)
Definition time_of_day_us (dt : datetime) : Z :=
  ((hour dt * 60 + minute dt) * 60 + second dt) * US_PER_SECOND + microsecond dt.

(** The clock time [h]:[mi] is later in the day than [now]. *)
Definition later_than_now (now : datetime) (h mi : Z) : bool :=
  time_of_day_us now <? (h * 60 + mi) * 60 * US_PER_SECOND.

(** *** Hosts *)

(** [h0] is the network location without its port: the text before the
    first colon. *)
Definition without_port (netloc h0 : pystr) : Prop :=
  ~ In c_colon h0 /\ (netloc = h0 \/ exists port, netloc = h0 ++ c_colon :: port).

(** [host] is [h0] without a leading "www.". *)
Definition without_www (h0 host : pystr) : Prop :=
  h0 = s_www ++ host \/ (startswith h0 s_www = false /\ host = h0).

(** [sld] is the second-level domain label of a host with at least two
    labels: the label before the last one. *)
Definition second_level (host sld : pystr) : Prop :=
  exists front tld,
    host = front ++ sld ++ [c_dot] ++ tld
    /\ ~ In c_dot sld /\ ~ In c_dot tld
    /\ (front = [] \/ exists f, front = f ++ [c_dot]).

(** Hyphens and underscores as spaces. *)
Definition spaced (base : pystr) : pystr :=
  replace_cp c_underscore c_space (replace_cp c_hyphen c_space base).

(** *** Publisher texts *)

(** Two whitespace characters in a row somewhere in the string. *)
Fixpoint double_space (s : pystr) : bool :=
  match s with
  | a :: s' =>
    match s' with
    | b :: _ => (is_space a && is_space b) || double_space s'
    | [] => false
    end
  | [] => false
  end.

(** The string starts with a whitespace character. *)
Definition head_space (s : pystr) : bool :=
  match s with
  | c :: _ => is_space c
  | [] => false
  end.

Definition decorative_dot (c : codepoint) : bool :=
  eqcp c c_nakaguro || eqcp c c_bullet || eqcp c c_middot.

(** Nothing is left for the cleaner to strip from [y]: none of its
    patterns has a match in it, and it neither starts nor ends with a
    character of the strip set. *)
Definition nothing_left_to_strip {R : PyRuntime} (y : pystr) : Prop :=
  ~ occurs ON_MSN_RE y /\ ~ occurs MSN_HAISHIN_RE y /\ ~ occurs TEIKYO_RE y
  /\ ~ occurs TRAILING_TIME_RE y /\ ~ occurs TIME_RE y
  /\ ~ occurs EMPTY_PARENS_RE y
  /\ strip_chars s_strip_set y = y.

(** *** Effects on the store *)

(** Every worksheet of [w] is still in [w'], with its rows in place and
    possibly rows after them. *)
Definition only_appended (w w' : world) : Prop :=
  forall k rows,
    sheets w !! k = Some rows -> exists added, sheets w' !! k = Some (rows ++ added).

(** The computation ends normally or with the terminal error, and only
    appends. *)
Definition appends_only (m : M unit) : Prop :=
  forall w,
    (fst (m w) = inr tt \/ fst (m w) = inl RuntimeError)
    /\ only_appended w (snd (m w)).

(** The computation leaves the worksheet [k] as it is, present or not. *)
Definition keeps (k : list N * list N) (m : M unit) : Prop :=
  forall w, sheets (snd (m w)) !! k = sheets w !! k.

(** *** More time labels *)

(** A label of the form "N hours ago": trimmed and lower-cased it names
    no minute, contains 時間前 or the word hour, and [ds] is the first
    number in it. *)
Definition hours_ago_label (l ds : pystr) : Prop :=
  contains l s_fun_mae = false /\ contains l s_minute = false
  /\ (contains l s_jikan_mae = true \/ contains l s_hour = true)
  /\ first_number l ds.

(** A label of the form "N days ago": it names no minute and no hour,
    contains 日前 or the word day, and [ds] is the first number in it. *)
Definition days_ago_label (l ds : pystr) : Prop :=
  contains l s_fun_mae = false /\ contains l s_minute = false
  /\ contains l s_jikan_mae = false /\ contains l s_hour = false
  /\ (contains l s_nichi_mae = true \/ contains l s_day = true)
  /\ first_number l ds.

(** Hours since the start of day 0 of the proleptic calendar. *)
Definition hours_of (dt : datetime) : Z := toordinal dt * 24 + hour dt.

(** *** Dates and times as the sites write them *)

(** The text after a number ends it: nothing, or a character that is no
    decimal digit. *)
Definition ends_number (rest : pystr) : Prop :=
  match rest with
  | [] => True
  | c :: _ => is_digit c = false
  end.

(** The text of a year as [%Y] reads it, with its value: four decimal
    digits. *)
Definition year_text (yy : pystr) (y : Z) : Prop :=
  exists a b c d va vb vc vd,
    yy = [a; b; c; d]
    /\ decimal a = Some va /\ decimal b = Some vb
    /\ decimal c = Some vc /\ decimal d = Some vd
    /\ y = 1000 * Z.of_N va + 100 * Z.of_N vb + 10 * Z.of_N vc + Z.of_N vd.

(** The text of a month as [%m] reads it: 10 to 12, 01 to 09, or 1 to 9. *)
Definition month_text (mm : pystr) (m : Z) : Prop :=
  (exists b, mm = [0x31%N; b] /\ in_range 0x30 0x32 b = true
             /\ m = 10 + Z.of_N (b - 48))
  \/ (exists b, mm = [0x30%N; b] /\ in_range 0x31 0x39 b = true
                /\ m = Z.of_N (b - 48))
  \/ (exists b, mm = [b] /\ in_range 0x31 0x39 b = true /\ m = Z.of_N (b - 48)).

(** The text of a day of the month as [%d] reads it: 30 or 31, 1 or 2 and
    any decimal digit, 01 to 09, or 1 to 9. *)
Definition day_text (dd : pystr) (d : Z) : Prop :=
  (exists b, dd = [0x33%N; b] /\ in_range 0x30 0x31 b = true
             /\ d = 30 + Z.of_N (b - 48))
  \/ (exists a b v, dd = [a; b] /\ in_range 0x31 0x32 a = true
                    /\ decimal b = Some v /\ d = 10 * Z.of_N (a - 48) + Z.of_N v)
  \/ (exists b, dd = [0x30%N; b] /\ in_range 0x31 0x39 b = true
                /\ d = Z.of_N (b - 48))
  \/ (exists b, dd = [b] /\ in_range 0x31 0x39 b = true /\ d = Z.of_N (b - 48)).

(** A date written year/month/day. *)
Definition date_text (l : pystr) (y m d : Z) : Prop :=
  exists yy mm dd,
    l = yy ++ [c_slash] ++ mm ++ [c_slash] ++ dd
    /\ year_text yy y /\ month_text mm m /\ day_text dd d.

(** A date written month月day日. *)
Definition month_day_text (l : pystr) (m d : Z) : Prop :=
  exists mm dd,
    l = mm ++ s_gatsu ++ dd ++ s_nichi /\ month_text mm m /\ day_text dd d.

(** A weekday in parentheses as the Yahoo site writes it, or nothing. *)
Definition weekday_mark (wd : pystr) : Prop :=
  wd = [] \/ exists c, mem_cp c s_weekdays = true /\ wd = [c_lparen; c; c_rparen].

(** A time stamp [YYYY-MM-DDTHH:MM:SSZ] of the Google site. *)
Definition iso_text (l : pystr) (y m d h mi s : Z) : Prop :=
  exists yy mm dd hh mi' ss,
    l = yy ++ [c_hyphen] ++ mm ++ [c_hyphen] ++ dd ++ [0x54%N] ++ hh
        ++ [c_colon] ++ mi' ++ [c_colon] ++ ss ++ [0x5A%N]
    /\ year_text yy y /\ month_text mm m /\ day_text dd d
    /\ hour_text hh h /\ minute_text mi' mi /\ minute_text ss s.

(** *** Characters of time expressions and of markers *)

(** The characters a bare time expression is made of: whitespace, decimal
    digits, and those of the units and of 前. *)
Definition time_char (c : codepoint) : bool :=
  is_space c || is_digit c || mem_cp c (s_fun ++ s_jikan ++ s_nichi ++ s_mae).

(** A character one of the markers "on MSN", "MSN による配信", 提供, 配信
    has to contain. *)
Definition marker_char (c : codepoint) : bool :=
  mem_cp c [0x6F; 0x4F; 0x4D; 0x63D0; 0x914D]%N.

(** The pattern does not look at the character before the match. *)
Fixpoint prev_free (r : regex) : bool :=
  match r with
  | Seq r1 r2 | Alt r1 r2 => prev_free r1 && prev_free r2
  | Bos | WordB _ => false
  | _ => true
  end.

(** A time expression at the end of a text: optional whitespace, a
    number, a unit and optionally 前, with optional whitespace between,
    and nothing after. *)
Definition trailing_time (t : pystr) : Prop :=
  exists w0 ds w1 u tail,
    t = w0 ++ ds ++ w1 ++ u ++ tail
    /\ all_space w0 /\ number ds /\ all_space w1 /\ time_unit u
    /\ (tail = [] \/ exists w2, all_space w2 /\ tail = w2 ++ s_mae).

(** A publisher name in which the cleaner finds nothing to remove, the
    markers apart: not empty, neither whitespace nor a character of the
    strip set at either end, no decimal digit, no decorative dot, no two
    whitespace characters in a row, no empty parentheses at the end. *)
Definition settled_name (name : pystr) : Prop :=
  name <> []
  /\ strip name = name /\ strip_chars s_strip_set name = name
  /\ List.existsb is_digit name = false
  /\ Forall (fun c => decorative_dot c = false) name
  /\ double_space name = false
  /\ ~ occurs EMPTY_PARENS_RE name.

(** * Properties *)

(** ** Strings *)

Lemma eqcp_eq (a b : N) : eqcp a b = true <-> a = b.
Proof. unfold eqcp. apply N.eqb_eq. Qed.

Lemma eqcp_refl (a : N) : eqcp a a = true.
Proof. apply eqcp_eq. reflexivity. Qed.

Lemma str_eqb_eq (a b : pystr) : str_eqb a b = true <-> a = b.
Proof.
  revert b. induction a as [|x a IH]; intros [|y b]; simpl; split;
    try congruence; try reflexivity.
  - intros H. apply andb_prop in H as [H1 H2].
    apply eqcp_eq in H1. apply IH in H2. congruence.
  - intros H. injection H as -> ->. rewrite eqcp_refl. simpl. apply IH. reflexivity.
Qed.

Lemma last_cp_app (prev : option N) (m1 m2 : pystr) :
  last_cp prev (m1 ++ m2) = last_cp (last_cp prev m1) m2.
Proof. revert prev. induction m1 as [|c m1 IH]; intros prev; simpl; auto. Qed.

(** ** The matcher agrees with the meaning of patterns *)

Lemma star_exec_sound {A : Type} (p : N -> bool)
      (k : option N -> pystr -> option A) (prev : option N) (s : pystr) (x : A) :
  star_exec p k prev s = Some x ->
  exists m fol, s = m ++ fol /\ List.forallb p m = true /\
                k (last_cp prev m) fol = Some x.
Proof.
  revert prev. induction s as [|c s IH]; intros prev H; simpl in H.
  - exists [], []. auto.
  - destruct (p c) eqn:Hp.
    + destruct (star_exec p k (Some c) s) as [y|] eqn:Hs.
      * injection H as ->. apply IH in Hs as (m & fol & -> & Hall & Hk).
        exists (c :: m), fol. simpl. rewrite Hp, Hall. auto.
      * exists [], (c :: s). auto.
    + exists [], (c :: s). auto.
Qed.

Lemma exec_sound (r : regex) :
  forall (A : Type) (prev : option N) (s : pystr)
         (k : option N -> pystr -> option A) (x : A),
    exec r prev s k = Some x ->
    exists m fol, s = m ++ fol /\ Matches r prev m fol /\
                  k (last_cp prev m) fol = Some x.
Proof.
  induction r as [|p|r1 IH1 r2 IH2|r1 IH1 r2 IH2|p| | |w];
    intros A prev s k x H; simpl in H.
  - exists [], s. split; [reflexivity|]. split; [constructor|exact H].
  - destruct s as [|c s]; [discriminate|].
    destruct (p c) eqn:Hp; [|discriminate].
    exists [c], s. split; [reflexivity|]. split; [constructor; exact Hp|exact H].
  - apply IH1 in H as (m1 & fol1 & -> & HM1 & H).
    apply IH2 in H as (m2 & fol & -> & HM2 & H).
    exists (m1 ++ m2), fol. rewrite <- app_assoc. split; [reflexivity|].
    split; [constructor; assumption|]. rewrite last_cp_app. exact H.
  - destruct (exec r1 prev s k) as [y|] eqn:H1.
    + injection H as ->. apply IH1 in H1 as (m & fol & -> & HM & Hk).
      exists m, fol. split; [reflexivity|]. split; [apply M_Alt_l; exact HM|exact Hk].
    + apply IH2 in H as (m & fol & -> & HM & Hk).
      exists m, fol. split; [reflexivity|]. split; [apply M_Alt_r; exact HM|exact Hk].
  - apply star_exec_sound in H as (m & fol & -> & Hall & Hk).
    exists m, fol. split; [reflexivity|]. split; [constructor; exact Hall|exact Hk].
  - destruct prev; [discriminate|].
    exists [], s. split; [reflexivity|]. split; [constructor|exact H].
  - destruct s as [|c [|c' s]].
    + exists [], []. split; [reflexivity|]. split; [constructor; auto|exact H].
    + destruct (is_newline c) eqn:Hc; [|discriminate].
      unfold is_newline in Hc. apply N.eqb_eq in Hc. subst c.
      exists [], [10%N]. split; [reflexivity|]. split; [constructor; auto|exact H].
    + discriminate.
  - destruct (xorb (is_word w prev) (is_word w (List.head s))) eqn:Hx; [|discriminate].
    exists [], s. split; [reflexivity|]. split; [constructor; exact Hx|exact H].
Qed.

Lemma star_exec_complete {A : Type} (p : N -> bool)
      (k : option N -> pystr -> option A) (m fol : pystr) :
  forall (prev : option N) (x : A),
    List.forallb p m = true ->
    k (last_cp prev m) fol = Some x ->
    exists y, star_exec p k prev (m ++ fol) = Some y.
Proof.
  induction m as [|c m IH]; intros prev x Hall Hk; simpl in *.
  - destruct fol as [|c fol]; simpl.
    + eauto.
    + destruct (p c); [|eauto].
      destruct (star_exec p k (Some c) fol); eauto.
  - apply andb_prop in Hall as [Hc Hall]. rewrite Hc.
    destruct (IH (Some c) x Hall Hk) as [y Hy]. rewrite Hy. eauto.
Qed.

Lemma exec_complete (r : regex) (prev : option N) (m fol : pystr) :
  Matches r prev m fol ->
  forall (A : Type) (k : option N -> pystr -> option A) (x : A),
    k (last_cp prev m) fol = Some x ->
    exists y, exec r prev (m ++ fol) k = Some y.
Proof.
  induction 1 as [prev fol|p c prev fol Hp|r1 r2 prev m1 m2 fol H1 IH1 H2 IH2
                  |r1 r2 prev m fol H1 IH1|r1 r2 prev m fol H2 IH2
                  |p prev m fol Hall|fol|prev fol Hf|w prev fol Hx];
    intros A k x Hk; simpl.
  - eauto.
  - rewrite Hp. eauto.
  - rewrite <- app_assoc. rewrite last_cp_app in Hk.
    destruct (IH2 A k x Hk) as [y Hy].
    apply (IH1 A (fun prev' s' => exec r2 prev' s' k) y Hy).
  - destruct (IH1 A k x Hk) as [y Hy]. rewrite Hy. eauto.
  - destruct (exec r1 prev (m ++ fol) k); eauto.
  - eapply star_exec_complete; eauto.
  - eauto.
  - destruct Hf as [-> | ->]; simpl in *; eauto.
  - simpl in Hk. rewrite Hx. eauto.
Qed.

Ltac inv_clear H := inversion H; subst; clear H.

Lemma match_at_sound (r : regex) (prev : option N) (s : pystr) (n : nat) :
  match_at r prev s = Some n ->
  exists m fol, s = m ++ fol /\ Matches r prev m fol /\ n = length m.
Proof.
  unfold match_at. intros H.
  apply exec_sound in H as (m & fol & -> & HM & Hk).
  exists m, fol. split; [reflexivity|]. split; [exact HM|].
  injection Hk as <-. rewrite length_app. lia.
Qed.

Lemma match_at_complete (r : regex) (prev : option N) (m fol : pystr) :
  Matches r prev m fol -> exists n, match_at r prev (m ++ fol) = Some n.
Proof.
  intros HM. unfold match_at.
  eapply (exec_complete r prev m fol HM nat). reflexivity.
Qed.

Lemma matches_iff (r : regex) (s : pystr) :
  matches r s = true <-> exists m fol, s = m ++ fol /\ Matches r None m fol.
Proof.
  unfold matches, re_match. split.
  - destruct (match_at r None s) as [n|] eqn:H; [|discriminate].
    intros _. apply match_at_sound in H as (m & fol & -> & HM & _). eauto.
  - intros (m & fol & -> & HM).
    destruct (match_at_complete r None m fol HM) as [n ->]. reflexivity.
Qed.

Lemma search_from_iff (r : regex) (s : pystr) :
  forall (prev : option N) (i : nat),
    search_from r prev s i <> None <->
    exists pre m post, s = pre ++ m ++ post /\ Matches r (last_cp prev pre) m post.
Proof.
  induction s as [|c s IH]; intros prev i; simpl.
  - destruct (match_at r prev []) as [n|] eqn:H.
    + split; [intros _|congruence].
      apply match_at_sound in H as (m & fol & E & HM & _).
      exists [], m, fol. simpl. auto.
    + split; [congruence|]. intros (pre & m & post & E & HM).
      destruct pre; [|discriminate]. simpl in *.
      destruct (match_at_complete r prev m post HM) as [n Hn].
      rewrite <- E in Hn. congruence.
  - destruct (match_at r prev (c :: s)) as [n|] eqn:H.
    + split; [intros _|congruence].
      apply match_at_sound in H as (m & fol & E & HM & _).
      exists [], m, fol. simpl. auto.
    + rewrite IH. split.
      * intros (pre & m & post & -> & HM). exists (c :: pre), m, post. auto.
      * intros (pre & m & post & E & HM). destruct pre as [|c' pre]; simpl in *.
        -- destruct (match_at_complete r prev m post HM) as [n Hn].
           rewrite <- E in Hn. congruence.
        -- injection E as -> ->. eauto.
Qed.

Lemma found_iff (r : regex) (s : pystr) : found r s = true <-> occurs r s.
Proof.
  unfold found, re_search, occurs. rewrite <- (search_from_iff r s None 0).
  destruct (search_from r None s 0); split; intros H.
  - intros E. discriminate E.
  - reflexivity.
  - discriminate H.
  - exfalso. apply H. reflexivity.
Qed.

Lemma found_false_iff (r : regex) (s : pystr) : found r s = false <-> ~ occurs r s.
Proof. rewrite <- found_iff. destruct (found r s); split; congruence. Qed.

(** A pattern that is found nowhere is replaced nowhere. *)
Lemma sub_from_no_match (r : regex) (repl : pystr) (s : pystr) :
  forall (prev : option N) (i : nat),
    search_from r prev s i = None -> sub_from r repl prev 0 s = s.
Proof.
  induction s as [|c s IH]; intros prev i H; simpl in *; [reflexivity|].
  destruct (match_at r prev (c :: s)); [discriminate|].
  f_equal. eapply IH. exact H.
Qed.

Lemma re_sub_not_found (r : regex) (repl : pystr) (s : pystr) :
  found r s = false -> re_sub r repl s = s.
Proof.
  unfold found, re_sub, re_search. intros H.
  destruct (search_from r None s 0) eqn:E; [discriminate|].
  eapply sub_from_no_match. exact E.
Qed.

(** *** Inversion of the pattern constructors *)

Lemma Matches_Seq (r1 r2 : regex) (prev : option N) (m fol : pystr) :
  Matches (Seq r1 r2) prev m fol <->
  exists m1 m2, m = m1 ++ m2 /\ Matches r1 prev m1 (m2 ++ fol) /\
                Matches r2 (last_cp prev m1) m2 fol.
Proof.
  split.
  - intros H. inv_clear H. eauto.
  - intros (m1 & m2 & -> & H1 & H2). constructor; assumption.
Qed.

Lemma Matches_Chr (p : N -> bool) (prev : option N) (m fol : pystr) :
  Matches (Chr p) prev m fol <-> exists c, m = [c] /\ p c = true.
Proof.
  split.
  - intros H. inv_clear H. eauto.
  - intros (c & -> & Hp). constructor. exact Hp.
Qed.

Lemma Matches_Alt (r1 r2 : regex) (prev : option N) (m fol : pystr) :
  Matches (Alt r1 r2) prev m fol <-> Matches r1 prev m fol \/ Matches r2 prev m fol.
Proof.
  split.
  - intros H. inv_clear H; auto.
  - intros [H|H]; [apply M_Alt_l|apply M_Alt_r]; exact H.
Qed.

Lemma Matches_Eps (prev : option N) (m fol : pystr) :
  Matches Eps prev m fol <-> m = [].
Proof. split; [intros H; inv_clear H; reflexivity|intros ->; constructor]. Qed.

Lemma Matches_Star (p : N -> bool) (prev : option N) (m fol : pystr) :
  Matches (Star p) prev m fol <-> List.forallb p m = true.
Proof. split; [intros H; inv_clear H; assumption|intros H; constructor; exact H]. Qed.

Lemma Matches_Eos (prev : option N) (m fol : pystr) :
  Matches Eos prev m fol <-> m = [] /\ (fol = [] \/ fol = [10%N]).
Proof.
  split; [intros H; inv_clear H; auto|intros [-> H]; constructor; exact H].
Qed.

Lemma Matches_Bos (prev : option N) (m fol : pystr) :
  Matches Bos prev m fol <-> m = [] /\ prev = None.
Proof. split; [intros H; inv_clear H; auto|intros [-> ->]; constructor]. Qed.

Lemma Matches_Plus (p : N -> bool) (prev : option N) (m fol : pystr) :
  Matches (Plus p) prev m fol <-> m <> [] /\ List.forallb p m = true.
Proof.
  unfold Plus. rewrite Matches_Seq. split.
  - intros (m1 & m2 & -> & H1 & H2).
    apply Matches_Chr in H1 as (c & -> & Hc). apply Matches_Star in H2.
    simpl. rewrite Hc, H2. split; [discriminate|reflexivity].
  - intros [Hne Hall]. destruct m as [|c m]; [congruence|].
    simpl in Hall. apply andb_prop in Hall as [Hc Hall].
    exists [c], m. split; [reflexivity|].
    split; [apply Matches_Chr; eauto|apply Matches_Star; exact Hall].
Qed.

Lemma Matches_Lit (s : pystr) (prev : option N) (m fol : pystr) :
  Matches (Lit s) prev m fol <-> m = s.
Proof.
  revert prev m fol. induction s as [|c s IH]; intros prev m fol; simpl.
  - apply Matches_Eps.
  - rewrite Matches_Seq. split.
    + intros (m1 & m2 & -> & H1 & H2).
      apply Matches_Chr in H1 as (c' & -> & Hc). apply eqcp_eq in Hc. subst c'.
      apply IH in H2. subst. reflexivity.
    + intros ->. exists [c], s. split; [reflexivity|].
      split; [apply Matches_Chr; exists c; split; [reflexivity|apply eqcp_refl]
             |apply IH; reflexivity].
Qed.

Lemma Matches_Opt (r : regex) (prev : option N) (m fol : pystr) :
  Matches (Opt r) prev m fol <-> Matches r prev m fol \/ m = [].
Proof. unfold Opt. rewrite Matches_Alt, Matches_Eps. reflexivity. Qed.

Lemma Matches_unit_re (prev : option N) (m fol : pystr) :
  Matches unit_re prev m fol <-> time_unit m.
Proof.
  unfold unit_re, time_unit. rewrite !Matches_Alt, !Matches_Lit. reflexivity.
Qed.

Lemma Matches_mae_opt (prev : option N) (m fol : pystr) :
  Matches mae_opt prev m fol <-> (m = [] \/ m = s_mae).
Proof.
  unfold mae_opt. rewrite Matches_Opt, Matches_Alt, Matches_Lit, Matches_Eps.
  tauto.
Qed.

Lemma Matches_TIME_RE (prev : option N) (m fol : pystr) :
  Matches TIME_RE prev m fol <-> time_ago m.
Proof.
  unfold TIME_RE, time_ago, number, all_space. split.
  - intros H.
    apply Matches_Seq in H as (ds & m1 & -> & Hds & H).
    apply Matches_Seq in H as (w1 & m2 & -> & Hw1 & H).
    apply Matches_Seq in H as (u & m3 & -> & Hu & H).
    apply Matches_Seq in H as (w2 & m4 & -> & Hw2 & H).
    apply Matches_Plus in Hds. apply Matches_Star in Hw1.
    apply Matches_unit_re in Hu. apply Matches_Star in Hw2.
    apply Matches_Lit in H. subst m4.
    exists ds, w1, u, w2. auto.
  - intros (ds & w1 & u & w2 & -> & Hds & Hw1 & Hu & Hw2).
    apply Matches_Seq. exists ds, (w1 ++ u ++ w2 ++ s_mae).
    split; [reflexivity|]. split; [apply Matches_Plus; exact Hds|].
    apply Matches_Seq. exists w1, (u ++ w2 ++ s_mae).
    split; [reflexivity|]. split; [apply Matches_Star; exact Hw1|].
    apply Matches_Seq. exists u, (w2 ++ s_mae).
    split; [reflexivity|]. split; [apply Matches_unit_re; exact Hu|].
    apply Matches_Seq. exists w2, s_mae.
    split; [reflexivity|]. split; [apply Matches_Star; exact Hw2|].
    apply Matches_Lit. reflexivity.
Qed.

Lemma all_space_app (a b : pystr) : all_space a -> all_space b -> all_space (a ++ b).
Proof. unfold all_space. rewrite forallb_app. intros -> ->. reflexivity. Qed.

Lemma Matches_TIME_ONLY_RE (m fol : pystr) :
  Matches TIME_ONLY_RE None m fol <->
  (fol = [] \/ fol = [10%N]) /\
  exists w0 ds w1 u w2 ago w3,
    m = w0 ++ ds ++ w1 ++ u ++ w2 ++ ago ++ w3 /\
    all_space w0 /\ number ds /\ all_space w1 /\ time_unit u /\
    all_space w2 /\ (ago = [] \/ ago = s_mae) /\ all_space w3.
Proof.
  unfold TIME_ONLY_RE, number, all_space. split.
  - intros H.
    apply Matches_Seq in H as (b & m0 & -> & Hb & H).
    apply Matches_Bos in Hb as [-> _].
    apply Matches_Seq in H as (w0 & m1 & -> & Hw0 & H).
    apply Matches_Seq in H as (ds & m2 & -> & Hds & H).
    apply Matches_Seq in H as (w1 & m3 & -> & Hw1 & H).
    apply Matches_Seq in H as (u & m4 & -> & Hu & H).
    apply Matches_Seq in H as (w2 & m5 & -> & Hw2 & H).
    apply Matches_Seq in H as (ago & m6 & -> & Hago & H).
    apply Matches_Seq in H as (w3 & m7 & -> & Hw3 & H).
    apply Matches_Eos in H as [-> Hfol].
    apply Matches_Star in Hw0, Hw1, Hw2, Hw3. apply Matches_Plus in Hds.
    apply Matches_unit_re in Hu. apply Matches_mae_opt in Hago.
    split; [exact Hfol|].
    exists w0, ds, w1, u, w2, ago, w3. rewrite app_nil_r. simpl. auto 10.
  - intros (Hfol & w0 & ds & w1 & u & w2 & ago & w3 & -> & Hw0 & Hds & Hw1 & Hu
            & Hw2 & Hago & Hw3).
    apply Matches_Seq. exists [], (w0 ++ ds ++ w1 ++ u ++ w2 ++ ago ++ w3).
    split; [reflexivity|]. split; [apply Matches_Bos; auto|].
    apply Matches_Seq. exists w0, (ds ++ w1 ++ u ++ w2 ++ ago ++ w3).
    split; [reflexivity|]. split; [apply Matches_Star; exact Hw0|].
    apply Matches_Seq. exists ds, (w1 ++ u ++ w2 ++ ago ++ w3).
    split; [reflexivity|]. split; [apply Matches_Plus; exact Hds|].
    apply Matches_Seq. exists w1, (u ++ w2 ++ ago ++ w3).
    split; [reflexivity|]. split; [apply Matches_Star; exact Hw1|].
    apply Matches_Seq. exists u, (w2 ++ ago ++ w3).
    split; [reflexivity|]. split; [apply Matches_unit_re; exact Hu|].
    apply Matches_Seq. exists w2, (ago ++ w3).
    split; [reflexivity|]. split; [apply Matches_Star; exact Hw2|].
    apply Matches_Seq. exists ago, w3.
    split; [reflexivity|]. split; [apply Matches_mae_opt; exact Hago|].
    apply Matches_Seq. exists w3, [].
    split; [symmetry; apply app_nil_r|]. split; [apply Matches_Star; exact Hw3|].
    apply Matches_Eos. auto.
Qed.

(** TIME_ONLY_RE matches exactly the strings that are a number and a unit,
    the marker optional. *)
Lemma matches_TIME_ONLY_RE (s : pystr) :
  matches TIME_ONLY_RE s = true <-> time_only s.
Proof.
  rewrite matches_iff. unfold time_only. split.
  - intros (m & fol & -> & H). apply Matches_TIME_ONLY_RE in H
      as (Hfol & w0 & ds & w1 & u & w2 & ago & w3 & -> & Hw0 & Hds & Hw1 & Hu
          & Hw2 & Hago & Hw3).
    exists w0, ds, w1, u, w2, ago, (w3 ++ fol).
    repeat rewrite <- app_assoc. split; [reflexivity|].
    repeat (split; [assumption|]).
    apply all_space_app; [exact Hw3|]. destruct Hfol as [-> | ->]; reflexivity.
  - intros (w0 & ds & w1 & u & w2 & ago & w3 & -> & H).
    exists (w0 ++ ds ++ w1 ++ u ++ w2 ++ ago ++ w3), [].
    split; [symmetry; apply app_nil_r|].
    apply Matches_TIME_ONLY_RE. split; [auto|].
    exists w0, ds, w1, u, w2, ago, w3. split; [reflexivity|exact H].
Qed.

(** TIME_RE is found exactly in the strings containing a number, a unit
    and the marker. *)
Lemma found_TIME_RE (s : pystr) :
  found TIME_RE s = true <-> exists m, substring m s /\ time_ago m.
Proof.
  rewrite found_iff. unfold occurs, substring. split.
  - intros (pre & m & post & -> & H). apply Matches_TIME_RE in H. eauto.
  - intros (m & (pre & post & ->) & H). exists pre, m, post.
    split; [reflexivity|]. apply Matches_TIME_RE. exact H.
Qed.

Lemma number_nonempty (ds : pystr) : number ds -> ds <> [].
Proof. intros [H _]. exact H. Qed.

Lemma time_ago_nonempty (m : pystr) : time_ago m -> m <> [].
Proof.
  intros (ds & w1 & u & w2 & -> & [Hne _] & _). destruct ds; [congruence|discriminate].
Qed.

Lemma time_only_nonempty (s : pystr) : time_only s -> s <> [].
Proof.
  intros (w0 & ds & w1 & u & w2 & ago & w3 & -> & _ & [Hne _] & _).
  destruct w0; [|discriminate]. destruct ds; [congruence|discriminate].
Qed.

(** ** The timing classifier *)

(** C7, as the code has it: [is_timeish text] holds exactly when the whole
    trimmed text is a number and a unit with the marker 前 optional, or a
    number, a unit and the marker 前 (here required) appear somewhere in
    the text; in particular it holds of "4 日". *)
Theorem C7_is_timeish_iff :
  (forall text : pystr,
      is_timeish text = true <->
      time_only (strip text) \/ exists m, substring m text /\ time_ago m)
  /\ is_timeish (lit "4 日") = true.
Proof.
  split; [|vm_compute; reflexivity].
  intros text. unfold is_timeish. destruct text as [|c text].
  - split; [discriminate|]. intros [H | (m & (pre & post & E) & H)].
    + apply time_only_nonempty in H. exfalso. apply H. reflexivity.
    + apply time_ago_nonempty in H. destruct pre; [|discriminate].
      destruct m; [congruence|discriminate].
  - rewrite <- matches_TIME_ONLY_RE, <- found_TIME_RE.
    destruct (matches TIME_ONLY_RE (strip (c :: text)));
      destruct (found TIME_RE (c :: text)); split; auto.
    intros [H|H]; discriminate.
Qed.

(** C7, as the claim words it, fails: in "A 4 日" a number and a unit
    without the marker appear, yet the text is not classified as a time
    expression. *)
Lemma C7_counterexample :
  is_timeish (lit "A 4 日") = false /\
  exists m, substring m (lit "A 4 日") /\ time_maybe_ago m.
Proof.
  split; [vm_compute; reflexivity|].
  exists (lit "4 日"). split.
  - exists (lit "A "), []. vm_compute. reflexivity.
  - exists (lit "4"), (lit " "), s_nichi, [], [].
    unfold number, all_space, time_unit.
    repeat split; try (vm_compute; reflexivity); auto.
Qed.

(** ** The deduplicating append *)

Lemma select_new_acc (articles : list article) (existing_urls : gset (list N))
      (acc : list (list (list N))) :
  List.fold_left select_step articles (existing_urls, acc)
  = (existing_urls,
     acc ++ (row_of <$> filter (fun a => url a ∉ existing_urls) articles)).
Proof.
  revert acc. induction articles as [|a articles IH]; intros acc; simpl.
  - rewrite app_nil_r. reflexivity.
  - rewrite filter_cons. destruct (decide (url a ∈ existing_urls)) as [Hin|Hout].
    + rewrite decide_False by (intros H; apply H; exact Hin). apply IH.
    + rewrite decide_True by exact Hout. rewrite IH.
      rewrite fmap_cons, <- app_assoc. reflexivity.
Qed.

(** C6: the rows selected for appending are those of exactly the candidates
    whose URL is not in the set of existing URLs, in their original order
    (a subsequence of the candidates), the set itself comes out as it went
    in, and a URL occurring twice in the batch is kept twice: with
    existing URLs {A, B} the candidates A, C, C, D give C, C, D. *)
Theorem C6_select_new_spec :
  (forall (articles : list article) (existing_urls : gset (list N)),
      snd (select_new articles existing_urls)
      = (row_of <$> filter (fun a => url a ∉ existing_urls) articles)
      /\ fst (select_new articles existing_urls) = existing_urls
      /\ snd (select_new articles existing_urls) `sublist_of` (row_of <$> articles))
  /\ (let art u := mk_article (lit "t") u (lit "d") (lit "p") in
      let A := lit "A" in let B := lit "B" in
      let C := lit "C" in let D := lit "D" in
      select_new [art A; art C; art C; art D] {[A; B]}
      = ({[A; B]}, row_of <$> [art C; art C; art D])).
Proof.
  assert (Hgen : forall (articles : list article) (existing_urls : gset (list N)),
      snd (select_new articles existing_urls)
      = (row_of <$> filter (fun a => url a ∉ existing_urls) articles)
      /\ fst (select_new articles existing_urls) = existing_urls
      /\ snd (select_new articles existing_urls) `sublist_of` (row_of <$> articles)).
  { intros articles existing_urls. unfold select_new.
    rewrite select_new_acc. simpl. split; [reflexivity|]. split; [reflexivity|].
    apply fmap_sublist. apply sublist_filter. }
  split; [exact Hgen|].
  intros art A B C D.
  destruct (Hgen [art A; art C; art C; art D] ({[A; B]} : gset (list N)))
    as (H1 & H2 & _).
  rewrite (surjective_pairing (select_new _ _)), H1, H2. f_equal.
Qed.

(** ** The retry loop of the store write *)

Lemma retry_after_failures (articles : list article) (key name : pystr) :
  forall (k n : nat) (w w' : world),
    rate_limited k articles key name w = Some w' ->
    retry (k + n) articles key name w = retry n articles key name w'.
Proof.
  induction k as [|k IH]; intros n w w' H; simpl in *.
  - injection H as ->. reflexivity.
  - unfold catch at 1.
    destruct (attempt articles key name w) as [[e|u] w1]; [|discriminate].
    destruct e; try discriminate. apply IH. exact H.
Qed.

Lemma bind_inr_inv {A B : Type} (m : M A) (k : A -> M B) (w w' : world) (x : B) :
  (m ≫= k) w = (inr x, w') ->
  exists y w1, m w = (inr y, w1) /\ k y w1 = (inr x, w').
Proof.
  unfold mbind, M_bind, bind. destruct (m w) as [[e|y] w1]; [discriminate|].
  intros H. eauto.
Qed.

Lemma catch_inr_inv {A : Type} (e : exn) (m h : M A) (w w' : world) (x : A) :
  catch e m h w = (inr x, w') ->
  m w = (inr x, w') \/ exists w1, m w = (inl e, w1) /\ h w1 = (inr x, w').
Proof.
  unfold catch. destruct (m w) as [[e'|y] w1]; [|auto].
  destruct e, e'; try discriminate; eauto.
Qed.

Lemma request_inr (w w1 : world) (u : unit) :
  request w = (inr u, w1) -> sheets w1 = sheets w.
Proof.
  unfold request. destruct (failures w) as [|[] fs]; intros H;
    try discriminate; injection H as _ <-; reflexivity.
Qed.

Lemma request_inl (w w1 : world) (e : exn) :
  request w = (inl e, w1) -> e = APIError /\ sheets w1 = sheets w.
Proof.
  unfold request. destruct (failures w) as [|[] fs]; intros H;
    try discriminate; injection H as <- <-; auto.
Qed.

Lemma worksheet_inr (key name : pystr) (w w1 : world) (u : unit) :
  worksheet key name w = (inr u, w1) ->
  sheets w1 = sheets w /\ is_Some (sheets w !! (key, name)).
Proof.
  unfold worksheet. intros H.
  apply bind_inr_inv in H as (u1 & w2 & Hr & H). apply request_inr in Hr.
  apply bind_inr_inv in H as (found & w3 & Hl & H).
  unfold lookup_sheet in Hl. injection Hl as <- <-.
  rewrite Hr in H. destruct (sheets w !! (key, name)) as [rows|]; [|discriminate].
  unfold mret, M_ret, ret in H. injection H as _ <-. split; [exact Hr|eauto].
Qed.

Lemma worksheet_not_found (key name : pystr) (w w1 : world) :
  worksheet key name w = (inl WorksheetNotFound, w1) ->
  sheets w1 = sheets w /\ sheets w !! (key, name) = None.
Proof.
  unfold worksheet, mbind, M_bind, bind. intros H.
  destruct (request w) as [[e|u] w2] eqn:Hr.
  - apply request_inl in Hr as [-> _]. discriminate.
  - apply request_inr in Hr. unfold lookup_sheet in H. simpl in H.
    rewrite Hr in H. destruct (sheets w !! (key, name)) as [rows|].
    + discriminate.
    + unfold raise in H. injection H as <-. auto.
Qed.

Lemma append_rows_inr (key name : pystr) (rows : list (list (list N)))
      (w w1 : world) (u : unit) :
  append_rows key name rows w = (inr u, w1) ->
  sheets w1 = <[(key, name) := default [] (sheets w !! (key, name)) ++ rows]> (sheets w).
Proof.
  unfold append_rows. intros H.
  apply bind_inr_inv in H as (u1 & w2 & Hr & H). apply request_inr in Hr.
  unfold update_sheets in H. injection H as _ <-. simpl. rewrite Hr. reflexivity.
Qed.

Lemma add_worksheet_inr (key name : pystr) (w w1 : world) (u : unit) :
  add_worksheet key name w = (inr u, w1) ->
  sheets w1 = <[(key, name) := []]> (sheets w).
Proof.
  unfold add_worksheet. intros H.
  apply bind_inr_inv in H as (u1 & w2 & Hr & H). apply request_inr in Hr.
  unfold update_sheets in H. injection H as _ <-. simpl. rewrite Hr. reflexivity.
Qed.

Lemma get_all_values_inr (key name : pystr) (w w1 : world)
      (rows : list (list (list N))) :
  get_all_values key name w = (inr rows, w1) ->
  sheets w1 = sheets w /\ rows = default [] (sheets w !! (key, name)).
Proof.
  unfold get_all_values. intros H.
  apply bind_inr_inv in H as (u1 & w2 & Hr & H). apply request_inr in Hr.
  apply bind_inr_inv in H as (found & w3 & Hl & H).
  unfold lookup_sheet in Hl. injection Hl as <- <-.
  unfold mret, M_ret, ret in H. injection H as <- <-. rewrite Hr. auto.
Qed.

(** What a run of the loop body that ends normally has done. *)
Lemma attempt_success (articles : list article) (key name : pystr) (w w' : world) :
  attempt articles key name w = (inr tt, w') ->
  let base := rows_before key name w in
  sheets w' !! (key, name)
  = Some (base ++ snd (select_new articles (existing_urls_of base)))
  /\ forall k, k <> (key, name) -> sheets w' !! k = sheets w !! k.
Proof.
  unfold attempt, open_by_key. intros H.
  apply bind_inr_inv in H as (u0 & w0 & H0 & H). apply request_inr in H0.
  apply bind_inr_inv in H as (u1 & w1 & H1 & H).
  assert (Hbase : sheets w1 !! (key, name) = Some (rows_before key name w)
                  /\ forall k, k <> (key, name) -> sheets w1 !! k = sheets w !! k).
  { apply catch_inr_inv in H1 as [H1 | (w2 & H1 & H2)].
    - apply worksheet_inr in H1 as [E [rows Hrows]]. rewrite E, H0.
      rewrite H0 in Hrows. unfold rows_before. rewrite Hrows. auto.
    - apply worksheet_not_found in H1 as [E Hnone]. rewrite H0 in *.
      apply bind_inr_inv in H2 as (u2 & w3 & Ha & H2).
      apply add_worksheet_inr in Ha. apply append_rows_inr in H2.
      rewrite H2, Ha, E. rewrite lookup_insert_eq. simpl.
      rewrite insert_insert_eq. rewrite lookup_insert_eq.
      unfold rows_before. rewrite Hnone. split; [reflexivity|].
      intros k Hk. apply lookup_insert_ne. congruence. }
  destruct Hbase as [Hb Hother]. cbv zeta.
  apply bind_inr_inv in H as (existing & w2 & Hg & H).
  apply get_all_values_inr in Hg as [E2 ->]. rewrite Hb in H. simpl in H.
  destruct (snd (select_new articles (existing_urls_of (rows_before key name w))))
    as [|r rs] eqn:Hnew.
  - unfold mret, M_ret, ret in H. injection H as <-. rewrite E2, app_nil_r. auto.
  - apply append_rows_inr in H. rewrite H, E2, Hb. simpl.
    rewrite lookup_insert_eq. split; [reflexivity|].
    intros k Hk. rewrite lookup_insert_ne by congruence. auto.
Qed.

Lemma bind_inl_inv {A B : Type} (m : M A) (k : A -> M B) (w w' : world) (e : exn) :
  (m ≫= k) w = (inl e, w') ->
  m w = (inl e, w') \/ exists y w1, m w = (inr y, w1) /\ k y w1 = (inl e, w').
Proof.
  unfold mbind, M_bind, bind. destruct (m w) as [[e'|y] w1]; intros H.
  - left. injection H as -> ->. reflexivity.
  - right. exists y, w1. auto.
Qed.

Lemma catch_inl_inv {A : Type} (e : exn) (m h : M A) (w w' : world) (e' : exn) :
  catch e m h w = (inl e', w') ->
  m w = (inl e', w') \/ exists w1, m w = (inl e, w1) /\ h w1 = (inl e', w').
Proof.
  unfold catch. destruct (m w) as [[e0|y] w1]; [|discriminate].
  destruct e, e0; eauto.
Qed.

Lemma append_rows_inl (key name : pystr) (rows : list (list (list N)))
      (w w1 : world) (e : exn) :
  append_rows key name rows w = (inl e, w1) -> sheets w1 = sheets w.
Proof.
  unfold append_rows. intros H.
  apply bind_inl_inv in H as [H | (u & w2 & _ & H)].
  - apply request_inl in H as [_ H]. exact H.
  - discriminate.
Qed.

Lemma add_worksheet_inl (key name : pystr) (w w1 : world) (e : exn) :
  add_worksheet key name w = (inl e, w1) -> sheets w1 = sheets w.
Proof.
  unfold add_worksheet. intros H.
  apply bind_inl_inv in H as [H | (u & w2 & _ & H)].
  - apply request_inl in H as [_ H]. exact H.
  - discriminate.
Qed.

Lemma get_all_values_inl (key name : pystr) (w w1 : world) (e : exn) :
  get_all_values key name w = (inl e, w1) -> sheets w1 = sheets w.
Proof.
  unfold get_all_values. intros H.
  apply bind_inl_inv in H as [H | (u & w2 & _ & H)].
  - apply request_inl in H as [_ H]. exact H.
  - apply bind_inl_inv in H as [H | (u' & w3 & _ & H)]; discriminate.
Qed.

Lemma worksheet_inl (key name : pystr) (w w1 : world) (e : exn) :
  worksheet key name w = (inl e, w1) -> sheets w1 = sheets w.
Proof.
  unfold worksheet. intros H.
  apply bind_inl_inv in H as [H | (u & w2 & Hr & H)].
  - apply request_inl in H as [_ H]. exact H.
  - apply request_inr in Hr.
    apply bind_inl_inv in H as [H | (found & w3 & Hl & H)]; [discriminate|].
    unfold lookup_sheet in Hl. injection Hl as _ <-.
    destruct found; [discriminate|]. unfold raise in H. injection H as _ <-.
    exact Hr.
Qed.

Lemma left_by_refusals_refl (o : option (list (list (list N)))) :
  left_by_refusals o o.
Proof. destruct o; simpl; auto. Qed.

Lemma attempt_refused (articles : list article) (key name : pystr) (w w' : world)
      (e : exn) :
  attempt articles key name w = (inl e, w') ->
  left_by_refusals (sheets w !! (key, name)) (sheets w' !! (key, name))
  /\ forall k, k <> (key, name) -> sheets w' !! k = sheets w !! k.
Proof.
  unfold attempt, open_by_key. intros H.
  apply bind_inl_inv in H as [H | (u0 & w0 & H0 & H)].
  { apply request_inl in H as [_ ->]. split; [apply left_by_refusals_refl|auto]. }
  apply request_inr in H0.
  assert (Hcreate : forall (w2 w3 : world) (x : exn + unit),
             sheets w2 = sheets w -> sheets w !! (key, name) = None ->
             (add_worksheet key name ≫= (fun _ => append_row key name HEADER)) w2
             = (x, w3) ->
             (sheets w3 !! (key, name) = None \/ sheets w3 !! (key, name) = Some []
              \/ sheets w3 !! (key, name) = Some [HEADER])
             /\ forall k, k <> (key, name) -> sheets w3 !! k = sheets w !! k).
  { intros w2 w3 x E Hnone Hx. destruct x as [e1|u1].
    - apply bind_inl_inv in Hx as [Hx | (u2 & w4 & Ha & Hx)].
      + apply add_worksheet_inl in Hx. rewrite Hx, E. auto.
      + apply add_worksheet_inr in Ha. apply append_rows_inl in Hx.
        rewrite Hx, Ha, E. rewrite lookup_insert_eq. split; [auto|].
        intros k Hk. apply lookup_insert_ne. congruence.
    - apply bind_inr_inv in Hx as (u2 & w4 & Ha & Hx).
      apply add_worksheet_inr in Ha. apply append_rows_inr in Hx.
      rewrite Hx, Ha, E. rewrite lookup_insert_eq. simpl.
      rewrite insert_insert_eq, lookup_insert_eq. split; [auto|].
      intros k Hk. apply lookup_insert_ne. congruence. }
  assert (Hrest : forall w1 : world,
             left_by_refusals (sheets w !! (key, name)) (sheets w1 !! (key, name)) ->
             (forall k, k <> (key, name) -> sheets w1 !! k = sheets w !! k) ->
             forall m : M unit,
               (m = (existing ← get_all_values key name;
                     match snd (select_new articles (existing_urls_of existing)) with
                     | _ :: _ =>
                       append_rows key name
                         (snd (select_new articles (existing_urls_of existing)))
                     | [] => mret tt
                     end)) ->
               m w1 = (inl e, w') ->
               left_by_refusals (sheets w !! (key, name)) (sheets w' !! (key, name))
               /\ forall k, k <> (key, name) -> sheets w' !! k = sheets w !! k).
  { intros w1 Hl Ho m -> Hm.
    apply bind_inl_inv in Hm as [Hm | (existing & w2 & Hg & Hm)].
    - apply get_all_values_inl in Hm. rewrite Hm. auto.
    - apply get_all_values_inr in Hg as [E _].
      destruct (snd (select_new articles (existing_urls_of existing))).
      + discriminate.
      + apply append_rows_inl in Hm. rewrite Hm, E. auto. }
  apply bind_inl_inv in H as [H | (u1 & w1 & H1 & H)].
  - apply catch_inl_inv in H as [H | (w2 & H1 & H2)].
    + apply worksheet_inl in H. rewrite H, H0.
      split; [apply left_by_refusals_refl|auto].
    + apply worksheet_not_found in H1 as [E Hnone]. rewrite H0 in E, Hnone.
      destruct (Hcreate _ _ _ E Hnone H2) as [Hk Ho].
      unfold left_by_refusals. rewrite Hnone. auto.
  - assert (Hl : left_by_refusals (sheets w !! (key, name)) (sheets w1 !! (key, name))
                 /\ forall k, k <> (key, name) -> sheets w1 !! k = sheets w !! k).
    { apply catch_inr_inv in H1 as [H1 | (w2 & H1 & H2)].
      - apply worksheet_inr in H1 as [E _]. rewrite E, H0.
        split; [apply left_by_refusals_refl|auto].
      - apply worksheet_not_found in H1 as [E Hnone]. rewrite H0 in E, Hnone.
        destruct (Hcreate _ _ _ E Hnone H2) as [Hk Ho].
        unfold left_by_refusals. rewrite Hnone. auto. }
    destruct Hl as [Hl Ho]. eapply (Hrest w1 Hl Ho); [reflexivity|exact H].
Qed.

Lemma left_by_refusals_trans (a b c : option (list (list (list N)))) :
  left_by_refusals a b -> left_by_refusals b c -> left_by_refusals a c.
Proof.
  unfold left_by_refusals. destruct a as [rows|].
  - intros ->. auto.
  - intros [-> | [-> | ->]]; auto.
Qed.

Lemma rate_limited_sheet (articles : list article) (key name : pystr) :
  forall (k : nat) (w w1 : world),
    rate_limited k articles key name w = Some w1 ->
    left_by_refusals (sheets w !! (key, name)) (sheets w1 !! (key, name))
    /\ forall k', k' <> (key, name) -> sheets w1 !! k' = sheets w !! k'.
Proof.
  induction k as [|k IH]; intros w w1 H; simpl in H.
  - injection H as <-. split; [apply left_by_refusals_refl|auto].
  - destruct (attempt articles key name w) as [[e|u] w0] eqn:Ha; [|discriminate].
    destruct e; try discriminate.
    apply attempt_refused in Ha as [Hl Ho]. apply IH in H as [Hl' Ho'].
    split; [eapply left_by_refusals_trans; eassumption|].
    intros k' Hk. rewrite Ho', Ho by exact Hk. reflexivity.
Qed.

(** C10: when the body of the write is refused with an API error five times
    in a row, [write_to_spreadsheet] ends with the terminal error; when it
    is refused fewer than five times and the next run goes through, no
    error is raised and the worksheet then holds its rows followed by the
    new rows, once (the rows it had at the start, or, for a worksheet the
    write had to create, the header row when that was written). *)
Theorem C10_write_retries (articles : list article) (key name : pystr) (w : world) :
  (forall w' : world,
      rate_limited 5 articles key name w = Some w' ->
      write_to_spreadsheet articles key name w = (inl RuntimeError, w'))
  /\
  (forall (k : nat) (w1 w2 : world),
      (k < 5)%nat ->
      rate_limited k articles key name w = Some w1 ->
      attempt articles key name w1 = (inr tt, w2) ->
      write_to_spreadsheet articles key name w = (inr tt, w2)
      /\ (exists base : list (list (list N)),
             sheets w2 !! (key, name)
             = Some (base ++ snd (select_new articles (existing_urls_of base)))
             /\ match sheets w !! (key, name) with
                | Some rows => base = rows
                | None => base = [] \/ base = [HEADER]
                end)
      /\ (forall k', k' <> (key, name) -> sheets w2 !! k' = sheets w !! k')).
Proof.
  unfold write_to_spreadsheet. split.
  - intros w' H.
    change (retry 5 articles key name w) with (retry (5 + 0) articles key name w).
    rewrite (retry_after_failures articles key name 5 0 w w' H). reflexivity.
  - intros k w1 w2 Hk Hfail Hok.
    replace 5%nat with (k + S (4 - k))%nat by lia.
    rewrite (retry_after_failures articles key name k _ w w1 Hfail).
    simpl. unfold catch. rewrite Hok. split; [reflexivity|].
    apply attempt_success in Hok as [Hrows Hother].
    apply rate_limited_sheet in Hfail as [Hl Ho].
    split.
    + exists (rows_before key name w1). split; [exact Hrows|].
      unfold rows_before, left_by_refusals in *.
      destruct (sheets w !! (key, name)) as [rows|].
      * rewrite Hl. reflexivity.
      * destruct Hl as [-> | [-> | ->]]; auto.
    + intros k' Hk'. rewrite Hother, Ho by exact Hk'. reflexivity.
Qed.

(** C10 at a store with no worksheet: five refusals in a row, and two
    refusals followed by a run that goes through. *)
Lemma C10_witness :
  let arts := [mk_article (lit "t") (lit "u") (lit "d") (lit "p")] in
  let key := lit "k" in
  let name := lit "Google" in
  write_to_spreadsheet arts key name (mk_world ∅ [true; true; true; true; true])
  = (inl RuntimeError, mk_world ∅ [])
  /\ write_to_spreadsheet arts key name (mk_world ∅ [true; true])
     = (inr tt, mk_world {[ (key, name) := [HEADER; row_of (mk_article (lit "t") (lit "u") (lit "d") (lit "p"))] ]} []).
Proof.
  intros arts key name. split.
  - apply (proj1 (C10_write_retries arts key name
                    (mk_world ∅ [true; true; true; true; true]))).
    vm_compute. reflexivity.
  - apply (proj2 (C10_write_retries arts key name (mk_world ∅ [true; true]))
                 2%nat (mk_world ∅ [])); [lia|vm_compute; reflexivity|].
    vm_compute. reflexivity.
Defined.

(** ** The calendar *)

Lemma forallb_range (f : Z -> bool) (len : nat) :
  List.forallb f (List.map Z.of_nat (List.seq 0 len)) = true ->
  forall n : Z, 0 <= n < Z.of_nat len -> f n = true.
Proof.
  intros H n Hn. rewrite forallb_forall in H. apply H.
  apply in_map_iff. exists (Z.to_nat n). split; [lia|].
  apply in_seq. lia.
Qed.

Lemma month_of_yday_correct (leapyear : bool) (n : Z) :
  0 <= n < 365 + (if leapyear then 1 else 0) ->
  month_of_yday_ok leapyear n = true.
Proof.
  intros Hn. destruct leapyear.
  - apply (forallb_range (month_of_yday_ok true) 366); [vm_compute; reflexivity|lia].
  - apply (forallb_range (month_of_yday_ok false) 365); [vm_compute; reflexivity|lia].
Qed.

Lemma is_leap_cycles (n400 n100 n4 n1 : Z) :
  0 <= n400 -> 0 <= n100 <= 3 -> 0 <= n4 <= 24 -> 0 <= n1 <= 3 ->
  is_leap (n400 * 400 + 1 + n100 * 100 + n4 * 4 + n1)
  = (n1 =? 3) && (negb (n4 =? 24) || (n100 =? 3)).
Proof.
  intros H400 H100 H4 H1. unfold is_leap.
  replace ((n400 * 400 + 1 + n100 * 100 + n4 * 4 + n1) mod 4) with ((n1 + 1) mod 4)
    by (Z.div_mod_to_equations; lia).
  replace ((n400 * 400 + 1 + n100 * 100 + n4 * 4 + n1) mod 100)
    with ((n4 * 4 + n1 + 1) mod 100) by (Z.div_mod_to_equations; lia).
  replace ((n400 * 400 + 1 + n100 * 100 + n4 * 4 + n1) mod 400)
    with ((n100 * 100 + n4 * 4 + n1 + 1) mod 400) by (Z.div_mod_to_equations; lia).
  destruct (n1 =? 3) eqn:E1; destruct (n4 =? 24) eqn:E4; destruct (n100 =? 3) eqn:E100;
    simpl; rewrite ?andb_true_iff, ?andb_false_iff, ?orb_true_iff, ?orb_false_iff,
             ?negb_true_iff, ?negb_false_iff, ?Z.eqb_eq, ?Z.eqb_neq in *;
    Z.div_mod_to_equations; lia.
Qed.

Lemma days_before_year_cycles (n400 n100 n4 n1 : Z) :
  0 <= n400 -> 0 <= n100 <= 3 -> 0 <= n4 <= 24 -> 0 <= n1 <= 3 ->
  days_before_year (n400 * 400 + 1 + n100 * 100 + n4 * 4 + n1)
  = n400 * DI400Y + n100 * DI100Y + n4 * DI4Y + n1 * 365.
Proof.
  intros H400 H100 H4 H1. unfold days_before_year, DI400Y, DI100Y, DI4Y. cbv zeta.
  Z.div_mod_to_equations. lia.
Qed.

(** [ord2ymd] yields a valid date, and [ymd2ord] takes it back to the
    ordinal. *)
Lemma ord2ymd_correct (n : Z) :
  1 <= n <= MAXORDINAL ->
  exists y m d, ord2ymd n = (y, m, d) /\ valid_date y m d = true /\ ymd2ord y m d = n.
Proof.
  unfold MAXORDINAL. intros Hn. unfold ord2ymd. cbv zeta.
  set (n0 := n - 1).
  set (n400 := n0 / DI400Y). set (r400 := n0 mod DI400Y).
  set (n100 := r400 / DI100Y). set (r100 := r400 mod DI100Y).
  set (n4 := r100 / DI4Y). set (r4 := r100 mod DI4Y).
  set (n1 := r4 / 365). set (nd := r4 mod 365).
  assert (E400 : n0 = n400 * 146097 + r400 /\ 0 <= r400 < 146097).
  { subst n400 r400. unfold DI400Y. Z.div_mod_to_equations. lia. }
  assert (E100 : r400 = n100 * 36524 + r100 /\ 0 <= r100 < 36524).
  { subst n100 r100. unfold DI100Y. Z.div_mod_to_equations. lia. }
  assert (E4 : r100 = n4 * 1461 + r4 /\ 0 <= r4 < 1461).
  { subst n4 r4. unfold DI4Y. Z.div_mod_to_equations. lia. }
  assert (E1 : r4 = n1 * 365 + nd /\ 0 <= nd < 365).
  { subst n1 nd. Z.div_mod_to_equations. lia. }
  clearbody n400 r400 n100 r100 n4 r4 n1 nd. subst n0.
  assert (B400 : 0 <= n400 <= 24) by lia.
  assert (B100 : 0 <= n100 <= 4) by lia.
  assert (B4 : 0 <= n4 <= 24) by lia.
  assert (B1 : 0 <= n1 <= 4) by lia.
  destruct ((n1 =? 4) || (n100 =? 4)) eqn:Hlast.
  - (* the last day of a leap year *)
    exists (n400 * 400 + 1 + n100 * 100 + n4 * 4 + n1 - 1), 12, 31.
    split; [reflexivity|].
    apply orb_true_iff in Hlast. rewrite !Z.eqb_eq in Hlast.
    assert (Hy : exists a b c e, 0 <= a /\ 0 <= b <= 3 /\ 0 <= c <= 24 /\ e = 3 /\
                 n400 * 400 + 1 + n100 * 100 + n4 * 4 + n1 - 1
                 = a * 400 + 1 + b * 100 + c * 4 + e
                 /\ (c <> 24 \/ b = 3)
                 /\ n - 366 = a * DI400Y + b * DI100Y + c * DI4Y + e * 365).
    { unfold DI400Y, DI100Y, DI4Y. destruct Hlast as [H1 | H100].
      - exists n400, n100, n4, 3. lia.
      - exists n400, 3, 24, 3. lia. }
    destruct Hy as (a & b & c & e & Ha & Hb & Hc & -> & -> & Hleap & Hdays).
    assert (Hl : is_leap (a * 400 + 1 + b * 100 + c * 4 + 3) = true).
    { rewrite is_leap_cycles by lia. rewrite Z.eqb_refl. simpl.
      apply orb_true_iff. rewrite negb_true_iff, Z.eqb_neq, Z.eqb_eq. exact Hleap. }
    split.
    + unfold valid_date, days_in_month, MINYEAR, MAXYEAR. rewrite Hl. simpl.
      rewrite !andb_true_iff, !Z.leb_le. unfold DI400Y, DI100Y, DI4Y in Hdays. lia.
    + unfold ymd2ord, days_before_month. rewrite Hl.
      rewrite days_before_year_cycles by lia. simpl. lia.
  - apply orb_false_iff in Hlast. rewrite !Z.eqb_neq in Hlast.
    set (leapyear := (n1 =? 3) && (negb (n4 =? 24) || (n100 =? 3))).
    assert (Hl : is_leap (n400 * 400 + 1 + n100 * 100 + n4 * 4 + n1) = leapyear).
    { apply is_leap_cycles; lia. }
    pose proof (month_of_yday_correct leapyear nd) as Hmd.
    unfold month_of_yday_ok in Hmd.
    destruct (month_of_yday leapyear nd) as [m d].
    exists (n400 * 400 + 1 + n100 * 100 + n4 * 4 + n1), m, d.
    split; [reflexivity|].
    assert (Hnd : 0 <= nd < 365 + (if leapyear then 1 else 0))
      by (destruct leapyear; lia).
    specialize (Hmd Hnd).
    rewrite !andb_true_iff, !Z.leb_le, Z.eqb_eq in Hmd.
    destruct Hmd as ((((Hm1 & Hm2) & Hd1) & Hd2) & Hsum).
    split.
    + unfold valid_date, days_in_month, MINYEAR, MAXYEAR. rewrite Hl.
      rewrite !andb_true_iff, !Z.leb_le. lia.
    + unfold ymd2ord, days_before_month. rewrite Hl.
      rewrite days_before_year_cycles by lia.
      unfold DI400Y, DI100Y, DI4Y. lia.
Qed.

Lemma valid_date_ordinal (y m d : Z) :
  valid_date y m d = true -> 1 <= ymd2ord y m d <= MAXORDINAL.
Proof.
  unfold valid_date, MINYEAR, MAXYEAR, MAXORDINAL.
  rewrite !andb_true_iff, !Z.leb_le. intros (((((Hy1 & Hy2) & Hm1) & Hm2) & Hd1) & Hd2).
  unfold ymd2ord, days_before_month, days_in_month in *.
  assert (Hby : 0 <= days_before_year y <= 3651694
                /\ (y = 9999 -> is_leap y = false)
                /\ (y <= 9998 -> days_before_year y <= 3651329)).
  { clear Hd1 Hd2 Hm1 Hm2. unfold days_before_year. cbv zeta.
    split; [Z.div_mod_to_equations; lia|].
    split; [intros ->; vm_compute; reflexivity|].
    intros Hle. Z.div_mod_to_equations. lia. }
  destruct Hby as (Hb1 & Hb2 & Hb3).
  assert (Hm : m = 1 \/ m = 2 \/ m = 3 \/ m = 4 \/ m = 5 \/ m = 6 \/ m = 7 \/ m = 8
               \/ m = 9 \/ m = 10 \/ m = 11 \/ m = 12) by lia.
  destruct (Z.eq_dec y 9999) as [-> | Hne].
  - rewrite Hb2 in * by reflexivity.
    repeat (destruct Hm as [-> | Hm]; [simpl in *; lia|]). subst m. simpl in *. lia.
  - assert (Hle : days_before_year y <= 3651329) by (apply Hb3; lia).
    destruct (is_leap y);
      repeat (destruct Hm as [-> | Hm]; [simpl in *; lia|]); subst m; simpl in *; lia.
Qed.

Lemma timedelta_new_spec (d h mi s us : Z) (t : timedelta) :
  timedelta_new d h mi s us = Some t ->
  td_normal t /\
  td_us t = (((d * 24 + h) * 60 + mi) * 60 + s) * US_PER_SECOND + us.
Proof.
  unfold timedelta_new, td_normal, td_us, US_PER_DAY, US_PER_SECOND. cbv zeta.
  destruct (Z.abs _ <=? 999999999) eqn:Hb; [|discriminate].
  intros H. injection H as <-. simpl. apply Z.leb_le in Hb.
  split; [|Z.div_mod_to_equations; lia].
  split; [Z.div_mod_to_equations; lia|].
  split; [Z.div_mod_to_equations; lia|exact Hb].
Qed.

Lemma timedelta_new_some (d h mi s us : Z) :
  Z.abs ((((d * 24 + h) * 60 + mi) * 60 + s) * US_PER_SECOND + us)
  < 999999999 * US_PER_DAY ->
  exists t, timedelta_new d h mi s us = Some t.
Proof.
  unfold timedelta_new, US_PER_DAY, US_PER_SECOND. cbv zeta. intros H.
  destruct (Z.abs _ <=? 999999999) eqn:Hb; [eauto|].
  apply Z.leb_gt in Hb. exfalso. revert Hb H.
  Z.div_mod_to_equations. lia.
Qed.

(** A sum that [datetime_add] returns is a valid [datetime], the given
    length of time away from the one it was added to. *)
Lemma datetime_add_sound (dt dt' : datetime) (t : timedelta) :
  td_normal t ->
  datetime_add dt t = Some dt' ->
  valid_datetime dt' = true /\ us_of dt' = us_of dt + td_us t.
Proof.
  intros Ht. unfold datetime_add.
  destruct (timedelta_new (toordinal dt) (hour dt) (minute dt) (second dt)
                          (microsecond dt)) as [delta0|] eqn:H0; [|discriminate].
  simpl. unfold timedelta_add.
  destruct (timedelta_new (td_days delta0 + td_days t) 0 0
              (td_seconds delta0 + td_seconds t)
              (td_microseconds delta0 + td_microseconds t)) as [delta|] eqn:H1;
    [|discriminate].
  simpl. apply timedelta_new_spec in H0 as [N0 U0].
  apply timedelta_new_spec in H1 as [N1 U1].
  destruct ((0 <? td_days delta) && (td_days delta <=? MAXORDINAL)) eqn:Hr;
    [|discriminate].
  apply andb_true_iff in Hr as [Hr1 Hr2]. apply Z.ltb_lt in Hr1. apply Z.leb_le in Hr2.
  destruct (ord2ymd_correct (td_days delta)) as (y & m & d & E & Hv & Ho); [lia|].
  rewrite E. intros H. injection H as <-.
  unfold td_normal, td_us, US_PER_SECOND in *.
  split.
  - unfold valid_datetime, valid_time. simpl. rewrite Hv. simpl.
    rewrite !andb_true_iff, !Z.leb_le. Z.div_mod_to_equations. lia.
  - unfold us_of, toordinal, US_PER_SECOND in *. simpl. rewrite Ho.
    Z.div_mod_to_equations. lia.
Qed.

Lemma datetime_sub_sound (dt dt' : datetime) (t : timedelta) :
  td_normal t ->
  datetime_sub dt t = Some dt' ->
  valid_datetime dt' = true /\ us_of dt' = us_of dt - td_us t.
Proof.
  intros Ht. unfold datetime_sub, timedelta_neg.
  destruct (timedelta_new (- td_days t) 0 0 (- td_seconds t) (- td_microseconds t))
    as [t'|] eqn:Hn; [|discriminate].
  simpl. apply timedelta_new_spec in Hn as [Hn Hu]. intros H.
  apply (datetime_add_sound dt dt' t' Hn) in H as [Hv H].
  split; [exact Hv|]. rewrite H, Hu. unfold td_us, US_PER_SECOND. lia.
Qed.

Lemma valid_datetime_us (dt : datetime) :
  valid_datetime dt = true ->
  US_PER_DAY <= us_of dt < (MAXORDINAL + 1) * US_PER_DAY
  /\ 0 <= hour dt <= 23 /\ 0 <= minute dt <= 59 /\ 0 <= second dt <= 59
  /\ 0 <= microsecond dt <= 999999.
Proof.
  unfold valid_datetime, valid_time. rewrite !andb_true_iff, !Z.leb_le.
  intros (Hd & Ht). apply valid_date_ordinal in Hd.
  unfold us_of, toordinal, US_PER_DAY, US_PER_SECOND, MAXORDINAL in *. lia.
Qed.

(** A sum inside the range of [datetime] is returned. *)
Lemma datetime_add_complete (dt : datetime) (t : timedelta) :
  valid_datetime dt = true -> td_normal t ->
  US_PER_DAY <= us_of dt + td_us t < (MAXORDINAL + 1) * US_PER_DAY ->
  exists dt', datetime_add dt t = Some dt'.
Proof.
  intros Hv Ht Hr. apply valid_datetime_us in Hv as (Hus & Hh & Hm & Hs & Hu).
  unfold datetime_add.
  destruct (timedelta_new_some (toordinal dt) (hour dt) (minute dt) (second dt)
                               (microsecond dt)) as [delta0 H0].
  { unfold us_of, US_PER_DAY, US_PER_SECOND, MAXORDINAL in *. lia. }
  rewrite H0. simpl. apply timedelta_new_spec in H0 as [N0 U0].
  unfold timedelta_add.
  destruct (timedelta_new_some (td_days delta0 + td_days t) 0 0
              (td_seconds delta0 + td_seconds t)
              (td_microseconds delta0 + td_microseconds t)) as [delta H1].
  { unfold td_us, us_of, US_PER_DAY, US_PER_SECOND, MAXORDINAL in *. lia. }
  rewrite H1. simpl. apply timedelta_new_spec in H1 as [N1 U1].
  assert (Hd : 0 < td_days delta <= MAXORDINAL).
  { unfold td_normal, td_us, us_of, US_PER_DAY, US_PER_SECOND, MAXORDINAL in *. lia. }
  destruct Hd as [Hd1 Hd2].
  apply Z.ltb_lt in Hd1. apply Z.leb_le in Hd2. rewrite Hd1, Hd2. simpl.
  destruct (ord2ymd (td_days delta)) as [[y m] d]. eauto.
Qed.

Lemma datetime_sub_complete (dt : datetime) (t : timedelta) :
  valid_datetime dt = true -> td_normal t ->
  US_PER_DAY <= us_of dt - td_us t < (MAXORDINAL + 1) * US_PER_DAY ->
  exists dt', datetime_sub dt t = Some dt'.
Proof.
  intros Hv Ht Hr. unfold datetime_sub, timedelta_neg.
  pose proof (valid_datetime_us dt Hv) as (Hus & _).
  destruct (timedelta_new_some (- td_days t) 0 0 (- td_seconds t)
                               (- td_microseconds t)) as [t' Hn].
  { unfold td_us, US_PER_DAY, US_PER_SECOND, MAXORDINAL in *. lia. }
  rewrite Hn. simpl. apply timedelta_new_spec in Hn as [Hn Hu].
  apply datetime_add_complete; [exact Hv|exact Hn|].
  rewrite Hu. unfold td_us, US_PER_SECOND in *. lia.
Qed.

(** ** Rendering *)

Lemma ascii_digit_of (x : Z) : ascii_digit (Z.to_N (48 + x mod 10)) = true.
Proof.
  unfold ascii_digit, in_range. apply andb_true_iff.
  rewrite !N.leb_le. pose proof (Z.mod_pos_bound x 10). lia.
Qed.

Lemma digits_of_2 (n : Z) :
  digits_of 2 n = [Z.to_N (48 + (n / 10) mod 10); Z.to_N (48 + n mod 10)].
Proof. reflexivity. Qed.

Lemma digits_of_4 (n : Z) :
  digits_of 4 n
  = [Z.to_N (48 + (n / 10 / 10 / 10) mod 10); Z.to_N (48 + (n / 10 / 10) mod 10);
     Z.to_N (48 + (n / 10) mod 10); Z.to_N (48 + n mod 10)].
Proof. reflexivity. Qed.

Lemma strftime_Y_four (y : Z) : 1000 <= y -> strftime_Y y = digits_of 4 y.
Proof.
  intros H. unfold strftime_Y.
  destruct (y <? 10) eqn:E1; [apply Z.ltb_lt in E1; lia|].
  destruct (y <? 100) eqn:E2; [apply Z.ltb_lt in E2; lia|].
  destruct (y <? 1000) eqn:E3; [apply Z.ltb_lt in E3; lia|reflexivity].
Qed.

(** From the year 1000 on the rendering has the shape YYYY/MM/DD HH:MM. *)
Lemma is_formatted_format (dt : datetime) :
  1000 <= year dt -> is_formatted (format_datetime dt) = true.
Proof.
  intros Hy. unfold format_datetime. rewrite (strftime_Y_four _ Hy).
  rewrite !digits_of_2, digits_of_4.
  cbn [app is_formatted]. rewrite !ascii_digit_of. reflexivity.
Qed.

(** Before the year 1000 it is shorter. *)
Lemma is_formatted_short_year (dt : datetime) :
  year dt < 1000 -> is_formatted (format_datetime dt) = false.
Proof.
  intros Hy. unfold format_datetime, strftime_Y.
  destruct (year dt <? 10); [reflexivity|].
  destruct (year dt <? 100); [reflexivity|].
  destruct (year dt <? 1000) eqn:E3; [reflexivity|].
  apply Z.ltb_ge in E3. lia.
Qed.

Lemma is_formatted_iff (dt : datetime) :
  is_formatted (format_datetime dt) = true <-> 1000 <= year dt.
Proof.
  split.
  - intros H. destruct (Z.lt_ge_cases (year dt) 1000) as [Hlt | Hge]; [|exact Hge].
    rewrite (is_formatted_short_year dt Hlt) in H. discriminate.
  - apply is_formatted_format.
Qed.

Lemma timestamp_format (dt : datetime) :
  valid_datetime dt = true -> timestamp (format_datetime dt).
Proof.
  intros H. exists dt. split; [exact H|]. split; [reflexivity|apply is_formatted_iff].
Qed.

Lemma UNAVAILABLE_not_formatted : is_formatted UNAVAILABLE = false.
Proof. reflexivity. Qed.

(** ** Character classes *)

Lemma is_space_cases (c : N) :
  is_space c = true ->
  In c [0x9; 0xA; 0xB; 0xC; 0xD; 0x1C; 0x1D; 0x1E; 0x1F; 0x20; 0x85; 0xA0; 0x1680;
        0x2000; 0x2001; 0x2002; 0x2003; 0x2004; 0x2005; 0x2006; 0x2007; 0x2008;
        0x2009; 0x200A; 0x2028; 0x2029; 0x202F; 0x205F; 0x3000]%N.
Proof.
  unfold is_space. rewrite !orb_true_iff, !andb_true_iff, !N.leb_le, !N.eqb_eq.
  cbn [In]. lia.
Qed.

Lemma space_not_digit (c : N) : is_space c = true -> is_digit c = false.
Proof.
  intros Hs. apply is_space_cases in Hs.
  cbn [In] in Hs.
  repeat (destruct Hs as [<- | Hs]; [vm_compute; reflexivity|]).
  destruct Hs.
Qed.

Lemma digit_not_space (c : N) : is_digit c = true -> is_space c = false.
Proof.
  intros Hd. destruct (is_space c) eqn:Hs; [|reflexivity].
  apply space_not_digit in Hs. congruence.
Qed.

Lemma decimal_in_bound (runs : list N) (c v : N) :
  decimal_in runs c = Some v -> (v < 10)%N.
Proof.
  induction runs as [|a runs IH]; simpl; [discriminate|].
  destruct ((a <=? c)%N && (c <? a + 10)%N) eqn:E; [|exact IH].
  apply andb_true_iff in E as [E1 E2]. apply N.leb_le in E1. apply N.ltb_lt in E2.
  intros H. injection H as <-. lia.
Qed.

Lemma decimal_bound (c v : N) : decimal c = Some v -> (v < 10)%N.
Proof. apply decimal_in_bound. Qed.

Lemma ascii_digit_decimal (c : N) :
  ascii_digit c = true -> decimal c = Some (c - 48)%N.
Proof.
  unfold ascii_digit, in_range. rewrite andb_true_iff, !N.leb_le. intros [H1 H2].
  unfold decimal, decimal_runs. cbn [decimal_in].
  replace ((48 <=? c)%N && (c <? 48 + 10)%N) with true; [reflexivity|].
  symmetry. apply andb_true_iff. rewrite N.leb_le, N.ltb_lt. lia.
Qed.

Lemma ascii_digit_is_digit (c : N) : ascii_digit c = true -> is_digit c = true.
Proof. intros H. unfold is_digit. rewrite (ascii_digit_decimal c H). reflexivity. Qed.

(** ** Trimming *)

Lemma lstrip_by_id (p : N -> bool) (s : pystr) :
  List.forallb (fun c => negb (p c)) s = true -> lstrip_by p s = s.
Proof.
  destruct s as [|c s]; simpl; [reflexivity|].
  intros H. apply andb_true_iff in H as [H _]. apply negb_true_iff in H.
  rewrite H. reflexivity.
Qed.

Lemma strip_by_id (p : N -> bool) (s : pystr) :
  List.forallb (fun c => negb (p c)) s = true -> strip_by p s = s.
Proof.
  intros H. unfold strip_by, rstrip_by. rewrite (lstrip_by_id p s H).
  rewrite lstrip_by_id; [apply rev_involutive|].
  rewrite forallb_forall in *. intros c Hc. apply H. apply in_rev. exact Hc.
Qed.

Lemma strip_digits (ds : pystr) : List.forallb is_digit ds = true -> strip ds = ds.
Proof.
  intros H. apply strip_by_id. rewrite forallb_forall in *.
  intros c Hc. apply negb_true_iff. apply digit_not_space. apply H. exact Hc.
Qed.

Lemma py_int_digits (ds : pystr) (n : Z) :
  number ds -> (length ds <= INT_MAX_STR_DIGITS)%nat ->
  int_digits 0 ds = Some n -> py_int ds = Some n.
Proof.
  intros [Hne Hall] Hlen Hn. unfold py_int. rewrite (strip_digits ds Hall).
  destruct ds as [|c ds]; [congruence|].
  destruct (INT_MAX_STR_DIGITS <? length (c :: ds))%nat eqn:E; [|exact Hn].
  apply Nat.ltb_lt in E. lia.
Qed.

(** ** The time parser *)

Lemma existsb_digit_of_number (ds pre post : pystr) :
  number ds -> List.existsb is_digit (pre ++ ds ++ post) = true.
Proof.
  intros [Hne Hall]. destruct ds as [|c ds]; [congruence|].
  simpl in Hall. apply andb_true_iff in Hall as [Hc _].
  rewrite !existsb_app. simpl. rewrite Hc. simpl. apply orb_true_r.
Qed.

Lemma no_digit_no_number (l : pystr) :
  List.existsb is_digit l = false -> search_group0 DIGITS_RE l = None.
Proof.
  intros H. unfold search_group0.
  destruct (re_search DIGITS_RE l) as [[i n]|] eqn:E; [|reflexivity].
  assert (Hf : found DIGITS_RE l = true) by (unfold found; rewrite E; reflexivity).
  apply found_iff in Hf as (pre & m & post & -> & HM).
  apply Matches_Plus in HM.
  rewrite (existsb_digit_of_number m pre post HM) in H. discriminate.
Qed.

(** A result of subtracting a whole number of minutes, hours or days. *)
Lemma relative_result_timestamp (m : pystr) (now : datetime)
      (d h mi : Z -> Z) (r : pystr) :
  (n ← py_int m; delta ← timedelta_new (d n) (h n) (mi n) 0 0;
   dt ← datetime_sub now delta; Some (format_datetime dt)) = Some r ->
  timestamp r.
Proof.
  intros H.
  apply bind_Some in H as (n & _ & H).
  apply bind_Some in H as (delta & Hd & H).
  apply bind_Some in H as (dt & Hs & H).
  injection H as <-. apply timedelta_new_spec in Hd as [Hd _].
  apply (datetime_sub_sound now dt delta Hd) in Hs as [Hv _].
  apply timestamp_format. exact Hv.
Qed.

Lemma datetime_new_valid (y m d h mi s us : Z) (dt : datetime) :
  datetime_new y m d h mi s us = Some dt ->
  valid_datetime dt = true /\ dt = mk_datetime y m d h mi s us.
Proof.
  unfold datetime_new.
  destruct (valid_date y m d && valid_time h mi s us) eqn:E; [|discriminate].
  intros H. injection H as <-. unfold valid_datetime. simpl. auto.
Qed.

Lemma strptime_HM_valid (s : pystr) (h mi : Z) :
  strptime_HM s = Some (h, mi) -> valid_time h mi 0 0 = true.
Proof.
  unfold strptime_HM. intros H.
  apply bind_Some in H as ([tH tM] & _ & H).
  apply bind_Some in H as (h0 & _ & H).
  apply bind_Some in H as (mi0 & _ & H).
  apply bind_Some in H as (dt & Hn & H).
  apply datetime_new_valid in Hn as [Hv ->]. injection H as <- <-.
  unfold valid_datetime in Hv. apply andb_true_iff in Hv as [_ Hv]. exact Hv.
Qed.

Lemma combine_valid (now : datetime) (h mi : Z) :
  valid_datetime now = true -> valid_time h mi 0 0 = true ->
  valid_datetime (combine_date_time now h mi) = true.
Proof.
  unfold valid_datetime, combine_date_time. simpl.
  intros H Ht. apply andb_true_iff in H as [Hd _]. rewrite Hd, Ht. reflexivity.
Qed.

(** Every result of the [try] block is a timestamp. *)
Lemma parse_relative_time_try_timestamp (l : pystr) (now : datetime) (r : pystr) :
  valid_datetime now = true ->
  parse_relative_time_try l now = Some r -> timestamp r.
Proof.
  intros Hnow. unfold parse_relative_time_try.
  destruct (contains l s_fun_mae || contains l s_minute).
  { destruct (search_group0 DIGITS_RE l) as [m|]; [|discriminate].
    apply (relative_result_timestamp m now (fun _ => 0) (fun _ => 0) (fun n => n)). }
  destruct (contains l s_jikan_mae || contains l s_hour).
  { destruct (search_group0 DIGITS_RE l) as [m|]; [|discriminate].
    apply (relative_result_timestamp m now (fun _ => 0) (fun n => n) (fun _ => 0)). }
  destruct (contains l s_nichi_mae || contains l s_day).
  { destruct (search_group0 DIGITS_RE l) as [m|]; [|discriminate].
    apply (relative_result_timestamp m now (fun n => n) (fun _ => 0) (fun _ => 0)). }
  destruct (matches MONTH_DAY_RE l).
  { intros H. apply bind_Some in H as (dt0 & _ & H).
    apply bind_Some in H as (dt & Hr & H). injection H as <-.
    unfold replace_year in Hr. apply datetime_new_valid in Hr as [Hv _].
    apply timestamp_format. exact Hv. }
  destruct (matches YMD_RE l).
  { intros H. apply bind_Some in H as (dt & Hs & H). injection H as <-.
    unfold strptime_Ymd in Hs.
    apply bind_Some in Hs as ([[tY tm] td] & _ & Hs).
    apply bind_Some in Hs as (y & _ & Hs).
    apply bind_Some in Hs as (m & _ & Hs).
    apply bind_Some in Hs as (d & _ & Hs).
    apply datetime_new_valid in Hs as [Hv _].
    apply timestamp_format. exact Hv. }
  destruct (matches HM_RE l); [|discriminate].
  intros H. apply bind_Some in H as ([h mi] & Hs & H).
  apply strptime_HM_valid in Hs.
  pose proof (combine_valid now h mi Hnow Hs) as Hc.
  destruct (datetime_gt (combine_date_time now h mi) now).
  - apply bind_Some in H as (delta & Hd & H).
    apply bind_Some in H as (dt' & Hsub & H). injection H as <-.
    apply timedelta_new_spec in Hd as [Hd _].
    apply (datetime_sub_sound _ dt' delta Hd) in Hsub as [Hv _].
    apply timestamp_format. exact Hv.
  - injection H as <-. apply timestamp_format. exact Hc.
Qed.

Lemma parse_relative_time_cases {R : PyRuntime} (label : pystr) (now : datetime) :
  valid_datetime now = true ->
  parse_relative_time label now = UNAVAILABLE
  \/ timestamp (parse_relative_time label now).
Proof.
  intros Hnow. unfold parse_relative_time. destruct label as [|c label]; [auto|].
  destruct (parse_relative_time_try _ now) as [r|] eqn:E; [|auto].
  right. eapply parse_relative_time_try_timestamp; eassumption.
Qed.

Lemma star_exec_greedy {A : Type} (p : N -> bool)
      (k : option N -> pystr -> option A) (ds post : pystr) (x : A) :
  forall prev : option N,
    List.forallb p ds = true ->
    match post with [] => True | c :: _ => p c = false end ->
    k (last_cp prev ds) post = Some x ->
    star_exec p k prev (ds ++ post) = Some x.
Proof.
  induction ds as [|c ds IH]; intros prev Hall Hpost Hk; simpl in *.
  - destruct post as [|c post]; simpl; [exact Hk|]. rewrite Hpost. exact Hk.
  - apply andb_true_iff in Hall as [Hc Hall]. rewrite Hc.
    rewrite (IH (Some c) Hall Hpost Hk). reflexivity.
Qed.

Lemma match_at_Plus_run (p : N -> bool) (prev : option N) (ds post : pystr) :
  ds <> [] -> List.forallb p ds = true ->
  match post with [] => True | c :: _ => p c = false end ->
  match_at (Plus p) prev (ds ++ post) = Some (length ds).
Proof.
  intros Hne Hall Hpost. destruct ds as [|c ds]; [congruence|].
  simpl in Hall. apply andb_true_iff in Hall as [Hc Hall].
  unfold match_at, Plus. cbn [exec app]. rewrite Hc.
  apply star_exec_greedy; [exact Hall|exact Hpost|].
  f_equal. cbn [length]. rewrite length_app. lia.
Qed.

Lemma match_at_Plus_fail (p : N -> bool) (prev : option N) (c : N) (s : pystr) :
  p c = false -> match_at (Plus p) prev (c :: s) = None.
Proof. intros H. unfold match_at, Plus. cbn [exec]. rewrite H. reflexivity. Qed.

Lemma search_from_Plus_skip (p : N -> bool) (pre s : pystr) :
  forall (prev : option N) (i : nat),
    List.existsb p pre = false -> s <> [] ->
    search_from (Plus p) prev (pre ++ s) i
    = search_from (Plus p) (last_cp prev pre) s (i + length pre).
Proof.
  induction pre as [|c pre IH]; intros prev i Hpre Hs; simpl.
  - rewrite Nat.add_0_r. destruct s; reflexivity.
  - simpl in Hpre. apply orb_false_iff in Hpre as [Hc Hpre].
    change (match_at (Plus p) prev (c :: pre ++ s)) with
        (match_at (Plus p) prev (c :: (pre ++ s))).
    rewrite (match_at_Plus_fail p prev c (pre ++ s) Hc).
    rewrite (IH (Some c) (S i) Hpre Hs). f_equal. lia.
Qed.

(** The first number of a label is what the search for [(\d+)] captures. *)
Lemma search_first_number (l ds : pystr) :
  first_number l ds -> search_group0 DIGITS_RE l = Some ds.
Proof.
  intros (pre & post & -> & Hpre & [Hne Hall] & Hpost).
  unfold search_group0, re_search, DIGITS_RE.
  rewrite search_from_Plus_skip; [|exact Hpre|destruct ds; [congruence|discriminate]].
  assert (E : search_from (Plus is_digit) (last_cp None pre) (ds ++ post)
                          (0 + length pre)
              = Some ((0 + length pre)%nat, length ds)).
  { destruct ds as [|d ds]; [congruence|].
    cbn [search_from app].
    change (d :: ds ++ post) with ((d :: ds) ++ post).
    rewrite match_at_Plus_run; [reflexivity|discriminate|exact Hall|exact Hpost]. }
  rewrite E. f_equal. rewrite Nat.add_0_l.
  rewrite drop_app_length, take_app_length. reflexivity.
Qed.

Lemma minutes_of_us (dt : datetime) :
  us_of dt = (minutes_of dt * 60 + second dt) * US_PER_SECOND + microsecond dt.
Proof. reflexivity. Qed.

(** C3, as the code has it: for a label of the form "N minutes ago" (it
    contains 分前 or the word minute, and its first number spells N > 0
    with no more than 4300 digits) and a reference time at least N
    minutes after 0001/01/01 00:00, [parse_relative_time] returns the
    rendering of the time N minutes before the reference time; the
    rendering has the shape YYYY/MM/DD HH:MM exactly when that time is in
    the year 1000 or later, an earlier year being written without leading
    zeros. *)
Theorem C3_minutes_ago {R : PyRuntime} (label ds : pystr) (now : datetime) (n : Z) :
  label <> [] ->
  minutes_ago_label (str_lower (strip label)) ds ->
  (length ds <= INT_MAX_STR_DIGITS)%nat ->
  int_digits 0 ds = Some n -> 0 < n ->
  valid_datetime now = true ->
  1440 <= minutes_of now - n ->
  exists dt,
    parse_relative_time label now = format_datetime dt
    /\ (is_formatted (format_datetime dt) = true <-> 1000 <= year dt)
    /\ valid_datetime dt = true
    /\ minutes_of dt = minutes_of now - n
    /\ second dt = second now /\ microsecond dt = microsecond now.
Proof.
  intros Hlabel [Hkw Hnum] Hlen Hint Hpos Hnow Hrange.
  unfold parse_relative_time. destruct label as [|c0 label]; [congruence|].
  set (l := str_lower (strip (c0 :: label))) in *.
  unfold parse_relative_time_try.
  replace (contains l s_fun_mae || contains l s_minute) with true
    by (symmetry; apply orb_true_iff; exact Hkw).
  rewrite (search_first_number l ds Hnum).
  assert (Hds : number ds) by (destruct Hnum as (? & ? & _ & _ & H & _); exact H).
  rewrite (py_int_digits ds n Hds Hlen Hint). cbn [mbind option_bind].
  pose proof (valid_datetime_us now Hnow) as (Hus & Hh & Hm & Hs & Hu).
  rewrite minutes_of_us in Hus.
  destruct (timedelta_new_some 0 0 n 0 0) as [delta Hd].
  { unfold US_PER_DAY, US_PER_SECOND, MAXORDINAL in *. lia. }
  rewrite Hd. cbn [mbind option_bind]. apply timedelta_new_spec in Hd as [Hdn Hdu].
  destruct (datetime_sub_complete now delta Hnow Hdn) as [dt Hsub].
  { rewrite Hdu, minutes_of_us.
    unfold US_PER_DAY, US_PER_SECOND, MAXORDINAL in *. lia. }
  rewrite Hsub. cbn [mbind option_bind]. exists dt. split; [reflexivity|].
  split; [apply is_formatted_iff|].
  apply (datetime_sub_sound now dt delta Hdn) in Hsub as [Hv Hsub].
  split; [exact Hv|].
  pose proof (valid_datetime_us dt Hv) as (_ & _ & _ & Hs' & Hu').
  rewrite Hdu, !minutes_of_us in Hsub. unfold US_PER_SECOND in *. lia.
Qed.

(** C3 at "5分前" and at "45 Minutes ago". *)
Lemma C3_witness :
  let now := mk_datetime 2024 3 1 0 30 15 7 in
  (exists dt, parse_relative_time (R := ascii_runtime) (lit "5分前") now
              = format_datetime dt /\ minutes_of dt = minutes_of now - 5)
  /\ parse_relative_time (R := ascii_runtime) (lit "5分前") now
     = lit "2024/03/01 00:25".
Proof.
  intros now.
  destruct (C3_minutes_ago (R := ascii_runtime) (lit "5分前") (lit "5") now 5)
    as (dt & H1 & _ & _ & H2 & _).
  - vm_compute. discriminate.
  - split; [left; vm_compute; reflexivity|].
    exists [], s_fun_mae. repeat split; vm_compute; congruence.
  - vm_compute. lia.
  - vm_compute. reflexivity.
  - lia.
  - reflexivity.
  - vm_compute. discriminate.
  - split; [exists dt; auto|]. vm_compute. reflexivity.
Defined.

(** C3, as the claim words it, fails: [now] can be less than N minutes
    after the first representable time; the subtraction then overflows,
    the exception is swallowed and the sentinel comes back. *)
Lemma C3_counterexample :
  let now := mk_datetime 2024 3 1 0 30 15 7 in
  let label := lit "2000000000分前" in
  minutes_ago_label (@str_lower ascii_runtime (strip label)) (lit "2000000000")
  /\ int_digits 0 (lit "2000000000") = Some 2000000000
  /\ parse_relative_time (R := ascii_runtime) label now = UNAVAILABLE
  /\ is_formatted UNAVAILABLE = false.
Proof.
  intros now label. split.
  - split; [left; vm_compute; reflexivity|].
    exists [], s_fun_mae. repeat split; vm_compute; congruence.
  - repeat split; vm_compute; reflexivity.
Qed.

(** Before the year 1000 the same result is not in that shape: the year
    comes out with three digits. *)
Lemma minutes_ago_before_1000 :
  let now := mk_datetime 999 1 1 0 30 0 0 in
  parse_relative_time (R := ascii_runtime) (lit "5分前") now = lit "999/01/01 00:25"
  /\ is_formatted (lit "999/01/01 00:25") = false.
Proof. intros now. split; vm_compute; reflexivity. Qed.

(** ** Publication dates of the emitted records *)

Lemma strptime_iso_valid (s : pystr) (dt : datetime) :
  strptime_iso s = Some dt -> valid_datetime dt = true.
Proof.
  unfold strptime_iso. intros H.
  apply bind_Some in H as (g & _ & H). destruct g as [[[[[tY tm] td] tH] tM] tS].
  apply bind_Some in H as (y & _ & H). apply bind_Some in H as (m & _ & H).
  apply bind_Some in H as (d & _ & H). apply bind_Some in H as (h & _ & H).
  apply bind_Some in H as (mi & _ & H). apply bind_Some in H as (sec & _ & H).
  apply datetime_new_valid in H as [H _]. exact H.
Qed.

Lemma strptime_Ymd_HM_valid (s : pystr) (dt : datetime) :
  strptime_Ymd_HM s = Some dt -> valid_datetime dt = true.
Proof.
  unfold strptime_Ymd_HM. intros H.
  apply bind_Some in H as (g & _ & H). destruct g as [[[[tY tm] td] tH] tM].
  apply bind_Some in H as (y & _ & H). apply bind_Some in H as (m & _ & H).
  apply bind_Some in H as (d & _ & H). apply bind_Some in H as (h & _ & H).
  apply bind_Some in H as (mi & _ & H).
  apply datetime_new_valid in H as [H _]. exact H.
Qed.

(** A time moved to the local offset and rendered. *)
Lemma shifted_timestamp (odt : option datetime) (r : pystr) :
  (dt0 ← odt; delta ← timedelta_new 0 9 0 0 0; dt ← datetime_add dt0 delta;
   Some (format_datetime dt)) = Some r ->
  timestamp r.
Proof.
  intros H. apply bind_Some in H as (dt0 & _ & H).
  apply bind_Some in H as (delta & Hd & H).
  apply bind_Some in H as (dt & Ha & H). injection H as <-.
  apply timedelta_new_spec in Hd as [Hd _].
  apply (datetime_add_sound dt0 dt delta Hd) in Ha as [Hv _].
  apply timestamp_format. exact Hv.
Qed.

Lemma google_article_pub_date {R : PyRuntime} {T : Transport}
      (el : google_element) (rec : article) :
  google_article el = Some rec -> timestamp (pub_date rec).
Proof.
  unfold google_article.
  destruct (g_a_tag el) as [[text href]|]; [|discriminate].
  destruct (g_time_tag el) as [attr|]; [|discriminate].
  intros H. apply bind_Some in H as (a & _ & H).
  apply bind_Some in H as (dt0 & H0 & H).
  apply bind_Some in H as (delta & Hd & H).
  apply bind_Some in H as (dt & Ha & H). injection H as <-. simpl.
  apply timedelta_new_spec in Hd as [Hd _].
  apply (datetime_add_sound dt0 dt delta Hd) in Ha as [Hv _].
  apply timestamp_format. exact Hv.
Qed.

Lemma get_last_modified_cases {T : Transport} (href : pystr) :
  get_last_modified_datetime href = UNAVAILABLE
  \/ timestamp (get_last_modified_datetime href).
Proof.
  unfold get_last_modified_datetime.
  match goal with
  | |- context [match ?o with Some r => r | None => UNAVAILABLE end] =>
    destruct o as [r|] eqn:E; [right|left; reflexivity]
  end.
  apply bind_Some in E as ([[[[[y m] d] h] mi] s] & _ & E).
  apply bind_Some in E as (dt0 & _ & E).
  apply (shifted_timestamp (Some dt0)). exact E.
Qed.

Lemma msn_pub_date_cases {R : PyRuntime} {T : Transport}
      (label href : pystr) (now : datetime) :
  valid_datetime now = true ->
  msn_pub_date label href now = UNAVAILABLE
  \/ timestamp (msn_pub_date label href now).
Proof.
  intros Hnow. unfold msn_pub_date.
  match goal with
  | |- context [str_eqb ?p UNAVAILABLE] =>
    set (pd := p); assert (Hpd : pd = UNAVAILABLE \/ timestamp pd)
  end.
  { subst pd. destruct (nonempty label); [|auto].
    destruct (mem_cp 84 label && mem_cp c_colon label && endswith label [90%N]).
    - destruct (dt0 ← strptime_iso label; delta ← timedelta_new 0 9 0 0 0;
                dt ← datetime_add dt0 delta; Some (format_datetime dt))
        as [r|] eqn:E; [|auto].
      right. eapply shifted_timestamp. exact E.
    - apply parse_relative_time_cases. exact Hnow. }
  destruct (str_eqb pd UNAVAILABLE) eqn:E.
  - apply get_last_modified_cases.
  - exact Hpd.
Qed.

Lemma yahoo_pub_date_cases (date_str : pystr) :
  yahoo_pub_date date_str = UNAVAILABLE
  \/ timestamp (yahoo_pub_date date_str)
  \/ (date_str <> []
      /\ yahoo_pub_date date_str = strip (re_sub WEEKDAY_RE [] date_str)
      /\ strptime_Ymd_HM (strip (re_sub WEEKDAY_RE [] date_str)) = None).
Proof.
  unfold yahoo_pub_date. destruct date_str as [|c s]; [auto|]. cbn [nonempty].
  destruct (strptime_Ymd_HM (strip (re_sub WEEKDAY_RE [] (c :: s)))) as [dt|] eqn:E.
  - right. left. apply timestamp_format. eapply strptime_Ymd_HM_valid. exact E.
  - right. right. split; [discriminate|auto].
Qed.

(** C1, as the code has it: the publication date of every record from the
    Google scraper is the rendering of a valid date and time, and that of
    a record from the MSN scraper is such a rendering or the sentinel
    取得不可; the rendering has the shape YYYY/MM/DD HH:MM exactly when the
    year is 1000 or later, an earlier year being written without leading
    zeros.  That of a record from the Yahoo scraper is one of these or,
    when the site's date text does not parse as a full date and time, that
    text with the weekday marks removed and trimmed. *)
Theorem C1_pub_date_forms {R : PyRuntime} {T : Transport} (now : datetime)
        (google_page : list google_element) (yahoo_page : list yahoo_element)
        (msn_page : list msn_element) (rec : article) :
  valid_datetime now = true ->
  (rec ∈ get_google_news_with_selenium google_page -> timestamp (pub_date rec))
  /\ (rec ∈ get_msn_news_with_selenium now msn_page ->
      pub_date rec = UNAVAILABLE \/ timestamp (pub_date rec))
  /\ (rec ∈ get_yahoo_news_with_selenium yahoo_page ->
      pub_date rec = UNAVAILABLE \/ timestamp (pub_date rec)
      \/ exists li text,
          li ∈ yahoo_page /\ y_time_tag li = Some text /\ text <> []
          /\ pub_date rec = strip (re_sub WEEKDAY_RE [] text)
          /\ strptime_Ymd_HM (strip (re_sub WEEKDAY_RE [] text)) = None).
Proof.
  intros Hnow. split; [|split].
  - intros H. apply list_elem_of_omap in H as (el & _ & H).
    eapply google_article_pub_date. exact H.
  - intros H. apply list_elem_of_omap in H as (a & _ & H).
    unfold msn_article in H.
    destruct (nonempty _ && nonempty _); [|discriminate].
    injection H as <-. simpl. apply msn_pub_date_cases. exact Hnow.
  - intros H. apply list_elem_of_omap in H as (li & Hli & H).
    unfold yahoo_article in H. injection H as <-. simpl.
    destruct (yahoo_pub_date_cases
                (match y_time_tag li with Some t => t | None => [] end))
      as [H | [H | (Hne & H1 & H2)]]; [auto|auto|].
    right. right. destruct (y_time_tag li) as [text|] eqn:Et; [|congruence].
    exists li, text. auto.
Qed.

(** C1 at a page of Google and of MSN, with no network. *)
Lemma C1_witness :
  let now := mk_datetime 2024 3 1 0 30 15 7 in
  let g := mk_google_element (Some (lit "t", Some (lit "./read/1")))
                             (Some (Some (lit "2024-02-29T20:15:00Z"))) [] in
  let m := mk_msn_element None (lit "t") (Some (lit "https://www.msn.com/a"))
                          (Some (mk_msn_parent None [lit "3 時間前"] [] [])) in
  (exists rec,
      rec ∈ get_google_news_with_selenium (R := ascii_runtime) (T := offline) [g]
      /\ pub_date rec = lit "2024/03/01 05:15" /\ timestamp (pub_date rec))
  /\ (exists rec,
         rec ∈ get_msn_news_with_selenium (R := ascii_runtime) (T := offline) now [m]
         /\ pub_date rec = lit "2024/02/29 21:30"
         /\ (pub_date rec = UNAVAILABLE \/ timestamp (pub_date rec))).
Proof.
  intros now g m.
  pose proof (C1_pub_date_forms (R := ascii_runtime) (T := offline) now [g] [] [m])
    as H.
  split.
  - exists (mk_article (lit "t") (lit "https://news.google.com/read/1")
                       (lit "2024/03/01 05:15") (lit "Google")).
    assert (Hin : mk_article (lit "t") (lit "https://news.google.com/read/1")
                             (lit "2024/03/01 05:15") (lit "Google")
                  ∈ get_google_news_with_selenium (R := ascii_runtime) (T := offline) [g])
      by (vm_compute; apply list_elem_of_here).
    split; [exact Hin|]. split; [reflexivity|].
    exact (proj1 (H _ eq_refl) Hin).
  - exists (mk_article (lit "t") (lit "https://www.msn.com/a")
                       (lit "2024/02/29 21:30") (lit "MSN")).
    assert (Hin : mk_article (lit "t") (lit "https://www.msn.com/a")
                             (lit "2024/02/29 21:30") (lit "MSN")
                  ∈ get_msn_news_with_selenium (R := ascii_runtime) (T := offline)
                      now [m])
      by (vm_compute; apply list_elem_of_here).
    split; [exact Hin|]. split; [reflexivity|].
    exact (proj1 (proj2 (H _ eq_refl)) Hin).
Defined.

(** C1, as the claim words it, fails for the Yahoo scraper: a date text
    without a year does not parse, and the record carries the text. *)
Lemma C1_counterexample :
  let li := mk_yahoo_element (Some (lit "t")) (Some (lit "https://news.yahoo.co.jp/a"))
                             (Some (lit "9/12(金) 10:30")) [] in
  exists rec,
    rec ∈ get_yahoo_news_with_selenium (R := ascii_runtime) [li]
    /\ pub_date rec = lit "9/12 10:30"
    /\ is_formatted (pub_date rec) = false
    /\ pub_date rec <> UNAVAILABLE.
Proof.
  intros li.
  exists (mk_article (lit "t") (lit "https://news.yahoo.co.jp/a") (lit "9/12 10:30")
                     (lit "Yahoo")).
  split; [vm_compute; apply list_elem_of_here|].
  split; [reflexivity|]. split; [vm_compute; reflexivity|].
  vm_compute. discriminate.
Qed.

(** Before the year 1000 the rendering is not in the shape either: a
    Google article stamped 0999-01-01T00:00:00Z is dated 999/01/01 09:00. *)
Lemma google_pub_date_before_1000 :
  let g := mk_google_element (Some (lit "t", Some (lit "./read/1")))
                             (Some (Some (lit "0999-01-01T00:00:00Z"))) [] in
  exists rec,
    rec ∈ get_google_news_with_selenium (R := ascii_runtime) (T := offline) [g]
    /\ pub_date rec = lit "999/01/01 09:00"
    /\ is_formatted (pub_date rec) = false.
Proof.
  intros g.
  exists (mk_article (lit "t") (lit "https://news.google.com/read/1")
                     (lit "999/01/01 09:00") (lit "Google")).
  split; [vm_compute; apply list_elem_of_here|].
  split; [reflexivity|vm_compute; reflexivity].
Qed.

(** ** Publishers of the emitted records *)

Lemma nonempty_true (s : pystr) : nonempty s = true <-> s <> [].
Proof. destruct s; simpl; split; congruence. Qed.

Lemma str_or_nonempty (a b : pystr) : b <> [] -> str_or a b <> [].
Proof.
  unfold str_or. destruct (nonempty a) eqn:E; [|auto].
  intros _. apply nonempty_true. exact E.
Qed.

Lemma str_or_empty (b : pystr) : str_or [] b = b.
Proof. reflexivity. Qed.

Lemma or_default_nonempty (s guess label : pystr) :
  label <> [] -> (if nonempty s then s else str_or guess label) <> [].
Proof.
  intros H. destruct (nonempty s) eqn:E.
  - apply nonempty_true. exact E.
  - apply str_or_nonempty. exact H.
Qed.

Lemma google_article_source {R : PyRuntime} {T : Transport}
      (el : google_element) (rec : article) :
  google_article el = Some rec ->
  source rec <> []
  /\ (first_present (g_source_els el) = None
      \/ first_present (g_source_els el) = Some [] ->
      publisher_from_url (url rec) = [] -> source rec = s_Google).
Proof.
  unfold google_article.
  destruct (g_a_tag el) as [[text href]|]; [|discriminate].
  destruct (g_time_tag el) as [attr|]; [|discriminate].
  intros H. apply bind_Some in H as (a & _ & H).
  apply bind_Some in H as (dt0 & _ & H).
  apply bind_Some in H as (delta & _ & H).
  apply bind_Some in H as (dt & _ & H). injection H as <-. cbn [source url].
  split; [apply or_default_nonempty; discriminate|].
  intros Hsel Hguess. rewrite Hguess.
  destruct Hsel as [-> | ->]; reflexivity.
Qed.

Lemma yahoo_article_source {R : PyRuntime} (li : yahoo_element) (rec : article) :
  yahoo_article li = Some rec ->
  source rec <> []
  /\ (yahoo_source (y_source_els li) = [] ->
      publisher_from_url (url rec) = [] -> source rec = s_Yahoo).
Proof.
  unfold yahoo_article. intros H. injection H as <-. cbn [source url].
  split; [apply or_default_nonempty; discriminate|].
  intros -> ->. reflexivity.
Qed.

Lemma msn_article_source {R : PyRuntime} {T : Transport} (now : datetime)
      (a : msn_element) (rec : article) :
  msn_article now a = Some rec ->
  source rec <> []
  /\ (msn_scanned_source (m_parent a) = []
      \/ is_timeish (msn_scanned_source (m_parent a)) = true ->
      publisher_from_url (url rec) = [] -> source rec = s_MSN).
Proof.
  unfold msn_article.
  destruct (nonempty _ && nonempty _); [|discriminate].
  intros H. injection H as <-. cbn [source url]. unfold msn_source.
  destruct (negb (nonempty (msn_scanned_source (m_parent a)))
            || is_timeish (msn_scanned_source (m_parent a))) eqn:E.
  - split; [apply str_or_nonempty; discriminate|]. intros _ ->. reflexivity.
  - apply orb_false_iff in E as [E1 E2]. apply negb_false_iff in E1.
    split; [apply nonempty_true; exact E1|].
    intros [H | H]; [|congruence].
    rewrite H in E1. discriminate.
Qed.

(** C9: the publisher of every record from the three scrapers is a
    non-empty string; and whichever element of the page the record was
    made from, when that element gives no publisher text (no source
    element or an empty one for Google, no usable candidate for Yahoo, a
    cleaned text that is empty or only a time expression for MSN) and the
    URL of the record gives no name either, the publisher is the label of
    the site: Google, Yahoo or MSN. *)
Theorem C9_source_never_empty {R : PyRuntime} {T : Transport} (now : datetime)
        (google_page : list google_element) (yahoo_page : list yahoo_element)
        (msn_page : list msn_element) (rec : article) :
  (rec ∈ get_google_news_with_selenium google_page ->
   source rec <> []
   /\ (exists el, el ∈ google_page /\ google_article el = Some rec)
   /\ forall el,
        google_article el = Some rec ->
        first_present (g_source_els el) = None
        \/ first_present (g_source_els el) = Some [] ->
        publisher_from_url (url rec) = [] -> source rec = s_Google)
  /\ (rec ∈ get_yahoo_news_with_selenium yahoo_page ->
      source rec <> []
      /\ (exists li, li ∈ yahoo_page /\ yahoo_article li = Some rec)
      /\ forall li,
           yahoo_article li = Some rec ->
           yahoo_source (y_source_els li) = [] ->
           publisher_from_url (url rec) = [] -> source rec = s_Yahoo)
  /\ (rec ∈ get_msn_news_with_selenium now msn_page ->
      source rec <> []
      /\ (exists a, a ∈ msn_page /\ msn_article now a = Some rec)
      /\ forall a,
           msn_article now a = Some rec ->
           msn_scanned_source (m_parent a) = []
           \/ is_timeish (msn_scanned_source (m_parent a)) = true ->
           publisher_from_url (url rec) = [] -> source rec = s_MSN).
Proof.
  split; [|split]; intros H; apply list_elem_of_omap in H as (el & Hin & H).
  - split; [apply (google_article_source el rec H)|]. split; [eauto|].
    intros el' H'. apply (google_article_source el' rec H').
  - split; [apply (yahoo_article_source el rec H)|]. split; [eauto|].
    intros el' H'. apply (yahoo_article_source el' rec H').
  - split; [apply (msn_article_source now el rec H)|]. split; [eauto|].
    intros el' H'. apply (msn_article_source now el' rec H').
Qed.

(** C9 at a page of each site on which no publisher text is found and
    whose link names no publisher: the record carries the label of the
    site. *)
Lemma C9_witness :
  let now := mk_datetime 2024 3 1 0 30 15 7 in
  let g := mk_google_element (Some (lit "t", Some (lit "?")))
                             (Some (Some (lit "2024-02-29T20:15:00Z"))) [] in
  let y := mk_yahoo_element (Some (lit "t")) None None [Some (lit "2024")] in
  let m := mk_msn_element None (lit "t") (Some (lit "?"))
                          (Some (mk_msn_parent (Some (lit "3 時間前")) [] [] [])) in
  (exists rec,
      rec ∈ get_google_news_with_selenium (R := ascii_runtime) (T := offline) [g]
      /\ source rec = s_Google)
  /\ (exists rec,
         rec ∈ get_yahoo_news_with_selenium (R := ascii_runtime) [y]
         /\ source rec = s_Yahoo)
  /\ (exists rec,
         rec ∈ get_msn_news_with_selenium (R := ascii_runtime) (T := offline) now [m]
         /\ source rec = s_MSN).
Proof.
  intros now g y m.
  pose proof (C9_source_never_empty (R := ascii_runtime) (T := offline) now
                                    [g] [y] [m]) as H.
  split; [|split].
  - set (rec := mk_article (lit "t") (lit "?") (lit "2024/03/01 05:15") (lit "Google")).
    assert (E : google_article (R := ascii_runtime) (T := offline) g = Some rec)
      by (vm_compute; reflexivity).
    assert (Hin : rec ∈ get_google_news_with_selenium
                          (R := ascii_runtime) (T := offline) [g])
      by (vm_compute; apply list_elem_of_here).
    exists rec. split; [exact Hin|].
    apply (proj2 (proj2 (proj1 (H rec) Hin)) g E);
      [left; reflexivity|vm_compute; reflexivity].
  - set (rec := mk_article (lit "t") [] UNAVAILABLE (lit "Yahoo")).
    assert (E : yahoo_article (R := ascii_runtime) y = Some rec)
      by (vm_compute; reflexivity).
    assert (Hin : rec ∈ get_yahoo_news_with_selenium (R := ascii_runtime) [y])
      by (vm_compute; apply list_elem_of_here).
    exists rec. split; [exact Hin|].
    apply (proj2 (proj2 (proj1 (proj2 (H rec)) Hin)) y E);
      vm_compute; reflexivity.
  - set (rec := mk_article (lit "t") (lit "?") UNAVAILABLE (lit "MSN")).
    assert (E : msn_article (R := ascii_runtime) (T := offline) now m = Some rec)
      by (vm_compute; reflexivity).
    assert (Hin : rec ∈ get_msn_news_with_selenium
                          (R := ascii_runtime) (T := offline) now [m])
      by (vm_compute; apply list_elem_of_here).
    exists rec. split; [exact Hin|].
    apply (proj2 (proj2 (proj2 (proj2 (H rec)) Hin)) m E);
      [left; vm_compute; reflexivity|vm_compute; reflexivity].
Defined.

(** ** Bare clock times *)

Lemma datetime_gt_combine (now : datetime) (h mi : Z) :
  valid_datetime now = true -> valid_time h mi 0 0 = true ->
  datetime_gt (combine_date_time now h mi) now = later_than_now now h mi.
Proof.
  intros Hnow Ht. apply valid_datetime_us in Hnow as (_ & Hh & Hm & Hs & Hu).
  unfold valid_time in Ht. rewrite !andb_true_iff, !Z.leb_le in Ht.
  unfold datetime_gt, later_than_now, time_of_day_us, combine_date_time, fields,
    US_PER_SECOND.
  cbn [lex_lt year month day hour minute second microsecond].
  rewrite !Z.eqb_refl, !Z.ltb_irrefl. cbn [orb andb].
  destruct (hour now <? h) eqn:E1; destruct (hour now =? h) eqn:E2;
    destruct (minute now <? mi) eqn:E3; destruct (minute now =? mi) eqn:E4;
    destruct (second now <? 0) eqn:E5; destruct (second now =? 0) eqn:E6;
    destruct (microsecond now <? 0) eqn:E7;
    cbn [orb andb]; symmetry;
    rewrite ?Z.ltb_lt, ?Z.ltb_ge, ?Z.eqb_eq, ?Z.eqb_neq in *; lia.
Qed.

Lemma contains_head_absent (l kw : pystr) (k0 : N) :
  (forall c, In c l -> c <> k0) -> contains l (k0 :: kw) = false.
Proof.
  induction l as [|c l IH]; intros H; simpl; [reflexivity|].
  assert (Hc : eqcp c k0 = false).
  { destruct (eqcp c k0) eqn:E; [|reflexivity].
    apply eqcp_eq in E. exfalso. apply (H c); [left; reflexivity|exact E]. }
  rewrite Hc. simpl. apply IH. intros c' Hc'. apply H. right. exact Hc'.
Qed.

Lemma hour_text_chars (hh : pystr) (h : Z) :
  hour_text hh h ->
  hh <> [] /\ (length hh <= 2)%nat /\ List.forallb is_digit hh = true
  /\ 0 <= h <= 23.
Proof.
  intros [(b & -> & Hb & ->) | [(a & b & v & -> & Ha & Hb & ->) | (b & v & -> & Hb & ->)]].
  - assert (Hd : ascii_digit b = true).
    { unfold ascii_digit, in_range in *. rewrite andb_true_iff, !N.leb_le in *. lia. }
    split; [discriminate|]. split; [simpl; lia|]. split.
    + simpl. rewrite (ascii_digit_is_digit b Hd). reflexivity.
    + unfold in_range in Hb. rewrite andb_true_iff, !N.leb_le in Hb. lia.
  - assert (Hd : ascii_digit a = true).
    { unfold ascii_digit, in_range in *. rewrite andb_true_iff, !N.leb_le in *. lia. }
    split; [discriminate|]. split; [simpl; lia|]. split.
    + simpl. rewrite (ascii_digit_is_digit a Hd). unfold is_digit. rewrite Hb. reflexivity.
    + apply decimal_bound in Hb. unfold in_range in Ha.
      rewrite andb_true_iff, !N.leb_le in Ha. lia.
  - split; [discriminate|]. split; [simpl; lia|]. split.
    + simpl. unfold is_digit. rewrite Hb. reflexivity.
    + apply decimal_bound in Hb. lia.
Qed.

Lemma minute_text_chars (mm : pystr) (mi : Z) :
  minute_text mm mi ->
  (exists a b, mm = [a; b] /\ is_digit a = true /\ is_digit b = true)
  /\ 0 <= mi <= 59.
Proof.
  intros (a & b & v & -> & Ha & Hb & ->).
  assert (Hd : ascii_digit a = true).
  { unfold ascii_digit, in_range in *. rewrite andb_true_iff, !N.leb_le in *. lia. }
  split.
  - exists a, b. split; [reflexivity|]. split; [apply ascii_digit_is_digit; exact Hd|].
    unfold is_digit. rewrite Hb. reflexivity.
  - apply decimal_bound in Hb. unfold in_range in Ha.
    rewrite andb_true_iff, !N.leb_le in Ha. lia.
Qed.

Lemma bare_time_chars (l : pystr) (h mi : Z) :
  bare_time l h mi -> forall c, In c l -> is_digit c = true \/ c = c_colon.
Proof.
  intros (hh & mm & -> & Hh & Hm) c Hc.
  apply hour_text_chars in Hh as (_ & _ & Hh & _).
  apply minute_text_chars in Hm as ((a & b & -> & Ha & Hb) & _).
  rewrite forallb_forall in Hh.
  apply in_app_or in Hc as [Hc | Hc]; [left; apply Hh; exact Hc|].
  simpl in Hc. destruct Hc as [<- | [<- | [<- | []]]]; auto.
Qed.

Lemma bare_time_no_keyword (l kw : pystr) (h mi : Z) (k0 : N) :
  bare_time l h mi -> is_digit k0 = false -> k0 <> c_colon ->
  contains l (k0 :: kw) = false.
Proof.
  intros Hl Hk Hk'. apply contains_head_absent. intros c Hc.
  destruct (bare_time_chars l h mi Hl c Hc) as [Hd | ->]; congruence.
Qed.

Lemma in_range_ascii_digit (a b c : N) :
  (0x30 <= a)%N -> (b <= 0x39)%N -> in_range a b c = true -> ascii_digit c = true.
Proof.
  unfold ascii_digit, in_range. rewrite !andb_true_iff, !N.leb_le. lia.
Qed.

Lemma exec_re_H {A : Type} (hh rest : pystr) (h : Z)
      (k : option N -> pystr -> option A) (x : A) (prev : option N) :
  hour_text hh h ->
  k (last_cp prev hh) (c_colon :: rest) = Some x ->
  exec re_H prev (hh ++ c_colon :: rest) k = Some x.
Proof.
  unfold re_H, ch, rng, digit.
  intros [(b & -> & Hb & _) | [(a & b & v & -> & Ha & Hb & _) | (b & v & -> & Hb & _)]]
         Hk; cbn [exec app last_cp] in *.
  - change (eqcp 50 50) with true. cbn iota. rewrite Hb, Hk. reflexivity.
  - assert (Ea : eqcp 50 a = false).
    { unfold in_range in Ha. rewrite andb_true_iff, !N.leb_le in Ha.
      unfold eqcp. apply N.eqb_neq. lia. }
    rewrite Ea, Ha. unfold is_digit at 1. rewrite Hb. rewrite Hk. reflexivity.
  - assert (Hd : is_digit b = true) by (unfold is_digit; rewrite Hb; reflexivity).
    change (in_range 48 51 c_colon) with false.
    change (is_digit c_colon) with false.
    rewrite Hd, Hk.
    destruct (eqcp 50 b); destruct (in_range 48 49 b); reflexivity.
Qed.

Lemma exec_re_M {A : Type} (mm rest : pystr) (mi : Z)
      (k : option N -> pystr -> option A) (x : A) (prev : option N) :
  minute_text mm mi ->
  k (last_cp prev mm) rest = Some x ->
  exec re_M prev (mm ++ rest) k = Some x.
Proof.
  unfold re_M, rng, digit. intros (a & b & v & -> & Ha & Hb & _) Hk.
  cbn [exec app last_cp] in *. rewrite Ha. unfold is_digit at 1. rewrite Hb, Hk.
  reflexivity.
Qed.

Lemma exec_re_M_end {A : Type} (mm : pystr) (mi : Z)
      (k : option N -> pystr -> option A) (x : A) (prev : option N) :
  minute_text mm mi ->
  k (last_cp prev mm) [] = Some x ->
  exec re_M prev mm k = Some x.
Proof.
  intros Hm Hk. rewrite <- (app_nil_r mm) at 1.
  eapply exec_re_M; eassumption.
Qed.

Lemma consumed_app (a b : pystr) : consumed (a ++ b) b = a.
Proof.
  unfold consumed. rewrite length_app.
  replace (length a + length b - length b)%nat with (length a) by lia.
  apply take_app_length.
Qed.

Lemma consumed_all (a : pystr) : consumed a [] = a.
Proof.
  unfold consumed. simpl. rewrite Nat.sub_0_r. apply firstn_all.
Qed.

Lemma py_int_hour (hh : pystr) (h : Z) : hour_text hh h -> py_int hh = Some h.
Proof.
  intros Hh. pose proof (hour_text_chars hh h Hh) as (Hne & Hlen & Hall & _).
  apply py_int_digits; [split; assumption|unfold INT_MAX_STR_DIGITS; lia|].
  destruct Hh as [(b & -> & Hb & ->) | [(a & b & v & -> & Ha & Hb & ->)
                                        | (b & v & -> & Hb & ->)]];
    cbn [int_digits].
  - change (decimal 50) with (Some 2%N).
    rewrite (ascii_digit_decimal b (in_range_ascii_digit 48 51 b ltac:(lia) ltac:(lia) Hb)).
    f_equal; lia.
  - rewrite (ascii_digit_decimal a (in_range_ascii_digit 48 49 a ltac:(lia) ltac:(lia) Ha)).
    rewrite Hb. f_equal; lia.
  - rewrite Hb. f_equal.
Qed.

Lemma py_int_minute (mm : pystr) (mi : Z) : minute_text mm mi -> py_int mm = Some mi.
Proof.
  intros Hm. pose proof (minute_text_chars mm mi Hm) as ((a0 & b0 & E & Ha0 & Hb0) & _).
  apply py_int_digits.
  - subst mm. split; [discriminate|]. simpl. rewrite Ha0, Hb0. reflexivity.
  - subst mm. unfold INT_MAX_STR_DIGITS. simpl. lia.
  - destruct Hm as (a & b & v & -> & Ha & Hb & ->). cbn [int_digits].
    rewrite (ascii_digit_decimal a (in_range_ascii_digit 48 53 a ltac:(lia) ltac:(lia) Ha)).
    rewrite Hb. f_equal; lia.
Qed.

(** [strptime] reads the hour and the minute of a bare H:MM label. *)
Lemma strptime_HM_bare (l : pystr) (h mi : Z) :
  bare_time l h mi -> strptime_HM l = Some (h, mi).
Proof.
  intros (hh & mm & -> & Hh & Hm). unfold strptime_HM.
  assert (E : group re_H None (hh ++ [c_colon] ++ mm)
                (fun tH p1 s1 =>
                   exec (ch c_colon) p1 s1
                        (fun p2 s2 =>
                           group re_M p2 s2 (fun tM _ s3 => Some (tH, tM, s3))))
              = Some (hh, mm, [])).
  { unfold group. cbn [app].
    apply (exec_re_H hh mm h _ _ None Hh).
    unfold ch. cbn [exec]. rewrite eqcp_refl.
    apply (exec_re_M_end mm mi _ _ _ Hm).
    rewrite consumed_app, consumed_all. reflexivity. }
  rewrite E. cbn [all_converted mbind option_bind].
  rewrite (py_int_hour hh h Hh), (py_int_minute mm mi Hm). cbn [mbind option_bind].
  apply hour_text_chars in Hh as (_ & _ & _ & Hh).
  apply minute_text_chars in Hm as (_ & Hm).
  unfold datetime_new.
  replace (valid_date 1900 1 1 && valid_time h mi 0 0) with true; [reflexivity|].
  symmetry. unfold valid_time. change (valid_date 1900 1 1) with true.
  rewrite !andb_true_iff, !Z.leb_le. lia.
Qed.

Lemma matches_false_by_char (r : regex) (l : pystr) (c : N) :
  (forall m fol, Matches r None m fol -> In c m) ->
  ~ In c l -> matches r l = false.
Proof.
  intros Hr Hc. destruct (matches r l) eqn:E; [|reflexivity].
  apply matches_iff in E as (m & fol & -> & HM).
  exfalso. apply Hc. apply in_or_app. left. eapply Hr. exact HM.
Qed.

Lemma MONTH_DAY_RE_char (m fol : pystr) (prev : option N) :
  Matches MONTH_DAY_RE prev m fol -> In 0x6708%N m.
Proof.
  unfold MONTH_DAY_RE. intros H.
  apply Matches_Seq in H as (ds & m1 & -> & _ & H).
  apply Matches_Seq in H as (g & m2 & -> & Hg & _).
  apply Matches_Lit in Hg. subst g.
  apply in_or_app. right. apply in_or_app. left. left. reflexivity.
Qed.

Lemma YMD_RE_char (m fol : pystr) (prev : option N) :
  Matches YMD_RE prev m fol -> In c_slash m.
Proof.
  unfold YMD_RE. intros H.
  apply Matches_Seq in H as (d1 & m1 & -> & _ & H).
  apply Matches_Seq in H as (d2 & m2 & -> & _ & H).
  apply Matches_Seq in H as (d3 & m3 & -> & _ & H).
  apply Matches_Seq in H as (d4 & m4 & -> & _ & H).
  apply Matches_Seq in H as (sl & m5 & -> & Hs & _).
  apply Matches_Chr in Hs as (c & -> & Hc). apply eqcp_eq in Hc. subst c.
  do 4 (apply in_or_app; right). apply in_or_app. left. left. reflexivity.
Qed.

Lemma bare_time_not_in (l : pystr) (h mi : Z) (c : N) :
  bare_time l h mi -> is_digit c = false -> c <> c_colon -> ~ In c l.
Proof.
  intros Hl Hd Hc Hin.
  destruct (bare_time_chars l h mi Hl c Hin) as [H | H]; congruence.
Qed.

Lemma matches_HM_RE_bare (l : pystr) (h mi : Z) :
  bare_time l h mi -> matches HM_RE l = true.
Proof.
  intros (hh & mm & -> & Hh & Hm). apply matches_iff.
  exists (hh ++ [c_colon] ++ mm), []. split; [symmetry; apply app_nil_r|].
  apply hour_text_chars in Hh as (Hne & Hlen & Hall & _).
  apply minute_text_chars in Hm as ((a & b & -> & Ha & Hb) & _).
  unfold HM_RE. apply Matches_Seq. exists hh, ([c_colon] ++ [a; b]).
  split; [reflexivity|]. split.
  - unfold digit_1_2, digit. apply Matches_Seq.
    destruct hh as [|x [|y [|z hh]]]; [congruence| | |simpl in Hlen; lia];
      simpl in Hall; rewrite ?andb_true_iff in Hall.
    + exists [x], []. split; [reflexivity|]. split.
      * apply Matches_Chr. exists x. tauto.
      * apply Matches_Opt. right. reflexivity.
    + exists [x], [y]. split; [reflexivity|]. split.
      * apply Matches_Chr. exists x. tauto.
      * apply Matches_Opt. left. apply Matches_Chr. exists y. tauto.
  - apply Matches_Seq. exists [c_colon], [a; b]. split; [reflexivity|]. split.
    + apply Matches_Chr. exists c_colon. split; [reflexivity|apply eqcp_refl].
    + unfold digit. apply Matches_Seq. exists [a], [b]. split; [reflexivity|].
      split; apply Matches_Chr; eauto.
Qed.

(** A bare H:MM label reaches the time-only branch. *)
Lemma parse_try_bare (l : pystr) (h mi : Z) (now : datetime) :
  bare_time l h mi ->
  parse_relative_time_try l now
  = let dt := combine_date_time now h mi in
    if datetime_gt dt now then
      delta ← timedelta_new 1 0 0 0 0;
      dt' ← datetime_sub dt delta;
      Some (format_datetime dt')
    else Some (format_datetime dt).
Proof.
  intros Hl. unfold parse_relative_time_try.
  unfold s_fun_mae, s_minute, s_jikan_mae, s_hour, s_nichi_mae, s_day.
  rewrite !(bare_time_no_keyword l _ h mi _ Hl) by (vm_compute; congruence).
  cbn [orb].
  rewrite (matches_false_by_char MONTH_DAY_RE l 0x6708%N).
  2: { intros m fol. apply MONTH_DAY_RE_char. }
  2: { apply (bare_time_not_in l h mi); [exact Hl|reflexivity|discriminate]. }
  rewrite (matches_false_by_char YMD_RE l c_slash).
  2: { intros m fol. apply YMD_RE_char. }
  2: { apply (bare_time_not_in l h mi); [exact Hl|reflexivity|discriminate]. }
  rewrite (matches_HM_RE_bare l h mi Hl), (strptime_HM_bare l h mi Hl).
  reflexivity.
Qed.

(** C5, as the code has it: for a bare H:MM label and a reference time
    [now], the result renders the clock time H:MM on the calendar date of
    [now] when that is not later than [now], and on the day before,
    exactly one day back, when it is; the day before must exist, so in
    that case [now] is not on 0001/01/01. *)
Theorem C5_bare_time_rollback {R : PyRuntime} (label : pystr) (now : datetime)
        (h mi : Z) :
  label <> [] ->
  bare_time (str_lower (strip label)) h mi ->
  valid_datetime now = true ->
  (later_than_now now h mi = true -> 1 < toordinal now) ->
  exists dt,
    parse_relative_time label now = format_datetime dt
    /\ valid_datetime dt = true
    /\ hour dt = h /\ minute dt = mi /\ second dt = 0 /\ microsecond dt = 0
    /\ toordinal dt = toordinal now - (if later_than_now now h mi then 1 else 0).
Proof.
  intros Hlabel Hl Hnow Hday.
  unfold parse_relative_time. destruct label as [|c0 label]; [congruence|].
  rewrite (parse_try_bare _ h mi now Hl). cbv zeta.
  assert (Ht : valid_time h mi 0 0 = true).
  { eapply strptime_HM_valid. apply strptime_HM_bare. exact Hl. }
  rewrite (datetime_gt_combine now h mi Hnow Ht).
  pose proof (combine_valid now h mi Hnow Ht) as Hc.
  destruct (later_than_now now h mi) eqn:Hlater.
  - specialize (Hday eq_refl).
    destruct (timedelta_new_some 1 0 0 0 0) as [delta Hd]; [vm_compute; reflexivity|].
    rewrite Hd. cbn [mbind option_bind].
    apply timedelta_new_spec in Hd as [Hdn Hdu].
    pose proof (valid_datetime_us _ Hc) as (Hus & Hh & Hm & _).
    assert (Ecomb : us_of (combine_date_time now h mi)
                    = toordinal now * US_PER_DAY + (h * 60 + mi) * 60 * US_PER_SECOND).
    { unfold us_of, toordinal, combine_date_time, US_PER_DAY, US_PER_SECOND.
      cbn [year month day hour minute second microsecond]. lia. }
    destruct (datetime_sub_complete _ delta Hc Hdn) as [dt Hsub].
    { rewrite Hdu, Ecomb. cbn [hour minute combine_date_time] in Hh, Hm.
      unfold US_PER_DAY, US_PER_SECOND, MAXORDINAL in *. lia. }
    rewrite Hsub. cbn [mbind option_bind]. exists dt. split; [reflexivity|].
    apply (datetime_sub_sound _ dt delta Hdn) in Hsub as [Hv Hsub].
    split; [exact Hv|].
    pose proof (valid_datetime_us dt Hv) as (_ & Hh' & Hm' & Hs' & Hu').
    rewrite Hdu, Ecomb in Hsub. cbn [hour minute combine_date_time] in Hh, Hm.
    unfold us_of, US_PER_DAY, US_PER_SECOND in *. lia.
  - exists (combine_date_time now h mi). split; [reflexivity|].
    split; [exact Hc|]. unfold toordinal, combine_date_time.
    cbn [year month day hour minute second microsecond]. repeat split; lia.
Qed.

(** C5 at "12:30" seen at 00:30:15 (rolled back to the day before) and at
    "0:30" (kept on the day). *)
Lemma C5_witness :
  let now := mk_datetime 2024 3 1 0 30 15 7 in
  (exists dt, parse_relative_time (R := ascii_runtime) (lit "12:30") now
              = format_datetime dt
              /\ toordinal dt = toordinal now - 1)
  /\ parse_relative_time (R := ascii_runtime) (lit "12:30") now
     = lit "2024/02/29 12:30".
Proof.
  intros now.
  destruct (C5_bare_time_rollback (R := ascii_runtime) (lit "12:30") now 12 30)
    as (dt & H1 & _ & _ & _ & _ & _ & H2).
  - vm_compute. discriminate.
  - exists (lit "12"), (lit "30"). split; [vm_compute; reflexivity|]. split.
    + right. left. exists 0x31%N, 0x32%N, 2%N. repeat split; vm_compute; reflexivity.
    + exists 0x33%N, 0x30%N, 0%N. repeat split; vm_compute; reflexivity.
  - reflexivity.
  - intros _. vm_compute. reflexivity.
  - split; [exists dt; split; [exact H1|exact H2]|]. vm_compute. reflexivity.
Defined.

(** C5, as the claim words it, fails: on 0001/01/01 a bare time later in
    the day has no day before to roll back to; the subtraction overflows,
    the exception is swallowed and the sentinel comes back. *)
Lemma C5_counterexample :
  let now := mk_datetime 1 1 1 0 0 0 0 in
  let label := lit "12:00" in
  valid_datetime now = true
  /\ bare_time (@str_lower ascii_runtime (strip label)) 12 0
  /\ later_than_now now 12 0 = true
  /\ parse_relative_time (R := ascii_runtime) label now = UNAVAILABLE
  /\ is_formatted UNAVAILABLE = false.
Proof.
  intros now label. split; [reflexivity|]. split.
  - exists (lit "12"), (lit "00"). split; [vm_compute; reflexivity|]. split.
    + right. left. exists 0x31%N, 0x32%N, 2%N. repeat split; vm_compute; reflexivity.
    + exists 0x30%N, 0x30%N, 0%N. repeat split; vm_compute; reflexivity.
  - repeat split; vm_compute; reflexivity.
Qed.

(** ** Publisher inference *)

Lemma split_cp_nonempty (sep : N) (s : pystr) : split_cp sep s <> [].
Proof.
  induction s as [|c s IH]; simpl; [discriminate|].
  destruct (eqcp c sep); [discriminate|].
  destruct (split_cp sep s); [congruence|discriminate].
Qed.

Lemma split_cp_no_sep (sep : N) (s : pystr) :
  ~ In sep s -> split_cp sep s = [s].
Proof.
  induction s as [|c s IH]; intros H; simpl; [reflexivity|].
  destruct (eqcp c sep) eqn:E.
  - apply eqcp_eq in E. exfalso. apply H. left. exact E.
  - rewrite IH; [reflexivity|]. intros Hin. apply H. right. exact Hin.
Qed.

Lemma split_cp_app (sep : N) (a b : pystr) :
  split_cp sep (a ++ sep :: b) = split_cp sep a ++ split_cp sep b.
Proof.
  induction a as [|c a IH]; simpl.
  - rewrite eqcp_refl. reflexivity.
  - destruct (eqcp c sep); [rewrite IH; reflexivity|].
    rewrite IH. pose proof (split_cp_nonempty sep a) as Hne.
    destruct (split_cp sep a); [congruence|reflexivity].
Qed.

Lemma hd_split_cp (sep : N) (s : pystr) :
  List.hd [] (split_cp sep s) = take_until (fun c => eqcp c sep) s.
Proof.
  induction s as [|c s IH]; simpl; [reflexivity|].
  destruct (eqcp c sep); [reflexivity|].
  pose proof (split_cp_nonempty sep s) as Hne.
  destruct (split_cp sep s) as [|w ws]; [congruence|]. simpl in *. congruence.
Qed.

Lemma take_until_absent (p : N -> bool) (a : pystr) (rest : pystr) :
  List.forallb (fun c => negb (p c)) a = true ->
  match rest with [] => True | c :: _ => p c = true end ->
  take_until p (a ++ rest) = a.
Proof.
  induction a as [|c a IH]; simpl; intros Ha Hr.
  - destruct rest as [|c rest]; [reflexivity|]. simpl. rewrite Hr. reflexivity.
  - apply andb_true_iff in Ha as [Hc Ha]. apply negb_true_iff in Hc. rewrite Hc.
    rewrite IH by assumption. reflexivity.
Qed.

Lemma without_port_hd (netloc h0 : pystr) :
  without_port netloc h0 -> List.hd [] (split_cp c_colon netloc) = h0.
Proof.
  intros [Hno Hsplit]. rewrite hd_split_cp.
  assert (Hall : List.forallb (fun c => negb (eqcp c c_colon)) h0 = true).
  { apply forallb_forall. intros c Hc. apply negb_true_iff.
    destruct (eqcp c c_colon) eqn:E; [|reflexivity].
    apply eqcp_eq in E. subst c. contradiction. }
  destruct Hsplit as [-> | (port & ->)].
  - rewrite <- (app_nil_r h0) at 1. apply take_until_absent; [exact Hall|exact I].
  - apply take_until_absent; [exact Hall|apply eqcp_refl].
Qed.

Lemma startswith_app (pre s : pystr) : startswith (pre ++ s) pre = true.
Proof.
  induction pre as [|c pre IH]; simpl; [destruct s; reflexivity|].
  rewrite eqcp_refl. exact IH.
Qed.

Lemma without_www_strip (h0 host : pystr) :
  without_www h0 host ->
  (if startswith h0 s_www then List.skipn 4 h0 else h0) = host.
Proof.
  intros [-> | [-> ->]]; [|reflexivity].
  rewrite startswith_app. reflexivity.
Qed.

Lemma second_level_split (host sld : pystr) :
  second_level host sld ->
  (2 <=? length (split_cp c_dot host))%nat = true
  /\ List.nth (length (split_cp c_dot host) - 2) (split_cp c_dot host) [] = sld.
Proof.
  intros (front & tld & -> & Hsld & Htld & Hfront).
  assert (E : split_cp c_dot (sld ++ [c_dot] ++ tld) = [sld; tld]).
  { cbn [app]. rewrite split_cp_app, !split_cp_no_sep by assumption. reflexivity. }
  destruct Hfront as [-> | (f & ->)].
  - cbn [app] in *. rewrite E. split; reflexivity.
  - rewrite <- app_assoc. cbn [app] in *. rewrite split_cp_app, E.
    rewrite length_app. cbn [length].
    split; [apply Nat.leb_le; lia|].
    replace (length (split_cp c_dot f) + 2 - 2)%nat with (length (split_cp c_dot f)) by lia.
    rewrite app_nth2 by lia. rewrite Nat.sub_diag. reflexivity.
Qed.

Lemma endswith_nonempty (s suf : pystr) :
  suf <> [] -> endswith s suf = true -> s <> [].
Proof.
  intros Hsuf H ->. unfold endswith in H. simpl in H.
  destruct (List.rev suf) eqn:E; [|discriminate].
  apply (f_equal (@List.rev N)) in E. rewrite rev_involutive in E. simpl in E.
  congruence.
Qed.

Lemma publisher_of_netloc_guess {R : PyRuntime} (netloc h0 host : pystr) :
  without_port netloc h0 -> without_www h0 host -> NAME_MAP !! host = None ->
  (forall sld, second_level host sld ->
               publisher_of_netloc netloc = str_capitalize (spaced sld))
  /\ (~ In c_dot host -> publisher_of_netloc netloc = str_capitalize (spaced host)).
Proof.
  intros Hport Hwww Hmap. unfold publisher_of_netloc.
  rewrite (without_port_hd netloc h0 Hport), (without_www_strip h0 host Hwww), Hmap.
  split.
  - intros sld Hsld. apply second_level_split in Hsld as [Hlen Hnth].
    rewrite Hlen, Hnth. reflexivity.
  - intros Hdot. rewrite (split_cp_no_sep c_dot host Hdot). reflexivity.
Qed.

(** C8, as the code has it: [publisher_from_url] returns the empty string
    when [urlparse] raises or the network location is empty; "MSN" when
    the lower-cased network location ends in msn.com; and, for a network
    location that is neither that nor one of news.yahoo.co.jp and whose
    host (port and leading "www." removed) is not in the name table, the
    capitalised form, with hyphens and underscores as spaces, of the
    second-level label when the host has two labels or more, and of the
    whole host when it has a single label. *)
Theorem C8_publisher_from_url {R : PyRuntime} (url : pystr) :
  (urlparse_netloc url = None -> publisher_from_url url = [])
  /\ (forall netloc,
         urlparse_netloc url = Some netloc -> str_lower netloc = [] ->
         publisher_from_url url = [])
  /\ (forall netloc,
         urlparse_netloc url = Some netloc ->
         endswith (str_lower netloc) s_msn_com = true ->
         publisher_from_url url = s_MSN)
  /\ (forall netloc h0 host,
         urlparse_netloc url = Some netloc ->
         str_lower netloc <> [] ->
         endswith (str_lower netloc) s_msn_com = false ->
         contains (str_lower netloc) s_news_yahoo = false ->
         without_port (str_lower netloc) h0 -> without_www h0 host ->
         NAME_MAP !! host = None ->
         (forall sld, second_level host sld ->
                      publisher_from_url url = str_capitalize (spaced sld))
         /\ (~ In c_dot host ->
             publisher_from_url url = str_capitalize (spaced host))).
Proof.
  unfold publisher_from_url. split; [intros ->; reflexivity|].
  split; [intros netloc -> ->; reflexivity|].
  split.
  - intros netloc -> Hmsn.
    pose proof (endswith_nonempty _ s_msn_com ltac:(discriminate) Hmsn) as Hne.
    rewrite Hmsn. destruct (str_lower netloc); [congruence|reflexivity].
  - intros netloc h0 host -> Hne Hmsn Hyahoo Hport Hwww Hmap.
    rewrite Hmsn, Hyahoo.
    destruct (str_lower netloc) as [|c nl] eqn:E; [congruence|].
    apply (publisher_of_netloc_guess (c :: nl) h0 host Hport Hwww Hmap).
Qed.

Ltac no_member := vm_compute; intuition discriminate.

(** C8 at the two URLs of the specification. *)
Lemma C8_witness :
  publisher_from_url (R := ascii_runtime) (lit "https://www.msn.com/ja-jp/news")
  = lit "MSN"
  /\ publisher_from_url (R := ascii_runtime) (lit "https://example-blog.jp/post")
     = lit "Example blog".
Proof.
  split.
  - apply (proj1 (proj2 (proj2
             (C8_publisher_from_url (R := ascii_runtime)
                                    (lit "https://www.msn.com/ja-jp/news"))))
                 (lit "www.msn.com")); vm_compute; reflexivity.
  - apply (proj1 (proj2 (proj2 (proj2
             (C8_publisher_from_url (R := ascii_runtime)
                                    (lit "https://example-blog.jp/post"))))
                        (lit "example-blog.jp") (lit "example-blog.jp")
                        (lit "example-blog.jp")
                        ltac:(vm_compute; reflexivity) ltac:(vm_compute; discriminate)
                        ltac:(vm_compute; reflexivity) ltac:(vm_compute; reflexivity)
                        ltac:(split; [no_member|left; vm_compute; reflexivity])
                        ltac:(right; split; vm_compute; reflexivity)
                        ltac:(vm_compute; reflexivity))
                 (lit "example-blog")).
    exists [], (lit "jp"). split; [vm_compute; reflexivity|].
    split; [no_member|]. split; [no_member|]. left. reflexivity.
Defined.

(** C8, as the claim words it, fails: "localhost" has no second-level
    label, and the name is then made from the whole host, not left
    empty. *)
Lemma C8_counterexample :
  publisher_from_url (R := ascii_runtime) (lit "http://localhost/x") = lit "Localhost"
  /\ forall sld, ~ second_level (lit "localhost") sld.
Proof.
  split; [vm_compute; reflexivity|].
  intros sld (front & tld & E & _).
  assert (H : In c_dot (lit "localhost")).
  { rewrite E. apply in_or_app. right. apply in_or_app. right. left. reflexivity. }
  revert H. no_member.
Qed.

(** The test for msn.com is made on the network location as written, port
    included: with an explicit port it fails and the guess from the host
    labels is returned. *)
Lemma publisher_from_url_msn_port :
  publisher_from_url (R := ascii_runtime) (lit "https://www.msn.com:443/ja-jp/news")
  = lit "Msn".
Proof. vm_compute. reflexivity. Qed.

(** ** The publisher cleaner *)

Lemma lstrip_by_idem (p : N -> bool) (s : pystr) :
  lstrip_by p (lstrip_by p s) = lstrip_by p s.
Proof.
  induction s as [|c s IH]; simpl; [reflexivity|].
  destruct (p c) eqn:E; [exact IH|]. simpl. rewrite E. reflexivity.
Qed.

Lemma lstrip_by_snoc (p : N -> bool) (a : pystr) (c0 : N) :
  p c0 = false -> lstrip_by p (a ++ [c0]) = lstrip_by p a ++ [c0].
Proof.
  intros H. induction a as [|c a IH]; simpl; [rewrite H; reflexivity|].
  destruct (p c); [exact IH|reflexivity].
Qed.

Lemma lstrip_by_head (p : N -> bool) (s : pystr) :
  lstrip_by p s = [] \/ exists c r, lstrip_by p s = c :: r /\ p c = false.
Proof.
  induction s as [|c s IH]; simpl; [auto|].
  destruct (p c) eqn:E; [exact IH|]. right. eauto.
Qed.

Lemma strip_by_idem (p : N -> bool) (s : pystr) :
  strip_by p (strip_by p s) = strip_by p s.
Proof.
  unfold strip_by, rstrip_by.
  destruct (lstrip_by_head p s) as [-> | (c0 & u & -> & Hc0)]; [reflexivity|].
  cbn [List.rev]. rewrite (lstrip_by_snoc p (List.rev u) c0 Hc0).
  set (w := lstrip_by p (List.rev u)).
  assert (Hw : lstrip_by p w = w) by apply lstrip_by_idem.
  rewrite rev_app_distr. cbn [List.rev app lstrip_by]. rewrite Hc0.
  cbn [List.rev]. rewrite rev_involutive.
  rewrite (lstrip_by_snoc p w c0 Hc0), Hw. rewrite rev_app_distr. reflexivity.
Qed.

Lemma strip_idem (s : pystr) : strip (strip s) = strip s.
Proof. apply strip_by_idem. Qed.

Lemma lstrip_by_suffix (p : N -> bool) (s : pystr) :
  exists l, s = l ++ lstrip_by p s.
Proof.
  induction s as [|c s (l & IH)]; simpl; [exists []; reflexivity|].
  destruct (p c); [|exists []; reflexivity].
  exists (c :: l). simpl. congruence.
Qed.

(** Trimming keeps a stretch of the string. *)
Lemma strip_by_factor (p : N -> bool) (s : pystr) :
  exists l r, s = l ++ strip_by p s ++ r.
Proof.
  unfold strip_by, rstrip_by.
  destruct (lstrip_by_suffix p s) as (l & Hl).
  destruct (lstrip_by_suffix p (List.rev (lstrip_by p s))) as (r & Hr).
  exists l, (List.rev r). rewrite <- rev_app_distr, <- Hr, rev_involutive, <- Hl.
  reflexivity.
Qed.

Lemma Forall_factor (P : N -> Prop) (l s r : pystr) :
  Forall P (l ++ s ++ r) -> Forall P s.
Proof.
  intros H. apply Forall_app in H as [_ H]. apply Forall_app in H as [H _]. exact H.
Qed.

Lemma strip_by_Forall (P : N -> Prop) (p : N -> bool) (s : pystr) :
  Forall P s -> Forall P (strip_by p s).
Proof.
  intros H. destruct (strip_by_factor p s) as (l & r & E).
  rewrite E in H. eapply Forall_factor. exact H.
Qed.

Lemma sub_from_Forall (P : N -> Prop) (r : regex) (repl : pystr) (s : pystr) :
  Forall P repl -> Forall P s ->
  forall (prev : option N) (skip : nat), Forall P (sub_from r repl prev skip s).
Proof.
  intros Hrepl. induction 1 as [|c s Hc Hs IH]; intros prev skip; simpl.
  - constructor.
  - destruct skip as [|n]; [|apply IH].
    destruct (match_at r prev (c :: s)) as [[|n]|].
    + constructor; [exact Hc|apply IH].
    + apply Forall_app. split; [exact Hrepl|apply IH].
    + constructor; [exact Hc|apply IH].
Qed.

Lemma re_sub_Forall (P : N -> Prop) (r : regex) (repl s : pystr) :
  Forall P repl -> Forall P s -> Forall P (re_sub r repl s).
Proof. intros H1 H2. apply sub_from_Forall; assumption. Qed.

Lemma replace_dots_Forall (s : pystr) :
  Forall (fun c => decorative_dot c = false)
         (replace_cp c_middot c_space
            (replace_cp c_bullet c_space (replace_cp c_nakaguro c_space s))).
Proof.
  unfold replace_cp. induction s as [|c0 s IH]; cbn [List.map]; constructor;
    [|exact IH].
  unfold decorative_dot.
  destruct (eqcp c0 c_nakaguro) eqn:E1; [vm_compute; reflexivity|].
  destruct (eqcp c0 c_bullet) eqn:E2; [vm_compute; reflexivity|].
  destruct (eqcp c0 c_middot) eqn:E3; [vm_compute; reflexivity|].
  rewrite E1, E2, E3. reflexivity.
Qed.

Lemma replace_dots_id (s : pystr) :
  Forall (fun c => decorative_dot c = false) s ->
  replace_cp c_middot c_space
    (replace_cp c_bullet c_space (replace_cp c_nakaguro c_space s)) = s.
Proof.
  induction 1 as [|c s Hc Hs IH]; [reflexivity|].
  unfold replace_cp in *. cbn [List.map]. rewrite IH.
  unfold decorative_dot in Hc. rewrite !orb_false_iff in Hc.
  destruct Hc as [[H1 H2] H3]. rewrite H1, H2, H3. reflexivity.
Qed.

Lemma star_exec_count {A : Type} (p : N -> bool) (f : pystr -> A) (s : pystr) :
  forall prev : option N,
    star_exec p (fun _ rest => Some (f rest)) prev s = Some (f (lstrip_by p s)).
Proof.
  induction s as [|c s IH]; intros prev; simpl; [reflexivity|].
  destruct (p c); [rewrite IH|]; reflexivity.
Qed.

Lemma lstrip_by_length (p : N -> bool) (s : pystr) :
  (length (lstrip_by p s) <= length s)%nat.
Proof.
  destruct (lstrip_by_suffix p s) as (l & E).
  rewrite E at 2. rewrite length_app. lia.
Qed.

Lemma lstrip_by_drop (p : N -> bool) (s : pystr) :
  drop (length s - length (lstrip_by p s)) s = lstrip_by p s.
Proof.
  destruct (lstrip_by_suffix p s) as (l & E).
  assert (Hl : (length s - length (lstrip_by p s))%nat = length l).
  { rewrite E at 1. rewrite length_app. lia. }
  rewrite Hl. rewrite E at 1. apply drop_app_length.
Qed.

Lemma match_at_Two_or_more (p : N -> bool) (prev : option N) (s : pystr) :
  match_at (Two_or_more p) prev s
  = match s with
    | a :: b :: s'' =>
      if p a && p b
      then Some (S (S (length s'' - length (lstrip_by p s''))))
      else None
    | _ => None
    end.
Proof.
  unfold match_at, Two_or_more, Plus. cbn [exec].
  destruct s as [|a [|b s'']]; [reflexivity|destruct (p a); reflexivity|].
  destruct (p a); [|reflexivity]. destruct (p b); [|reflexivity]. cbn [andb].
  rewrite (star_exec_count p (fun rest => (length (a :: b :: s'') - length rest)%nat)).
  f_equal. pose proof (lstrip_by_length p s''). cbn [length]. lia.
Qed.

Lemma match_at_SPACES_RE (prev : option N) (s : pystr) :
  match_at SPACES_RE prev s
  = match s with
    | a :: b :: s'' =>
      if is_space a && is_space b
      then Some (S (S (length s'' - length (lstrip_by is_space s''))))
      else None
    | _ => None
    end.
Proof. apply match_at_Two_or_more. Qed.

Lemma sub_from_skip (r : regex) (repl : pystr) :
  forall (n : nat) (s : pystr) (prev : option N),
    (n <= length s)%nat ->
    sub_from r repl prev n s
    = sub_from r repl (last_cp prev (take n s)) 0 (drop n s).
Proof.
  induction n as [|n IH]; intros s prev Hn.
  - rewrite take_0, drop_0. reflexivity.
  - destruct s as [|c s]; [simpl in Hn; lia|].
    cbn [sub_from take drop last_cp]. apply IH. simpl in Hn. lia.
Qed.

Lemma double_space_cons (c : N) (s : pystr) :
  double_space (c :: s) = (is_space c && head_space s) || double_space s.
Proof.
  destruct s; [|reflexivity].
  cbn [double_space head_space]. rewrite andb_false_r. reflexivity.
Qed.

Lemma lstrip_by_head_space (s : pystr) : head_space (lstrip_by is_space s) = false.
Proof.
  destruct (lstrip_by_head is_space s) as [-> | (c & r & -> & H)]; [reflexivity|exact H].
Qed.

(** After the runs of whitespace are collapsed, no two whitespace
    characters stand in a row. *)
Lemma collapse_no_double_space (n : nat) :
  forall (s : pystr) (prev : option N),
    (length s <= n)%nat ->
    double_space (sub_from SPACES_RE [c_space] prev 0 s) = false
    /\ (head_space (sub_from SPACES_RE [c_space] prev 0 s) = true ->
        head_space s = true).
Proof.
  induction n as [|n IH]; intros s prev Hlen.
  - destruct s; [split; [reflexivity|discriminate]|simpl in Hlen; lia].
  - destruct s as [|c s']; [split; [reflexivity|discriminate]|].
    cbn [sub_from]. rewrite !match_at_SPACES_RE.
    destruct s' as [|b s''].
    + cbn [sub_from]. split; [reflexivity|auto].
    + destruct (is_space c && is_space b) eqn:Hcb.
      * apply andb_true_iff in Hcb as [Hc Hb].
        cbn [app sub_from].
        rewrite sub_from_skip by apply Nat.le_sub_l.
        rewrite lstrip_by_drop.
        destruct (IH (lstrip_by is_space s'')
                     (last_cp (Some b)
                        (take (length s'' - length (lstrip_by is_space s'')) s'')))
          as [Hd Hh].
        { pose proof (lstrip_by_length is_space s''). simpl in Hlen. lia. }
        rewrite lstrip_by_head_space in Hh. split.
        -- rewrite double_space_cons, Hd.
           destruct (head_space (sub_from SPACES_RE [c_space] _ 0
                                          (lstrip_by is_space s''))) eqn:E.
           ++ specialize (Hh eq_refl). discriminate.
           ++ rewrite andb_false_r. reflexivity.
        -- intros _. exact Hc.
      * destruct (IH (b :: s'') (Some c)) as [Hd Hh]; [simpl in Hlen |- *; lia|].
        split.
        -- rewrite double_space_cons, Hd.
           destruct (head_space (sub_from SPACES_RE [c_space] (Some c) 0 (b :: s'')))
                    eqn:E.
           ++ specialize (Hh eq_refl). cbn [head_space] in Hh.
              rewrite Hh, andb_true_r in Hcb. rewrite Hcb. reflexivity.
           ++ rewrite andb_false_r. reflexivity.
        -- intros H. exact H.
Qed.

Lemma double_space_app_l (l s : pystr) :
  double_space s = true -> double_space (l ++ s) = true.
Proof.
  intros H. induction l as [|c l IH]; [exact H|].
  cbn [app]. rewrite double_space_cons, IH. apply orb_true_r.
Qed.

Lemma double_space_app_r (s r : pystr) :
  double_space s = true -> double_space (s ++ r) = true.
Proof.
  induction s as [|c s IH]; [discriminate|].
  cbn [app]. rewrite !double_space_cons. intros H.
  apply orb_true_iff in H as [H | H].
  - apply andb_true_iff in H as [Hc Hs]. rewrite Hc.
    destruct s as [|b s]; [discriminate|]. cbn [app head_space] in *.
    rewrite Hs. reflexivity.
  - rewrite (IH H). apply orb_true_r.
Qed.

Lemma double_space_factor (l s r : pystr) :
  double_space (l ++ s ++ r) = false -> double_space s = false.
Proof.
  intros H. destruct (double_space s) eqn:E; [|reflexivity].
  rewrite (double_space_app_l l (s ++ r) (double_space_app_r s r E)) in H.
  discriminate.
Qed.

Lemma found_SPACES_double (s : pystr) :
  double_space s = false -> found SPACES_RE s = false.
Proof.
  intros H. destruct (found SPACES_RE s) eqn:E; [|reflexivity].
  apply found_iff in E as (pre & m & post & -> & HM).
  unfold SPACES_RE, Two_or_more in HM.
  apply Matches_Seq in HM as (m1 & m2 & -> & H1 & H2).
  apply Matches_Chr in H1 as (a & -> & Ha).
  apply Matches_Plus in H2 as [Hne Hall].
  destruct m2 as [|b m2]; [congruence|].
  simpl in Hall. apply andb_true_iff in Hall as [Hb _].
  apply double_space_factor in H. cbn [app] in H.
  rewrite double_space_cons in H. cbn [head_space] in H.
  rewrite Ha, Hb in H. discriminate.
Qed.

Lemma strip_by_double_space (p : N -> bool) (s : pystr) :
  double_space s = false -> double_space (strip_by p s) = false.
Proof.
  intros H. destruct (strip_by_factor p s) as (l & r & E).
  rewrite E in H. eapply double_space_factor. exact H.
Qed.

(** What every result of the cleaner looks like: trimmed, free of
    decorative dots and of runs of whitespace, and not a bare time
    expression. *)
Lemma clean_source_text_shape {R : PyRuntime} (x : pystr) :
  clean_source_text x = []
  \/ (strip (clean_source_text x) = clean_source_text x
      /\ Forall (fun c => decorative_dot c = false) (clean_source_text x)
      /\ double_space (clean_source_text x) = false
      /\ matches TIME_ONLY_RE (clean_source_text x) = false).
Proof.
  unfold clean_source_text. destruct x as [|c0 x']; [left; reflexivity|].
  cbv zeta.
  set (t4 := replace_cp c_middot c_space
               (replace_cp c_bullet c_space
                  (replace_cp c_nakaguro c_space
                     (re_sub TEIKYO_RE []
                        (re_sub MSN_HAISHIN_RE []
                           (re_sub ON_MSN_RE [] (strip (c0 :: x')))))))).
  set (t7 := strip (re_sub EMPTY_PARENS_RE []
                      (strip (re_sub TIME_RE []
                                (strip (re_sub TRAILING_TIME_RE [] t4)))))).
  set (t8 := re_sub SPACES_RE [c_space] t7).
  set (t9 := strip (strip_chars s_strip_set (strip t8))).
  destruct (matches TIME_ONLY_RE t9) eqn:Honly; [left; reflexivity|right].
  split; [apply strip_idem|]. split; [|split; [|exact Honly]].
  - assert (H4 : Forall (fun c => decorative_dot c = false) t4)
      by apply replace_dots_Forall.
    assert (H7 : Forall (fun c => decorative_dot c = false) t7).
    { subst t7. unfold strip.
      repeat (first [exact H4 | apply Forall_nil_2 | apply strip_by_Forall
                     | apply re_sub_Forall]). }
    clearbody t7. subst t9 t8. unfold strip, strip_chars.
    repeat (first [exact H7 | apply strip_by_Forall | apply re_sub_Forall]).
    constructor; [reflexivity|constructor].
  - subst t9. unfold strip, strip_chars.
    repeat apply strip_by_double_space.
    subst t8. unfold re_sub.
    apply (collapse_no_double_space (length t7) t7 None (Nat.le_refl _)).
Qed.

Lemma not_occurs_sub (r : regex) (repl s : pystr) :
  ~ occurs r s -> re_sub r repl s = s.
Proof. intros H. apply re_sub_not_found. apply found_false_iff. exact H. Qed.

(** C2, as the code has it: cleaning a cleaned string again changes
    nothing when the first cleaning has left nothing to strip. Deleting a
    marker or a time expression can expose another one (or a separator at
    an end), which only a second cleaning removes; without that, the
    cleaner is idempotent. *)
Theorem C2_clean_idempotent_when_settled {R : PyRuntime} (x : pystr) :
  nothing_left_to_strip (clean_source_text x) ->
  clean_source_text (clean_source_text x) = clean_source_text x.
Proof.
  intros (Hon & Hmsn & Htk & Htrail & Htime & Hpar & Hsep).
  destruct (clean_source_text_shape x) as [-> | (Hstrip & Hdots & Hdbl & Honly)];
    [reflexivity|].
  set (y := clean_source_text x) in *. clearbody y.
  destruct y as [|c y']; [reflexivity|].
  unfold clean_source_text at 1. cbv zeta.
  rewrite Hstrip.
  rewrite (not_occurs_sub _ [] _ Hon), (not_occurs_sub _ [] _ Hmsn),
    (not_occurs_sub _ [] _ Htk).
  rewrite (replace_dots_id _ Hdots).
  rewrite (not_occurs_sub _ [] _ Htrail), Hstrip.
  rewrite (not_occurs_sub _ [] _ Htime), Hstrip.
  rewrite (not_occurs_sub _ [] _ Hpar), Hstrip.
  rewrite (re_sub_not_found _ _ _ (found_SPACES_double _ Hdbl)), Hstrip.
  rewrite Hsep, Hstrip, Honly. reflexivity.
Qed.

(** C2 at a publisher text with a marker and a time expression. *)
Lemma C2_witness :
  let x := lit "Car Watch on MSN · 3 時間前" in
  clean_source_text (R := ascii_runtime) x = lit "Car Watch"
  /\ clean_source_text (R := ascii_runtime) (clean_source_text (R := ascii_runtime) x)
     = clean_source_text (R := ascii_runtime) x.
Proof.
  intros x. split; [vm_compute; reflexivity|].
  apply (C2_clean_idempotent_when_settled (R := ascii_runtime) x).
  unfold nothing_left_to_strip.
  repeat split; apply found_false_iff; vm_compute; reflexivity.
Defined.

(** C2, as the claim words it, fails: deleting the marker 配信 from
    "配配信信" leaves the marker 配信, which a second cleaning deletes. *)
Lemma C2_counterexample :
  let x := lit "配配信信" in
  clean_source_text (R := ascii_runtime) x = lit "配信"
  /\ clean_source_text (R := ascii_runtime) (clean_source_text (R := ascii_runtime) x)
     = []
  /\ clean_source_text (R := ascii_runtime) (clean_source_text (R := ascii_runtime) x)
     <> clean_source_text (R := ascii_runtime) x.
Proof.
  intros x. split; [vm_compute; reflexivity|].
  split; [vm_compute; reflexivity|]. vm_compute. discriminate.
Qed.

(** * Further properties of main.py *)

(** ** The store write, whatever the service answers *)

Lemma append_rows_exn (key name : pystr) (rows : list (list (list N)))
      (w w1 : world) (e : exn) :
  append_rows key name rows w = (inl e, w1) -> e = APIError.
Proof.
  unfold append_rows. intros H.
  apply bind_inl_inv in H as [H | (u & w2 & _ & H)].
  - apply request_inl in H as [H _]. exact H.
  - discriminate.
Qed.

Lemma add_worksheet_exn (key name : pystr) (w w1 : world) (e : exn) :
  add_worksheet key name w = (inl e, w1) -> e = APIError.
Proof.
  unfold add_worksheet. intros H.
  apply bind_inl_inv in H as [H | (u & w2 & _ & H)].
  - apply request_inl in H as [H _]. exact H.
  - discriminate.
Qed.

Lemma get_all_values_exn (key name : pystr) (w w1 : world) (e : exn) :
  get_all_values key name w = (inl e, w1) -> e = APIError.
Proof.
  unfold get_all_values. intros H.
  apply bind_inl_inv in H as [H | (u & w2 & _ & H)].
  - apply request_inl in H as [H _]. exact H.
  - apply bind_inl_inv in H as [H | (u' & w3 & _ & H)]; discriminate.
Qed.

Lemma worksheet_exn (key name : pystr) (w w1 : world) (e : exn) :
  worksheet key name w = (inl e, w1) -> e = APIError \/ e = WorksheetNotFound.
Proof.
  unfold worksheet. intros H.
  apply bind_inl_inv in H as [H | (u & w2 & Hr & H)].
  - apply request_inl in H as [H _]. auto.
  - apply bind_inl_inv in H as [H | (found & w3 & Hl & H)]; [discriminate|].
    destruct found; [discriminate|]. unfold raise in H. injection H as <- _. auto.
Qed.

(** The loop body raises nothing but the API error. *)
Lemma attempt_raises_api (articles : list article) (key name : pystr)
      (w w' : world) (e : exn) :
  attempt articles key name w = (inl e, w') -> e = APIError.
Proof.
  unfold attempt, open_by_key. intros H.
  apply bind_inl_inv in H as [H | (u0 & w0 & _ & H)].
  { apply request_inl in H as [H _]. exact H. }
  apply bind_inl_inv in H as [H | (u1 & w1 & _ & H)].
  - unfold catch in H.
    destruct (worksheet key name w0) as [[e0|u] w2] eqn:Hw; [|discriminate].
    apply worksheet_exn in Hw as [-> | ->].
    + injection H as <- _. reflexivity.
    + apply bind_inl_inv in H as [H | (u2 & w3 & _ & H)].
      * eapply add_worksheet_exn. exact H.
      * eapply append_rows_exn. exact H.
  - apply bind_inl_inv in H as [H | (existing & w2 & _ & H)].
    + eapply get_all_values_exn. exact H.
    + destruct (snd (select_new articles (existing_urls_of existing))).
      * discriminate.
      * eapply append_rows_exn. exact H.
Qed.

Lemma select_new_rows (articles : list article) (existing_urls : gset (list N)) :
  snd (select_new articles existing_urls)
  = (row_of <$> filter (fun a => url a ∉ existing_urls) articles).
Proof. unfold select_new. rewrite select_new_acc. reflexivity. Qed.

Lemma retry_outcome (articles : list article) (key name : pystr) :
  forall (n : nat) (w : world),
    let (r, w') := retry n articles key name w in
    (r = inr tt \/ r = inl RuntimeError)
    /\ (forall rows,
           sheets w !! (key, name) = Some rows ->
           exists added,
             sheets w' !! (key, name) = Some (rows ++ added)
             /\ added `sublist_of` (row_of <$> articles)
             /\ (r = inl RuntimeError -> added = []))
    /\ (forall k, k <> (key, name) -> sheets w' !! k = sheets w !! k).
Proof.
  induction n as [|n IH]; intros w.
  - simpl. unfold raise. split; [auto|]. split; [|auto].
    intros rows Hrows. exists []. rewrite app_nil_r.
    split; [exact Hrows|]. split; [apply sublist_nil_l|auto].
  - simpl. unfold catch.
    destruct (attempt articles key name w) as [[e|[]] w1] eqn:Ha.
    + assert (e = APIError) as -> by (eapply attempt_raises_api; exact Ha).
      apply attempt_refused in Ha as [Hl Ho].
      specialize (IH w1). destruct (retry n articles key name w1) as [r w'].
      destruct IH as (Hr & Hrows & Hframe). split; [exact Hr|]. split.
      * intros rows E. unfold left_by_refusals in Hl. rewrite E in Hl.
        apply Hrows. exact Hl.
      * intros k Hk. rewrite Hframe, Ho by exact Hk. reflexivity.
    + apply attempt_success in Ha as [Hrows Ho]. split; [auto|]. split; [|exact Ho].
      intros rows E. unfold rows_before in Hrows. rewrite E in Hrows.
      eexists. split; [exact Hrows|]. split; [|discriminate].
      rewrite select_new_rows. apply fmap_sublist. apply sublist_filter.
Qed.

(** X1 (write_to_spreadsheet): whatever requests the service refuses, the
    rows the worksheet had are still there, in place, followed by what was
    added: article rows in their order, and nothing unless the write ends
    normally; no other worksheet changes. *)
Theorem write_to_spreadsheet_only_appends (articles : list article)
        (key name : pystr) (w : world) :
  let (r, w') := write_to_spreadsheet articles key name w in
  (forall rows,
      sheets w !! (key, name) = Some rows ->
      exists added,
        sheets w' !! (key, name) = Some (rows ++ added)
        /\ added `sublist_of` (row_of <$> articles)
        /\ (r <> inr tt -> added = []))
  /\ (forall k, k <> (key, name) -> sheets w' !! k = sheets w !! k).
Proof.
  pose proof (retry_outcome articles key name 5 w) as H.
  unfold write_to_spreadsheet.
  destruct (retry 5 articles key name w) as [r w'].
  destruct H as (Hr & Hrows & Hframe). split; [|exact Hframe].
  intros rows E. destruct (Hrows rows E) as (added & E' & Hsub & Hnone).
  exists added. split; [exact E'|]. split; [exact Hsub|].
  intros Hne. destruct Hr as [Hr | Hr]; [congruence|auto].
Qed.

Ltac unfold_store :=
  unfold attempt, open_by_key, catch, worksheet, add_worksheet, append_row, append_rows,
    get_all_values, lookup_sheet, update_sheets, request, mbind, M_bind, bind,
    mret, M_ret, ret, raise.

Lemma attempt_no_refusal (articles : list article) (key name : pystr) (w : world) :
  failures w = [] ->
  exists w', attempt articles key name w = (inr tt, w') /\ failures w' = [].
Proof.
  intros Hf. destruct w as [s fs]. simpl in Hf. subst fs.
  unfold_store.
  cbn. destruct (s !! (key, name)) as [rows|] eqn:E; cbn.
  - rewrite E. cbn. destruct (snd (select_new articles (existing_urls_of rows))); cbn; eauto.
  - rewrite lookup_insert_eq. cbn. rewrite lookup_insert_eq. cbn.
    destruct (snd (select_new articles ∅)); cbn; eauto.
Qed.

Lemma attempt_nothing_new (articles : list article) (key name : pystr) (w : world)
      (rows : list (list (list N))) :
  failures w = [] -> sheets w !! (key, name) = Some rows ->
  snd (select_new articles (existing_urls_of rows)) = [] ->
  attempt articles key name w = (inr tt, w).
Proof.
  intros Hf E Hnew. destruct w as [s fs]. simpl in Hf, E. subst fs.
  unfold_store. cbn. rewrite E. cbn. rewrite E. cbn. rewrite Hnew. reflexivity.
Qed.

Lemma filter_none_new (articles : list article) (S : gset (list N)) :
  (forall a, a ∈ articles -> url a ∈ S) ->
  filter (fun a => url a ∉ S) articles = [].
Proof.
  induction articles as [|a l IH]; intros H; [reflexivity|].
  rewrite filter_cons. rewrite decide_False.
  - apply IH. intros b Hb. apply H. right. exact Hb.
  - intros Hn. apply Hn. apply H. left.
Qed.

Lemma existing_urls_of_app (base new : list (list (list N))) :
  base <> [] ->
  existing_urls_of (base ++ new)
  = existing_urls_of base ∪ list_to_set (omap (fun r : list (list N) => r !! 1%nat) new).
Proof.
  intros Hb. destruct base as [|r0 base]; [congruence|].
  unfold existing_urls_of. cbn [app List.tl].
  rewrite omap_app, list_to_set_app_L. reflexivity.
Qed.

Lemma omap_url_rows (l : list article) :
  omap (fun r : list (list N) => r !! 1%nat) (row_of <$> l) = (url <$> l).
Proof. induction l as [|a l IH]; [reflexivity|]. cbn. f_equal. exact IH. Qed.

Lemma retry_first_success (articles : list article) (key name : pystr)
      (n : nat) (w w' : world) :
  attempt articles key name w = (inr tt, w') ->
  retry (S n) articles key name w = (inr tt, w').
Proof. intros H. simpl. unfold catch. rewrite H. reflexivity. Qed.

(** X2 (write_to_spreadsheet): with no request refused, on a worksheet
    that is missing or holds at least one row, the write goes through, and
    writing the same articles a second time goes through as well and
    changes nothing: every URL of the batch is then among the existing
    ones. *)
Theorem write_twice_adds_nothing (articles : list article) (key name : pystr)
        (w : world) :
  failures w = [] ->
  sheets w !! (key, name) <> Some [] ->
  exists w1,
    write_to_spreadsheet articles key name w = (inr tt, w1)
    /\ write_to_spreadsheet articles key name w1 = (inr tt, w1).
Proof.
  intros Hf Hne.
  destruct (attempt_no_refusal articles key name w Hf) as (w1 & Ha & Hf1).
  exists w1. unfold write_to_spreadsheet.
  split; [apply retry_first_success; exact Ha|].
  apply retry_first_success.
  apply attempt_success in Ha as [Hrows _]. cbv zeta in Hrows.
  eapply attempt_nothing_new; [exact Hf1|exact Hrows|].
  assert (Hb : rows_before key name w <> []).
  { unfold rows_before. destruct (sheets w !! (key, name)) as [rows|]; congruence. }
  rewrite (select_new_rows articles (existing_urls_of (rows_before key name w))).
  rewrite existing_urls_of_app by exact Hb.
  rewrite omap_url_rows, select_new_rows.
  rewrite filter_none_new; [reflexivity|].
  intros a Ha. apply elem_of_union.
  destruct (decide (url a ∈ existing_urls_of (rows_before key name w))) as [Hin|Hout];
    [left; exact Hin|right].
  apply elem_of_list_to_set. apply list_elem_of_fmap_2.
  apply list_elem_of_filter. split; assumption.
Qed.

(** X2 at a store without the worksheet and a batch with one URL twice. *)
Lemma write_twice_adds_nothing_witness :
  let a := mk_article (lit "t") (lit "u") (lit "d") (lit "p") in
  let key := lit "k" in
  let name := lit "Google" in
  exists w1,
    write_to_spreadsheet [a; a] key name (mk_world ∅ []) = (inr tt, w1)
    /\ write_to_spreadsheet [a; a] key name w1 = (inr tt, w1).
Proof.
  intros a key name.
  apply (write_twice_adds_nothing [a; a] key name (mk_world ∅ [])).
  - reflexivity.
  - simpl. rewrite lookup_empty. discriminate.
Defined.

Lemma filter_all {A : Type} (P : A -> Prop) `{forall x, Decision (P x)} (l : list A) :
  (forall x, P x) -> filter P l = l.
Proof.
  intros HP. induction l as [|a l IH]; [reflexivity|].
  rewrite filter_cons, decide_True by apply HP. f_equal. exact IH.
Qed.

(** X3 (write_to_spreadsheet): when the worksheet is missing and the
    request that appends the header row is the one refused, the next run
    of the loop finds the worksheet created and does not write the header
    again: the write ends normally with a worksheet that holds the article
    rows only. *)
Theorem refused_header_is_not_written_again (articles : list article)
        (key name : pystr) (s : gmap (list N * list N) (list (list (list N)))) :
  s !! (key, name) = None -> articles <> [] ->
  write_to_spreadsheet articles key name (mk_world s [false; false; false; true])
  = (inr tt, mk_world (<[(key, name) := row_of <$> articles]> s) []).
Proof.
  intros E Hne. unfold write_to_spreadsheet. cbn [retry].
  assert (H1 : attempt articles key name (mk_world s [false; false; false; true])
               = (inl APIError, mk_world (<[(key, name) := []]> s) [])).
  { unfold_store. cbn. rewrite E. reflexivity. }
  assert (H2 : attempt articles key name (mk_world (<[(key, name) := []]> s) [])
               = (inr tt, mk_world (<[(key, name) := row_of <$> articles]> s) [])).
  { unfold_store. cbn -[select_new existing_urls_of]. rewrite lookup_insert_eq.
    cbn -[select_new existing_urls_of]. rewrite lookup_insert_eq.
    cbn -[select_new existing_urls_of].
    change (existing_urls_of []) with (∅ : gset (list N)).
    rewrite select_new_rows, filter_all by (intros a; apply not_elem_of_empty).
    destruct articles as [|a l]; [congruence|]. cbn.
    rewrite lookup_insert_eq, insert_insert_eq. reflexivity. }
  unfold catch at 1. rewrite H1. unfold catch at 1. rewrite H2. reflexivity.
Qed.

(** X3 at an empty store. *)
Lemma refused_header_witness :
  let a := mk_article (lit "t") (lit "u") (lit "d") (lit "p") in
  let key := lit "k" in
  let name := lit "Google" in
  write_to_spreadsheet [a] key name (mk_world ∅ [false; false; false; true])
  = (inr tt, mk_world (<[(key, name) := [row_of a]]> ∅) []).
Proof.
  intros a key name.
  apply (refused_header_is_not_written_again [a] key name ∅).
  - apply lookup_empty.
  - discriminate.
Defined.

Lemma existing_urls_of_cons (r0 : list (list N)) (rest : list (list (list N))) (u : list N) :
  u ∈ existing_urls_of (r0 :: rest) <-> exists r, r ∈ rest /\ r !! 1%nat = Some u.
Proof.
  unfold existing_urls_of. cbn [List.tl].
  rewrite elem_of_list_to_set, list_elem_of_omap. reflexivity.
Qed.

(** X4 (write_to_spreadsheet): the first row of the worksheet is taken
    for the header, whatever it holds: an article whose URL is in no row
    after the first is appended, also when the first row is that
    article's own row. *)
Theorem first_row_is_not_an_existing_url (articles : list article) (key name : pystr)
        (w : world) (r0 : list (list N)) (rest : list (list (list N))) (a : article) :
  failures w = [] ->
  sheets w !! (key, name) = Some (r0 :: rest) ->
  a ∈ articles ->
  (forall r, r ∈ rest -> r !! 1%nat <> Some (url a)) ->
  exists w' added,
    write_to_spreadsheet articles key name w = (inr tt, w')
    /\ sheets w' !! (key, name) = Some (r0 :: rest ++ added)
    /\ row_of a ∈ added.
Proof.
  intros Hf E Ha Hrest.
  destruct (attempt_no_refusal articles key name w Hf) as (w' & Hok & _).
  exists w'. eexists. split; [apply retry_first_success; exact Hok|].
  apply attempt_success in Hok as [Hrows _]. cbv zeta in Hrows.
  unfold rows_before in Hrows. rewrite E in Hrows.
  split; [exact Hrows|].
  rewrite select_new_rows. apply list_elem_of_fmap_2.
  apply list_elem_of_filter. split; [|exact Ha].
  intros Hin. apply existing_urls_of_cons in Hin as (r & Hr & Hu).
  exact (Hrest r Hr Hu).
Qed.

(** X4 at a worksheet without header, holding the article's row only. *)
Lemma first_row_witness :
  let a := mk_article (lit "t") (lit "u") (lit "d") (lit "p") in
  let key := lit "k" in
  let name := lit "Google" in
  exists w' added,
    write_to_spreadsheet [a] key name (mk_world {[ (key, name) := [row_of a] ]} [])
    = (inr tt, w')
    /\ sheets w' !! (key, name) = Some (row_of a :: [] ++ added)
    /\ row_of a ∈ added.
Proof.
  intros a key name.
  apply (first_row_is_not_an_existing_url [a] key name
           (mk_world {[ (key, name) := [row_of a] ]} []) (row_of a) [] a).
  - reflexivity.
  - simpl. apply lookup_singleton_eq.
  - apply list_elem_of_here.
  - intros r Hr. inversion Hr.
Defined.

(** ** The entry point *)

Lemma only_appended_refl (w : world) : only_appended w w.
Proof. intros k rows E. exists []. rewrite app_nil_r. exact E. Qed.

Lemma only_appended_trans (w1 w2 w3 : world) :
  only_appended w1 w2 -> only_appended w2 w3 -> only_appended w1 w3.
Proof.
  intros H12 H23 k rows E. destruct (H12 k rows E) as (a1 & E1).
  destruct (H23 k _ E1) as (a2 & E2). exists (a1 ++ a2).
  rewrite app_assoc. exact E2.
Qed.

Lemma appends_only_ret : appends_only (mret tt).
Proof. intros w. split; [left; reflexivity|apply only_appended_refl]. Qed.

Lemma appends_only_bind (m k : M unit) :
  appends_only m -> appends_only k -> appends_only (m ;; k).
Proof.
  intros Hm Hk w. unfold mbind, M_bind, bind.
  destruct (Hm w) as [Hr Ha]. destruct (m w) as [[e|[]] w1]; simpl in *.
  - split; [|exact Ha]. destruct Hr as [Hr|Hr]; [discriminate|right; exact Hr].
  - destruct (Hk w1) as [Hr' Ha']. split; [exact Hr'|].
    eapply only_appended_trans; eassumption.
Qed.

Lemma keeps_ret (k : list N * list N) : keeps k (mret tt).
Proof. intros w. reflexivity. Qed.

Lemma keeps_bind (k : list N * list N) (m1 m2 : M unit) :
  keeps k m1 -> keeps k m2 -> keeps k (m1 ;; m2).
Proof.
  intros H1 H2 w. unfold mbind, M_bind, bind.
  specialize (H1 w). destruct (m1 w) as [[e|[]] w1]; simpl in *.
  - exact H1.
  - rewrite H2. exact H1.
Qed.

Lemma write_if_any_appends_only (articles : list article) (key name : pystr) :
  appends_only (write_if_any articles key name).
Proof.
  intros w. unfold write_if_any. destruct articles as [|a l].
  { split; [left; reflexivity|apply only_appended_refl]. }
  pose proof (retry_outcome (a :: l) key name 5 w) as H.
  unfold write_to_spreadsheet.
  destruct (retry 5 (a :: l) key name w) as [r w'].
  destruct H as (Hr & Hrows & Hframe). split; [exact Hr|].
  intros k rows E. destruct (decide (k = (key, name))) as [->|Hk].
  - destruct (Hrows rows E) as (added & E' & _). eauto.
  - exists []. rewrite app_nil_r. simpl. rewrite Hframe by exact Hk. exact E.
Qed.

Lemma write_if_any_keeps (articles : list article) (key name : pystr)
      (k : list N * list N) :
  k <> (key, name) -> keeps k (write_if_any articles key name).
Proof.
  intros Hk w. unfold write_if_any. destruct articles as [|a l]; [reflexivity|].
  pose proof (retry_outcome (a :: l) key name 5 w) as H.
  unfold write_to_spreadsheet.
  destruct (retry 5 (a :: l) key name w) as [r w'].
  destruct H as (_ & _ & Hframe). simpl. apply Hframe. exact Hk.
Qed.

Lemma site_names_differ :
  s_Google <> s_Yahoo /\ s_Google <> s_MSN /\ s_Yahoo <> s_MSN.
Proof. repeat split; discriminate. Qed.

(** X5 (entry point): whatever the sites show and whatever requests the
    service refuses, however the run ends, every worksheet keeps its rows
    in place, with rows added after them at most; and no worksheet other
    than Google, Yahoo and MSN of the configured spreadsheet changes or
    appears. *)
Theorem main_only_appends {R : PyRuntime} {T : Transport}
        (args : namespace) (environ : gmap (list N) (list N))
        (google_site : pystr -> list google_element)
        (yahoo_site : pystr -> list yahoo_element)
        (msn_site : pystr -> list msn_element) (now : datetime) (w : world) :
  let id := snd (resolve_config args environ) in
  let (r, w') := main args environ google_site yahoo_site msn_site now w in
  only_appended w w'
  /\ (forall k,
         k <> (id, s_Google) -> k <> (id, s_Yahoo) -> k <> (id, s_MSN) ->
         sheets w' !! k = sheets w !! k).
Proof.
  intros id. unfold main. subst id. unfold resolve_config. cbn [snd].
  set (keyword := opt_or_str _ DEFAULT_KEYWORD).
  set (id := opt_or_str _ DEFAULT_SPREADSHEET_ID).
  set (g := get_google_news_with_selenium _).
  set (y := get_yahoo_news_with_selenium _).
  set (m := get_msn_news_with_selenium _ _).
  pose proof (appends_only_bind _ _ (write_if_any_appends_only g id s_Google)
                (appends_only_bind _ _ (write_if_any_appends_only y id s_Yahoo)
                   (write_if_any_appends_only m id s_MSN)) w) as [Hr Ha].
  assert (Hk : forall k,
             k <> (id, s_Google) -> k <> (id, s_Yahoo) -> k <> (id, s_MSN) ->
             keeps k (write_if_any g id s_Google;;
                      write_if_any y id s_Yahoo;; write_if_any m id s_MSN)).
  { intros k H1 H2 H3. repeat apply keeps_bind; apply write_if_any_keeps; assumption. }
  destruct ((write_if_any g id s_Google;;
             write_if_any y id s_Yahoo;; write_if_any m id s_MSN) w) as [r w'] eqn:E.
  simpl in Hr, Ha. split; [exact Ha|].
  intros k H1 H2 H3. specialize (Hk k H1 H2 H3 w). rewrite E in Hk. exact Hk.
Qed.

(** X6 (entry point): a site that yields no article has its worksheet
    left exactly as it was, present or missing: no worksheet is created
    for it, whatever happens to the other two. *)
Theorem main_skips_a_site_without_articles {R : PyRuntime} {T : Transport}
        (args : namespace) (environ : gmap (list N) (list N))
        (google_site : pystr -> list google_element)
        (yahoo_site : pystr -> list yahoo_element)
        (msn_site : pystr -> list msn_element) (now : datetime) (w : world) :
  let keyword := fst (resolve_config args environ) in
  let id := snd (resolve_config args environ) in
  let w' := snd (main args environ google_site yahoo_site msn_site now w) in
  (get_google_news_with_selenium (google_site keyword) = [] ->
   sheets w' !! (id, s_Google) = sheets w !! (id, s_Google))
  /\ (get_yahoo_news_with_selenium (yahoo_site keyword) = [] ->
      sheets w' !! (id, s_Yahoo) = sheets w !! (id, s_Yahoo))
  /\ (get_msn_news_with_selenium now (msn_site keyword) = [] ->
      sheets w' !! (id, s_MSN) = sheets w !! (id, s_MSN)).
Proof.
  intros keyword id w'. subst keyword id w'. unfold main, resolve_config. cbn [fst snd].
  set (keyword := opt_or_str _ DEFAULT_KEYWORD).
  set (id := opt_or_str _ DEFAULT_SPREADSHEET_ID).
  destruct site_names_differ as (Hgy & Hgm & Hym).
  repeat split; intros ->.
  - apply (keeps_bind _ _ _ (keeps_ret _)). apply keeps_bind; apply write_if_any_keeps; congruence.
  - apply keeps_bind; [apply write_if_any_keeps; congruence|].
    apply (keeps_bind _ _ _ (keeps_ret _)). apply write_if_any_keeps; congruence.
  - apply keeps_bind; [apply write_if_any_keeps; congruence|].
    apply keeps_bind; [apply write_if_any_keeps; congruence|]. apply keeps_ret.
Qed.

Lemma attempt_open_refused (articles : list article) (key name : pystr)
      (s : gmap (list N * list N) (list (list (list N)))) (fs : list bool) :
  attempt articles key name (mk_world s (true :: fs)) = (inl APIError, mk_world s fs).
Proof. reflexivity. Qed.

(** X7 (entry point): when the Google articles are to be written and the
    service refuses the first five requests, the run ends with the
    terminal error of that write; the store is as before and no further
    request is made: the Yahoo and MSN articles are never written. *)
Theorem main_stops_at_the_terminal_error {R : PyRuntime} {T : Transport}
        (args : namespace) (environ : gmap (list N) (list N))
        (google_site : pystr -> list google_element)
        (yahoo_site : pystr -> list yahoo_element)
        (msn_site : pystr -> list msn_element) (now : datetime)
        (s : gmap (list N * list N) (list (list (list N)))) (fs : list bool) :
  get_google_news_with_selenium (google_site (fst (resolve_config args environ))) <> [] ->
  main args environ google_site yahoo_site msn_site now
       (mk_world s (true :: true :: true :: true :: true :: fs))
  = (inl RuntimeError, mk_world s fs).
Proof.
  unfold main, resolve_config. cbn [fst].
  set (keyword := opt_or_str _ DEFAULT_KEYWORD).
  set (id := opt_or_str _ DEFAULT_SPREADSHEET_ID).
  intros Hne.
  destruct (get_google_news_with_selenium (google_site keyword)) as [|a l]; [congruence|].
  unfold mbind, M_bind, bind, write_if_any at 1, write_to_spreadsheet.
  cbn [retry]. unfold catch. rewrite !attempt_open_refused. reflexivity.
Qed.

(** X7 at a Google page with one article and an empty store. *)
Lemma main_stops_witness :
  let g := mk_google_element (Some (lit "t", Some (lit "./read/1")))
                             (Some (Some (lit "2024-02-29T20:15:00Z"))) [] in
  main (R := ascii_runtime) (T := offline) (mk_namespace None None) ∅
       (fun _ => [g]) (fun _ => []) (fun _ => []) (mk_datetime 2024 3 1 0 30 15 7)
       (mk_world ∅ [true; true; true; true; true; false])
  = (inl RuntimeError, mk_world ∅ [false]).
Proof.
  intros g.
  apply (main_stops_at_the_terminal_error (R := ascii_runtime) (T := offline)).
  vm_compute. discriminate.
Defined.

(** ** Configuration *)

Lemma opt_or_str_cases (a b : option pystr) (d : pystr) :
  d <> [] ->
  opt_or_str (opt_or a b) d <> []
  /\ (forall x, a = Some x -> x <> [] -> opt_or_str (opt_or a b) d = x)
  /\ (a = None \/ a = Some [] ->
      (forall x, b = Some x -> x <> [] -> opt_or_str (opt_or a b) d = x)
      /\ (b = None \/ b = Some [] -> opt_or_str (opt_or a b) d = d)).
Proof.
  intros Hd. split; [|split].
  - destruct a as [[|c x]|], b as [[|c' x']|]; simpl; congruence.
  - intros x -> Hx. destruct x; [congruence|reflexivity].
  - intros Ha. assert (opt_or a b = b) as -> by (destruct Ha as [-> | ->]; reflexivity).
    split.
    + intros x -> Hx. destruct x; [congruence|reflexivity].
    + intros [-> | ->]; reflexivity.
Qed.

(** X8 (resolve_config): the keyword and the spreadsheet id are never
    empty; each is the command-line option when that is given and not
    empty, else the environment variable when that is set and not empty,
    else the built-in default. *)
Theorem resolve_config_precedence (args : namespace) (environ : gmap (list N) (list N)) :
  let (keyword, spreadsheet_id) := resolve_config args environ in
  (keyword <> [] /\ spreadsheet_id <> [])
  /\ (forall x, ns_keyword args = Some x -> x <> [] -> keyword = x)
  /\ (forall x, ns_sheet args = Some x -> x <> [] -> spreadsheet_id = x)
  /\ (ns_keyword args = None \/ ns_keyword args = Some [] ->
      (forall x, environ !! NEWS_KEYWORD = Some x -> x <> [] -> keyword = x)
      /\ (environ !! NEWS_KEYWORD = None \/ environ !! NEWS_KEYWORD = Some [] ->
          keyword = DEFAULT_KEYWORD))
  /\ (ns_sheet args = None \/ ns_sheet args = Some [] ->
      (forall x, environ !! SPREADSHEET_ID = Some x -> x <> [] -> spreadsheet_id = x)
      /\ (environ !! SPREADSHEET_ID = None \/ environ !! SPREADSHEET_ID = Some [] ->
          spreadsheet_id = DEFAULT_SPREADSHEET_ID)).
Proof.
  unfold resolve_config.
  destruct (opt_or_str_cases (ns_keyword args) (environ !! NEWS_KEYWORD) DEFAULT_KEYWORD)
    as (K1 & K2 & K3); [discriminate|].
  destruct (opt_or_str_cases (ns_sheet args) (environ !! SPREADSHEET_ID)
                             DEFAULT_SPREADSHEET_ID) as (S1 & S2 & S3); [discriminate|].
  auto.
Qed.

(** X8 with an empty option and the variable set. *)
Lemma resolve_config_witness :
  fst (resolve_config (mk_namespace (Some []) None) {[ NEWS_KEYWORD := lit "スバル" ]})
  = lit "スバル"
  /\ snd (resolve_config (mk_namespace (Some []) None) {[ NEWS_KEYWORD := lit "スバル" ]})
     = DEFAULT_SPREADSHEET_ID.
Proof.
  pose proof (resolve_config_precedence (mk_namespace (Some []) None)
                {[ NEWS_KEYWORD := lit "スバル" ]}) as H.
  destruct (resolve_config (mk_namespace (Some []) None)
              {[ NEWS_KEYWORD := lit "スバル" ]}) as [keyword id].
  destruct H as (_ & _ & _ & Hk & Hs). split.
  - apply Hk; [right; reflexivity| |discriminate]. apply lookup_singleton_eq.
  - apply Hs; [left; reflexivity|]. left. apply lookup_singleton_ne. discriminate.
Defined.

(** ** The store and entry-point properties at concrete stores *)

(** X1 at a worksheet with its header, two refusals, then a run that goes
    through. *)
Lemma write_only_appends_witness :
  let a := mk_article (lit "t") (lit "u") (lit "d") (lit "p") in
  let key := lit "k" in
  let name := lit "Google" in
  let w := mk_world {[ (key, name) := [HEADER] ]} [true; true] in
  exists added,
    sheets (snd (write_to_spreadsheet [a] key name w)) !! (key, name)
    = Some ([HEADER] ++ added).
Proof.
  intros a key name w.
  pose proof (write_to_spreadsheet_only_appends [a] key name w) as H.
  destruct (write_to_spreadsheet [a] key name w) as [r w'].
  destruct H as (H & _).
  destruct (H [HEADER]) as (added & E & _); [apply lookup_singleton_eq|].
  exists added. exact E.
Defined.

(** X5 at a run where only Google shows an article. *)
Lemma main_only_appends_witness :
  let g := mk_google_element (Some (lit "t", Some (lit "./read/1")))
                             (Some (Some (lit "2024-02-29T20:15:00Z"))) [] in
  let w := mk_world {[ (lit "other", lit "Sheet1") := [[lit "x"]] ]} [] in
  sheets (snd (main (R := ascii_runtime) (T := offline) (mk_namespace None None) ∅
                    (fun _ => [g]) (fun _ => []) (fun _ => [])
                    (mk_datetime 2024 3 1 0 30 15 7) w))
  !! (lit "other", lit "Sheet1")
  = Some [[lit "x"]].
Proof.
  intros g w.
  pose proof (main_only_appends (R := ascii_runtime) (T := offline)
                (mk_namespace None None) ∅
                (fun _ => [g]) (fun _ => []) (fun _ => [])
                (mk_datetime 2024 3 1 0 30 15 7) w) as H.
  cbv zeta in H.
  destruct (main (mk_namespace None None) ∅ (fun _ => [g]) (fun _ => []) (fun _ => [])
                 (mk_datetime 2024 3 1 0 30 15 7) w) as [r w'].
  destruct H as (_ & H). simpl. rewrite H; [apply lookup_singleton_eq| | |];
    vm_compute; discriminate.
Defined.

(** X6 at the same run: no Yahoo worksheet appears. *)
Lemma main_skips_witness :
  let g := mk_google_element (Some (lit "t", Some (lit "./read/1")))
                             (Some (Some (lit "2024-02-29T20:15:00Z"))) [] in
  let w := mk_world ∅ [] in
  sheets (snd (main (R := ascii_runtime) (T := offline) (mk_namespace None None) ∅
                    (fun _ => [g]) (fun _ => []) (fun _ => [])
                    (mk_datetime 2024 3 1 0 30 15 7) w))
  !! (DEFAULT_SPREADSHEET_ID, s_Yahoo)
  = None.
Proof.
  intros g w.
  destruct (main_skips_a_site_without_articles (R := ascii_runtime) (T := offline)
              (mk_namespace None None) ∅
              (fun _ => [g]) (fun _ => []) (fun _ => [])
              (mk_datetime 2024 3 1 0 30 15 7) w) as (_ & H & _).
  refine (eq_trans (H _) _); [reflexivity|apply lookup_empty].
Defined.

(** ** Hours and days ago *)

Lemma bind_Some_l {A B : Type} (f : A -> option B) (a : A) : (Some a ≫= f) = f a.
Proof. reflexivity. Qed.

Lemma int_digits_nonneg (ds : pystr) :
  forall acc n : Z, 0 <= acc -> int_digits acc ds = Some n -> 0 <= n.
Proof.
  induction ds as [|c ds IH]; intros acc n Hacc H; simpl in H.
  - injection H as <-. exact Hacc.
  - destruct (decimal c) as [v|]; [|discriminate].
    apply (IH (acc * 10 + Z.of_N v)); [lia|exact H].
Qed.

(** X9 (parse_relative_time): for a label of the form "N hours ago" (it
    names no minute, contains 時間前 or the word hour, and its first
    number spells N with no more than 4300 digits) and a reference time
    at least N hours after 0001/01/01 00:00, the result renders the time
    N hours before the reference time, to the minute. *)
Theorem parse_relative_time_hours_ago {R : PyRuntime} (label ds : pystr)
        (now : datetime) (n : Z) :
  label <> [] ->
  hours_ago_label (str_lower (strip label)) ds ->
  (length ds <= INT_MAX_STR_DIGITS)%nat ->
  int_digits 0 ds = Some n ->
  valid_datetime now = true ->
  24 <= hours_of now - n ->
  exists dt,
    parse_relative_time label now = format_datetime dt
    /\ valid_datetime dt = true
    /\ hours_of dt = hours_of now - n
    /\ minute dt = minute now /\ second dt = second now
    /\ microsecond dt = microsecond now.
Proof.
  intros Hlabel (Hk1 & Hk2 & Hkw & Hnum) Hlen Hint Hnow Hrange.
  pose proof (int_digits_nonneg ds 0 n (Z.le_refl 0) Hint) as Hpos.
  unfold parse_relative_time. destruct label as [|c0 label]; [congruence|].
  set (l := str_lower (strip (c0 :: label))) in *.
  unfold parse_relative_time_try. rewrite Hk1, Hk2. cbn [orb].
  replace (contains l s_jikan_mae || contains l s_hour) with true
    by (symmetry; apply orb_true_iff; exact Hkw).
  rewrite (search_first_number l ds Hnum).
  assert (Hds : number ds) by (destruct Hnum as (? & ? & _ & _ & H & _); exact H).
  rewrite (py_int_digits ds n Hds Hlen Hint), bind_Some_l.
  pose proof (valid_datetime_us now Hnow) as (Hus & Hh & Hm & Hs & Hu).
  assert (Eus : forall dt, us_of dt
                = ((hours_of dt * 60 + minute dt) * 60 + second dt) * US_PER_SECOND
                  + microsecond dt) by reflexivity.
  rewrite Eus in Hus.
  destruct (timedelta_new_some 0 n 0 0 0) as [delta Hd].
  { unfold US_PER_DAY, US_PER_SECOND, MAXORDINAL in *. lia. }
  rewrite Hd, bind_Some_l. apply timedelta_new_spec in Hd as [Hdn Hdu].
  destruct (datetime_sub_complete now delta Hnow Hdn) as [dt Hsub].
  { rewrite Hdu, Eus. unfold US_PER_DAY, US_PER_SECOND, MAXORDINAL in *. lia. }
  rewrite Hsub, bind_Some_l. exists dt. split; [reflexivity|].
  apply (datetime_sub_sound now dt delta Hdn) in Hsub as [Hv Hsub].
  split; [exact Hv|].
  pose proof (valid_datetime_us dt Hv) as (_ & _ & Hm' & Hs' & Hu').
  rewrite Hdu, !Eus in Hsub. unfold US_PER_SECOND in *. lia.
Qed.

(** X9 at "3 時間前" and at a label in English. *)
Lemma parse_relative_time_hours_witness :
  let now := mk_datetime 2024 3 1 0 30 15 7 in
  (exists dt, parse_relative_time (R := ascii_runtime) (lit "3 時間前") now
              = format_datetime dt /\ hours_of dt = hours_of now - 3)
  /\ parse_relative_time (R := ascii_runtime) (lit "3 時間前") now
     = lit "2024/02/29 21:30".
Proof.
  intros now.
  destruct (parse_relative_time_hours_ago (R := ascii_runtime) (lit "3 時間前")
              (lit "3") now 3) as (dt & H1 & _ & H2 & _).
  - vm_compute. discriminate.
  - split; [vm_compute; reflexivity|]. split; [vm_compute; reflexivity|].
    split; [left; vm_compute; reflexivity|].
    exists [], (lit " 時間前"). repeat split; vm_compute; congruence.
  - vm_compute. lia.
  - vm_compute. reflexivity.
  - reflexivity.
  - vm_compute. discriminate.
  - split; [exists dt; auto|]. vm_compute. reflexivity.
Defined.

(** X10 (parse_relative_time): for a label of the form "N days ago" (it
    names no minute and no hour, contains 日前 or the word day, and its
    first number spells N with no more than 4300 digits) and a reference
    time at least N days after 0001/01/01, the result renders the same
    time of day on the date N days before the reference date. *)
Theorem parse_relative_time_days_ago {R : PyRuntime} (label ds : pystr)
        (now : datetime) (n : Z) :
  label <> [] ->
  days_ago_label (str_lower (strip label)) ds ->
  (length ds <= INT_MAX_STR_DIGITS)%nat ->
  int_digits 0 ds = Some n ->
  valid_datetime now = true ->
  1 <= toordinal now - n ->
  exists dt,
    parse_relative_time label now = format_datetime dt
    /\ valid_datetime dt = true
    /\ toordinal dt = toordinal now - n
    /\ hour dt = hour now /\ minute dt = minute now /\ second dt = second now
    /\ microsecond dt = microsecond now.
Proof.
  intros Hlabel (Hk1 & Hk2 & Hk3 & Hk4 & Hkw & Hnum) Hlen Hint Hnow Hrange.
  pose proof (int_digits_nonneg ds 0 n (Z.le_refl 0) Hint) as Hpos.
  unfold parse_relative_time. destruct label as [|c0 label]; [congruence|].
  set (l := str_lower (strip (c0 :: label))) in *.
  unfold parse_relative_time_try. rewrite Hk1, Hk2, Hk3, Hk4. cbn [orb].
  replace (contains l s_nichi_mae || contains l s_day) with true
    by (symmetry; apply orb_true_iff; exact Hkw).
  rewrite (search_first_number l ds Hnum).
  assert (Hds : number ds) by (destruct Hnum as (? & ? & _ & _ & H & _); exact H).
  rewrite (py_int_digits ds n Hds Hlen Hint), bind_Some_l.
  pose proof (valid_datetime_us now Hnow) as (Hus & Hh & Hm & Hs & Hu).
  unfold us_of in Hus.
  destruct (timedelta_new_some n 0 0 0 0) as [delta Hd].
  { unfold US_PER_DAY, US_PER_SECOND, MAXORDINAL in *. lia. }
  rewrite Hd, bind_Some_l. apply timedelta_new_spec in Hd as [Hdn Hdu].
  destruct (datetime_sub_complete now delta Hnow Hdn) as [dt Hsub].
  { rewrite Hdu. unfold us_of, US_PER_DAY, US_PER_SECOND, MAXORDINAL in *. lia. }
  rewrite Hsub, bind_Some_l. exists dt. split; [reflexivity|].
  apply (datetime_sub_sound now dt delta Hdn) in Hsub as [Hv Hsub].
  split; [exact Hv|].
  pose proof (valid_datetime_us dt Hv) as (_ & Hh' & Hm' & Hs' & Hu').
  rewrite Hdu in Hsub. unfold us_of, US_PER_SECOND in *. lia.
Qed.

(** X10 at "2日前" seen on the first of March of a leap year. *)
Lemma parse_relative_time_days_witness :
  let now := mk_datetime 2024 3 1 0 30 15 7 in
  (exists dt, parse_relative_time (R := ascii_runtime) (lit "2日前") now
              = format_datetime dt /\ toordinal dt = toordinal now - 2)
  /\ parse_relative_time (R := ascii_runtime) (lit "2日前") now
     = lit "2024/02/28 00:30".
Proof.
  intros now.
  destruct (parse_relative_time_days_ago (R := ascii_runtime) (lit "2日前")
              (lit "2") now 2) as (dt & H1 & _ & H2 & _).
  - vm_compute. discriminate.
  - repeat (split; [vm_compute; reflexivity|]).
    split; [left; vm_compute; reflexivity|].
    exists [], (lit "日前"). repeat split; vm_compute; congruence.
  - vm_compute. lia.
  - vm_compute. reflexivity.
  - reflexivity.
  - vm_compute. discriminate.
  - split; [exists dt; auto|]. vm_compute. reflexivity.
Defined.

(** ** Dates and times read by [strptime] *)

Ltac range_facts :=
  repeat match goal with
         | H : in_range _ _ _ = true |- _ =>
           unfold in_range in H; rewrite andb_true_iff, !N.leb_le in H
         end.

Lemma not_digit_not_in_range (a b c : N) :
  (0x30 <= a)%N -> (b <= 0x39)%N -> is_digit c = false -> in_range a b c = false.
Proof.
  intros Ha Hb Hc. destruct (in_range a b c) eqn:E; [|reflexivity].
  apply (in_range_ascii_digit a b c Ha Hb) in E.
  apply ascii_digit_is_digit in E. congruence.
Qed.

Lemma in_range_decimal (a b c : N) :
  (0x30 <= a)%N -> (b <= 0x39)%N -> in_range a b c = true ->
  decimal c = Some (c - 48)%N /\ is_digit c = true.
Proof.
  intros Ha Hb H. apply (in_range_ascii_digit a b c Ha Hb) in H.
  split; [apply ascii_digit_decimal|apply ascii_digit_is_digit]; exact H.
Qed.

Ltac digit_of H Hd Hi :=
  match type of H with
  | in_range ?a ?b ?c = true =>
    destruct (in_range_decimal a b c ltac:(lia) ltac:(lia) H) as [Hd Hi]
  end.

Lemma decimal_is_digit (c v : N) : decimal c = Some v -> is_digit c = true.
Proof. intros H. unfold is_digit. rewrite H. reflexivity. Qed.

Lemma exec_re_Y {A : Type} (yy rest : pystr) (y : Z)
      (k : option N -> pystr -> option A) (prev : option N) :
  year_text yy y ->
  exec re_Y prev (yy ++ rest) k = k (last_cp prev yy) rest.
Proof.
  intros (a & b & c & d & va & vb & vc & vd & -> & Ha & Hb & Hc & Hd & _).
  unfold re_Y, digit. cbn [exec app last_cp].
  rewrite (decimal_is_digit a va Ha), (decimal_is_digit b vb Hb),
    (decimal_is_digit c vc Hc), (decimal_is_digit d vd Hd). reflexivity.
Qed.

Lemma exec_re_m {A : Type} (mm rest : pystr) (m : Z)
      (k : option N -> pystr -> option A) (x : A) (prev : option N) :
  month_text mm m -> ends_number rest ->
  k (last_cp prev mm) rest = Some x ->
  exec re_m prev (mm ++ rest) k = Some x.
Proof.
  unfold re_m, ch, rng.
  intros [(b & -> & Hb & _) | [(b & -> & Hb & _) | (b & -> & Hb & _)]] Hrest Hk;
    cbn [exec app last_cp] in *.
  - change (eqcp 49 49) with true. cbn iota. rewrite Hb, Hk. reflexivity.
  - change (eqcp 49 48) with false. change (eqcp 48 48) with true. cbn iota.
    rewrite Hb, Hk. reflexivity.
  - assert (E0 : eqcp 48 b = false).
    { range_facts. unfold eqcp. apply N.eqb_neq. lia. }
    rewrite E0, Hb, Hk.
    destruct (eqcp 49 b); [|reflexivity].
    destruct rest as [|c rest]; [reflexivity|]. simpl in Hrest.
    rewrite (not_digit_not_in_range 48 50 c) by (lia || exact Hrest). reflexivity.
Qed.

Lemma exec_re_d {A : Type} (dd rest : pystr) (d : Z)
      (k : option N -> pystr -> option A) (x : A) (prev : option N) :
  day_text dd d -> ends_number rest ->
  k (last_cp prev dd) rest = Some x ->
  exec re_d prev (dd ++ rest) k = Some x.
Proof.
  unfold re_d, ch, rng, digit.
  intros [(b & -> & Hb & _) | [(a & b & v & -> & Ha & Hb & _)
          | [(b & -> & Hb & _) | (b & -> & Hb & _)]]] Hrest Hk;
    cbn [exec app last_cp] in *.
  - change (eqcp 51 51) with true. cbn iota. rewrite Hb, Hk. reflexivity.
  - assert (E3 : eqcp 51 a = false).
    { range_facts. unfold eqcp. apply N.eqb_neq. lia. }
    rewrite E3, Ha, (decimal_is_digit b v Hb), Hk. reflexivity.
  - change (eqcp 51 48) with false. change (in_range 49 50 48) with false.
    change (eqcp 48 48) with true. cbn iota. rewrite Hb, Hk. reflexivity.
  - assert (E0 : eqcp 48 b = false).
    { range_facts. unfold eqcp. apply N.eqb_neq. lia. }
    rewrite E0, Hb, Hk.
    destruct rest as [|c rest].
    + destruct (eqcp 51 b); destruct (in_range 49 50 b); reflexivity.
    + simpl in Hrest.
      rewrite (not_digit_not_in_range 48 49 c) by (lia || exact Hrest).
      rewrite Hrest.
      destruct (eqcp 51 b); destruct (in_range 49 50 b); reflexivity.
Qed.

Lemma exec_re_S {A : Type} (ss rest : pystr) (s : Z)
      (k : option N -> pystr -> option A) (x : A) (prev : option N) :
  minute_text ss s ->
  k (last_cp prev ss) rest = Some x ->
  exec re_S prev (ss ++ rest) k = Some x.
Proof.
  unfold re_S, ch, rng, digit. intros (a & b & v & -> & Ha & Hb & _) Hk.
  cbn [exec app last_cp] in *.
  assert (E6 : eqcp 54 a = false).
  { range_facts. unfold eqcp. apply N.eqb_neq. lia. }
  rewrite E6, Ha, (decimal_is_digit b v Hb), Hk. reflexivity.
Qed.

Lemma year_text_chars (yy : pystr) (y : Z) :
  year_text yy y ->
  number yy /\ (length yy <= INT_MAX_STR_DIGITS)%nat /\ 0 <= y <= 9999
  /\ int_digits 0 yy = Some y.
Proof.
  intros (a & b & c & d & va & vb & vc & vd & -> & Ha & Hb & Hc & Hd & ->).
  split; [|split; [|split]].
  - split; [discriminate|]. simpl.
    rewrite (decimal_is_digit a va Ha), (decimal_is_digit b vb Hb),
      (decimal_is_digit c vc Hc), (decimal_is_digit d vd Hd). reflexivity.
  - unfold INT_MAX_STR_DIGITS. simpl. lia.
  - apply decimal_bound in Ha, Hb, Hc, Hd. lia.
  - cbn [int_digits]. rewrite Ha, Hb, Hc, Hd. f_equal. lia.
Qed.

Lemma month_text_chars (mm : pystr) (m : Z) :
  month_text mm m ->
  number mm /\ (length mm <= INT_MAX_STR_DIGITS)%nat /\ 1 <= m <= 12
  /\ int_digits 0 mm = Some m.
Proof.
  unfold INT_MAX_STR_DIGITS.
  intros [(b & -> & Hb & ->) | [(b & -> & Hb & ->) | (b & -> & Hb & ->)]];
    digit_of Hb Hd Hi;
    (split; [split; [discriminate|simpl; rewrite Hi; reflexivity]|]);
    (split; [simpl; lia|]); (split; [range_facts; lia|]);
    cbn [int_digits]; try change (decimal 49) with (Some 1%N);
    try change (decimal 48) with (Some 0%N); rewrite Hd; f_equal; lia.
Qed.

Lemma day_text_chars (dd : pystr) (d : Z) :
  day_text dd d ->
  number dd /\ (length dd <= INT_MAX_STR_DIGITS)%nat /\ 1 <= d <= 31
  /\ int_digits 0 dd = Some d.
Proof.
  unfold INT_MAX_STR_DIGITS.
  intros [(b & -> & Hb & ->) | [(a & b & v & -> & Ha & Hb & ->)
          | [(b & -> & Hb & ->) | (b & -> & Hb & ->)]]].
  - digit_of Hb Hd Hi.
    split; [split; [discriminate|simpl; rewrite Hi; reflexivity]|].
    split; [simpl; lia|]. split; [range_facts; lia|].
    cbn [int_digits]. change (decimal 51) with (Some 3%N). rewrite Hd. f_equal; lia.
  - digit_of Ha Hd Hi.
    split; [split; [discriminate|simpl; rewrite Hi, (decimal_is_digit b v Hb); reflexivity]|].
    split; [simpl; lia|]. pose proof (decimal_bound b v Hb).
    split; [range_facts; lia|].
    cbn [int_digits]. rewrite Hd, Hb. f_equal; lia.
  - digit_of Hb Hd Hi.
    split; [split; [discriminate|simpl; rewrite Hi; reflexivity]|].
    split; [simpl; lia|]. split; [range_facts; lia|].
    cbn [int_digits]. change (decimal 48) with (Some 0%N). rewrite Hd. f_equal; lia.
  - digit_of Hb Hd Hi.
    split; [split; [discriminate|simpl; rewrite Hi; reflexivity]|].
    split; [simpl; lia|]. split; [range_facts; lia|].
    cbn [int_digits]. rewrite Hd. f_equal; lia.
Qed.

Lemma py_int_text (t : pystr) (n : Z) :
  number t /\ (length t <= INT_MAX_STR_DIGITS)%nat /\ int_digits 0 t = Some n ->
  py_int t = Some n.
Proof. intros (H1 & H2 & H3). apply py_int_digits; assumption. Qed.

Lemma py_int_year (yy : pystr) (y : Z) : year_text yy y -> py_int yy = Some y.
Proof. intros H. apply year_text_chars in H. apply py_int_text. tauto. Qed.

Lemma py_int_month (mm : pystr) (m : Z) : month_text mm m -> py_int mm = Some m.
Proof. intros H. apply month_text_chars in H. apply py_int_text. tauto. Qed.

Lemma py_int_day (dd : pystr) (d : Z) : day_text dd d -> py_int dd = Some d.
Proof. intros H. apply day_text_chars in H. apply py_int_text. tauto. Qed.

Lemma exec_ch {A : Type} (c : N) (rest : pystr)
      (k : option N -> pystr -> option A) (prev : option N) :
  exec (ch c) prev (c :: rest) k = k (Some c) rest.
Proof. unfold ch. cbn [exec]. rewrite eqcp_refl. reflexivity. Qed.

(** What the pattern of [%Y/%m/%d] captures in a date followed by text
    that does not continue the day number. *)
Lemma groups_Ymd (yy mm dd rest : pystr) (y m d : Z) :
  year_text yy y -> month_text mm m -> day_text dd d -> ends_number rest ->
  group re_Y None (yy ++ c_slash :: mm ++ c_slash :: dd ++ rest)
    (fun tY p1 s1 =>
       exec (ch c_slash) p1 s1 (fun p2 s2 =>
       group re_m p2 s2 (fun tm p3 s3 =>
       exec (ch c_slash) p3 s3 (fun p4 s4 =>
       group re_d p4 s4 (fun td _ s5 => Some ((tY, tm, td), s5))))))
  = Some ((yy, mm, dd), rest).
Proof.
  intros Hy Hm Hd Hrest. unfold group.
  rewrite (exec_re_Y yy _ y _ None Hy), exec_ch.
  apply (exec_re_m mm _ m _ _ _ Hm); [reflexivity|]. rewrite exec_ch.
  apply (exec_re_d dd _ d _ _ _ Hd Hrest).
  rewrite !consumed_app. reflexivity.
Qed.

Lemma date_text_app (l rest : pystr) (y m d : Z) :
  date_text l y m d ->
  exists yy mm dd,
    l ++ rest = yy ++ c_slash :: mm ++ c_slash :: dd ++ rest
    /\ year_text yy y /\ month_text mm m /\ day_text dd d.
Proof.
  intros (yy & mm & dd & -> & Hy & Hm & Hd). exists yy, mm, dd.
  split; [|auto]. rewrite <- !app_assoc. reflexivity.
Qed.

(** [strptime] with [%Y/%m/%d] on a date, and on a date followed by
    more text. *)
Lemma strptime_Ymd_date (l rest : pystr) (y m d : Z) :
  date_text l y m d -> ends_number rest ->
  strptime_Ymd (l ++ rest)
  = match rest with
    | [] => datetime_new y m d 0 0 0 0
    | _ :: _ => None
    end.
Proof.
  intros Hl Hrest. destruct (date_text_app l rest y m d Hl) as (yy & mm & dd & -> & Hy & Hm & Hd).
  unfold strptime_Ymd. rewrite (groups_Ymd yy mm dd rest y m d Hy Hm Hd Hrest).
  destruct rest as [|c rest]; [|reflexivity].
  cbn [all_converted mbind option_bind].
  rewrite (py_int_year yy y Hy), (py_int_month mm m Hm), (py_int_day dd d Hd).
  reflexivity.
Qed.

Lemma Matches_digit (c : N) (prev : option N) (fol : pystr) :
  is_digit c = true -> Matches digit prev [c] fol.
Proof. intros H. apply Matches_Chr. eauto. Qed.

Lemma Matches_digit_1_2 (t : pystr) (prev : option N) (fol : pystr) :
  t <> [] -> (length t <= 2)%nat -> List.forallb is_digit t = true ->
  Matches digit_1_2 prev t fol.
Proof.
  intros Hne Hlen Hall. unfold digit_1_2. apply Matches_Seq.
  destruct t as [|x [|z [|z' t]]]; [congruence| | |simpl in Hlen; lia];
    simpl in Hall; rewrite ?andb_true_iff in Hall.
  - exists [x], []. split; [reflexivity|]. split.
    + apply Matches_digit. tauto.
    + apply Matches_Opt. right. reflexivity.
  - exists [x], [z]. split; [reflexivity|]. split.
    + apply Matches_digit. tauto.
    + apply Matches_Opt. left. apply Matches_digit. tauto.
Qed.

Lemma month_text_short (mm : pystr) (m : Z) :
  month_text mm m -> mm <> [] /\ (length mm <= 2)%nat /\ List.forallb is_digit mm = true.
Proof.
  intros H. pose proof (month_text_chars mm m H) as ([Hne Hall] & _).
  split; [exact Hne|]. split; [|exact Hall].
  destruct H as [(b & -> & _) | [(b & -> & _) | (b & -> & _)]]; simpl; lia.
Qed.

Lemma day_text_short (dd : pystr) (d : Z) :
  day_text dd d -> dd <> [] /\ (length dd <= 2)%nat /\ List.forallb is_digit dd = true.
Proof.
  intros H. pose proof (day_text_chars dd d H) as ([Hne Hall] & _).
  split; [exact Hne|]. split; [|exact Hall].
  destruct H as [(b & -> & _) | [(a & b & v & -> & _) | [(b & -> & _) | (b & -> & _)]]];
    simpl; lia.
Qed.

Lemma matches_YMD_RE_date (l rest : pystr) (y m d : Z) :
  date_text l y m d -> matches YMD_RE (l ++ rest) = true.
Proof.
  intros (yy & mm & dd & -> & Hy & Hm & Hd). apply matches_iff.
  exists (yy ++ [c_slash] ++ mm ++ [c_slash] ++ dd), rest. split; [reflexivity|].
  destruct Hy as (a & b & c & e & va & vb & vc & vd & -> & Ha & Hb & Hc & He & _).
  apply month_text_short in Hm as (Hm1 & Hm2 & Hm3).
  apply day_text_short in Hd as (Hd1 & Hd2 & Hd3).
  unfold YMD_RE.
  apply Matches_Seq. exists [a], ([b; c; e] ++ [c_slash] ++ mm ++ [c_slash] ++ dd).
  split; [reflexivity|]. split; [apply Matches_digit; eapply decimal_is_digit; eassumption|].
  apply Matches_Seq. exists [b], ([c; e] ++ [c_slash] ++ mm ++ [c_slash] ++ dd).
  split; [reflexivity|]. split; [apply Matches_digit; eapply decimal_is_digit; eassumption|].
  apply Matches_Seq. exists [c], ([e] ++ [c_slash] ++ mm ++ [c_slash] ++ dd).
  split; [reflexivity|]. split; [apply Matches_digit; eapply decimal_is_digit; eassumption|].
  apply Matches_Seq. exists [e], ([c_slash] ++ mm ++ [c_slash] ++ dd).
  split; [reflexivity|]. split; [apply Matches_digit; eapply decimal_is_digit; eassumption|].
  apply Matches_Seq. exists [c_slash], (mm ++ [c_slash] ++ dd).
  split; [reflexivity|]. split; [apply Matches_Chr; exists c_slash; split; [reflexivity|apply eqcp_refl]|].
  apply Matches_Seq. exists mm, ([c_slash] ++ dd).
  split; [reflexivity|]. split; [apply Matches_digit_1_2; assumption|].
  apply Matches_Seq. exists [c_slash], dd.
  split; [reflexivity|]. split; [apply Matches_Chr; exists c_slash; split; [reflexivity|apply eqcp_refl]|].
  apply Matches_digit_1_2; assumption.
Qed.

(** *** The formatter's digits as texts *)

Ltac by_cases_from x lo n tac :=
  lazymatch n with
  | O => exfalso; lia
  | S ?n' =>
    destruct (Z.eq_dec x lo) as [->|?]; [tac|by_cases_from x (lo + 1) n' tac]
  end.

Ltac text_found := repeat eexists; reflexivity.

Lemma month_text_digits (m : Z) : 1 <= m <= 12 -> month_text (digits_of 2 m) m.
Proof.
  intros H. unfold month_text.
  by_cases_from m 1 12%nat
    ltac:(first [left; text_found | right; left; text_found | right; right; text_found]).
Qed.

Lemma day_text_digits (d : Z) : 1 <= d <= 31 -> day_text (digits_of 2 d) d.
Proof.
  intros H. unfold day_text.
  by_cases_from d 1 31%nat
    ltac:(first [left; text_found | right; left; text_found
                 | right; right; left; text_found | right; right; right; text_found]).
Qed.

Lemma hour_text_digits (h : Z) : 0 <= h <= 23 -> hour_text (digits_of 2 h) h.
Proof.
  intros H. unfold hour_text.
  by_cases_from h 0 24%nat
    ltac:(first [left; text_found | right; left; text_found | right; right; text_found]).
Qed.

Lemma minute_text_digits (mi : Z) : 0 <= mi <= 59 -> minute_text (digits_of 2 mi) mi.
Proof.
  intros H. unfold minute_text.
  by_cases_from mi 0 60%nat ltac:(text_found).
Qed.

Lemma digit_value (x : Z) :
  decimal (Z.to_N (48 + x mod 10)) = Some (Z.to_N (x mod 10)).
Proof.
  rewrite (ascii_digit_decimal _ (ascii_digit_of x)). f_equal.
  pose proof (Z.mod_pos_bound x 10 ltac:(lia)). lia.
Qed.

Lemma year_text_digits (y : Z) : 0 <= y <= 9999 -> year_text (digits_of 4 y) y.
Proof.
  intros H. unfold year_text. rewrite digits_of_4.
  do 4 eexists. exists (Z.to_N ((y / 10 / 10 / 10) mod 10)), (Z.to_N ((y / 10 / 10) mod 10)),
    (Z.to_N ((y / 10) mod 10)), (Z.to_N (y mod 10)).
  split; [reflexivity|]. rewrite !digit_value. repeat (split; [reflexivity|]).
  rewrite !Z2N.id by (apply Z.mod_pos_bound; lia).
  Z.div_mod_to_equations. lia.
Qed.

(** ** Absolute dates *)

Lemma date_text_chars (l : pystr) (y m d : Z) :
  date_text l y m d -> forall c, In c l -> is_digit c = true \/ c = c_slash.
Proof.
  intros (yy & mm & dd & -> & Hy & Hm & Hd) c Hc.
  apply year_text_chars in Hy as ([_ Hy] & _).
  apply month_text_chars in Hm as ([_ Hm] & _).
  apply day_text_chars in Hd as ([_ Hd] & _).
  rewrite forallb_forall in Hy, Hm, Hd.
  rewrite !in_app_iff in Hc.
  destruct Hc as [Hc | [Hc | [Hc | [Hc | Hc]]]].
  all: try (left; auto; fail).
  all: right; destruct Hc as [Hc | Hc]; [symmetry; exact Hc|destruct Hc].
Qed.

Lemma keyword_heads :
  forall k0 : N,
    In k0 [0x5206; 0x6D; 0x6642; 0x68; 0x65E5; 0x64]%N ->
    is_digit k0 = false /\ is_space k0 = false /\ k0 <> c_slash /\ k0 <> c_colon.
Proof.
  intros k0 H. simpl in H.
  repeat (destruct H as [<- | H]; [repeat split; (reflexivity || discriminate)|]).
  destruct H.
Qed.

(** A text made of digits, slashes, colons and whitespace names no
    relative unit and no month. *)
Lemma plain_date_chars_no_keyword (l : pystr) :
  (forall c, In c l -> is_digit c = true \/ c = c_slash \/ c = c_colon
                        \/ is_space c = true) ->
  has_relative_keyword l = false /\ matches MONTH_DAY_RE l = false.
Proof.
  intros Hl.
  assert (Hk : forall k0 kw,
             In k0 [0x5206; 0x6D; 0x6642; 0x68; 0x65E5; 0x64]%N ->
             contains l (k0 :: kw) = false).
  { intros k0 kw Hk0. apply contains_head_absent. intros c Hc ->.
    destruct (keyword_heads k0 Hk0) as (H1 & H2 & H3 & H4).
    destruct (Hl k0 Hc) as [H | [H | [H | H]]]; congruence. }
  split.
  - unfold has_relative_keyword, s_fun_mae, s_minute, s_jikan_mae, s_hour,
      s_nichi_mae, s_day.
    rewrite !Hk by (simpl; tauto). reflexivity.
  - apply (matches_false_by_char MONTH_DAY_RE l 0x6708%N).
    + intros m fol. apply MONTH_DAY_RE_char.
    + intros Hc. destruct (Hl _ Hc) as [H | [H | [H | H]]]; discriminate.
Qed.

Lemma parse_try_plain_date (l : pystr) (now : datetime) :
  (forall c, In c l -> is_digit c = true \/ c = c_slash \/ c = c_colon
                        \/ is_space c = true) ->
  matches YMD_RE l = true ->
  parse_relative_time_try l now
  = (dt ← strptime_Ymd l; Some (format_datetime dt)).
Proof.
  intros Hl Hymd. destruct (plain_date_chars_no_keyword l Hl) as [Hk Hmd].
  unfold has_relative_keyword in Hk. rewrite !orb_false_iff in Hk.
  destruct Hk as (((((K1 & K2) & K3) & K4) & K5) & K6).
  unfold parse_relative_time_try. rewrite K1, K2, K3, K4, K5, K6, Hmd, Hymd.
  reflexivity.
Qed.

(** X11 (parse_relative_time): a label that is a date written
    year/month/day (four digits, then month and day with one or two
    digits) gives that date at 00:00, whatever the reference time, when
    the date exists in the calendar, and the sentinel when it does not. *)
Theorem parse_relative_time_date {R : PyRuntime} (label : pystr) (now : datetime)
        (y m d : Z) :
  label <> [] ->
  date_text (str_lower (strip label)) y m d ->
  parse_relative_time label now
  = if valid_date y m d then format_datetime (mk_datetime y m d 0 0 0 0)
    else UNAVAILABLE.
Proof.
  intros Hlabel Hl. unfold parse_relative_time.
  destruct label as [|c0 label]; [congruence|].
  set (l := str_lower (strip (c0 :: label))) in *.
  rewrite parse_try_plain_date.
  - rewrite <- (app_nil_r l), (strptime_Ymd_date l [] y m d Hl I).
    unfold datetime_new. change (valid_time 0 0 0 0) with true.
    rewrite andb_true_r. destruct (valid_date y m d); reflexivity.
  - intros c Hc. destruct (date_text_chars l y m d Hl c Hc); auto.
  - rewrite <- (app_nil_r l). apply (matches_YMD_RE_date l [] y m d Hl).
Qed.

(** X11 at a date in the leap year 2024 and at a date that does not
    exist. *)
Lemma parse_relative_time_date_witness :
  let now := mk_datetime 2025 3 1 0 30 15 7 in
  parse_relative_time (R := ascii_runtime) (lit "2024/2/29") now = lit "2024/02/29 00:00"
  /\ parse_relative_time (R := ascii_runtime) (lit "2023/02/29") now = UNAVAILABLE.
Proof.
  intros now. split.
  - apply (parse_relative_time_date (R := ascii_runtime) (lit "2024/2/29") now 2024 2 29).
    + vm_compute. discriminate.
    + exists (lit "2024"), (lit "2"), (lit "29").
      split; [vm_compute; reflexivity|]. split; [text_found|].
      split; [right; right; text_found|right; left; text_found].
  - apply (parse_relative_time_date (R := ascii_runtime) (lit "2023/02/29") now 2023 2 29).
    + vm_compute. discriminate.
    + exists (lit "2023"), (lit "02"), (lit "29").
      split; [vm_compute; reflexivity|]. split; [text_found|].
      split; [right; left; text_found|right; left; text_found].
Defined.

Lemma days_in_month_le (y m : Z) : days_in_month y m <= 31.
Proof.
  unfold days_in_month. destruct ((m =? 2) && is_leap y); [lia|].
  generalize (Z.to_nat m). intros n. unfold DAYS_IN_MONTH.
  do 13 (destruct n as [|n]; [simpl; lia|]). simpl. destruct n; lia.
Qed.

Lemma format_datetime_texts (dt : datetime) :
  valid_datetime dt = true -> 1000 <= year dt ->
  exists date clock,
    format_datetime dt = date ++ [c_space] ++ clock
    /\ date_text date (year dt) (month dt) (day dt)
    /\ bare_time clock (hour dt) (minute dt).
Proof.
  intros Hv Hy. unfold valid_datetime, valid_date, valid_time, MINYEAR, MAXYEAR in Hv.
  rewrite !andb_true_iff, !Z.leb_le in Hv.
  destruct Hv as [(((((Hy1 & Hy2) & Hm1) & Hm2) & Hd1) & Hd2) Ht].
  assert (Hday : day dt <= 31).
  { pose proof (days_in_month_le (year dt) (month dt)). lia. }
  exists (digits_of 4 (year dt) ++ [c_slash] ++ digits_of 2 (month dt) ++ [c_slash]
          ++ digits_of 2 (day dt)),
    (digits_of 2 (hour dt) ++ [c_colon] ++ digits_of 2 (minute dt)).
  split; [unfold format_datetime; rewrite (strftime_Y_four _ Hy), <- !app_assoc;
          reflexivity|]. split.
  - exists (digits_of 4 (year dt)), (digits_of 2 (month dt)), (digits_of 2 (day dt)).
    split; [reflexivity|].
    split; [apply year_text_digits; lia|].
    split; [apply month_text_digits; lia|apply day_text_digits; lia].
  - exists (digits_of 2 (hour dt)), (digits_of 2 (minute dt)).
    split; [reflexivity|].
    split; [apply hour_text_digits; lia|apply minute_text_digits; lia].
Qed.

Lemma lstrip_by_cons_keep (p : N -> bool) (c : N) (s : pystr) :
  p c = false -> lstrip_by p (c :: s) = c :: s.
Proof. intros H. simpl. rewrite H. reflexivity. Qed.

(** Stripping changes nothing in a text that neither starts nor ends with
    a character of the stripped class. *)
Lemma strip_by_ends (p : N -> bool) (a z : N) (mid : pystr) :
  p a = false -> p z = false -> strip_by p (a :: mid ++ [z]) = a :: mid ++ [z].
Proof.
  intros Ha Hz. unfold strip_by, rstrip_by. rewrite (lstrip_by_cons_keep p a _ Ha).
  change (a :: mid ++ [z]) with ((a :: mid) ++ [z]).
  rewrite rev_app_distr. cbn [List.rev app].
  rewrite (lstrip_by_cons_keep p z _ Hz).
  change (z :: List.rev mid ++ [a]) with ([z] ++ List.rev (a :: mid)).
  rewrite rev_app_distr, rev_involutive. reflexivity.
Qed.

(** Stripping changes nothing in a text whose first and last characters
    are not of the stripped class. *)
Lemma strip_by_first_last (p : N -> bool) (s : pystr) :
  match s with a :: _ => p a = false | [] => True end ->
  match List.rev s with z :: _ => p z = false | [] => True end ->
  strip_by p s = s.
Proof.
  intros Ha Hz. unfold strip_by, rstrip_by. destruct s as [|a s]; [reflexivity|].
  rewrite (lstrip_by_cons_keep p a s Ha).
  transitivity (List.rev (List.rev (a :: s))); [|apply rev_involutive].
  f_equal. destruct (List.rev (a :: s)) as [|z r]; [reflexivity|].
  apply lstrip_by_cons_keep. exact Hz.
Qed.

Lemma digits_of_chars (k : nat) (n : Z) (c : N) :
  In c (digits_of k n) -> ascii_digit c = true.
Proof.
  revert n. induction k as [|k IH]; intros n H; simpl in H; [destruct H|].
  apply in_app_or in H as [H | [<- | []]]; [eapply IH; exact H|apply ascii_digit_of].
Qed.

Lemma strftime_Y_chars (y : Z) (c : N) : In c (strftime_Y y) -> ascii_digit c = true.
Proof.
  unfold strftime_Y. destruct (y <? 10); [apply digits_of_chars|].
  destruct (y <? 100); [apply digits_of_chars|].
  destruct (y <? 1000); apply digits_of_chars.
Qed.

(** A rendering is made of decimal digits, two slashes, a space and a
    colon. *)
Lemma format_datetime_chars (dt : datetime) (c : N) :
  In c (format_datetime dt) ->
  is_digit c = true \/ c = c_slash \/ c = c_colon \/ is_space c = true.
Proof.
  unfold format_datetime. rewrite !in_app_iff. cbn [In].
  intros [H | [[<- | []] | [H | [[<- | []] | [H | [[<- | []] | [H | [[<- | []] | H]]]]]]]];
    try (left; apply ascii_digit_is_digit;
         first [eapply strftime_Y_chars; exact H|eapply digits_of_chars; exact H]);
    auto.
Qed.

Lemma strip_format_datetime (dt : datetime) : strip (format_datetime dt) = format_datetime dt.
Proof.
  assert (Hd : forall x, is_space (Z.to_N (48 + x mod 10)) = false).
  { intros x. apply digit_not_space, ascii_digit_is_digit, ascii_digit_of. }
  unfold strip, format_datetime, strftime_Y.
  destruct (year dt <? 10); [|destruct (year dt <? 100); [|destruct (year dt <? 1000)]];
    apply strip_by_first_last; cbn [digits_of app List.rev]; apply Hd.
Qed.

Lemma space_chars_digit_free (ws rest : pystr) :
  ws <> [] -> all_space ws -> ends_number (ws ++ rest).
Proof.
  intros Hne Hall. destruct ws as [|c ws]; [congruence|]. simpl.
  unfold all_space in Hall. simpl in Hall. apply andb_true_iff in Hall as [Hc _].
  apply space_not_digit. exact Hc.
Qed.

(** X12 (parse_relative_time): a label that carries a date and a time of
    day, as in the output format YYYY/MM/DD HH:MM itself, is not read:
    the date branch is entered, the conversion finds text left over, and
    the sentinel comes back. *)
Theorem parse_relative_time_date_with_time {R : PyRuntime} (label : pystr)
        (now : datetime) (date ws clock : pystr) (y m d h mi : Z) :
  label <> [] ->
  str_lower (strip label) = date ++ ws ++ clock ->
  date_text date y m d -> ws <> [] -> all_space ws -> bare_time clock h mi ->
  parse_relative_time label now = UNAVAILABLE.
Proof.
  intros Hlabel El Hdate Hne Hws Hclock. unfold parse_relative_time.
  destruct label as [|c0 label]; [congruence|]. rewrite El.
  rewrite parse_try_plain_date.
  - rewrite (strptime_Ymd_date date (ws ++ clock) y m d Hdate
               (space_chars_digit_free ws clock Hne Hws)).
    destruct ws as [|c ws]; [congruence|]. reflexivity.
  - intros c Hc. rewrite !in_app_iff in Hc. destruct Hc as [Hc | [Hc | Hc]].
    + destruct (date_text_chars date y m d Hdate c Hc); auto.
    + unfold all_space in Hws. rewrite forallb_forall in Hws. auto.
    + destruct (bare_time_chars clock h mi Hclock c Hc); auto.
  - apply (matches_YMD_RE_date date (ws ++ clock) y m d Hdate).
Qed.

(** X12 at a time stamp in the output format. *)
Lemma parse_relative_time_date_with_time_witness :
  parse_relative_time (R := ascii_runtime) (lit "2024/03/01 00:25")
                      (mk_datetime 2024 3 1 0 30 15 7)
  = UNAVAILABLE.
Proof.
  apply (parse_relative_time_date_with_time (R := ascii_runtime) (lit "2024/03/01 00:25")
           (mk_datetime 2024 3 1 0 30 15 7) (lit "2024/03/01") (lit " ") (lit "00:25")
           2024 3 1 0 25).
  - vm_compute. discriminate.
  - vm_compute. reflexivity.
  - exists (lit "2024"), (lit "03"), (lit "01").
    split; [vm_compute; reflexivity|]. split; [text_found|].
    split; [right; left; text_found|right; right; left; text_found].
  - vm_compute. discriminate.
  - reflexivity.
  - exists (lit "00"), (lit "25"). split; [vm_compute; reflexivity|].
    split; [right; left; text_found|text_found].
Defined.


(** ** Month and day without a year *)

Lemma startswith_chars (s pre : pystr) :
  startswith s pre = true -> forall c, In c pre -> In c s.
Proof.
  revert s. induction pre as [|p pre IH]; intros s H c Hc; [destruct Hc|].
  destruct s as [|x s]; [discriminate|]. simpl in H.
  apply andb_true_iff in H as [Hx H]. apply eqcp_eq in Hx. subst x.
  destruct Hc as [<- | Hc]; [left; reflexivity|right; eapply IH; eassumption].
Qed.

Lemma contains_chars (l kw : pystr) :
  contains l kw = true -> forall c, In c kw -> In c l.
Proof.
  induction l as [|x l IH]; intros H c Hc; simpl in H.
  - rewrite orb_false_r in H. eapply startswith_chars; eassumption.
  - apply orb_true_iff in H as [H | H].
    + eapply startswith_chars; eassumption.
    + right. eapply IH; eassumption.
Qed.

Lemma contains_absent_char (l kw : pystr) (c : N) :
  In c kw -> ~ In c l -> contains l kw = false.
Proof.
  intros Hc Hl. destruct (contains l kw) eqn:E; [|reflexivity].
  exfalso. apply Hl. eapply contains_chars; eassumption.
Qed.

Lemma month_day_text_chars (l : pystr) (m d : Z) :
  month_day_text l m d ->
  forall c, In c l -> is_digit c = true \/ c = 0x6708%N \/ c = 0x65E5%N.
Proof.
  intros (mm & dd & -> & Hm & Hd) c Hc.
  apply month_text_chars in Hm as ([_ Hm] & _).
  apply day_text_chars in Hd as ([_ Hd] & _).
  rewrite forallb_forall in Hm, Hd.
  rewrite !in_app_iff in Hc. destruct Hc as [Hc | [Hc | [Hc | Hc]]]; auto.
  - right. left. destruct Hc as [Hc | Hc]; [symmetry; exact Hc|destruct Hc].
  - right. right. destruct Hc as [Hc | Hc]; [symmetry; exact Hc|destruct Hc].
Qed.

Lemma month_day_no_keyword (l : pystr) (m d : Z) :
  month_day_text l m d -> has_relative_keyword l = false.
Proof.
  intros Hl. pose proof (month_day_text_chars l m d Hl) as Hc.
  assert (Habs : forall kw c, In c kw -> is_digit c = false -> c <> 0x6708%N ->
                              c <> 0x65E5%N -> contains l kw = false).
  { intros kw c Hin H1 H2 H3. apply (contains_absent_char l kw c Hin).
    intros H. destruct (Hc c H) as [H' | [H' | H']]; congruence. }
  unfold has_relative_keyword.
  rewrite (Habs s_fun_mae 0x5206%N), (Habs s_minute 0x6D%N), (Habs s_jikan_mae 0x6642%N),
    (Habs s_hour 0x68%N), (Habs s_nichi_mae 0x524D%N), (Habs s_day 0x64%N);
    first [reflexivity | discriminate | (vm_compute; tauto)].
Qed.

Lemma matches_MONTH_DAY_RE_text (l : pystr) (m d : Z) :
  month_day_text l m d -> matches MONTH_DAY_RE l = true.
Proof.
  intros (mm & dd & -> & Hm & Hd). apply matches_iff.
  exists (mm ++ s_gatsu ++ dd ++ s_nichi), []. split; [symmetry; apply app_nil_r|].
  apply month_text_chars in Hm as ([Hm1 Hm2] & _).
  apply day_text_chars in Hd as ([Hd1 Hd2] & _).
  unfold MONTH_DAY_RE.
  apply Matches_Seq. exists mm, (s_gatsu ++ dd ++ s_nichi).
  split; [reflexivity|]. split; [apply Matches_Plus; auto|].
  apply Matches_Seq. exists s_gatsu, (dd ++ s_nichi).
  split; [reflexivity|]. split; [apply Matches_Lit; reflexivity|].
  apply Matches_Seq. exists dd, s_nichi.
  split; [reflexivity|]. split; [apply Matches_Plus; auto|].
  apply Matches_Lit. reflexivity.
Qed.

Lemma strptime_md_text (l : pystr) (m d : Z) :
  month_day_text l m d -> strptime_md l = datetime_new 1900 m d 0 0 0 0.
Proof.
  intros (mm & dd & -> & Hm & Hd). unfold strptime_md.
  assert (E : group re_m None (mm ++ s_gatsu ++ dd ++ s_nichi)
                (fun tm p1 s1 =>
                   exec (Lit s_gatsu) p1 s1 (fun p2 s2 =>
                   group re_d p2 s2 (fun td p3 s3 =>
                   exec (Lit s_nichi) p3 s3 (fun _ s4 => Some ((tm, td), s4)))))
              = Some ((mm, dd), [])).
  { unfold group. apply (exec_re_m mm _ m _ _ _ Hm); [reflexivity|].
    unfold s_gatsu at 1 2. cbn [Lit exec app]. rewrite eqcp_refl.
    apply (exec_re_d dd _ d _ _ _ Hd); [reflexivity|].
    unfold s_nichi at 1 2. cbn [Lit exec app]. rewrite eqcp_refl.
    rewrite (consumed_app dd s_nichi).
    rewrite (consumed_app mm (s_gatsu ++ dd ++ s_nichi)). reflexivity. }
  rewrite E. cbn [all_converted mbind option_bind].
  rewrite (py_int_month mm m Hm), (py_int_day dd d Hd). reflexivity.
Qed.

Lemma valid_date_other_year (y m d : Z) :
  valid_date 1900 m d = true -> MINYEAR <= y <= MAXYEAR -> valid_date y m d = true.
Proof.
  unfold valid_date, days_in_month. change (is_leap 1900) with false.
  rewrite andb_false_r. rewrite !andb_true_iff, !Z.leb_le. intros H Hy.
  destruct H as [[[[[_ _] Hm1] Hm2] Hd1] Hd2].
  repeat split; try lia.
  destruct ((m =? 2) && is_leap y) eqn:E; [|exact Hd2].
  apply andb_true_iff in E as [E _]. apply Z.eqb_eq in E. subst m.
  revert Hd2. vm_compute. intros Hd2 Hc. apply Hd2.
  destruct d as [|p|p]; try discriminate.
  do 5 (destruct p as [p|p|]; try discriminate; try reflexivity).
Qed.

(** X13 (parse_relative_time): a label that is a date written
    month月day日 gives that day of the reference time's year at 00:00 when
    the day exists in a year that is no leap year; every other such label,
    the 29th of February included, whatever the reference year, gives the
    sentinel: the label is first read as a date of the year 1900. *)
Theorem parse_relative_time_month_day {R : PyRuntime} (label : pystr)
        (now : datetime) (m d : Z) :
  label <> [] ->
  month_day_text (str_lower (strip label)) m d ->
  valid_datetime now = true ->
  parse_relative_time label now
  = if valid_date 1900 m d
    then format_datetime (mk_datetime (year now) m d 0 0 0 0)
    else UNAVAILABLE.
Proof.
  intros Hlabel Hl Hnow. unfold parse_relative_time.
  destruct label as [|c0 label]; [congruence|].
  set (l := str_lower (strip (c0 :: label))) in *.
  pose proof (month_day_no_keyword l m d Hl) as Hk.
  unfold has_relative_keyword in Hk. rewrite !orb_false_iff in Hk.
  destruct Hk as (((((K1 & K2) & K3) & K4) & K5) & K6).
  unfold parse_relative_time_try.
  rewrite K1, K2, K3, K4, K5, K6, (matches_MONTH_DAY_RE_text l m d Hl). cbn [orb].
  rewrite (strptime_md_text l m d Hl). unfold datetime_new.
  change (valid_time 0 0 0 0) with true. rewrite andb_true_r.
  destruct (valid_date 1900 m d) eqn:E; [|reflexivity].
  cbn [mbind option_bind]. unfold replace_year, datetime_new.
  cbn [year month day hour minute second microsecond].
  change (valid_time 0 0 0 0) with true. rewrite andb_true_r.
  rewrite (valid_date_other_year (year now) m d E); [reflexivity|].
  unfold valid_datetime, valid_date in Hnow. rewrite !andb_true_iff, !Z.leb_le in Hnow.
  lia.
Qed.

(** X13 at a day of the year, and at the leap day seen in a leap year. *)
Lemma parse_relative_time_month_day_witness :
  let now := mk_datetime 2024 3 1 0 30 15 7 in
  parse_relative_time (R := ascii_runtime) (lit "2月28日") now = lit "2024/02/28 00:00"
  /\ parse_relative_time (R := ascii_runtime) (lit "2月29日") now = UNAVAILABLE.
Proof.
  intros now. split.
  - apply (parse_relative_time_month_day (R := ascii_runtime) (lit "2月28日") now 2 28).
    + vm_compute. discriminate.
    + exists (lit "2"), (lit "28"). split; [vm_compute; reflexivity|].
      split; [right; right; text_found|right; left; text_found].
    + reflexivity.
  - apply (parse_relative_time_month_day (R := ascii_runtime) (lit "2月29日") now 2 29).
    + vm_compute. discriminate.
    + exists (lit "2"), (lit "29"). split; [vm_compute; reflexivity|].
      split; [right; right; text_found|right; left; text_found].
    + reflexivity.
Defined.

(** ** Dates of the Yahoo site *)

Lemma exec_spaces {A : Type} (ws rest : pystr)
      (k : option N -> pystr -> option A) (x : A) (prev : option N) :
  ws <> [] -> all_space ws ->
  match rest with [] => True | c :: _ => is_space c = false end ->
  k (last_cp prev ws) rest = Some x ->
  exec (Plus is_space) prev (ws ++ rest) k = Some x.
Proof.
  intros Hne Hall Hrest Hk. destruct ws as [|c ws]; [congruence|].
  unfold all_space in Hall. simpl in Hall. apply andb_true_iff in Hall as [Hc Hall].
  unfold Plus. cbn [exec app]. rewrite Hc.
  apply star_exec_greedy; assumption.
Qed.

Lemma hour_text_head (hh rest : pystr) (h : Z) :
  hour_text hh h ->
  match hh ++ rest with [] => True | c :: _ => is_space c = false end.
Proof.
  intros H. apply hour_text_chars in H as (Hne & _ & Hall & _).
  destruct hh as [|c hh]; [congruence|]. simpl in *.
  apply andb_true_iff in Hall as [Hc _]. apply digit_not_space. exact Hc.
Qed.

Lemma groups_Ymd_HM (yy mm dd ws hh mi : pystr) (y m d h n : Z) :
  year_text yy y -> month_text mm m -> day_text dd d ->
  ws <> [] -> all_space ws -> hour_text hh h -> minute_text mi n ->
  group re_Y None (yy ++ c_slash :: mm ++ c_slash :: dd ++ ws ++ hh ++ c_colon :: mi)
    (fun tY p1 s1 =>
     exec (ch c_slash) p1 s1 (fun p2 s2 =>
     group re_m p2 s2 (fun tm p3 s3 =>
     exec (ch c_slash) p3 s3 (fun p4 s4 =>
     group re_d p4 s4 (fun td p5 s5 =>
     exec (Plus is_space) p5 s5 (fun p6 s6 =>
     group re_H p6 s6 (fun tH p7 s7 =>
     exec (ch c_colon) p7 s7 (fun p8 s8 =>
     group re_M p8 s8 (fun tM _ s9 =>
       Some ((tY, tm, td, tH, tM), s9))))))))))
  = Some ((yy, mm, dd, hh, mi), []).
Proof.
  intros Hy Hm Hd Hne Hws Hh Hn. unfold group.
  rewrite (exec_re_Y yy _ y _ None Hy), exec_ch.
  apply (exec_re_m mm _ m _ _ _ Hm); [reflexivity|]. rewrite exec_ch.
  apply (exec_re_d dd _ d _ _ _ Hd).
  { apply space_chars_digit_free; assumption. }
  apply exec_spaces; [exact Hne|exact Hws|apply (hour_text_head hh _ h Hh)|].
  apply (exec_re_H hh mi h _ _ _ Hh). rewrite exec_ch.
  apply (exec_re_M_end mi n _ _ _ Hn).
  rewrite (consumed_app yy), (consumed_app mm), (consumed_app dd), (consumed_app hh),
    consumed_all. reflexivity.
Qed.

(** [strptime] with [%Y/%m/%d %H:%M] on a date, whitespace and a time. *)
Lemma strptime_Ymd_HM_text (date ws clock : pystr) (y m d h n : Z) :
  date_text date y m d -> ws <> [] -> all_space ws -> bare_time clock h n ->
  strptime_Ymd_HM (date ++ ws ++ clock) = datetime_new y m d h n 0 0.
Proof.
  intros (yy & mm & dd & -> & Hy & Hm & Hd) Hne Hws (hh & mi & -> & Hh & Hn).
  unfold strptime_Ymd_HM.
  replace ((yy ++ [c_slash] ++ mm ++ [c_slash] ++ dd) ++ ws ++ hh ++ [c_colon] ++ mi)
    with (yy ++ c_slash :: mm ++ c_slash :: dd ++ ws ++ hh ++ c_colon :: mi)
    by (rewrite <- !app_assoc; reflexivity).
  rewrite (groups_Ymd_HM yy mm dd ws hh mi y m d h n Hy Hm Hd Hne Hws Hh Hn).
  cbn [all_converted mbind option_bind].
  rewrite (py_int_year yy y Hy), (py_int_month mm m Hm), (py_int_day dd d Hd),
    (py_int_hour hh h Hh), (py_int_minute mi n Hn).
  reflexivity.
Qed.

Ltac list_eq := repeat first [progress cbn [app] | rewrite <- app_assoc]; reflexivity.

Lemma match_at_WEEKDAY_RE_fail (prev : option N) (c : N) (s : pystr) :
  eqcp c_lparen c = false -> match_at WEEKDAY_RE prev (c :: s) = None.
Proof. intros H. unfold match_at, WEEKDAY_RE. cbn [exec]. rewrite H. reflexivity. Qed.

(** Substitution leaves alone a prefix on whose characters the pattern
    cannot start. *)
Lemma sub_from_skip_chars (r : regex) (repl : pystr) (ok : N -> bool) :
  (forall prev c s, ok c = true -> match_at r prev (c :: s) = None) ->
  forall (pre rest : pystr) (prev : option N),
    List.forallb ok pre = true ->
    sub_from r repl prev 0 (pre ++ rest)
    = pre ++ sub_from r repl (last_cp prev pre) 0 rest.
Proof.
  intros Hok. induction pre as [|c pre IH]; intros rest prev Hpre; [reflexivity|].
  simpl in Hpre. apply andb_true_iff in Hpre as [Hc Hpre].
  cbn [app sub_from last_cp]. rewrite (Hok prev c (pre ++ rest) Hc).
  rewrite (IH rest (Some c) Hpre). reflexivity.
Qed.

Lemma sub_from_match (r : regex) (repl : pystr) (prev : option N) (c : N)
      (s : pystr) (n : nat) :
  match_at r prev (c :: s) = Some (S n) ->
  sub_from r repl prev 0 (c :: s) = repl ++ sub_from r repl (Some c) n s.
Proof. intros H. cbn [sub_from]. rewrite H. reflexivity. Qed.

Lemma match_at_WEEKDAY_RE_mark (prev : option N) (c : N) (rest : pystr) :
  mem_cp c s_weekdays = true ->
  match_at WEEKDAY_RE prev (c_lparen :: c :: c_rparen :: rest) = Some 3%nat.
Proof.
  intros Hc. unfold match_at, WEEKDAY_RE, One_of. cbn [exec].
  rewrite !eqcp_refl, Hc. f_equal. cbn [length]. lia.
Qed.

Lemma not_lparen (c : N) :
  is_digit c = true \/ c = c_slash \/ c = c_colon \/ is_space c = true ->
  negb (eqcp c c_lparen) = true.
Proof.
  intros H. apply negb_true_iff. destruct (eqcp c c_lparen) eqn:E; [|reflexivity].
  apply eqcp_eq in E. subst c. destruct H as [H | [H | [H | H]]]; discriminate.
Qed.

Lemma forallb_chars (ok : N -> bool) (l : pystr) :
  (forall c, In c l -> ok c = true) -> List.forallb ok l = true.
Proof. intros H. apply forallb_forall. exact H. Qed.

Lemma re_sub_weekday (date wd rest : pystr) :
  (forall c, In c date -> negb (eqcp c c_lparen) = true) ->
  (forall c, In c rest -> negb (eqcp c c_lparen) = true) ->
  weekday_mark wd ->
  re_sub WEEKDAY_RE [] (date ++ wd ++ rest) = date ++ rest.
Proof.
  intros Hdate Hrest Hwd. unfold re_sub.
  assert (Hok : forall prev c s, negb (eqcp c c_lparen) = true ->
                                 match_at WEEKDAY_RE prev (c :: s) = None).
  { intros prev c s H. apply match_at_WEEKDAY_RE_fail.
    apply negb_true_iff in H. unfold eqcp in *. rewrite N.eqb_sym. exact H. }
  rewrite (sub_from_skip_chars WEEKDAY_RE [] _ Hok date _ None (forallb_chars _ _ Hdate)).
  f_equal.
  assert (Hr : forall prev, sub_from WEEKDAY_RE [] prev 0 rest = rest).
  { intros prev. rewrite <- (app_nil_r rest) at 1.
    rewrite (sub_from_skip_chars WEEKDAY_RE [] _ Hok rest [] prev (forallb_chars _ _ Hrest)).
    apply app_nil_r. }
  destruct Hwd as [-> | (c & Hc & ->)]; [apply Hr|].
  cbn [app].
  rewrite (sub_from_match _ _ _ _ _ _ (match_at_WEEKDAY_RE_mark _ c rest Hc)).
  cbn [app sub_from]. apply Hr.
Qed.

(** The date text of a Yahoo item as [yahoo_pub_date] reads it. *)
Lemma yahoo_pub_date_text (date wd ws clock : pystr) (y m d h n : Z) :
  date_text date y m d -> weekday_mark wd -> ws <> [] -> all_space ws ->
  bare_time clock h n ->
  yahoo_pub_date (date ++ wd ++ ws ++ clock)
  = if valid_date y m d then format_datetime (mk_datetime y m d h n 0 0)
    else date ++ ws ++ clock.
Proof.
  intros Hdate Hwd Hne Hws Hclock. unfold yahoo_pub_date.
  assert (Hdc : forall c, In c date -> negb (eqcp c c_lparen) = true).
  { intros c Hc. apply not_lparen.
    destruct (date_text_chars date y m d Hdate c Hc); auto. }
  assert (Hrc : forall c, In c (ws ++ clock) -> negb (eqcp c c_lparen) = true).
  { intros c Hc. apply not_lparen. apply in_app_or in Hc as [Hc | Hc].
    - unfold all_space in Hws. rewrite forallb_forall in Hws. auto.
    - destruct (bare_time_chars clock h n Hclock c Hc); auto. }
  rewrite (re_sub_weekday date wd (ws ++ clock) Hdc Hrc Hwd).
  assert (Hstrip : strip (date ++ ws ++ clock) = date ++ ws ++ clock).
  { destruct Hdate as (yy & mm & dd & -> & Hy & _ & _).
    destruct Hclock as (hh & mi & -> & _ & Hn).
    destruct Hy as (a & b & c & e & va & vb & vc & vd & -> & Ha & _).
    destruct Hn as (p & q & v & -> & _ & Hq & _).
    replace (([a; b; c; e] ++ [c_slash] ++ mm ++ [c_slash] ++ dd) ++ ws ++ hh
             ++ [c_colon] ++ [p; q])
      with (a :: ([b; c; e] ++ [c_slash] ++ mm ++ [c_slash] ++ dd ++ ws ++ hh
                  ++ [c_colon; p]) ++ [q])
      by list_eq.
    apply strip_by_ends; apply digit_not_space; eapply decimal_is_digit; eassumption. }
  assert (Hnonempty : nonempty (date ++ wd ++ ws ++ clock) = true).
  { destruct Hdate as (yy & mm & dd & -> & Hy & _ & _).
    destruct Hy as (a & b & c & e & va & vb & vc & vd & -> & _). reflexivity. }
  rewrite Hnonempty, Hstrip.
  rewrite (strptime_Ymd_HM_text date ws clock y m d h n Hdate Hne Hws Hclock).
  unfold datetime_new.
  assert (Ht : valid_time h n 0 0 = true).
  { eapply strptime_HM_valid. apply strptime_HM_bare. exact Hclock. }
  rewrite Ht, andb_true_r. destruct (valid_date y m d); reflexivity.
Qed.

(** X14 (get_yahoo_news_with_selenium): for a Yahoo item whose time
    element reads year/month/day (the year with four digits), an optional
    weekday in parentheses, whitespace and hour:minute, the record carries
    the rendering of that date and time, seconds at zero, when the date
    exists in the calendar, and otherwise the text itself without the
    weekday. *)
Theorem yahoo_article_site_date {R : PyRuntime} (li : yahoo_element) (rec : article)
        (date wd ws clock : pystr) (y m d h n : Z) :
  yahoo_article li = Some rec ->
  y_time_tag li = Some (date ++ wd ++ ws ++ clock) ->
  date_text date y m d -> weekday_mark wd -> ws <> [] -> all_space ws ->
  bare_time clock h n ->
  pub_date rec
  = if valid_date y m d then format_datetime (mk_datetime y m d h n 0 0)
    else date ++ ws ++ clock.
Proof.
  intros Hrec Htag Hdate Hwd Hne Hws Hclock.
  unfold yahoo_article in Hrec. rewrite Htag in Hrec.
  injection Hrec as <-. cbn [pub_date].
  apply yahoo_pub_date_text; assumption.
Qed.

(** X14 at the text "2024/2/29(木) 20:15". *)
Lemma yahoo_article_site_date_witness :
  let li := mk_yahoo_element (Some (lit "t")) (Some (lit "https://news.yahoo.co.jp/a"))
                             (Some (lit "2024/2/29(木) 20:15")) [] in
  exists rec, yahoo_article (R := ascii_runtime) li = Some rec
              /\ pub_date rec = lit "2024/02/29 20:15".
Proof.
  intros li. eexists. split; [reflexivity|].
  apply (yahoo_article_site_date (R := ascii_runtime) li _ (lit "2024/2/29") (lit "(木)")
           (lit " ") (lit "20:15") 2024 2 29 20 15 eq_refl).
  - reflexivity.
  - exists (lit "2024"), (lit "2"), (lit "29").
    split; [vm_compute; reflexivity|]. split; [text_found|].
    split; [right; right; text_found|right; left; text_found].
  - right. exists 0x6728%N. split; reflexivity.
  - vm_compute. discriminate.
  - reflexivity.
  - exists (lit "20"), (lit "15"). split; [vm_compute; reflexivity|].
    split; [left; text_found|text_found].
Defined.

(** What [%Y/%m/%d %H:%M] reads starts with the four digits of a year. *)
Lemma strptime_Ymd_HM_year (s : pystr) (dt : datetime) :
  strptime_Ymd_HM s = Some dt ->
  exists a b c d rest,
    s = a :: b :: c :: d :: rest
    /\ is_digit a = true /\ is_digit b = true /\ is_digit c = true
    /\ is_digit d = true.
Proof.
  unfold strptime_Ymd_HM. intros H. apply bind_Some in H as (g & H & _).
  unfold all_converted in H.
  match type of H with
  | match ?f with _ => _ end = _ => destruct f as [[x rest]|] eqn:E; [|discriminate]
  end.
  unfold group in E. apply exec_sound in E as (m & fol & -> & HM & _).
  unfold re_Y, digit in HM.
  apply Matches_Seq in HM as (m1 & m2 & -> & H1 & HM).
  apply Matches_Chr in H1 as (a & -> & Ha).
  apply Matches_Seq in HM as (m1 & m3 & -> & H1 & HM).
  apply Matches_Chr in H1 as (b & -> & Hb).
  apply Matches_Seq in HM as (m1 & m4 & -> & H1 & HM).
  apply Matches_Chr in H1 as (c & -> & Hc).
  apply Matches_Chr in HM as (d & -> & Hd).
  exists a, b, c, d, fol. auto.
Qed.

(** The rendering of a year before 1000 is no text [%Y/%m/%d %H:%M]
    reads: the slash comes too early. *)
Lemma strptime_short_year (dt : datetime) :
  year dt < 1000 -> strptime_Ymd_HM (format_datetime dt) = None.
Proof.
  intros Hy. destruct (strptime_Ymd_HM (format_datetime dt)) as [dt'|] eqn:E;
    [|reflexivity].
  exfalso. apply strptime_Ymd_HM_year in E as (a & b & c & d & rest & E & Ha & Hb & Hc & Hd).
  unfold format_datetime, strftime_Y in E.
  destruct (year dt <? 10);
    [|destruct (year dt <? 100);
      [|destruct (year dt <? 1000) eqn:E3; [|apply Z.ltb_ge in E3; lia]]];
    cbn [digits_of app] in E; injection E as _ E2 E3' E4 _; subst;
    discriminate.
Qed.

(** X15 (get_yahoo_news_with_selenium): a date text that is already the
    rendering of a valid date and time comes out unchanged: from the year
    1000 on it is read and rendered again, and before, with its short
    year, it is not read and is kept as it is. *)
Theorem yahoo_pub_date_keeps_timestamps (dt : datetime) :
  valid_datetime dt = true ->
  yahoo_pub_date (format_datetime dt) = format_datetime dt.
Proof.
  intros Hv. destruct (Z.lt_ge_cases (year dt) 1000) as [Hlt | Hge].
  - unfold yahoo_pub_date.
    assert (Hne : nonempty (format_datetime dt) = true).
    { destruct (format_datetime dt) eqn:E; [|reflexivity].
      pose proof (is_formatted_short_year dt Hlt) as H.
      unfold format_datetime, strftime_Y in E.
      destruct (year dt <? 10); [|destruct (year dt <? 100);
                                   [|destruct (year dt <? 1000)]]; discriminate E. }
    rewrite Hne.
    pose proof (re_sub_weekday (format_datetime dt) [] []) as Hsub.
    rewrite !app_nil_r in Hsub. rewrite Hsub.
    + rewrite strip_format_datetime, (strptime_short_year dt Hlt). reflexivity.
    + intros c Hc. apply not_lparen. apply (format_datetime_chars dt c Hc).
    + intros c [].
    + left. reflexivity.
  - destruct (format_datetime_texts dt Hv Hge) as (date & clock & E & Hdate & Hclock).
    pose proof (yahoo_pub_date_text date [] [c_space] clock _ _ _ _ _ Hdate
                  (or_introl eq_refl) ltac:(discriminate) eq_refl Hclock) as H.
    cbn [app] in H, E. rewrite <- E in H. rewrite H.
    unfold valid_datetime in Hv. apply andb_true_iff in Hv as [Hd _]. rewrite Hd.
    reflexivity.
Qed.

(** X15 at the last minute of the calendar and at a time in the year
    999. *)
Lemma yahoo_pub_date_keeps_witness :
  yahoo_pub_date (lit "9999/12/31 23:59") = lit "9999/12/31 23:59"
  /\ yahoo_pub_date (lit "999/01/01 10:00") = lit "999/01/01 10:00".
Proof.
  split.
  - apply (yahoo_pub_date_keeps_timestamps (mk_datetime 9999 12 31 23 59 58 0)).
    reflexivity.
  - apply (yahoo_pub_date_keeps_timestamps (mk_datetime 999 1 1 10 0 0 0)).
    reflexivity.
Defined.

(** ** Japan time *)

(** Nine hours later, when that is still in the calendar. *)
Lemma plus_nine_hours (dt0 : datetime) :
  valid_datetime dt0 = true ->
  minutes_of dt0 + 540 < (MAXORDINAL + 1) * 1440 ->
  exists delta dt,
    timedelta_new 0 9 0 0 0 = Some delta
    /\ datetime_add dt0 delta = Some dt
    /\ valid_datetime dt = true
    /\ minutes_of dt = minutes_of dt0 + 540.
Proof.
  intros Hv Hrange.
  destruct (timedelta_new_some 0 9 0 0 0) as [delta Hd]; [vm_compute; reflexivity|].
  exists delta. pose proof Hd as Hd0. apply timedelta_new_spec in Hd as [Hdn Hdu].
  pose proof (valid_datetime_us dt0 Hv) as (Hus & Hh & Hm & Hs & Hu).
  rewrite minutes_of_us in Hus.
  destruct (datetime_add_complete dt0 delta Hv Hdn) as [dt Hadd].
  { rewrite Hdu, minutes_of_us.
    unfold US_PER_DAY, US_PER_SECOND, MAXORDINAL in *. lia. }
  exists dt. split; [exact Hd0|]. split; [exact Hadd|].
  apply (datetime_add_sound dt0 dt delta Hdn) in Hadd as [Hv' Hadd].
  split; [exact Hv'|].
  pose proof (valid_datetime_us dt Hv') as (_ & _ & _ & Hs' & Hu').
  rewrite Hdu, !minutes_of_us in Hadd. unfold US_PER_SECOND in *. lia.
Qed.

Lemma exec_ci {A : Type} (lower upper c : N) (rest : pystr)
      (k : option N -> pystr -> option A) (prev : option N) :
  eqcp c lower || eqcp c upper = true ->
  exec (ci lower upper) prev (c :: rest) k = k (Some c) rest.
Proof. intros H. unfold ci. cbn [exec]. rewrite H. reflexivity. Qed.

Lemma groups_iso (yy mm dd hh mi ss : pystr) (y m d h n s : Z) :
  year_text yy y -> month_text mm m -> day_text dd d ->
  hour_text hh h -> minute_text mi n -> minute_text ss s ->
  group re_Y None (yy ++ c_hyphen :: mm ++ c_hyphen :: dd ++ 0x54%N :: hh
                   ++ c_colon :: mi ++ c_colon :: ss ++ [0x5A%N])
    (fun tY p1 s1 =>
     exec (ch c_hyphen) p1 s1 (fun p2 s2 =>
     group re_m p2 s2 (fun tm p3 s3 =>
     exec (ch c_hyphen) p3 s3 (fun p4 s4 =>
     group re_d p4 s4 (fun td p5 s5 =>
     exec (ci 0x74 0x54) p5 s5 (fun p6 s6 =>
     group re_H p6 s6 (fun tH p7 s7 =>
     exec (ch c_colon) p7 s7 (fun p8 s8 =>
     group re_M p8 s8 (fun tM p9 s9 =>
     exec (ch c_colon) p9 s9 (fun p10 s10 =>
     group re_S p10 s10 (fun tS p11 s11 =>
     exec (ci 0x7A 0x5A) p11 s11 (fun _ s12 =>
       Some ((tY, tm, td, tH, tM, tS), s12)))))))))))))
  = Some ((yy, mm, dd, hh, mi, ss), []).
Proof.
  intros Hy Hm Hd Hh Hn Hs. unfold group.
  rewrite (exec_re_Y yy _ y _ None Hy), exec_ch.
  apply (exec_re_m mm _ m _ _ _ Hm); [reflexivity|]. rewrite exec_ch.
  apply (exec_re_d dd _ d _ _ _ Hd); [reflexivity|].
  rewrite exec_ci by reflexivity.
  apply (exec_re_H hh _ h _ _ _ Hh). rewrite exec_ch.
  apply (exec_re_M mi _ n _ _ _ Hn). rewrite exec_ch.
  apply (exec_re_S ss _ s _ _ _ Hs).
  rewrite exec_ci by reflexivity.
  rewrite (consumed_app yy), (consumed_app mm), (consumed_app dd), (consumed_app hh),
    (consumed_app mi), (consumed_app ss). reflexivity.
Qed.

(** [strptime] with [%Y-%m-%dT%H:%M:%SZ] on a time stamp in that form. *)
Lemma strptime_iso_text (l : pystr) (y m d h n s : Z) :
  iso_text l y m d h n s -> strptime_iso l = datetime_new y m d h n s 0.
Proof.
  intros (yy & mm & dd & hh & mi & ss & -> & Hy & Hm & Hd & Hh & Hn & Hs).
  unfold strptime_iso.
  replace (yy ++ [c_hyphen] ++ mm ++ [c_hyphen] ++ dd ++ [0x54%N] ++ hh ++ [c_colon]
           ++ mi ++ [c_colon] ++ ss ++ [0x5A%N])
    with (yy ++ c_hyphen :: mm ++ c_hyphen :: dd ++ 0x54%N :: hh
          ++ c_colon :: mi ++ c_colon :: ss ++ [0x5A%N]) by list_eq.
  rewrite (groups_iso yy mm dd hh mi ss y m d h n s Hy Hm Hd Hh Hn Hs).
  cbn [all_converted mbind option_bind].
  rewrite (py_int_year yy y Hy), (py_int_month mm m Hm), (py_int_day dd d Hd),
    (py_int_hour hh h Hh), (py_int_minute mi n Hn), (py_int_minute ss s Hs).
  reflexivity.
Qed.

Lemma iso_text_valid (l : pystr) (y m d h n s : Z) :
  iso_text l y m d h n s -> valid_date y m d = true ->
  datetime_new y m d h n s 0 = Some (mk_datetime y m d h n s 0)
  /\ valid_datetime (mk_datetime y m d h n s 0) = true.
Proof.
  intros (yy & mm & dd & hh & mi & ss & _ & _ & _ & _ & Hh & Hn & Hs) Hd.
  apply hour_text_chars in Hh as (_ & _ & _ & Hh).
  apply minute_text_chars in Hn as (_ & Hn). apply minute_text_chars in Hs as (_ & Hs).
  assert (Ht : valid_time h n s 0 = true).
  { unfold valid_time. rewrite !andb_true_iff, !Z.leb_le. lia. }
  unfold datetime_new, valid_datetime. cbn [year month day hour minute second microsecond].
  rewrite Hd, Ht. auto.
Qed.

(** X16 (get_google_news_with_selenium): for an article element with its
    title link and a time element whose datetime attribute is a time
    stamp YYYY-MM-DDTHH:MM:SSZ of an existing date, not in the last nine
    hours of the calendar, a record is made; it carries the link text as
    title and, as publication date, the time nine hours after the time
    stamp, to the minute. *)
Theorem google_article_japan_time {R : PyRuntime} {T : Transport}
        (el : google_element) (text : pystr) (href : option pystr) (l : pystr)
        (y m d h n s : Z) :
  g_a_tag el = Some (text, href) ->
  g_time_tag el = Some (Some l) ->
  iso_text l y m d h n s ->
  valid_date y m d = true ->
  minutes_of (mk_datetime y m d h n s 0) + 540 < (MAXORDINAL + 1) * 1440 ->
  exists rec dt,
    google_article el = Some rec
    /\ title rec = text
    /\ pub_date rec = format_datetime dt
    /\ valid_datetime dt = true
    /\ minutes_of dt = minutes_of (mk_datetime y m d h n s 0) + 540.
Proof.
  intros Ha Ht Hl Hd Hrange.
  destruct (iso_text_valid l y m d h n s Hl Hd) as [Hnew Hv].
  destruct (plus_nine_hours _ Hv Hrange) as (delta & dt & Hdelta & Hadd & Hv' & Hmin).
  unfold google_article. rewrite Ha, Ht, bind_Some_l.
  rewrite (strptime_iso_text l y m d h n s Hl), Hnew, bind_Some_l.
  rewrite Hdelta, bind_Some_l, Hadd, bind_Some_l.
  eexists. exists dt. split; [reflexivity|]. cbn [title pub_date]. auto.
Qed.

(** X16 at a time stamp late in the evening, UTC. *)
Lemma google_article_japan_time_witness :
  let el := mk_google_element (Some (lit "t", Some (lit "./read/1")))
                              (Some (Some (lit "2024-02-29T20:15:00Z"))) [] in
  exists rec dt,
    google_article (R := ascii_runtime) (T := offline) el = Some rec
    /\ title rec = lit "t"
    /\ pub_date rec = format_datetime dt
    /\ valid_datetime dt = true
    /\ minutes_of dt = minutes_of (mk_datetime 2024 2 29 20 15 0 0) + 540.
Proof.
  intros el.
  apply (google_article_japan_time (R := ascii_runtime) (T := offline) el (lit "t")
           (Some (lit "./read/1")) (lit "2024-02-29T20:15:00Z") 2024 2 29 20 15 0).
  - reflexivity.
  - reflexivity.
  - exists (lit "2024"), (lit "02"), (lit "29"), (lit "20"), (lit "15"), (lit "00").
    split; [vm_compute; reflexivity|]. split; [text_found|].
    split; [right; left; text_found|]. split; [right; left; text_found|].
    split; [left; text_found|]. split; text_found.
  - reflexivity.
  - vm_compute. reflexivity.
Defined.

(** X17 (get_last_modified_datetime): when the HEAD request answers with
    a Last-Modified date that exists, not in the last nine hours of the
    calendar, the result renders the time nine hours after the header's
    clock reading, to the minute. *)
Theorem get_last_modified_japan_time {T : Transport} (url : pystr)
        (y m d h n s : Z) :
  head_last_modified url = Some (y, m, d, h, n, s) ->
  valid_datetime (mk_datetime y m d h n s 0) = true ->
  minutes_of (mk_datetime y m d h n s 0) + 540 < (MAXORDINAL + 1) * 1440 ->
  exists dt,
    get_last_modified_datetime url = format_datetime dt
    /\ valid_datetime dt = true
    /\ minutes_of dt = minutes_of (mk_datetime y m d h n s 0) + 540.
Proof.
  intros Hhead Hv Hrange.
  destruct (plus_nine_hours _ Hv Hrange) as (delta & dt & Hdelta & Hadd & Hv' & Hmin).
  unfold get_last_modified_datetime. rewrite Hhead, bind_Some_l.
  unfold datetime_new. unfold valid_datetime in Hv.
  cbn [year month day hour minute second microsecond] in Hv.
  rewrite Hv, bind_Some_l, Hdelta, bind_Some_l, Hadd, bind_Some_l.
  exists dt. auto.
Qed.

(** X17 at a header dated late in the evening, GMT. *)
Lemma get_last_modified_japan_time_witness :
  let T := {| head_last_modified := fun _ => Some (2024, 2, 29, 20, 15, 0);
              get_final_url := fun _ => None |} in
  exists dt,
    get_last_modified_datetime (T := T) (lit "https://example.com/a") = format_datetime dt
    /\ valid_datetime dt = true
    /\ minutes_of dt = minutes_of (mk_datetime 2024 2 29 20 15 0 0) + 540.
Proof.
  intros T.
  apply (get_last_modified_japan_time (T := T) (lit "https://example.com/a")
           2024 2 29 20 15 0).
  - reflexivity.
  - reflexivity.
  - vm_compute. reflexivity.
Defined.

(** ** Records of the MSN site *)

Lemma format_datetime_not_sentinel (dt : datetime) :
  str_eqb (format_datetime dt) UNAVAILABLE = false.
Proof.
  destruct (str_eqb (format_datetime dt) UNAVAILABLE) eqn:E; [|reflexivity].
  apply str_eqb_eq in E. pose proof (format_datetime_chars dt 0x53D6%N) as H.
  rewrite E in H.
  destruct (H ltac:(left; reflexivity)) as [H1 | [H1 | [H1 | H1]]]; discriminate.
Qed.

Lemma mem_cp_app (c : N) (a b : pystr) : mem_cp c (a ++ b) = mem_cp c a || mem_cp c b.
Proof. unfold mem_cp. apply existsb_app. Qed.

Lemma mem_cp_here (c : N) (pre rest : pystr) : mem_cp c (pre ++ c :: rest) = true.
Proof.
  rewrite mem_cp_app. unfold mem_cp at 2. cbn [List.existsb]. rewrite eqcp_refl.
  apply orb_true_r.
Qed.

Lemma endswith_last (pre : pystr) (z : N) : endswith (pre ++ [z]) [z] = true.
Proof.
  unfold endswith. rewrite rev_app_distr. cbn [List.rev app startswith].
  rewrite eqcp_refl. destruct (List.rev pre); reflexivity.
Qed.

Lemma iso_text_marks (l : pystr) (y m d h n s : Z) :
  iso_text l y m d h n s ->
  nonempty l = true /\ mem_cp 0x54%N l = true /\ mem_cp c_colon l = true
  /\ endswith l [0x5A%N] = true.
Proof.
  intros (yy & mm & dd & hh & mi & ss & -> & Hy & _).
  destruct Hy as (a & b & c & e & va & vb & vc & vd & -> & _).
  split; [reflexivity|]. split; [|split].
  - replace ([a; b; c; e] ++ [c_hyphen] ++ mm ++ [c_hyphen] ++ dd ++ [0x54%N] ++ hh
             ++ [c_colon] ++ mi ++ [c_colon] ++ ss ++ [0x5A%N])
      with (([a; b; c; e] ++ [c_hyphen] ++ mm ++ [c_hyphen] ++ dd) ++ 0x54%N :: hh
            ++ [c_colon] ++ mi ++ [c_colon] ++ ss ++ [0x5A%N]) by list_eq.
    apply mem_cp_here.
  - replace ([a; b; c; e] ++ [c_hyphen] ++ mm ++ [c_hyphen] ++ dd ++ [0x54%N] ++ hh
             ++ [c_colon] ++ mi ++ [c_colon] ++ ss ++ [0x5A%N])
      with (([a; b; c; e] ++ [c_hyphen] ++ mm ++ [c_hyphen] ++ dd ++ [0x54%N] ++ hh)
            ++ c_colon :: mi ++ [c_colon] ++ ss ++ [0x5A%N]) by list_eq.
    apply mem_cp_here.
  - replace ([a; b; c; e] ++ [c_hyphen] ++ mm ++ [c_hyphen] ++ dd ++ [0x54%N] ++ hh
             ++ [c_colon] ++ mi ++ [c_colon] ++ ss ++ [0x5A%N])
      with (([a; b; c; e] ++ [c_hyphen] ++ mm ++ [c_hyphen] ++ dd ++ [0x54%N] ++ hh
             ++ [c_colon] ++ mi ++ [c_colon] ++ ss) ++ [0x5A%N]) by list_eq.
    apply endswith_last.
Qed.

(** X18 (get_msn_news_with_selenium): a label that is a time stamp
    YYYY-MM-DDTHH:MM:SSZ of an existing date, not in the last nine hours
    of the calendar, gives the time nine hours later, to the minute; no
    Last-Modified header is asked for. *)
Theorem msn_pub_date_japan_time {R : PyRuntime} {T : Transport}
        (l href : pystr) (now : datetime) (y m d h n s : Z) :
  iso_text l y m d h n s ->
  valid_date y m d = true ->
  minutes_of (mk_datetime y m d h n s 0) + 540 < (MAXORDINAL + 1) * 1440 ->
  exists dt,
    msn_pub_date l href now = format_datetime dt
    /\ valid_datetime dt = true
    /\ minutes_of dt = minutes_of (mk_datetime y m d h n s 0) + 540.
Proof.
  intros Hl Hd Hrange.
  destruct (iso_text_valid l y m d h n s Hl Hd) as [Hnew Hv].
  destruct (plus_nine_hours _ Hv Hrange) as (delta & dt & Hdelta & Hadd & Hv' & Hmin).
  destruct (iso_text_marks l y m d h n s Hl) as (H1 & H2 & H3 & H4).
  unfold msn_pub_date. rewrite H1, H2, H3, H4. cbn [andb].
  rewrite (strptime_iso_text l y m d h n s Hl), Hnew, bind_Some_l.
  rewrite Hdelta, bind_Some_l, Hadd, bind_Some_l.
  rewrite format_datetime_not_sentinel. exists dt. auto.
Qed.

(** X18 at a time stamp on the last day of a year. *)
Lemma msn_pub_date_japan_time_witness :
  exists dt,
    msn_pub_date (R := ascii_runtime) (T := offline) (lit "2023-12-31T18:05:09Z")
                 (lit "https://www.msn.com/a") (mk_datetime 2024 3 1 0 30 15 7)
    = format_datetime dt
    /\ valid_datetime dt = true
    /\ minutes_of dt = minutes_of (mk_datetime 2023 12 31 18 5 9 0) + 540.
Proof.
  apply (msn_pub_date_japan_time (R := ascii_runtime) (T := offline)
           (lit "2023-12-31T18:05:09Z") (lit "https://www.msn.com/a")
           (mk_datetime 2024 3 1 0 30 15 7) 2023 12 31 18 5 9).
  - exists (lit "2023"), (lit "12"), (lit "31"), (lit "18"), (lit "05"), (lit "09").
    split; [vm_compute; reflexivity|]. split; [text_found|].
    split; [left; text_found|]. split; [left; text_found|].
    split; [right; left; text_found|]. split; text_found.
  - reflexivity.
  - vm_compute. reflexivity.
Defined.

Lemma msn_article_inv {R : PyRuntime} {T : Transport} (now : datetime)
      (a : msn_element) (rec : article) :
  msn_article now a = Some rec ->
  title rec = strip (str_or (default [] (m_data_title a)) (m_text a))
  /\ title rec <> []
  /\ m_href a = Some (url rec) /\ url rec <> []
  /\ pub_date rec = msn_pub_date (msn_label (m_parent a)) (url rec) now
  /\ source rec = msn_source (m_parent a) (url rec).
Proof.
  unfold msn_article. intros H.
  destruct (nonempty (strip (str_or match m_data_title a with Some t => t | None => [] end
                                    (m_text a)))
            && nonempty match m_href a with Some h => h | None => [] end) eqn:E;
    [|discriminate].
  injection H as <-. cbn [title url pub_date source].
  apply andb_true_iff in E as [E1 E2]. apply nonempty_true in E1, E2.
  destruct (m_href a) as [h|]; [|congruence].
  destruct (m_data_title a); cbn [default]; repeat split; auto.
Qed.

(** X19 (get_msn_news_with_selenium): every MSN record has a title that
    is not empty and has no whitespace at either end, and a URL that is
    not empty and is the href of one of the result links. *)
Theorem msn_records_have_title_and_link {R : PyRuntime} {T : Transport}
        (now : datetime) (page : list msn_element) (rec : article) :
  rec ∈ get_msn_news_with_selenium now page ->
  title rec <> [] /\ strip (title rec) = title rec /\ url rec <> []
  /\ exists a, a ∈ page /\ m_href a = Some (url rec).
Proof.
  intros H. unfold get_msn_news_with_selenium in H.
  apply list_elem_of_omap in H as (a & Ha & Hrec).
  apply msn_article_inv in Hrec as (Ht & Hne & Hh & Hu & _).
  split; [exact Hne|]. split; [rewrite Ht; apply strip_idem|]. split; [exact Hu|].
  exists a. auto.
Qed.

(** X19 at a result link with whitespace around its text. *)
Lemma msn_records_witness :
  let a := mk_msn_element None (lit " t ") (Some (lit "https://www.msn.com/a")) None in
  let rec := mk_article (lit "t") (lit "https://www.msn.com/a") UNAVAILABLE (lit "MSN") in
  title rec <> [] /\ strip (title rec) = title rec /\ url rec <> []
  /\ exists a', a' ∈ [a] /\ m_href a' = Some (url rec).
Proof.
  intros a rec.
  apply (msn_records_have_title_and_link (R := ascii_runtime) (T := offline)
           (mk_datetime 2024 3 1 0 30 15 7) [a] rec).
  vm_compute. apply list_elem_of_here.
Defined.

(** X20 (get_msn_news_with_selenium): an MSN record carries the sentinel
    as publication date only when the Last-Modified lookup for its URL
    gives the sentinel as well. *)
Theorem msn_sentinel_only_after_lookup {R : PyRuntime} {T : Transport}
        (now : datetime) (page : list msn_element) (rec : article) :
  rec ∈ get_msn_news_with_selenium now page ->
  pub_date rec = UNAVAILABLE ->
  get_last_modified_datetime (url rec) = UNAVAILABLE.
Proof.
  intros H Hp. unfold get_msn_news_with_selenium in H.
  apply list_elem_of_omap in H as (a & Ha & Hrec).
  apply msn_article_inv in Hrec as (_ & _ & _ & _ & Hd & _).
  rewrite Hd in Hp. unfold msn_pub_date in Hp.
  match type of Hp with
  | (if str_eqb ?p UNAVAILABLE then _ else _) = _ =>
    destruct (str_eqb p UNAVAILABLE) eqn:E; [exact Hp|]
  end.
  rewrite Hp in E. assert (E' : str_eqb UNAVAILABLE UNAVAILABLE = true) by reflexivity.
  congruence.
Qed.

(** X20 at a result link without any time label, with no transport. *)
Lemma msn_sentinel_witness :
  let a := mk_msn_element None (lit " t ") (Some (lit "https://www.msn.com/a")) None in
  let rec := mk_article (lit "t") (lit "https://www.msn.com/a") UNAVAILABLE (lit "MSN") in
  get_last_modified_datetime (T := offline) (url rec) = UNAVAILABLE.
Proof.
  intros a rec.
  apply (msn_sentinel_only_after_lookup (R := ascii_runtime) (T := offline)
           (mk_datetime 2024 3 1 0 30 15 7) [a] rec).
  - vm_compute. apply list_elem_of_here.
  - reflexivity.
Defined.

(** ** What the cleaner gives back *)

Lemma sub_from_length (r : regex) (repl : pystr) :
  (length repl <= 1)%nat ->
  forall (s : pystr) (prev : option N) (skip : nat),
    (length (sub_from r repl prev skip s) <= length s)%nat.
Proof.
  intros Hrepl. induction s as [|c s IH]; intros prev skip; [simpl; lia|].
  cbn [sub_from]. destruct skip as [|n].
  - destruct (match_at r prev (c :: s)) as [[|n]|].
    + cbn [length]. specialize (IH (Some c) 0%nat). lia.
    + rewrite length_app. cbn [length]. specialize (IH (Some c) n). lia.
    + cbn [length]. specialize (IH (Some c) 0%nat). lia.
  - cbn [length]. specialize (IH (Some c) n). lia.
Qed.

Lemma re_sub_length (r : regex) (repl s : pystr) :
  (length repl <= 1)%nat -> (length (re_sub r repl s) <= length s)%nat.
Proof. intros H. apply sub_from_length. exact H. Qed.

Lemma strip_by_length (p : N -> bool) (s : pystr) :
  (length (strip_by p s) <= length s)%nat.
Proof.
  destruct (strip_by_factor p s) as (l & r & E). rewrite E at 2.
  rewrite !length_app. lia.
Qed.

Lemma replace_cp_length (a b : N) (s : pystr) : length (replace_cp a b s) = length s.
Proof. unfold replace_cp. apply length_map. Qed.

Lemma replace_cp_Forall (P : N -> Prop) (a b : N) (s : pystr) :
  P b -> Forall P s -> Forall P (replace_cp a b s).
Proof.
  intros Hb Hs. unfold replace_cp. induction Hs as [|c s Hc Hs IH]; cbn [List.map].
  - constructor.
  - constructor; [destruct (eqcp c a); assumption|exact IH].
Qed.

Lemma Forall_In_self (x : pystr) : Forall (fun c => In c x \/ c = c_space) x.
Proof. apply Forall_forall. intros c Hc. left. apply list_elem_of_In. exact Hc. Qed.

(** X21 (clean_source_text): whatever the text, the result has no
    whitespace at either end, none of the decorative dots ・ • ·, no two
    whitespace characters in a row, and is not a bare time expression; it
    is no longer than the text, and each of its characters is a character
    of the text or a space. *)
Theorem clean_source_text_result {R : PyRuntime} (x : pystr) :
  let y := clean_source_text x in
  strip y = y
  /\ Forall (fun c => decorative_dot c = false) y
  /\ double_space y = false
  /\ ~ time_only y
  /\ (length y <= length x)%nat
  /\ Forall (fun c => In c x \/ c = c_space) y.
Proof.
  cbv zeta.
  assert (Hshape : strip (clean_source_text x) = clean_source_text x
                   /\ Forall (fun c => decorative_dot c = false) (clean_source_text x)
                   /\ double_space (clean_source_text x) = false
                   /\ ~ time_only (clean_source_text x)).
  { destruct (clean_source_text_shape x) as [E | (H1 & H2 & H3 & H4)].
    - rewrite E. repeat split; try reflexivity; [constructor|].
      intros H. apply time_only_nonempty in H. congruence.
    - repeat split; try assumption.
      intros H. apply matches_TIME_ONLY_RE in H. congruence. }
  destruct Hshape as (H1 & H2 & H3 & H4).
  repeat (split; [assumption|]).
  clear H1 H2 H3 H4. unfold clean_source_text. destruct x as [|c0 x']; [split; [simpl; lia|constructor]|].
  cbv zeta.
  set (x := c0 :: x').
  set (t9 := strip (strip_chars s_strip_set _)).
  assert (Hlen : (length t9 <= length x)%nat
                 /\ Forall (fun c => In c x \/ c = c_space) t9).
  { subst t9. unfold strip, strip_chars. split.
    - repeat first
        [ eapply Nat.le_trans; [apply strip_by_length|]
        | eapply Nat.le_trans; [apply re_sub_length; simpl; lia|]
        | rewrite replace_cp_length ].
      apply Nat.le_refl.
    - repeat first
        [ apply strip_by_Forall
        | apply re_sub_Forall; [repeat constructor; right; reflexivity|]
        | apply replace_cp_Forall; [right; reflexivity|] ].
      apply Forall_In_self. }
  destruct Hlen as [Hl Hf].
  destruct (matches TIME_ONLY_RE t9); [split; [simpl; lia|constructor]|].
  split; assumption.
Qed.

(** ** Bare time expressions are cleaned away *)

Lemma lstrip_by_all (p : N -> bool) (l rest : pystr) :
  List.forallb p l = true -> lstrip_by p (l ++ rest) = lstrip_by p rest.
Proof.
  induction l as [|c l IH]; intros H; [reflexivity|].
  simpl in H. apply andb_true_iff in H as [Hc H]. cbn [app lstrip_by].
  rewrite Hc. apply IH. exact H.
Qed.

Lemma forallb_rev_true (p : N -> bool) (l : pystr) :
  List.forallb p l = true -> List.forallb p (List.rev l) = true.
Proof.
  rewrite !forallb_forall. intros H c Hc. apply H. apply in_rev. exact Hc.
Qed.

(** Stripping a text wrapped in characters of the stripped class gives
    the text, when it neither starts nor ends with such a character. *)
Lemma strip_by_core (p : N -> bool) (l r : pystr) (a z : N) (mid : pystr) :
  List.forallb p l = true -> List.forallb p r = true ->
  p a = false -> p z = false ->
  strip_by p (l ++ (a :: mid ++ [z]) ++ r) = a :: mid ++ [z].
Proof.
  intros Hl Hr Ha Hz. unfold strip_by, rstrip_by.
  rewrite (lstrip_by_all p l _ Hl). cbn [app].
  rewrite (lstrip_by_cons_keep p a _ Ha).
  change (a :: (mid ++ [z]) ++ r) with ((a :: mid ++ [z]) ++ r).
  rewrite rev_app_distr.
  rewrite lstrip_by_all by (apply forallb_rev_true; exact Hr).
  change (a :: mid ++ [z]) with ((a :: mid) ++ [z]).
  rewrite rev_app_distr. cbn [List.rev app].
  rewrite (lstrip_by_cons_keep p z _ Hz).
  change (z :: List.rev mid ++ [a]) with ([z] ++ List.rev (a :: mid)).
  rewrite rev_app_distr, rev_involutive. reflexivity.
Qed.

Lemma strip_all_space (w : pystr) : all_space w -> strip w = [].
Proof.
  intros H. unfold strip, strip_by, rstrip_by.
  rewrite <- (app_nil_r w) at 1. rewrite (lstrip_by_all is_space w [] H). reflexivity.
Qed.

(** A pattern all of whose matches contain a character of some class
    has no match in a text without such characters. *)
Lemma no_occurrence_without (r : regex) (q : N -> bool) (s : pystr) :
  (forall prev m fol, Matches r prev m fol -> List.existsb q m = true) ->
  List.existsb q s = false -> ~ occurs r s.
Proof.
  intros Hr Hs (pre & m & post & -> & HM).
  apply Hr in HM. rewrite !existsb_app, HM in Hs.
  rewrite orb_true_l, orb_true_r in Hs. discriminate.
Qed.

Lemma ON_MSN_RE_marker {R : PyRuntime} (prev : option N) (m fol : pystr) :
  Matches ON_MSN_RE prev m fol -> List.existsb marker_char m = true.
Proof.
  unfold ON_MSN_RE, ci. intros H.
  apply Matches_Seq in H as (m0 & m1 & -> & H0 & H).
  inv_clear H0.
  apply Matches_Seq in H as (mo & m2 & -> & Ho & _).
  apply Matches_Chr in Ho as (c & -> & Hc). cbn [app List.existsb].
  apply orb_true_iff in Hc as [Hc | Hc]; apply eqcp_eq in Hc; subst c; reflexivity.
Qed.

Lemma MSN_HAISHIN_RE_marker (prev : option N) (m fol : pystr) :
  Matches MSN_HAISHIN_RE prev m fol -> List.existsb marker_char m = true.
Proof.
  unfold MSN_HAISHIN_RE. intros H.
  apply Matches_Seq in H as (m0 & m1 & -> & H0 & _).
  apply Matches_Lit in H0. subst m0. reflexivity.
Qed.

Lemma TEIKYO_RE_marker (prev : option N) (m fol : pystr) :
  Matches TEIKYO_RE prev m fol -> List.existsb marker_char m = true.
Proof.
  unfold TEIKYO_RE. intros H.
  apply Matches_Seq in H as (m0 & m1 & -> & H0 & _).
  apply Matches_Alt in H0 as [H0 | H0]; apply Matches_Lit in H0; subst m0; reflexivity.
Qed.

(** A text without marker characters goes through the three marker
    substitutions unchanged. *)
Lemma markers_absent {R : PyRuntime} (s : pystr) :
  List.existsb marker_char s = false ->
  re_sub TEIKYO_RE [] (re_sub MSN_HAISHIN_RE [] (re_sub ON_MSN_RE [] s)) = s.
Proof.
  intros H.
  rewrite (not_occurs_sub ON_MSN_RE [] s)
    by (apply (no_occurrence_without _ marker_char); [apply ON_MSN_RE_marker|exact H]).
  rewrite (not_occurs_sub MSN_HAISHIN_RE [] s)
    by (apply (no_occurrence_without _ marker_char); [apply MSN_HAISHIN_RE_marker|exact H]).
  apply not_occurs_sub.
  apply (no_occurrence_without _ marker_char); [apply TEIKYO_RE_marker|exact H].
Qed.

Lemma time_char_plain (c : N) :
  time_char c = true -> marker_char c = false /\ decorative_dot c = false.
Proof.
  intros H. split.
  - destruct (marker_char c) eqn:E; [|reflexivity]. unfold marker_char, mem_cp in E.
    cbn [List.existsb] in E. rewrite !orb_true_iff in E.
    destruct E as [E | [E | [E | [E | [E | E]]]]]; try discriminate;
      apply eqcp_eq in E; subst c; discriminate.
  - destruct (decorative_dot c) eqn:E; [|reflexivity]. unfold decorative_dot in E.
    rewrite !orb_true_iff in E.
    destruct E as [[E | E] | E]; apply eqcp_eq in E; subst c; discriminate.
Qed.

Lemma time_chars_plain (s : pystr) :
  List.forallb time_char s = true ->
  List.existsb marker_char s = false
  /\ Forall (fun c => decorative_dot c = false) s.
Proof.
  induction s as [|c s IH]; intros H; [split; [reflexivity|constructor]|].
  simpl in H. apply andb_true_iff in H as [Hc H].
  destruct (IH H) as [I1 I2]. destruct (time_char_plain c Hc) as [C1 C2].
  split; [simpl; rewrite C1, I1; reflexivity|constructor; assumption].
Qed.

Lemma Matches_TRAILING_TIME_RE (m fol : pystr) :
  Matches TRAILING_TIME_RE None m fol <-> Matches TIME_ONLY_RE None m fol.
Proof.
  change TIME_ONLY_RE with (Seq Bos TRAILING_TIME_RE). split.
  - intros H. apply Matches_Seq. exists [], m. split; [reflexivity|].
    split; [apply Matches_Bos; auto|exact H].
  - intros H. apply Matches_Seq in H as (m1 & m2 & -> & H1 & H2).
    apply Matches_Bos in H1 as [-> _]. exact H2.
Qed.

(** The trailing-time pattern, tried at the start of a bare time
    expression that does not end in a newline, takes all of it. *)
Lemma match_at_TRAILING_whole (init : pystr) (z : N) :
  time_only (init ++ [z]) -> is_space z = false ->
  match_at TRAILING_TIME_RE None (init ++ [z]) = Some (length (init ++ [z])).
Proof.
  intros Ht Hz.
  assert (HM : Matches TRAILING_TIME_RE None (init ++ [z]) []).
  { apply Matches_TRAILING_TIME_RE. apply Matches_TIME_ONLY_RE. split; [auto|exact Ht]. }
  destruct (match_at_complete _ _ _ _ HM) as [n Hn]. rewrite app_nil_r in Hn.
  rewrite Hn. f_equal.
  apply match_at_sound in Hn as (m & fol & E & HM' & ->).
  apply Matches_TRAILING_TIME_RE, Matches_TIME_ONLY_RE in HM' as [[-> | ->] _].
  - rewrite app_nil_r in E. rewrite E. reflexivity.
  - apply app_inj_tail in E as [_ ->]. discriminate.
Qed.

Lemma re_sub_whole_match (r : regex) (s : pystr) :
  s <> [] -> match_at r None s = Some (length s) -> re_sub r [] s = [].
Proof.
  intros Hne H. destruct s as [|c s]; [congruence|].
  unfold re_sub. cbn [length] in H. rewrite (sub_from_match r [] None c s _ H).
  rewrite sub_from_skip by lia. rewrite drop_all. reflexivity.
Qed.

Lemma forallb_weaken (p q : N -> bool) (l : pystr) :
  (forall c, p c = true -> q c = true) ->
  List.forallb p l = true -> List.forallb q l = true.
Proof. rewrite !forallb_forall. auto. Qed.

Lemma space_is_time_char (c : N) : is_space c = true -> time_char c = true.
Proof. intros H. unfold time_char. rewrite H. reflexivity. Qed.

Lemma digit_is_time_char (c : N) : is_digit c = true -> time_char c = true.
Proof. intros H. unfold time_char. rewrite H, orb_true_r. reflexivity. Qed.

(** What stripping leaves of a bare time expression. *)
Lemma time_only_strip (x : pystr) :
  time_only x ->
  exists init z,
    strip x = init ++ [z] /\ is_space z = false /\ time_only (init ++ [z])
    /\ List.forallb time_char (init ++ [z]) = true.
Proof.
  intros (w0 & ds & w1 & u & w2 & ago & w3 & -> & H0 & [Hne Hds] & H1 & Hu & H2 & Hago & H3).
  destruct ds as [|d ds]; [congruence|].
  pose proof Hds as Hds'. simpl in Hds'. apply andb_true_iff in Hds' as [Hd _].
  pose proof (digit_not_space d Hd) as Hdsp.
  assert (Hcore : forall (mid : pystr) (z : N) (trail : pystr),
             w0 ++ (d :: ds) ++ w1 ++ u ++ w2 ++ ago ++ w3
             = w0 ++ (d :: mid ++ [z]) ++ trail ->
             all_space trail -> is_space z = false ->
             time_only (d :: mid ++ [z]) ->
             List.forallb time_char (d :: mid ++ [z]) = true ->
             exists init z0,
               strip (w0 ++ (d :: ds) ++ w1 ++ u ++ w2 ++ ago ++ w3) = init ++ [z0]
               /\ is_space z0 = false /\ time_only (init ++ [z0])
               /\ List.forallb time_char (init ++ [z0]) = true).
  { intros mid z trail E Ht Hz Hto Hch. exists (d :: mid), z. rewrite E.
    split; [|auto]. apply strip_by_core; assumption. }
  assert (Hsp : forall w, all_space w -> List.forallb time_char w = true).
  { intros w Hw. apply (forallb_weaken is_space); [apply space_is_time_char|exact Hw]. }
  assert (Hdg : List.forallb time_char ds = true).
  { simpl in Hds. apply andb_true_iff in Hds as [_ Hds].
    apply (forallb_weaken is_digit); [apply digit_is_time_char|exact Hds]. }
  assert (Hd' : time_char d = true) by (apply digit_is_time_char; exact Hd).
  destruct Hago as [-> | ->].
  - (* no 前: the unit ends the expression *)
    destruct Hu as [-> | [-> | ->]].
    + apply (Hcore (ds ++ w1) 0x5206%N (w2 ++ w3)); try reflexivity.
      * list_eq.
      * apply all_space_app; assumption.
      * exists [], (d :: ds), w1, s_fun, [], [], [].
        split; [list_eq|]. unfold all_space, number, time_unit.
        repeat split; auto; discriminate.
      * cbn [List.forallb]. rewrite Hd'. rewrite !forallb_app, Hdg, (Hsp w1 H1). reflexivity.
    + apply (Hcore (ds ++ w1 ++ [0x6642%N]) 0x9593%N (w2 ++ w3)); try reflexivity.
      * list_eq.
      * apply all_space_app; assumption.
      * exists [], (d :: ds), w1, s_jikan, [], [], [].
        split; [list_eq|]. unfold all_space, number, time_unit.
        repeat split; auto; discriminate.
      * cbn [List.forallb]. rewrite Hd'. rewrite !forallb_app, Hdg, (Hsp w1 H1). reflexivity.
    + apply (Hcore (ds ++ w1) 0x65E5%N (w2 ++ w3)); try reflexivity.
      * list_eq.
      * apply all_space_app; assumption.
      * exists [], (d :: ds), w1, s_nichi, [], [], [].
        split; [list_eq|]. unfold all_space, number, time_unit.
        repeat split; auto; discriminate.
      * cbn [List.forallb]. rewrite Hd'. rewrite !forallb_app, Hdg, (Hsp w1 H1). reflexivity.
  - (* 前 ends the expression *)
    apply (Hcore (ds ++ w1 ++ u ++ w2) 0x524D%N w3); try reflexivity; try assumption.
    + list_eq.
    + exists [], (d :: ds), w1, u, w2, s_mae, [].
      split; [list_eq|]. unfold number. repeat split; auto; discriminate.
    + cbn [List.forallb]. rewrite Hd'.
      rewrite !forallb_app, Hdg, (Hsp w1 H1), (Hsp w2 H2).
      destruct Hu as [-> | [-> | ->]]; reflexivity.
Qed.

(** X22 (clean_source_text): a text that is only whitespace, or only a
    bare time expression (a number and one of the units 分, 時間, 日,
    with or without 前, whitespace allowed around each part), is cleaned
    to the empty string. *)
Theorem clean_source_text_drops_bare_times {R : PyRuntime} (x : pystr) :
  all_space x \/ time_only x -> clean_source_text x = [].
Proof.
  intros H. unfold clean_source_text. destruct x as [|c0 x']; [reflexivity|].
  cbv zeta. set (x := c0 :: x') in *. destruct H as [H | H].
  - rewrite (strip_all_space x H). reflexivity.
  - destruct (time_only_strip x H) as (init & z & -> & Hz & Ht & Hch).
    destruct (time_chars_plain _ Hch) as [Hmark Hdots].
    rewrite (markers_absent _ Hmark), (replace_dots_id _ Hdots).
    rewrite (re_sub_whole_match TRAILING_TIME_RE (init ++ [z]));
      [reflexivity|destruct init; discriminate|apply match_at_TRAILING_whole; assumption].
Qed.

(** X22 at the two texts of the function's own description. *)
Lemma clean_source_text_drops_bare_times_witness :
  clean_source_text (R := ascii_runtime) (lit "4 日") = []
  /\ clean_source_text (R := ascii_runtime) (lit " 7 時間 ") = [].
Proof.
  split.
  - apply (clean_source_text_drops_bare_times (R := ascii_runtime)). right.
    exists [], (lit "4"), (lit " "), s_nichi, [], [], [].
    unfold all_space, number, time_unit. repeat split; auto; discriminate.
  - apply (clean_source_text_drops_bare_times (R := ascii_runtime)). right.
    exists (lit " "), (lit "7"), (lit " "), s_jikan, (lit " "), [], [].
    unfold all_space, number, time_unit. repeat split; auto; discriminate.
Defined.

(** ** A publisher name followed by a time expression *)

Lemma Matches_prev_free (r : regex) (prev : option N) (m fol : pystr) :
  Matches r prev m fol ->
  prev_free r = true -> forall prev', Matches r prev' m fol.
Proof.
  induction 1 as [prev fol|p c prev fol Hp|r1 r2 prev m1 m2 fol H1 IH1 H2 IH2
                  |r1 r2 prev m fol H IH|r1 r2 prev m fol H IH|p prev m fol Hall
                  |fol|prev fol Hfol|w prev fol Hw];
    cbn [prev_free]; intros Hfree prev'; try discriminate.
  - constructor.
  - constructor. exact Hp.
  - apply andb_true_iff in Hfree as [F1 F2]. constructor; auto.
  - apply andb_true_iff in Hfree as [F1 F2]. apply M_Alt_l. auto.
  - apply andb_true_iff in Hfree as [F1 F2]. apply M_Alt_r. auto.
  - constructor. exact Hall.
  - constructor. exact Hfol.
Qed.

Lemma TRAILING_TIME_RE_prev (prev prev' : option N) (m fol : pystr) :
  Matches TRAILING_TIME_RE prev m fol -> Matches TRAILING_TIME_RE prev' m fol.
Proof. intros H. apply (Matches_prev_free _ _ _ _ H). reflexivity. Qed.

(** The trailing-time pattern, tried at the start of a time expression
    that ends the text, takes all of it. *)
Lemma match_at_TRAILING_rest (prev : option N) (init : pystr) (z : N) :
  time_only (init ++ [z]) -> is_space z = false ->
  match_at TRAILING_TIME_RE prev (init ++ [z]) = Some (length (init ++ [z])).
Proof.
  intros Ht Hz.
  assert (HM : Matches TRAILING_TIME_RE prev (init ++ [z]) []).
  { apply (TRAILING_TIME_RE_prev None). apply Matches_TRAILING_TIME_RE.
    apply Matches_TIME_ONLY_RE. split; [auto|exact Ht]. }
  destruct (match_at_complete _ _ _ _ HM) as [n Hn]. rewrite app_nil_r in Hn.
  rewrite Hn. f_equal.
  apply match_at_sound in Hn as (m & fol & E & HM' & ->).
  apply (TRAILING_TIME_RE_prev _ None) in HM'.
  apply Matches_TRAILING_TIME_RE, Matches_TIME_ONLY_RE in HM' as [[-> | ->] _].
  - rewrite app_nil_r in E. rewrite E. reflexivity.
  - apply app_inj_tail in E as [_ ->]. discriminate.
Qed.

Lemma TRAILING_TIME_RE_starts (prev : option N) (m fol : pystr) :
  Matches TRAILING_TIME_RE prev m fol ->
  exists w d rest, m = w ++ d :: rest /\ all_space w /\ is_digit d = true.
Proof.
  unfold TRAILING_TIME_RE. intros H.
  apply Matches_Seq in H as (w & m1 & -> & Hw & H). apply Matches_Star in Hw.
  apply Matches_Seq in H as (ds & m2 & -> & Hds & _).
  apply Matches_Plus in Hds as [Hne Hds]. destruct ds as [|d ds]; [congruence|].
  simpl in Hds. apply andb_true_iff in Hds as [Hd _].
  exists w, d, (ds ++ m2). split; [reflexivity|]. split; [exact Hw|exact Hd].
Qed.

(** Whitespace followed by a digit does not start inside a text that has
    no digit and does not end in whitespace. *)
Lemma no_number_inside (init : pystr) (z : N) :
  forall (w rest1 rest2 : pystr) (d : N),
    (init ++ [z]) ++ rest1 = w ++ d :: rest2 ->
    all_space w -> is_digit d = true ->
    List.existsb is_digit (init ++ [z]) = false -> is_space z = false -> False.
Proof.
  induction init as [|a init IH]; intros w rest1 rest2 d E Hw Hd Hno Hz.
  - cbn [app] in E. destruct w as [|c w]; cbn [app] in E; injection E as E1 E2.
    + subst z. simpl in Hno. rewrite Hd in Hno. discriminate.
    + subst z. unfold all_space in Hw. simpl in Hw.
      apply andb_true_iff in Hw as [Hc _]. congruence.
  - cbn [app] in E. simpl in Hno. apply orb_false_iff in Hno as [Ha Hno].
    destruct w as [|c w]; cbn [app] in E; injection E as E1 E2.
    + subst a. congruence.
    + unfold all_space in Hw. simpl in Hw. apply andb_true_iff in Hw as [_ Hw].
      apply (IH w rest1 rest2 d E2 Hw Hd Hno Hz).
Qed.

(** Substitution leaves alone a prefix at none of whose positions the
    pattern matches. *)
Lemma sub_from_keep_prefix (r : regex) (repl : pystr) (rest : pystr) :
  forall (pre : pystr) (prev : option N),
    (forall p1 c p2, pre = p1 ++ c :: p2 ->
                     match_at r (last_cp prev p1) (c :: p2 ++ rest) = None) ->
    sub_from r repl prev 0 (pre ++ rest)
    = pre ++ sub_from r repl (last_cp prev pre) 0 rest.
Proof.
  induction pre as [|c pre IH]; intros prev H; [reflexivity|].
  pose proof (H [] c pre eq_refl) as H0. cbn [last_cp] in H0.
  cbn [app sub_from last_cp]. rewrite H0.
  rewrite IH; [reflexivity|].
  intros p1 c' p2 E. apply (H (c :: p1) c' p2). rewrite E. reflexivity.
Qed.

Lemma existsb_suffix (p : N -> bool) (a b : pystr) :
  List.existsb p (a ++ b) = false -> List.existsb p b = false.
Proof. rewrite existsb_app. intros H. apply orb_false_iff in H. tauto. Qed.

(** The ends of a text that stripping leaves as it is. *)
Lemma strip_fixed_ends (s : pystr) :
  s <> [] -> strip s = s ->
  (exists a r, s = a :: r /\ is_space a = false)
  /\ (exists init z, s = init ++ [z] /\ is_space z = false).
Proof.
  intros Hne Hs. unfold strip, strip_by, rstrip_by in Hs.
  assert (Hlast : exists init z, s = init ++ [z] /\ is_space z = false).
  { destruct (lstrip_by_head is_space (List.rev (lstrip_by is_space s)))
      as [E | (c & r & E & Hc)]; rewrite E in Hs.
    - simpl in Hs. congruence.
    - exists (List.rev r), c. split; [rewrite <- Hs; reflexivity|exact Hc]. }
  split; [|exact Hlast].
  destruct (lstrip_by_suffix is_space (List.rev (lstrip_by is_space s))) as (l & El).
  apply (f_equal (@List.rev N)) in El. rewrite rev_involutive, rev_app_distr, Hs in El.
  destruct (lstrip_by_head is_space s) as [E | (c & r & E & Hc)]; rewrite E in El.
  - destruct s; [congruence|discriminate].
  - destruct s as [|a s']; [congruence|]. injection El as <- _. eauto.
Qed.

Lemma sub_from_whole_match (r : regex) (prev : option N) (s : pystr) :
  s <> [] -> match_at r prev s = Some (length s) -> sub_from r [] prev 0 s = [].
Proof.
  intros Hne H. destruct s as [|c s]; [congruence|].
  cbn [length] in H. rewrite (sub_from_match r [] prev c s _ H).
  rewrite sub_from_skip by lia. rewrite drop_all. reflexivity.
Qed.

Lemma trailing_time_facts (t : pystr) :
  trailing_time t ->
  time_only t
  /\ (exists init z, t = init ++ [z] /\ is_space z = false)
  /\ List.forallb time_char t = true.
Proof.
  intros (w0 & ds & w1 & u & tail & -> & H0 & Hds & H1 & Hu & Htail).
  assert (Hsp : forall w, all_space w -> List.forallb time_char w = true).
  { intros w Hw. apply (forallb_weaken is_space); [apply space_is_time_char|exact Hw]. }
  assert (Hdg : List.forallb time_char ds = true).
  { destruct Hds as [_ Hds].
    apply (forallb_weaken is_digit); [apply digit_is_time_char|exact Hds]. }
  assert (Hun : List.forallb time_char u = true)
    by (destruct Hu as [-> | [-> | ->]]; reflexivity).
  destruct Htail as [-> | (w2 & H2 & ->)].
  - split; [|split].
    + exists w0, ds, w1, u, [], [], []. split; [list_eq|].
      unfold all_space. repeat split; auto; apply Hds.
    + destruct Hu as [-> | [-> | ->]].
      * exists (w0 ++ ds ++ w1), 0x5206%N. split; [list_eq|reflexivity].
      * exists (w0 ++ ds ++ w1 ++ [0x6642%N]), 0x9593%N. split; [list_eq|reflexivity].
      * exists (w0 ++ ds ++ w1), 0x65E5%N. split; [list_eq|reflexivity].
    + rewrite !forallb_app, (Hsp w0 H0), Hdg, (Hsp w1 H1), Hun. reflexivity.
  - split; [|split].
    + exists w0, ds, w1, u, w2, s_mae, []. split; [list_eq|].
      unfold all_space. repeat split; auto; apply Hds.
    + exists (w0 ++ ds ++ w1 ++ u ++ w2), 0x524D%N. split; [list_eq|reflexivity].
    + rewrite !forallb_app, (Hsp w0 H0), Hdg, (Hsp w1 H1), Hun, (Hsp w2 H2). reflexivity.
Qed.

Lemma no_digit_no_time (name : pystr) :
  List.existsb is_digit name = false ->
  found TIME_RE name = false /\ matches TIME_ONLY_RE name = false.
Proof.
  intros Hno. split.
  - destruct (found TIME_RE name) eqn:E; [|reflexivity].
    apply found_TIME_RE in E as (m & (pre & post & ->) & (ds & w1 & u & w2 & -> & Hds & _)).
    replace (pre ++ (ds ++ w1 ++ u ++ w2 ++ s_mae) ++ post)
      with (pre ++ ds ++ (w1 ++ u ++ w2 ++ s_mae ++ post)) in Hno by list_eq.
    rewrite (existsb_digit_of_number ds pre _ Hds) in Hno. discriminate.
  - destruct (matches TIME_ONLY_RE name) eqn:E; [|reflexivity].
    apply matches_TIME_ONLY_RE in E
      as (w0 & ds & w1 & u & w2 & ago & w3 & -> & _ & Hds & _).
    rewrite (existsb_digit_of_number ds w0 _ Hds) in Hno. discriminate.
Qed.

(** The trailing-time pattern matches at no position inside a name
    without digits that does not end in whitespace. *)
Lemma no_trailing_time_inside (ninit : pystr) (zn : N) (t : pystr) :
  List.existsb is_digit (ninit ++ [zn]) = false -> is_space zn = false ->
  forall p1 c p2 prev,
    ninit ++ [zn] = p1 ++ c :: p2 ->
    match_at TRAILING_TIME_RE prev (c :: p2 ++ t) = None.
Proof.
  intros Hno Hz p1 c p2 prev E.
  destruct (match_at TRAILING_TIME_RE prev (c :: p2 ++ t)) as [n|] eqn:Hm; [|reflexivity].
  exfalso. apply match_at_sound in Hm as (m & fol & Em & HM & _).
  apply TRAILING_TIME_RE_starts in HM as (w & d & rest & -> & Hw & Hd).
  destruct (@exists_last N (c :: p2) ltac:(discriminate)) as (init' & z' & E').
  rewrite E' in E. rewrite app_assoc in E. apply app_inj_tail in E as [E1 <-].
  apply (no_number_inside init' zn w t (rest ++ fol) d).
  - rewrite <- E'. cbn [app]. rewrite Em. list_eq.
  - exact Hw.
  - exact Hd.
  - rewrite E1, <- app_assoc in Hno. apply existsb_suffix in Hno. exact Hno.
  - exact Hz.
Qed.

(** X23 (clean_source_text): a publisher name followed by a time
    expression is cleaned to the name alone.  The name is non-empty, has no
    digit, no decorative dot, no doubled whitespace and no empty pair of
    parentheses, and is not changed by stripping whitespace or separator
    characters; the time expression is optional whitespace, a number, a
    unit (分, 時間 or 日) and an optional 前; none of the three MSN marker
    patterns occurs in the text. *)
Theorem clean_source_text_keeps_the_name {R : PyRuntime} (name t : pystr) :
  settled_name name -> trailing_time t ->
  ~ occurs ON_MSN_RE (name ++ t) -> ~ occurs MSN_HAISHIN_RE (name ++ t) ->
  ~ occurs TEIKYO_RE (name ++ t) ->
  clean_source_text (name ++ t) = name.
Proof.
  intros (Hne & Hstrip & Hsep & Hno & Hdots & Hdbl & Hpar) Ht Hon Hmsn Htk.
  destruct (trailing_time_facts t Ht) as (Honly & (tinit & z & Et & Hz) & Hch).
  destruct (strip_fixed_ends name Hne Hstrip) as [(a & nr & En & Ha) (ninit & zn & En' & Hzn)].
  destruct (time_chars_plain t Hch) as [_ Htd].
  destruct (no_digit_no_time name Hno) as [Htime Htonly].
  assert (Hx : strip (name ++ t) = name ++ t).
  { rewrite En, Et.
    replace ((a :: nr) ++ tinit ++ [z]) with (a :: (nr ++ tinit) ++ [z]) by list_eq.
    apply strip_by_ends; assumption. }
  assert (Hbody : forall x c0 x', x = c0 :: x' ->
             clean_source_text x
             = let t := strip x in
               let t := re_sub ON_MSN_RE [] t in
               let t := re_sub MSN_HAISHIN_RE [] t in
               let t := re_sub TEIKYO_RE [] t in
               let t := replace_cp c_middot c_space
                          (replace_cp c_bullet c_space (replace_cp c_nakaguro c_space t)) in
               let t := strip (re_sub TRAILING_TIME_RE [] t) in
               let t := strip (re_sub TIME_RE [] t) in
               let t := strip (re_sub EMPTY_PARENS_RE [] t) in
               let t := strip (re_sub SPACES_RE [c_space] t) in
               let t := strip (strip_chars s_strip_set t) in
               if matches TIME_ONLY_RE t then [] else t).
  { intros x c0 x' ->. reflexivity. }
  rewrite (Hbody (name ++ t) a (nr ++ t)) by (rewrite En; reflexivity).
  cbv zeta. rewrite Hx.
  rewrite (not_occurs_sub _ [] _ Hon), (not_occurs_sub _ [] _ Hmsn),
    (not_occurs_sub _ [] _ Htk).
  rewrite (replace_dots_id (name ++ t)) by (apply Forall_app; split; assumption).
  assert (Htrail : re_sub TRAILING_TIME_RE [] (name ++ t) = name).
  { unfold re_sub. rewrite sub_from_keep_prefix.
    - rewrite sub_from_whole_match; [apply app_nil_r| |].
      + rewrite Et. destruct tinit; discriminate.
      + rewrite Et. apply match_at_TRAILING_rest; [rewrite <- Et; exact Honly|exact Hz].
    - intros p1 c p2 E. rewrite En' in E, Hno.
      apply (no_trailing_time_inside ninit zn t Hno Hzn p1 c p2 _ E). }
  rewrite Htrail, Hstrip.
  rewrite (re_sub_not_found TIME_RE [] name Htime), Hstrip.
  rewrite (not_occurs_sub _ [] _ Hpar), Hstrip.
  rewrite (re_sub_not_found _ _ _ (found_SPACES_double _ Hdbl)), Hstrip.
  rewrite Hsep, Hstrip, Htonly. reflexivity.
Qed.

(** X23 at the first text of the function's own description. *)
Lemma clean_source_text_keeps_the_name_witness :
  clean_source_text (R := ascii_runtime) (lit "Merkmal（メルクマール） 1 時間")
  = lit "Merkmal（メルクマール）".
Proof.
  replace (lit "Merkmal（メルクマール） 1 時間")
    with (lit "Merkmal（メルクマール）" ++ lit " 1 時間") by (vm_compute; reflexivity).
  apply (clean_source_text_keeps_the_name (R := ascii_runtime)).
  - unfold settled_name. split; [discriminate|].
    split; [vm_compute; reflexivity|]. split; [vm_compute; reflexivity|].
    split; [vm_compute; reflexivity|].
    split; [apply Stdlib.Lists.List.Forall_forall; intros c Hc; vm_compute in Hc; intuition (subst; reflexivity)|].
    split; [vm_compute; reflexivity|].
    apply found_false_iff. vm_compute. reflexivity.
  - exists (lit " "), (lit "1"), (lit " "), s_jikan, [].
    unfold all_space, number, time_unit. repeat split; auto; discriminate.
  - apply found_false_iff. vm_compute. reflexivity.
  - apply found_false_iff. vm_compute. reflexivity.
  - apply found_false_iff. vm_compute. reflexivity.
Defined.

(** ** Links of the Google News page *)

(** Whatever follows it, an address under https://news.google.com/ has
    the network location news.google.com. *)
Lemma urlparse_netloc_google {R : PyRuntime} (rest : pystr) :
  urlparse_netloc (google_prefix ++ c_slash :: rest) = Some s_news_google.
Proof. vm_compute. reflexivity. Qed.

Lemma resolve_final_url_google {R : PyRuntime} {T : Transport} (rest : pystr) :
  resolve_final_url (google_prefix ++ c_slash :: rest)
  = match get_final_url (google_prefix ++ c_slash :: rest) with
    | Some final => final
    | None => google_prefix ++ c_slash :: rest
    end.
Proof.
  unfold resolve_final_url. rewrite urlparse_netloc_google. reflexivity.
Qed.

(** X24 (get_google_news_with_selenium, resolve_final_url): the link of a
    Google article written relative to the page, "./" and a rest, is
    completed to https://news.google.com/ and the rest; the URL of the
    record is the address the GET request to the completed link ends at,
    and the completed link itself when that request fails. *)
Theorem google_relative_link_is_resolved {R : PyRuntime} {T : Transport}
        (el : google_element) (text rest : pystr) (rec : article) :
  google_article el = Some rec ->
  g_a_tag el = Some (text, Some (c_dot :: c_slash :: rest)) ->
  url rec = match get_final_url (google_prefix ++ c_slash :: rest) with
            | Some final => final
            | None => google_prefix ++ c_slash :: rest
            end.
Proof.
  intros Hrec Ha. unfold google_article in Hrec. rewrite Ha in Hrec.
  destruct (g_time_tag el) as [attr|]; [|discriminate].
  cbv beta iota zeta in Hrec.
  pose proof (startswith_app [c_dot; c_slash] rest) as Hs. cbn [app] in Hs.
  rewrite Hs in Hrec. cbn [drop] in Hrec.
  destruct attr as [attr|]; [|discriminate].
  rewrite bind_Some_l in Hrec.
  destruct (strptime_iso attr) as [dt0|]; [|discriminate].
  rewrite bind_Some_l in Hrec.
  destruct (timedelta_new 0 9 0 0 0) as [delta|]; [|discriminate].
  rewrite bind_Some_l in Hrec.
  destruct (datetime_add dt0 delta) as [dt|]; [|discriminate].
  rewrite bind_Some_l in Hrec. injection Hrec as <-.
  cbn [url]. apply resolve_final_url_google.
Qed.

(** X24 at the link "./read/1", with a transport that answers the
    completed link with the publisher's address. *)
Lemma google_relative_link_witness :
  let T := {| head_last_modified := fun _ => None;
              get_final_url := fun u =>
                if str_eqb u (lit "https://news.google.com/read/1")
                then Some (lit "https://response.jp/a") else None |} in
  let el := mk_google_element (Some (lit "t", Some (lit "./read/1")))
                              (Some (Some (lit "2024-02-29T20:15:00Z"))) [] in
  exists rec,
    google_article (R := ascii_runtime) (T := T) el = Some rec
    /\ url rec = lit "https://response.jp/a".
Proof.
  intros T el.
  destruct (google_article (R := ascii_runtime) (T := T) el) as [rec|] eqn:E;
    [|vm_compute in E; discriminate].
  exists rec. split; [reflexivity|].
  rewrite (google_relative_link_is_resolved (R := ascii_runtime) (T := T)
             el (lit "t") (lit "read/1") rec E); vm_compute; reflexivity.
Defined.

(** ** Labels that give the sentinel *)

(** [sub in s] holds exactly when [sub] appears in [s]. *)
Lemma startswith_iff (s pre : pystr) :
  startswith s pre = true <-> exists rest, s = pre ++ rest.
Proof.
  split.
  - revert s. induction pre as [|p pre IH]; intros s H.
    + exists s. reflexivity.
    + destruct s as [|c s]; [discriminate|]. simpl in H.
      apply andb_true_iff in H as [Hc H]. apply eqcp_eq in Hc. subst c.
      destruct (IH s H) as [rest ->]. exists rest. reflexivity.
  - intros [rest ->]. apply startswith_app.
Qed.

Lemma contains_iff (s sub : pystr) : contains s sub = true <-> substring sub s.
Proof.
  split.
  - induction s as [|c s IH]; cbn [contains]; intros H.
    + rewrite orb_false_r in H. apply startswith_iff in H as [rest E].
      exists [], rest. exact E.
    + apply orb_true_iff in H as [H | H].
      * apply startswith_iff in H as [rest E]. exists [], rest. exact E.
      * destruct (IH H) as (pre & post & ->). exists (c :: pre), post. reflexivity.
  - intros (pre & post & ->). induction pre as [|c pre IH].
    + pose proof (startswith_app sub post) as H. cbn [app].
      destruct (sub ++ post); cbn [contains]; rewrite H; reflexivity.
    + cbn [app contains]. rewrite IH. apply orb_true_r.
Qed.

Lemma names_relative_unit_iff (l : pystr) :
  has_relative_keyword l = true <-> names_relative_unit l.
Proof.
  unfold has_relative_keyword, names_relative_unit.
  rewrite !orb_true_iff, !contains_iff. tauto.
Qed.

Lemma Matches_digit_1_2_iff (prev : option N) (m fol : pystr) :
  Matches digit_1_2 prev m fol <-> one_or_two_digits m.
Proof.
  split.
  - unfold digit_1_2, digit. intros H.
    apply Matches_Seq in H as (m1 & m2 & -> & H1 & H2).
    apply Matches_Chr in H1 as (c & -> & Hc).
    apply Matches_Opt in H2 as [H2 | ->].
    + apply Matches_Chr in H2 as (c' & -> & Hc'). split; [split|]; simpl.
      * discriminate.
      * rewrite Hc, Hc'. reflexivity.
      * lia.
    + split; [split|]; simpl; [discriminate|rewrite Hc; reflexivity|lia].
  - intros [[Hne Hall] Hlen]. apply Matches_digit_1_2; assumption.
Qed.

(** [re.match] with the pattern of a month-day date, of a year/month/day
    date and of a clock time succeeds exactly on the labels that start
    with one. *)
Lemma matches_MONTH_DAY_RE_iff (l : pystr) :
  matches MONTH_DAY_RE l = true <-> starts_with_month_day l.
Proof.
  rewrite matches_iff. unfold MONTH_DAY_RE, starts_with_month_day, number. split.
  - intros (m & fol & -> & H).
    apply Matches_Seq in H as (m1 & r1 & -> & H1 & H).
    apply Matches_Plus in H1.
    apply Matches_Seq in H as (m2 & r2 & -> & H2 & H).
    apply Matches_Lit in H2. subst m2.
    apply Matches_Seq in H as (m3 & r3 & -> & H3 & H).
    apply Matches_Plus in H3. apply Matches_Lit in H. subst r3.
    exists m1, m3, fol. split; [list_eq|auto].
  - intros (m & d & rest & -> & Hm & Hd).
    exists (m ++ s_gatsu ++ d ++ s_nichi), rest. split; [list_eq|].
    apply Matches_Seq. exists m, (s_gatsu ++ d ++ s_nichi).
    split; [reflexivity|]. split; [apply Matches_Plus; exact Hm|].
    apply Matches_Seq. exists s_gatsu, (d ++ s_nichi).
    split; [reflexivity|]. split; [apply Matches_Lit; reflexivity|].
    apply Matches_Seq. exists d, s_nichi.
    split; [reflexivity|]. split; [apply Matches_Plus; exact Hd|].
    apply Matches_Lit. reflexivity.
Qed.

Lemma matches_YMD_RE_iff (l : pystr) :
  matches YMD_RE l = true <-> starts_with_date l.
Proof.
  rewrite matches_iff. unfold YMD_RE, starts_with_date, number. split.
  - unfold digit. intros (m & fol & -> & H).
    apply Matches_Seq in H as (m1 & r1 & -> & H1 & H).
    apply Matches_Chr in H1 as (a & -> & Ha).
    apply Matches_Seq in H as (m2 & r2 & -> & H2 & H).
    apply Matches_Chr in H2 as (b & -> & Hb).
    apply Matches_Seq in H as (m3 & r3 & -> & H3 & H).
    apply Matches_Chr in H3 as (c & -> & Hc).
    apply Matches_Seq in H as (m4 & r4 & -> & H4 & H).
    apply Matches_Chr in H4 as (d & -> & Hd).
    apply Matches_Seq in H as (m5 & r5 & -> & H5 & H).
    apply Matches_Chr in H5 as (s1 & -> & Hs1). apply eqcp_eq in Hs1. subst s1.
    apply Matches_Seq in H as (mm & r6 & -> & Hmm & H).
    apply Matches_digit_1_2_iff in Hmm.
    apply Matches_Seq in H as (m7 & dd & -> & H7 & Hdd).
    apply Matches_Chr in H7 as (s2 & -> & Hs2). apply eqcp_eq in Hs2. subst s2.
    apply Matches_digit_1_2_iff in Hdd.
    exists [a; b; c; d], mm, dd, fol. split; [list_eq|].
    split; [split; [discriminate|simpl; rewrite Ha, Hb, Hc, Hd; reflexivity]|].
    split; [reflexivity|]. split; assumption.
  - intros (y & m & d & rest & -> & [_ Hy] & Hlen & Hm & Hd).
    destruct y as [|a [|b [|c [|e [|x y]]]]]; try discriminate Hlen.
    simpl in Hy. rewrite !andb_true_iff in Hy. destruct Hy as (Ha & Hb & Hc & He & _).
    exists ([a; b; c; e] ++ [c_slash] ++ m ++ [c_slash] ++ d), rest.
    split; [list_eq|].
    apply Matches_Seq. exists [a], ([b; c; e] ++ [c_slash] ++ m ++ [c_slash] ++ d).
    split; [reflexivity|]. split; [apply Matches_digit; exact Ha|].
    apply Matches_Seq. exists [b], ([c; e] ++ [c_slash] ++ m ++ [c_slash] ++ d).
    split; [reflexivity|]. split; [apply Matches_digit; exact Hb|].
    apply Matches_Seq. exists [c], ([e] ++ [c_slash] ++ m ++ [c_slash] ++ d).
    split; [reflexivity|]. split; [apply Matches_digit; exact Hc|].
    apply Matches_Seq. exists [e], ([c_slash] ++ m ++ [c_slash] ++ d).
    split; [reflexivity|]. split; [apply Matches_digit; exact He|].
    apply Matches_Seq. exists [c_slash], (m ++ [c_slash] ++ d).
    split; [reflexivity|]. split; [apply Matches_Chr; eexists; split; reflexivity|].
    apply Matches_Seq. exists m, ([c_slash] ++ d).
    split; [reflexivity|]. split; [apply Matches_digit_1_2_iff; exact Hm|].
    apply Matches_Seq. exists [c_slash], d.
    split; [reflexivity|]. split; [apply Matches_Chr; eexists; split; reflexivity|].
    apply Matches_digit_1_2_iff. exact Hd.
Qed.

Lemma matches_HM_RE_iff (l : pystr) :
  matches HM_RE l = true <-> starts_with_clock l.
Proof.
  rewrite matches_iff. unfold HM_RE, starts_with_clock, number. split.
  - unfold digit. intros (m & fol & -> & H).
    apply Matches_Seq in H as (h & r1 & -> & Hh & H).
    apply Matches_digit_1_2_iff in Hh.
    apply Matches_Seq in H as (m2 & r2 & -> & H2 & H).
    apply Matches_Chr in H2 as (s1 & -> & Hs1). apply eqcp_eq in Hs1. subst s1.
    apply Matches_Seq in H as (m3 & m4 & -> & H3 & H4).
    apply Matches_Chr in H3 as (a & -> & Ha). apply Matches_Chr in H4 as (b & -> & Hb).
    exists h, [a; b], fol. split; [list_eq|]. split; [exact Hh|].
    split; [split; [discriminate|simpl; rewrite Ha, Hb; reflexivity]|reflexivity].
  - intros (h & mi & rest & -> & Hh & [_ Hmi] & Hlen).
    destruct mi as [|a [|b [|x mi]]]; try discriminate Hlen.
    simpl in Hmi. rewrite !andb_true_iff in Hmi. destruct Hmi as (Ha & Hb & _).
    exists (h ++ [c_colon] ++ [a; b]), rest. split; [list_eq|].
    apply Matches_Seq. exists h, ([c_colon] ++ [a; b]).
    split; [reflexivity|]. split; [apply Matches_digit_1_2_iff; exact Hh|].
    apply Matches_Seq. exists [c_colon], [a; b].
    split; [reflexivity|]. split; [apply Matches_Chr; eexists; split; reflexivity|].
    apply Matches_Seq. exists [a], [b].
    split; [reflexivity|]. split; apply Matches_digit; assumption.
Qed.

(** The text has none of the six forms exactly when none of the tests of
    the [if] chain can lead to a result. *)
Lemma malformed_iff (l : pystr) : malformed l <-> recognised l = false.
Proof.
  unfold malformed, recognised.
  rewrite !orb_false_iff, andb_false_iff.
  rewrite <- names_relative_unit_iff, <- matches_MONTH_DAY_RE_iff,
    <- matches_YMD_RE_iff, <- matches_HM_RE_iff.
  rewrite !not_true_iff_false. tauto.
Qed.

Lemma malformed_try (l : pystr) (now : datetime) :
  malformed l -> parse_relative_time_try l now = None.
Proof.
  intros H. apply malformed_iff in H. revert H.
  unfold recognised, has_relative_keyword.
  rewrite !orb_false_iff. intros (((Hk & Hmd) & Hymd) & Hhm).
  unfold parse_relative_time_try. rewrite Hmd, Hymd, Hhm.
  apply andb_false_iff in Hk as [Hk | Hd].
  - rewrite !orb_false_iff in Hk.
    destruct Hk as (((((-> & ->) & ->) & ->) & ->) & ->). reflexivity.
  - rewrite (no_digit_no_number l Hd).
    destruct (_ || _); [reflexivity|].
    destruct (_ || _); [reflexivity|].
    destruct (_ || _); reflexivity.
Qed.

(** [int] refuses a number of more than 4300 digits. *)
Lemma py_int_too_long (ds : pystr) :
  number ds -> (INT_MAX_STR_DIGITS < length ds)%nat -> py_int ds = None.
Proof.
  intros [Hne Hall] Hlen. unfold py_int. rewrite (strip_digits ds Hall).
  destruct ds as [|c ds]; [congruence|].
  apply Nat.ltb_lt in Hlen. rewrite Hlen. reflexivity.
Qed.

Lemma py_int_number (ds : pystr) (n : Z) :
  number ds -> py_int ds = Some n -> int_digits 0 ds = Some n.
Proof.
  intros [Hne Hall]. unfold py_int. rewrite (strip_digits ds Hall).
  destruct ds as [|c ds]; [congruence|].
  destruct (INT_MAX_STR_DIGITS <? length (c :: ds))%nat; [discriminate|auto].
Qed.

Lemma first_number_number (l ds : pystr) : first_number l ds -> number ds.
Proof. intros (pre & post & _ & _ & H & _). exact H. Qed.

(** A number too long for [int]: the [ValueError] ends the [try] block. *)
Lemma relative_number_too_long (l ds : pystr) (now : datetime) :
  names_relative_unit l -> first_number l ds ->
  (INT_MAX_STR_DIGITS < length ds)%nat ->
  parse_relative_time_try l now = None.
Proof.
  intros Hk Hnum Hlen. unfold parse_relative_time_try.
  rewrite (search_first_number l ds Hnum),
    (py_int_too_long ds (first_number_number l ds Hnum) Hlen).
  destruct (contains l s_fun_mae || contains l s_minute) eqn:E1; [reflexivity|].
  destruct (contains l s_jikan_mae || contains l s_hour) eqn:E2; [reflexivity|].
  destruct (contains l s_nichi_mae || contains l s_day) eqn:E3; [reflexivity|].
  apply names_relative_unit_iff in Hk. unfold has_relative_keyword in Hk.
  apply orb_false_iff in E1 as [E1 E1'], E2 as [E2 E2'], E3 as [E3 E3'].
  rewrite E1, E1', E2, E2', E3, E3' in Hk. discriminate Hk.
Qed.

(** A time before the first one of the calendar: the [OverflowError] of
    the subtraction (or of the [timedelta]) ends the [try] block. *)
Lemma minutes_ago_overflow (l ds : pystr) (now : datetime) (n : Z) :
  valid_datetime now = true ->
  minutes_ago_label l ds -> int_digits 0 ds = Some n ->
  minutes_of now - n < 1440 ->
  parse_relative_time_try l now = None.
Proof.
  intros Hnow [Hkw Hnum] Hint Hrange. unfold parse_relative_time_try.
  replace (contains l s_fun_mae || contains l s_minute) with true
    by (symmetry; apply orb_true_iff; exact Hkw).
  rewrite (search_first_number l ds Hnum).
  destruct (py_int ds) as [n'|] eqn:Ep; [|reflexivity].
  apply (py_int_number ds n' (first_number_number l ds Hnum)) in Ep.
  assert (n' = n) as -> by congruence.
  rewrite bind_Some_l.
  destruct (timedelta_new 0 0 n 0 0) as [delta|] eqn:Hd; [|reflexivity].
  rewrite bind_Some_l. apply timedelta_new_spec in Hd as [Hdn Hdu].
  destruct (datetime_sub now delta) as [dt|] eqn:Hsub; [|reflexivity].
  exfalso. apply (datetime_sub_sound now dt delta Hdn) in Hsub as [Hv Hsub].
  pose proof (valid_datetime_us now Hnow) as (_ & _ & _ & Hs & Hu).
  pose proof (valid_datetime_us dt Hv) as (Hlo & _).
  rewrite Hdu, (minutes_of_us now) in Hsub.
  unfold US_PER_DAY, US_PER_SECOND in *. lia.
Qed.

(** C4, as the code has it: for every reference time,
    [parse_relative_time] returns the sentinel 取得不可 on the empty label
    and on every malformed label, one that, trimmed and lower-cased, names
    no relative unit or holds no digit and starts with no month-day date,
    no year/month/day date and no clock time.  An exception in the [try]
    block gives the sentinel as well: the [ValueError] of a number of more
    than 4300 digits in a label that names a relative unit, and the
    [OverflowError] of a number of minutes that leads before the first
    time of the calendar.  Every result is the sentinel or the rendering
    of a valid date and time, and the rendering has the shape
    YYYY/MM/DD HH:MM exactly when its year is 1000 or later. *)
Theorem C4_parse_total {R : PyRuntime} (label : pystr) (now : datetime) :
  valid_datetime now = true ->
  (label = [] -> parse_relative_time label now = UNAVAILABLE)
  /\ (malformed (str_lower (strip label)) ->
      parse_relative_time label now = UNAVAILABLE)
  /\ (forall ds,
         names_relative_unit (str_lower (strip label)) ->
         first_number (str_lower (strip label)) ds ->
         (INT_MAX_STR_DIGITS < length ds)%nat ->
         parse_relative_time label now = UNAVAILABLE)
  /\ (forall ds n,
         minutes_ago_label (str_lower (strip label)) ds ->
         int_digits 0 ds = Some n ->
         minutes_of now - n < 1440 ->
         parse_relative_time label now = UNAVAILABLE)
  /\ (parse_relative_time label now = UNAVAILABLE
      \/ timestamp (parse_relative_time label now)).
Proof.
  intros Hnow.
  assert (Hnone : parse_relative_time_try (str_lower (strip label)) now = None ->
                  parse_relative_time label now = UNAVAILABLE).
  { intros H. unfold parse_relative_time. rewrite H. destruct label; reflexivity. }
  split; [intros ->; reflexivity|].
  split; [intros H; apply Hnone; apply malformed_try; exact H|].
  split; [intros ds Hk Hnum Hlen; apply Hnone;
          apply (relative_number_too_long _ ds now Hk Hnum Hlen)|].
  split; [intros ds n Hl Hint Hrange; apply Hnone;
          apply (minutes_ago_overflow _ ds now n Hnow Hl Hint Hrange)|].
  apply parse_relative_time_cases. exact Hnow.
Qed.

(** C4 at a label with none of the forms and at a number of minutes that
    leads before the calendar. *)
Lemma C4_witness :
  let now := mk_datetime 2024 3 1 0 30 15 7 in
  parse_relative_time (R := ascii_runtime) (lit "きのう") now = UNAVAILABLE
  /\ parse_relative_time (R := ascii_runtime) (lit "2000000000分前") now = UNAVAILABLE.
Proof.
  intros now. split.
  - apply (proj1 (proj2 (C4_parse_total (R := ascii_runtime) (lit "きのう") now
                                        eq_refl))).
    apply malformed_iff. vm_compute. reflexivity.
  - apply (proj1 (proj2 (proj2 (proj2 (C4_parse_total (R := ascii_runtime)
                                         (lit "2000000000分前") now eq_refl))))
             (lit "2000000000") 2000000000).
    + split; [left; vm_compute; reflexivity|].
      exists [], s_fun_mae. repeat split; vm_compute; congruence.
    + vm_compute. reflexivity.
    + vm_compute. reflexivity.
Defined.

(** C4, as the claim words it, fails: a date before the year 1000 is
    read, and its rendering, with a year of three digits, is neither the
    sentinel nor a string of the shape YYYY/MM/DD HH:MM. *)
Lemma C4_counterexample :
  let now := mk_datetime 2024 3 1 0 30 15 7 in
  let r := parse_relative_time (R := ascii_runtime) (lit "0999/01/01") now in
  r = lit "999/01/01 00:00" /\ r <> UNAVAILABLE /\ is_formatted r = false.
Proof.
  intros now r. split; [vm_compute; reflexivity|].
  split; [vm_compute; discriminate|vm_compute; reflexivity].
Qed.
